(** * IoT smart plug firmware: calibration and inference engine

    A shallow embedding of [firmware/src/sct_calibration.c],
    [firmware/src/udp_sender.c] and the command dispatcher of
    [firmware/src/udp_receiver.c], with the properties of the
    specification stated over it; and of [firmware/src/relay.c], the
    receive loop of [firmware/src/wifi_credentials_receiver.c], the event
    handler of [firmware/src/wifi.c] and the start-up calibration of
    [firmware/src/main.c], with further properties read off the code.

    Modelling conventions.
    - C [float] values are real numbers ([R]): arithmetic is exact, rounding,
      infinities and NaN are not represented.  [sqrtf] is [sqrt], [fabsf] is
      [Rabs], [powf] is [Rpower].
    - [uint32_t] values are integers ([Z]) reduced modulo [2^32] wherever the
      C code computes them; [int] counters are integers.
    - The module-level statics of the three C files are the fields of one
      explicit [state], passed through every function; the statics of
      relay.c and of the Wi-Fi event handler are records of their own,
      passed beside it.
    - The FreeRTOS tasks are run one operation at a time, so the calibration
      mutex is always granted.
    - The outside world is part of the state: the millisecond clock
      ([xTaskGetTickCount() * portTICK_PERIOD_MS]), the outcomes of the
      coming ADC reads, the log, the datagrams sent and the relay's pad.
    - The ESP-IDF GPIO driver is not part of the repository; its three
      calls follow the API reference: [gpio_config] with
      [GPIO_MODE_OUTPUT] disables the input path of the pad, and
      [gpio_get_level] returns 0 on a pad not configured for input.
    - [atof] is a parameter that yields a number; the NaN the C function
      yields on the text [nan] is not represented. *)

From Stdlib Require Import Reals Lra Lia ZArith List String Ascii Bool.
Import ListNotations.

Local Open Scope string_scope.
Local Open Scope Z_scope.
Local Open Scope R_scope.

(** ** Numbers *)

Definition Rltb (x y : R) : bool := if Rlt_dec x y then true else false.
Definition Rleb (x y : R) : bool := if Rle_dec x y then true else false.
Definition Rgtb (x y : R) : bool := Rltb y x.
Definition Rgeb (x y : R) : bool := Rleb y x.

(** Reduction to [uint32_t]. *)
Definition u32 (z : Z) : Z := (z mod 4294967296)%Z.

(** [a[i] = x] on an array kept as a list; an index outside the array (never
    produced by the code below) leaves it unchanged. *)
Fixpoint list_set {A : Type} (l : list A) (i : nat) (x : A) : list A :=
  match l, i with
  | [], _ => []
  | _ :: t, O => x :: t
  | h :: t, S j => h :: list_set t j x
  end.

(** [float sum = 0; for (...) sum += a[i];] *)
Definition Rsum (l : list R) : R := fold_left Rplus l 0.

(** ** hardware_config.h *)

Definition ADC_RESOLUTION : R := 4095.
Definition ADC_VOLTAGE_RANGE : R := 3.3.
Definition ADC_BIAS_VOLTAGE : R := 1.65.
Definition MAX_CURRENT_AMPS : R := 100.

Definition SCT_013_BURDEN_RESISTOR : R := 10.
Definition SCT_013_MAX_SECONDARY_CURRENT : R := 0.05.
Definition SCT_013_TRANSFORMATION_RATIO : R := 2000.
Definition SCT_013_THEORETICAL_SCALE : R := 200.

Definition AUTO_CAL_ENABLED : bool := true.
Definition AUTO_CAL_ZERO_INTERVAL_MS : Z := (30 * 60 * 1000)%Z.
Definition AUTO_CAL_VARIANCE_THRESHOLD : R := 0.1.
Definition AUTO_CAL_MIN_CURRENT : R := 0.5.
Definition AUTO_CAL_MAX_CURRENT : R := 15.
Definition AUTO_CAL_ZERO_THRESHOLD : R := 0.05.
Definition AUTO_CAL_CONSECUTIVE_ZERO_COUNT : Z := 150%Z.

Definition MAX_LEARNING_POINTS : Z := 50%Z.
Definition LEARNING_CONFIDENCE_DECAY : R := 0.95.
Definition MIN_LEARNING_POINTS : Z := 3%Z.

Definition DEVICE_RECOGNITION_CONFIDENCE : R := 0.9.
Definition DEVICE_STABLE_TIME_MS : Z := (3 * 60 * 1000)%Z.

(** Local defines of the C files. *)
Definition HISTORY_SIZE : Z := 50%Z.
Definition RMS_BUFFER_SIZE : Z := 100%Z.

(** ** sct_calibration.h *)

Record device_profile_t := {
  min_current : R;
  max_current : R;
  typical_current : R;
  device_name : string;
  confidence_boost : R
}.

Record calibration_point_t := {
  expected_current : R;
  measured_voltage : R;
  timestamp : Z;
  confidence : R;
  auto_generated : bool
}.

(** A zeroed array element ([memset]). *)
Definition zero_point : calibration_point_t :=
  {| expected_current := 0; measured_voltage := 0; timestamp := 0%Z;
     confidence := 0; auto_generated := false |}.

(** ** Logging and datagrams *)

Inductive log_level := LOG_E | LOG_W | LOG_I.

(** One [ESP_LOGx(TAG, fmt, ...)] call: level, tag and format string. *)
Record log_entry := { log_lvl : log_level; log_tag : string; log_fmt : string }.

(** A [snprintf] result kept unformatted: the format string and its
    arguments. *)
Inductive fmt_arg :=
| FFloat (x : R)
| FInt (n : Z)
| FStr (s : string).

Record response := { resp_fmt : string; resp_args : list fmt_arg }.

(** [snprintf(out, n, "<prefix>%s", inner)] where [inner] is itself a
    [snprintf] result: the inner format takes the place of the [%s]. *)
Definition nest (prefix : string) (inner : response) : response :=
  {| resp_fmt := prefix ++ resp_fmt inner; resp_args := resp_args inner |}.

(** ** The program state *)

(** [amps_per_volt] and [bias_voltage]: the calibration parameter store. *)
Record cal_params := {
  amps_per_volt : R;
  bias_voltage : R
}.

Record detect_state := {
  auto_detection_enabled : bool;
  auto_calibration_enabled : bool;
  detected_load_amps : R
}.

(** [last_adjustment] is the function static of
    [adaptive_threshold_adjustment]. *)
Record autocal_state := {
  last_zero_calibration : Z;
  last_scale_calibration : Z;
  consecutive_zero_readings : Z;
  auto_cal_sensitivity : R;
  learning_rate : R;
  last_adjustment : Z
}.

Record learning_state := {
  learning_points : list calibration_point_t;
  learning_point_count : Z;
  learning_point_index : Z
}.

Record statistics := {
  auto_cal_count : Z;
  last_auto_cal_time : Z;
  successful_recognitions : Z;
  failed_recognitions : Z
}.

Record history_state := {
  current_history : list R;
  history_index : Z;
  history_full : bool
}.

(** The function statics of [continuous_auto_calibration]. *)
Record stability_state := {
  stable_load_start : Z;
  stable_load_value : R;
  in_stable_period : bool
}.

(** The statics of udp_sender.c; [stats_min_current] and [stats_max_current]
    are its [min_current] and [max_current], renamed apart from the fields
    of [device_profile_t]. *)
Record sender_state := {
  voltage_buffer : list R;
  buffer_index : Z;
  buffer_filled : bool;
  measurement_count : Z;
  last_measured_vrms : R;
  total_measurements : Z;
  stats_min_current : R;
  stats_max_current : R;
  accumulated_current : R
}.

(** The world outside the three files.  [clock_ms] is
    [xTaskGetTickCount() * portTICK_PERIOD_MS]; [adc_feed] holds the outcome
    of each coming [adc_oneshot_read] ([None]: not [ESP_OK]), and a read
    past its end fails; [esp_log] and [udp_sent] are newest first;
    [relay_level] is the level last driven on the relay's pad and
    [relay_pad_input] tells whether the input path of that pad is enabled;
    [tasks_created] counts the [auto_calibration] tasks started;
    [restarted] records [esp_restart]. *)
Record world := {
  clock_ms : Z;
  adc_feed : list (option Z);
  esp_log : list log_entry;
  udp_sent : list response;
  relay_level : bool;
  relay_pad_input : bool;
  udp_sender_running : bool;
  tasks_created : nat;
  restarted : bool
}.

Record state := {
  cal : cal_params;
  det : detect_state;
  autocal : autocal_state;
  learning : learning_state;
  stats : statistics;
  history : history_state;
  stability : stability_state;
  sender : sender_state;
  env : world
}.

(** *** Assignments

    [with_g x st] replaces the group [g] of the state; [put_f v st] is the C
    assignment [f = v]. *)

Definition with_cal x (st : state) : state :=
  {| cal := x; det := det st; autocal := autocal st;
     learning := learning st; stats := stats st; history := history st;
     stability := stability st; sender := sender st; env := env st |}.

Definition with_det x (st : state) : state :=
  {| cal := cal st; det := x; autocal := autocal st;
     learning := learning st; stats := stats st; history := history st;
     stability := stability st; sender := sender st; env := env st |}.

Definition with_autocal x (st : state) : state :=
  {| cal := cal st; det := det st; autocal := x; learning := learning st;
     stats := stats st; history := history st; stability := stability st;
     sender := sender st; env := env st |}.

Definition with_learning x (st : state) : state :=
  {| cal := cal st; det := det st; autocal := autocal st; learning := x;
     stats := stats st; history := history st; stability := stability st;
     sender := sender st; env := env st |}.

Definition with_stats x (st : state) : state :=
  {| cal := cal st; det := det st; autocal := autocal st;
     learning := learning st; stats := x; history := history st;
     stability := stability st; sender := sender st; env := env st |}.

Definition with_history x (st : state) : state :=
  {| cal := cal st; det := det st; autocal := autocal st;
     learning := learning st; stats := stats st; history := x;
     stability := stability st; sender := sender st; env := env st |}.

Definition with_stability x (st : state) : state :=
  {| cal := cal st; det := det st; autocal := autocal st;
     learning := learning st; stats := stats st; history := history st;
     stability := x; sender := sender st; env := env st |}.

Definition with_sender x (st : state) : state :=
  {| cal := cal st; det := det st; autocal := autocal st;
     learning := learning st; stats := stats st; history := history st;
     stability := stability st; sender := x; env := env st |}.

Definition with_env x (st : state) : state :=
  {| cal := cal st; det := det st; autocal := autocal st;
     learning := learning st; stats := stats st; history := history st;
     stability := stability st; sender := sender st; env := x |}.

Definition put_amps_per_volt v (st : state) : state :=
  with_cal {| amps_per_volt := v; bias_voltage := bias_voltage (cal st) |} st.

Definition put_bias_voltage v (st : state) : state :=
  with_cal {| amps_per_volt := amps_per_volt (cal st); bias_voltage := v |} st.

Definition put_auto_detection_enabled v (st : state) : state :=
  with_det {| auto_detection_enabled := v;
            auto_calibration_enabled := auto_calibration_enabled (det st);
            detected_load_amps := detected_load_amps (det st) |} st.

Definition put_auto_calibration_enabled v (st : state) : state :=
  with_det {| auto_detection_enabled := auto_detection_enabled (det st);
            auto_calibration_enabled := v;
            detected_load_amps := detected_load_amps (det st) |} st.

Definition put_detected_load_amps v (st : state) : state :=
  with_det {| auto_detection_enabled := auto_detection_enabled (det st);
            auto_calibration_enabled := auto_calibration_enabled (det st);
            detected_load_amps := v |} st.

Definition put_last_zero_calibration v (st : state) : state :=
  with_autocal {| last_zero_calibration := v;
            last_scale_calibration := last_scale_calibration (autocal st);
            consecutive_zero_readings := consecutive_zero_readings (autocal st);
            auto_cal_sensitivity := auto_cal_sensitivity (autocal st);
            learning_rate := learning_rate (autocal st);
            last_adjustment := last_adjustment (autocal st) |} st.

Definition put_last_scale_calibration v (st : state) : state :=
  with_autocal {| last_zero_calibration := last_zero_calibration (autocal st);
            last_scale_calibration := v;
            consecutive_zero_readings := consecutive_zero_readings (autocal st);
            auto_cal_sensitivity := auto_cal_sensitivity (autocal st);
            learning_rate := learning_rate (autocal st);
            last_adjustment := last_adjustment (autocal st) |} st.

Definition put_consecutive_zero_readings v (st : state) : state :=
  with_autocal {| last_zero_calibration := last_zero_calibration (autocal st);
            last_scale_calibration := last_scale_calibration (autocal st);
            consecutive_zero_readings := v;
            auto_cal_sensitivity := auto_cal_sensitivity (autocal st);
            learning_rate := learning_rate (autocal st);
            last_adjustment := last_adjustment (autocal st) |} st.

Definition put_auto_cal_sensitivity v (st : state) : state :=
  with_autocal {| last_zero_calibration := last_zero_calibration (autocal st);
            last_scale_calibration := last_scale_calibration (autocal st);
            consecutive_zero_readings := consecutive_zero_readings (autocal st);
            auto_cal_sensitivity := v;
            learning_rate := learning_rate (autocal st);
            last_adjustment := last_adjustment (autocal st) |} st.

Definition put_learning_rate v (st : state) : state :=
  with_autocal {| last_zero_calibration := last_zero_calibration (autocal st);
            last_scale_calibration := last_scale_calibration (autocal st);
            consecutive_zero_readings := consecutive_zero_readings (autocal st);
            auto_cal_sensitivity := auto_cal_sensitivity (autocal st);
            learning_rate := v; last_adjustment := last_adjustment (autocal st) |} st.

Definition put_last_adjustment v (st : state) : state :=
  with_autocal {| last_zero_calibration := last_zero_calibration (autocal st);
            last_scale_calibration := last_scale_calibration (autocal st);
            consecutive_zero_readings := consecutive_zero_readings (autocal st);
            auto_cal_sensitivity := auto_cal_sensitivity (autocal st);
            learning_rate := learning_rate (autocal st); last_adjustment := v |} st.

Definition put_learning_points v (st : state) : state :=
  with_learning {| learning_points := v;
            learning_point_count := learning_point_count (learning st);
            learning_point_index := learning_point_index (learning st) |} st.

Definition put_learning_point_count v (st : state) : state :=
  with_learning {| learning_points := learning_points (learning st);
            learning_point_count := v;
            learning_point_index := learning_point_index (learning st) |} st.

Definition put_learning_point_index v (st : state) : state :=
  with_learning {| learning_points := learning_points (learning st);
            learning_point_count := learning_point_count (learning st);
            learning_point_index := v |} st.

Definition put_auto_cal_count v (st : state) : state :=
  with_stats {| auto_cal_count := v;
            last_auto_cal_time := last_auto_cal_time (stats st);
            successful_recognitions := successful_recognitions (stats st);
            failed_recognitions := failed_recognitions (stats st) |} st.

Definition put_last_auto_cal_time v (st : state) : state :=
  with_stats {| auto_cal_count := auto_cal_count (stats st); last_auto_cal_time := v;
            successful_recognitions := successful_recognitions (stats st);
            failed_recognitions := failed_recognitions (stats st) |} st.

Definition put_successful_recognitions v (st : state) : state :=
  with_stats {| auto_cal_count := auto_cal_count (stats st);
            last_auto_cal_time := last_auto_cal_time (stats st);
            successful_recognitions := v;
            failed_recognitions := failed_recognitions (stats st) |} st.

Definition put_failed_recognitions v (st : state) : state :=
  with_stats {| auto_cal_count := auto_cal_count (stats st);
            last_auto_cal_time := last_auto_cal_time (stats st);
            successful_recognitions := successful_recognitions (stats st);
            failed_recognitions := v |} st.

Definition put_current_history v (st : state) : state :=
  with_history {| current_history := v; history_index := history_index (history st);
            history_full := history_full (history st) |} st.

Definition put_history_index v (st : state) : state :=
  with_history {| current_history := current_history (history st); history_index := v;
            history_full := history_full (history st) |} st.

Definition put_history_full v (st : state) : state :=
  with_history {| current_history := current_history (history st);
            history_index := history_index (history st); history_full := v |} st.

Definition put_stable_load_start v (st : state) : state :=
  with_stability {| stable_load_start := v;
            stable_load_value := stable_load_value (stability st);
            in_stable_period := in_stable_period (stability st) |} st.

Definition put_stable_load_value v (st : state) : state :=
  with_stability {| stable_load_start := stable_load_start (stability st);
            stable_load_value := v;
            in_stable_period := in_stable_period (stability st) |} st.

Definition put_in_stable_period v (st : state) : state :=
  with_stability {| stable_load_start := stable_load_start (stability st);
            stable_load_value := stable_load_value (stability st);
            in_stable_period := v |} st.

Definition put_voltage_buffer v (st : state) : state :=
  with_sender {| voltage_buffer := v; buffer_index := buffer_index (sender st);
            buffer_filled := buffer_filled (sender st);
            measurement_count := measurement_count (sender st);
            last_measured_vrms := last_measured_vrms (sender st);
            total_measurements := total_measurements (sender st);
            stats_min_current := stats_min_current (sender st);
            stats_max_current := stats_max_current (sender st);
            accumulated_current := accumulated_current (sender st) |} st.

Definition put_buffer_index v (st : state) : state :=
  with_sender {| voltage_buffer := voltage_buffer (sender st); buffer_index := v;
            buffer_filled := buffer_filled (sender st);
            measurement_count := measurement_count (sender st);
            last_measured_vrms := last_measured_vrms (sender st);
            total_measurements := total_measurements (sender st);
            stats_min_current := stats_min_current (sender st);
            stats_max_current := stats_max_current (sender st);
            accumulated_current := accumulated_current (sender st) |} st.

Definition put_buffer_filled v (st : state) : state :=
  with_sender {| voltage_buffer := voltage_buffer (sender st);
            buffer_index := buffer_index (sender st); buffer_filled := v;
            measurement_count := measurement_count (sender st);
            last_measured_vrms := last_measured_vrms (sender st);
            total_measurements := total_measurements (sender st);
            stats_min_current := stats_min_current (sender st);
            stats_max_current := stats_max_current (sender st);
            accumulated_current := accumulated_current (sender st) |} st.

Definition put_measurement_count v (st : state) : state :=
  with_sender {| voltage_buffer := voltage_buffer (sender st);
            buffer_index := buffer_index (sender st);
            buffer_filled := buffer_filled (sender st); measurement_count := v;
            last_measured_vrms := last_measured_vrms (sender st);
            total_measurements := total_measurements (sender st);
            stats_min_current := stats_min_current (sender st);
            stats_max_current := stats_max_current (sender st);
            accumulated_current := accumulated_current (sender st) |} st.

Definition put_last_measured_vrms v (st : state) : state :=
  with_sender {| voltage_buffer := voltage_buffer (sender st);
            buffer_index := buffer_index (sender st);
            buffer_filled := buffer_filled (sender st);
            measurement_count := measurement_count (sender st);
            last_measured_vrms := v;
            total_measurements := total_measurements (sender st);
            stats_min_current := stats_min_current (sender st);
            stats_max_current := stats_max_current (sender st);
            accumulated_current := accumulated_current (sender st) |} st.

Definition put_total_measurements v (st : state) : state :=
  with_sender {| voltage_buffer := voltage_buffer (sender st);
            buffer_index := buffer_index (sender st);
            buffer_filled := buffer_filled (sender st);
            measurement_count := measurement_count (sender st);
            last_measured_vrms := last_measured_vrms (sender st);
            total_measurements := v;
            stats_min_current := stats_min_current (sender st);
            stats_max_current := stats_max_current (sender st);
            accumulated_current := accumulated_current (sender st) |} st.

Definition put_stats_min_current v (st : state) : state :=
  with_sender {| voltage_buffer := voltage_buffer (sender st);
            buffer_index := buffer_index (sender st);
            buffer_filled := buffer_filled (sender st);
            measurement_count := measurement_count (sender st);
            last_measured_vrms := last_measured_vrms (sender st);
            total_measurements := total_measurements (sender st);
            stats_min_current := v;
            stats_max_current := stats_max_current (sender st);
            accumulated_current := accumulated_current (sender st) |} st.

Definition put_stats_max_current v (st : state) : state :=
  with_sender {| voltage_buffer := voltage_buffer (sender st);
            buffer_index := buffer_index (sender st);
            buffer_filled := buffer_filled (sender st);
            measurement_count := measurement_count (sender st);
            last_measured_vrms := last_measured_vrms (sender st);
            total_measurements := total_measurements (sender st);
            stats_min_current := stats_min_current (sender st);
            stats_max_current := v;
            accumulated_current := accumulated_current (sender st) |} st.

Definition put_accumulated_current v (st : state) : state :=
  with_sender {| voltage_buffer := voltage_buffer (sender st);
            buffer_index := buffer_index (sender st);
            buffer_filled := buffer_filled (sender st);
            measurement_count := measurement_count (sender st);
            last_measured_vrms := last_measured_vrms (sender st);
            total_measurements := total_measurements (sender st);
            stats_min_current := stats_min_current (sender st);
            stats_max_current := stats_max_current (sender st);
            accumulated_current := v |} st.

Definition put_clock_ms v (st : state) : state :=
  with_env {| clock_ms := v; adc_feed := adc_feed (env st);
            esp_log := esp_log (env st); udp_sent := udp_sent (env st);
            relay_level := relay_level (env st);
            relay_pad_input := relay_pad_input (env st);
            udp_sender_running := udp_sender_running (env st);
            tasks_created := tasks_created (env st);
            restarted := restarted (env st) |} st.

Definition put_adc_feed v (st : state) : state :=
  with_env {| clock_ms := clock_ms (env st); adc_feed := v;
            esp_log := esp_log (env st); udp_sent := udp_sent (env st);
            relay_level := relay_level (env st);
            relay_pad_input := relay_pad_input (env st);
            udp_sender_running := udp_sender_running (env st);
            tasks_created := tasks_created (env st);
            restarted := restarted (env st) |} st.

Definition put_esp_log v (st : state) : state :=
  with_env {| clock_ms := clock_ms (env st); adc_feed := adc_feed (env st);
            esp_log := v; udp_sent := udp_sent (env st);
            relay_level := relay_level (env st);
            relay_pad_input := relay_pad_input (env st);
            udp_sender_running := udp_sender_running (env st);
            tasks_created := tasks_created (env st);
            restarted := restarted (env st) |} st.

Definition put_udp_sent v (st : state) : state :=
  with_env {| clock_ms := clock_ms (env st); adc_feed := adc_feed (env st);
            esp_log := esp_log (env st); udp_sent := v;
            relay_level := relay_level (env st);
            relay_pad_input := relay_pad_input (env st);
            udp_sender_running := udp_sender_running (env st);
            tasks_created := tasks_created (env st);
            restarted := restarted (env st) |} st.

Definition put_relay_level v (st : state) : state :=
  with_env {| clock_ms := clock_ms (env st); adc_feed := adc_feed (env st);
            esp_log := esp_log (env st); udp_sent := udp_sent (env st);
            relay_level := v;
            relay_pad_input := relay_pad_input (env st);
            udp_sender_running := udp_sender_running (env st);
            tasks_created := tasks_created (env st);
            restarted := restarted (env st) |} st.

Definition put_relay_pad_input v (st : state) : state :=
  with_env {| clock_ms := clock_ms (env st); adc_feed := adc_feed (env st);
            esp_log := esp_log (env st); udp_sent := udp_sent (env st);
            relay_level := relay_level (env st); relay_pad_input := v;
            udp_sender_running := udp_sender_running (env st);
            tasks_created := tasks_created (env st);
            restarted := restarted (env st) |} st.

Definition put_udp_sender_running v (st : state) : state :=
  with_env {| clock_ms := clock_ms (env st); adc_feed := adc_feed (env st);
            esp_log := esp_log (env st); udp_sent := udp_sent (env st);
            relay_level := relay_level (env st);
            relay_pad_input := relay_pad_input (env st); udp_sender_running := v;
            tasks_created := tasks_created (env st);
            restarted := restarted (env st) |} st.

Definition put_tasks_created v (st : state) : state :=
  with_env {| clock_ms := clock_ms (env st); adc_feed := adc_feed (env st);
            esp_log := esp_log (env st); udp_sent := udp_sent (env st);
            relay_level := relay_level (env st);
            relay_pad_input := relay_pad_input (env st);
            udp_sender_running := udp_sender_running (env st); tasks_created := v;
            restarted := restarted (env st) |} st.

Definition put_restarted v (st : state) : state :=
  with_env {| clock_ms := clock_ms (env st); adc_feed := adc_feed (env st);
            esp_log := esp_log (env st); udp_sent := udp_sent (env st);
            relay_level := relay_level (env st);
            relay_pad_input := relay_pad_input (env st);
            udp_sender_running := udp_sender_running (env st);
            tasks_created := tasks_created (env st); restarted := v |} st.

(** ** The world: clock, ADC, log, socket *)

(** [xTaskGetTickCount() * portTICK_PERIOD_MS]. *)
Definition now_ms (st : state) : Z := clock_ms (env st).

(** [vTaskDelay(pdMS_TO_TICKS(ms))]: the clock moves on by [ms]. *)
Definition vTaskDelay (ms : Z) (st : state) : state :=
  put_clock_ms (u32 (clock_ms (env st) + ms)) st.

(** [adc_oneshot_read(adc1_handle, ADC_CHANNEL, &adc_value)]: [Some v] when
    it returns [ESP_OK] with [adc_value = v]. *)
Definition adc_oneshot_read (st : state) : option Z * state :=
  (hd None (adc_feed (env st)), put_adc_feed (tl (adc_feed (env st))) st).

Definition esp_log_write (lvl : log_level) (tag fmt : string) (st : state)
  : state :=
  put_esp_log ({| log_lvl := lvl; log_tag := tag; log_fmt := fmt |}
                 :: esp_log (env st)) st.

Definition ESP_LOGE := esp_log_write LOG_E.
Definition ESP_LOGW := esp_log_write LOG_W.
Definition ESP_LOGI := esp_log_write LOG_I.

Definition sendto (r : response) (st : state) : state :=
  put_udp_sent (r :: udp_sent (env st)) st.

(** [((float)adc_value / ADC_RESOLUTION) * ADC_VOLTAGE_RANGE] *)
Definition adc_to_voltage (adc_value : Z) : R :=
  IZR adc_value / ADC_RESOLUTION * ADC_VOLTAGE_RANGE.

(** ** sct_calibration.c *)

Definition TAG : string := "SCT_CAL".

Definition known_devices : list device_profile_t :=
  [ {| min_current := 0.4; max_current := 0.7; typical_current := 0.5;
       device_name := "60W Incandescent Bulb"; confidence_boost := 1.2 |};
    {| min_current := 0.8; max_current := 1.2; typical_current := 1.0;
       device_name := "100W Incandescent Bulb"; confidence_boost := 1.2 |};
    {| min_current := 4.0; max_current := 6.0; typical_current := 5.0;
       device_name := "Hair Dryer Low Setting"; confidence_boost := 1.5 |};
    {| min_current := 10.0; max_current := 15.0; typical_current := 12.5;
       device_name := "Hair Dryer High Setting"; confidence_boost := 1.5 |};
    {| min_current := 8.0; max_current := 12.0; typical_current := 10.0;
       device_name := "Space Heater"; confidence_boost := 1.3 |};
    {| min_current := 12.0; max_current := 16.0; typical_current := 14.0;
       device_name := "Microwave Oven"; confidence_boost := 1.4 |};
    {| min_current := 6.0; max_current := 10.0; typical_current := 8.0;
       device_name := "Coffee Maker"; confidence_boost := 1.1 |};
    {| min_current := 0.1; max_current := 0.3; typical_current := 0.2;
       device_name := "LED Strip/Small Electronics";
       confidence_boost := 0.8 |};
    {| min_current := 2.0; max_current := 4.0; typical_current := 3.0;
       device_name := "Laptop/Monitor"; confidence_boost := 0.9 |};
    {| min_current := 0.02; max_current := 0.1; typical_current := 0.05;
       device_name := "Phone Charger/Standby"; confidence_boost := 0.5 |} ].

Definition num_known_devices : Z := Z.of_nat (List.length known_devices).

(** *** Thread-safe parameter access *)

Definition set_bias_voltage (bias_v : R) (st : state) : state :=
  ESP_LOGI TAG "Bias voltage set to: %.4f V" (put_bias_voltage bias_v st).

Definition get_bias_voltage (st : state) : R := bias_voltage (cal st).

Definition set_amps_per_volt (scale : R) (st : state) : state :=
  ESP_LOGI TAG "Scale factor set to: %.2f A/V" (put_amps_per_volt scale st).

Definition get_amps_per_volt (st : state) : R := amps_per_volt (cal st).

Definition get_detected_load_amps (st : state) : R :=
  detected_load_amps (det st).

Definition get_auto_calibration_enabled (st : state) : bool :=
  auto_calibration_enabled (det st).

Definition get_auto_detection_enabled (st : state) : bool :=
  auto_detection_enabled (det st).

(** *** Learning system *)

Definition learn_from_calibration (expected_current measured_voltage : R)
    (manual : bool) (st : state) : state :=
  let p := {| expected_current := expected_current;
              measured_voltage := measured_voltage;
              timestamp := now_ms st;
              confidence := if manual then 1 else 0.8;
              auto_generated := negb manual |} in
  let l := learning st in
  let st1 :=
    if (learning_point_count l <? MAX_LEARNING_POINTS)%Z then
      put_learning_point_count (learning_point_count l + 1)%Z
        (put_learning_points
           (list_set (learning_points l)
                     (Z.to_nat (learning_point_count l)) p) st)
    else
      put_learning_point_index
        (Z.rem (learning_point_index l + 1) MAX_LEARNING_POINTS)
        (put_learning_points
           (list_set (learning_points l)
                     (Z.to_nat (learning_point_index l)) p) st) in
  ESP_LOGI TAG "Learning point added: %.3fA -> %.6fV (%s)" st1.

(** [confidence * powf(DECAY, age_ms / (24*60*60*1000.0f)) * learning_rate] *)
Definition point_weight (rate : R) (now : Z) (p : calibration_point_t) : R :=
  let age_ms := u32 (now - timestamp p) in
  let age_factor :=
    Rpower LEARNING_CONFIDENCE_DECAY (IZR age_ms / (24 * 60 * 60 * 1000)) in
  confidence p * age_factor * rate.

(** One round of the loop of [apply_learned_calibration]; the accumulator is
    [(numerator, denominator, total_weight)]. *)
Definition accumulate_point (rate : R) (now : Z) (acc : R * R * R)
    (p : calibration_point_t) : R * R * R :=
  let '(numerator, denominator, total_weight) := acc in
  let weight := point_weight rate now p in
  if Rgtb (measured_voltage p) 0.001 then
    (numerator + expected_current p * weight,
     denominator + measured_voltage p * weight,
     total_weight + weight)
  else acc.

Definition weighted_sums (rate : R) (now : Z)
    (points : list calibration_point_t) : R * R * R :=
  fold_left (accumulate_point rate now) points (0, 0, 0).

(** [numerator / denominator] *)
Definition learned_scale_of (sums : R * R * R) : R :=
  let '(numerator, denominator, _) := sums in numerator / denominator.

Definition apply_learned_calibration (st : state) : state :=
  let l := learning st in
  if (learning_point_count l <? MIN_LEARNING_POINTS)%Z then st
  else
    let now := now_ms st in
    let points_to_use :=
      if (learning_point_count l <? MAX_LEARNING_POINTS)%Z
      then learning_point_count l else MAX_LEARNING_POINTS in
    let sums :=
      weighted_sums (learning_rate (autocal st)) now
        (firstn (Z.to_nat points_to_use) (learning_points l)) in
    let '(_, denominator, total_weight) := sums in
    if Rgtb denominator 0.001 && Rgtb total_weight 0.1 then
      let learned_scale := learned_scale_of sums in
      let current_scale := get_amps_per_volt st in
      if Rgtb learned_scale (current_scale * 0.5)
         && Rltb learned_scale (current_scale * 1.5) then
        let blended_scale := current_scale * 0.7 + learned_scale * 0.3 in
        ESP_LOGI TAG
          "Applied learned calibration: %.2f -> %.2f A/V (weight: %.2f)"
          (set_amps_per_volt blended_scale st)
      else
        ESP_LOGW TAG
          "Learned scale %.2f A/V rejected (too different from current %.2f A/V)"
          st
    else st.

Definition reset_learning_data (st : state) : state :=
  ESP_LOGI TAG "Learning data reset"
    (put_learning_point_index 0%Z
       (put_learning_point_count 0%Z
          (put_learning_points
             (repeat zero_point (Z.to_nat MAX_LEARNING_POINTS)) st))).

Definition get_learning_point_count (st : state) : Z :=
  learning_point_count (learning st).

(** *** Manual calibration primitives *)

(** The sampling loop of [calibrate_with_known_load], [n] rounds to go. *)
Fixpoint known_load_samples (n : nat) (voltage_sum : R) (valid_samples : Z)
    (st : state) : R * Z * state :=
  match n with
  | O => (voltage_sum, valid_samples, st)
  | S k =>
      let '(r, st1) := adc_oneshot_read st in
      let '(sum1, valid1) :=
        match r with
        | Some adc_value =>
            let voltage := adc_to_voltage adc_value in
            let ac_voltage := Rabs (voltage - bias_voltage (cal st1)) in
            if Rgtb ac_voltage 0.001
            then (voltage_sum + ac_voltage, (valid_samples + 1)%Z)
            else (voltage_sum, valid_samples)
        | None => (voltage_sum, valid_samples)
        end in
      known_load_samples k sum1 valid1 (vTaskDelay 50 st1)
  end.

Definition calibrate_with_known_load (known_amps : R) (st : state) : state :=
  let st := ESP_LOGI TAG "Calibrating with known load: %.3f A" st in
  if Rleb known_amps 0 || Rgtb known_amps MAX_CURRENT_AMPS then
    ESP_LOGE TAG "Invalid known current: %.3f A" st
  else
    let '(voltage_sum, valid_samples, st) := known_load_samples 50 0 0%Z st in
    if (valid_samples >? 10)%Z then
      let avg_voltage := voltage_sum / IZR valid_samples in
      let new_scale := known_amps / avg_voltage in
      let st := put_amps_per_volt new_scale st in
      let st :=
        ESP_LOGI TAG "Calibration complete: %.2f A/V (from %.4f V RMS)" st in
      let st := learn_from_calibration known_amps avg_voltage true st in
      put_last_auto_cal_time (now_ms st) st
    else
      ESP_LOGE TAG "Calibration failed - insufficient valid samples (%d)" st.

(** The sampling loop of [auto_calibrate_bias_voltage]; [voltage_sum] is a
    [uint32_t]. *)
Fixpoint bias_samples (n : nat) (voltage_sum : Z) (valid_samples : Z)
    (st : state) : Z * Z * state :=
  match n with
  | O => (voltage_sum, valid_samples, st)
  | S k =>
      let '(r, st1) := adc_oneshot_read st in
      let '(sum1, valid1) :=
        match r with
        | Some adc_value =>
            (u32 (voltage_sum + adc_value), (valid_samples + 1)%Z)
        | None => (voltage_sum, valid_samples)
        end in
      bias_samples k sum1 valid1 (vTaskDelay 10 st1)
  end.

Definition auto_calibrate_bias_voltage (st : state) : state :=
  let st := ESP_LOGI TAG "Auto-calibrating bias voltage..." st in
  let '(voltage_sum, valid_samples, st) := bias_samples 100 0%Z 0%Z st in
  if (valid_samples >? 50)%Z then
    let avg_adc := IZR voltage_sum / IZR valid_samples in
    let new_bias := avg_adc / ADC_RESOLUTION * ADC_VOLTAGE_RANGE in
    let st := put_bias_voltage new_bias st in
    let st := ESP_LOGI TAG "Bias voltage calibrated to: %.4f V" st in
    put_consecutive_zero_readings 0%Z st
  else
    ESP_LOGE TAG "Bias calibration failed - insufficient samples" st.

(** *** Device recognition *)

(** [current_amps >= d.min_current && current_amps <= d.max_current] *)
Definition in_range (current_amps : R) (d : device_profile_t) : bool :=
  Rgeb current_amps (min_current d) && Rleb current_amps (max_current d).

(** The scan of [known_devices] from index 0; [None] is [NULL]. *)
Definition recognize_device (current_amps : R) : option device_profile_t :=
  find (in_range current_amps) known_devices.

(** [1.0f - fabsf(measured - typical) / (max - min)] *)
Definition match_quality (measured_current : R) (device : device_profile_t)
  : R :=
  1 - Rabs (measured_current - typical_current device)
      / (max_current device - min_current device).

(** [match_quality * device->confidence_boost * auto_cal_sensitivity] *)
Definition recognition_confidence (measured_current : R)
    (device : device_profile_t) (sensitivity : R) : R :=
  match_quality measured_current device * confidence_boost device
  * sensitivity.

Definition auto_recognize_and_calibrate (measured_current : R) (st : state)
  : state :=
  match recognize_device measured_current with
  | None => st
  | Some device =>
      let st :=
        ESP_LOGI TAG "Auto-recognized device: %s (%.2fA typical)" st in
      let confidence :=
        recognition_confidence measured_current device
          (auto_cal_sensitivity (autocal st)) in
      if Rgtb confidence DEVICE_RECOGNITION_CONFIDENCE then
        let st :=
          ESP_LOGI TAG "High confidence (%.2f), auto-calibrating with %.2fA"
            st in
        let st := calibrate_with_known_load (typical_current device) st in
        let st :=
          put_successful_recognitions
            (u32 (successful_recognitions (stats st) + 1)) st in
        let measured_vrms := measured_current / get_amps_per_volt st in
        learn_from_calibration (typical_current device) measured_vrms false st
      else
        let st :=
          ESP_LOGI TAG "Low confidence (%.2f), skipping auto-calibration"
            st in
        put_failed_recognitions (u32 (failed_recognitions (stats st) + 1)) st
  end.

(** *** History and stability detector *)

(** The mean of the history array: the sum of its entries over
    [HISTORY_SIZE]. *)
Definition window_mean (h : list R) : R := Rsum h / IZR HISTORY_SIZE.

(** The variance loop: the squared differences to the mean, summed, over
    [HISTORY_SIZE]. *)
Definition window_variance (h : list R) : R :=
  let mean := window_mean h in
  Rsum (map (fun x => (x - mean) * (x - mean)) h) / IZR HISTORY_SIZE.

Definition window_is_stable (h : list R) : bool :=
  Rltb (window_variance h) AUTO_CAL_VARIANCE_THRESHOLD
  && Rgeb (window_mean h) AUTO_CAL_MIN_CURRENT
  && Rleb (window_mean h) AUTO_CAL_MAX_CURRENT.

(** The branch [is_stable && !in_stable_period]. *)
Definition stable_period_start (mean : R) (st : state) : state :=
  let st := put_stable_load_start (now_ms st) st in
  let st := put_stable_load_value mean st in
  let st := put_in_stable_period true st in
  let st := ESP_LOGI TAG "Stable load detected: %.3fA" st in
  auto_recognize_and_calibrate (stable_load_value (stability st)) st.

(** The body of [if (time_since_last > AUTO_CAL_ZERO_INTERVAL_MS)]. *)
Definition stable_load_recalibrate (now : Z) (st : state) : state :=
  let stable_value := stable_load_value (stability st) in
  let st := ESP_LOGI TAG "Auto-calibrating with stable load: %.3fA" st in
  let st := calibrate_with_known_load stable_value st in
  let st := put_last_scale_calibration now st in
  let st := put_auto_cal_count (u32 (auto_cal_count (stats st) + 1)) st in
  let measured_vrms := stable_value / get_amps_per_volt st in
  learn_from_calibration stable_value measured_vrms false st.

(** The branch [is_stable && in_stable_period]. *)
Definition stable_period_continue (st : state) : state :=
  let now := now_ms st in
  if (u32 (now - stable_load_start (stability st))
      >? DEVICE_STABLE_TIME_MS)%Z then
    let time_since_last :=
      u32 (now - last_scale_calibration (autocal st)) in
    let st :=
      if (time_since_last >? AUTO_CAL_ZERO_INTERVAL_MS)%Z
      then stable_load_recalibrate now st else st in
    put_in_stable_period false st
  else st.

Definition continuous_auto_calibration (current_reading : R) (st : state)
  : state :=
  if Rltb current_reading AUTO_CAL_ZERO_THRESHOLD then
    put_consecutive_zero_readings
      (u32 (consecutive_zero_readings (autocal st) + 1)) st
  else
    let st := put_consecutive_zero_readings 0%Z st in
    if history_full (history st) then
      let h := current_history (history st) in
      let mean := window_mean h in
      let is_stable := window_is_stable h in
      let in_stable := in_stable_period (stability st) in
      if is_stable && negb in_stable then stable_period_start mean st
      else if is_stable && in_stable then stable_period_continue st
      else if negb is_stable then put_in_stable_period false st
      else st
    else st.

Definition process_current_for_auto_calibration (current_amps : R)
    (st : state) : state :=
  if negb (auto_calibration_enabled (det st)) then st
  else
    let h := history st in
    let st :=
      put_current_history
        (list_set (current_history h) (Z.to_nat (history_index h))
                  current_amps) st in
    let st :=
      put_history_index (Z.rem (history_index h + 1) HISTORY_SIZE) st in
    let st :=
      if (history_index (history st) =? 0)%Z
      then put_history_full true st else st in
    let st := put_detected_load_amps current_amps st in
    continuous_auto_calibration current_amps st.

(** *** Auto-calibration controller *)

Definition should_auto_calibrate_zero (st : state) : bool :=
  if negb (auto_calibration_enabled (det st)) then false
  else
    let now := now_ms st in
    let time_for_calibration :=
      (u32 (now - last_zero_calibration (autocal st))
       >? AUTO_CAL_ZERO_INTERVAL_MS)%Z in
    let consistent_zeros :=
      (consecutive_zero_readings (autocal st)
       >? AUTO_CAL_CONSECUTIVE_ZERO_COUNT)%Z in
    time_for_calibration && consistent_zeros.

(** [(s + f > 0) ? (float)s / (s + f) : 0.5f] on the [uint32_t] counters. *)
Definition success_rate (st : state) : R :=
  let s := successful_recognitions (stats st) in
  let f := failed_recognitions (stats st) in
  if (u32 (s + f) >? 0)%Z then IZR s / IZR (u32 (s + f)) else 0.5.

Definition adaptive_threshold_adjustment (st : state) : state :=
  let now := now_ms st in
  if (u32 (now - last_adjustment (autocal st)) <? 60 * 60 * 1000)%Z then st
  else
    let rate := success_rate st in
    let sensitivity := auto_cal_sensitivity (autocal st) in
    let st :=
      if Rgtb rate 0.8 && Rltb sensitivity 0.9 then
        ESP_LOGI TAG
          "Increased auto-cal sensitivity to %.2f (success rate: %.2f)"
          (put_auto_cal_sensitivity (sensitivity + 0.05) st)
      else if Rltb rate 0.4 && Rgtb sensitivity 0.3 then
        ESP_LOGI TAG
          "Decreased auto-cal sensitivity to %.2f (success rate: %.2f)"
          (put_auto_cal_sensitivity (sensitivity - 0.05) st)
      else st in
    put_last_adjustment now st.

(** One round of the [while (auto_calibration_enabled)] loop of
    [auto_calibration_task]. *)
Definition auto_calibration_round (st : state) : state :=
  let st :=
    if should_auto_calibrate_zero st then
      let st :=
        ESP_LOGI TAG "Performing automatic zero-point recalibration" st in
      let st := auto_calibrate_bias_voltage st in
      let st := put_last_zero_calibration (now_ms st) st in
      put_auto_cal_count (u32 (auto_cal_count (stats st) + 1)) st
    else st in
  let st :=
    if (learning_point_count (learning st) >=? MIN_LEARNING_POINTS)%Z
    then apply_learned_calibration st else st in
  let st := adaptive_threshold_adjustment st in
  vTaskDelay 30000 st.

(** *** Configuration *)

Definition set_auto_cal_sensitivity (sensitivity : R) (st : state) : state :=
  if Rgeb sensitivity 0 && Rleb sensitivity 1 then
    ESP_LOGI TAG "Auto-calibration sensitivity set to %.2f"
      (put_auto_cal_sensitivity sensitivity st)
  else st.

Definition get_auto_cal_sensitivity (st : state) : R :=
  auto_cal_sensitivity (autocal st).

Definition set_learning_rate (rate : R) (st : state) : state :=
  if Rgeb rate 0 && Rleb rate 1 then
    ESP_LOGI TAG "Learning rate set to %.2f" (put_learning_rate rate st)
  else st.

Definition get_learning_rate (st : state) : R := learning_rate (autocal st).

Definition yes_no (b : bool) : string := if b then "YES" else "NO".
Definition on_off (b : bool) : string := if b then "ON" else "OFF".

Definition get_auto_cal_statistics (st : state) : response :=
  let now := now_ms st in
  let uptime_hours := (now / (60 * 60 * 1000))%Z in
  {| resp_fmt :=
       "AUTO_CAL_STATS:ENABLED=%s,COUNT=%lu,UPTIME=%luh,SUCCESS=%lu,FAILED=%lu,LEARNING_PTS=%d,SENSITIVITY=%.2f";
     resp_args :=
       [ FStr (yes_no (auto_calibration_enabled (det st)));
         FInt (auto_cal_count (stats st));
         FInt uptime_hours;
         FInt (successful_recognitions (stats st));
         FInt (failed_recognitions (stats st));
         FInt (learning_point_count (learning st));
         FFloat (auto_cal_sensitivity (autocal st)) ] |}.

Definition get_last_auto_cal_time (st : state) : Z :=
  last_auto_cal_time (stats st).

Definition get_auto_cal_count (st : state) : Z := auto_cal_count (stats st).

Definition reset_auto_cal_statistics (st : state) : state :=
  ESP_LOGI TAG "Auto-calibration statistics reset"
    (put_last_auto_cal_time 0%Z
       (put_failed_recognitions 0%Z
          (put_successful_recognitions 0%Z (put_auto_cal_count 0%Z st)))).

(** [xTaskCreate(auto_calibration_task, ...)] *)
Definition xTaskCreate_auto_calibration (st : state) : state :=
  put_tasks_created (S (tasks_created (env st))) st.

Definition set_auto_calibration (enabled : bool) (st : state) : state :=
  let st := put_auto_calibration_enabled enabled st in
  let st := ESP_LOGI TAG "Auto-calibration %s" st in
  if enabled then xTaskCreate_auto_calibration st else st.

Definition set_auto_detection (enabled : bool) (st : state) : state :=
  ESP_LOGI TAG "Auto-detection %s" (put_auto_detection_enabled enabled st).

(** *** Load detection *)

(** The sampling loop of [auto_detect_load_current]. *)
Fixpoint detect_samples (n : nat) (total : R) (valid_samples : Z)
    (st : state) : R * Z * state :=
  match n with
  | O => (total, valid_samples, st)
  | S k =>
      let '(r, st1) := adc_oneshot_read st in
      let '(total1, valid1) :=
        match r with
        | Some adc_value =>
            let voltage := adc_to_voltage adc_value in
            let ac_voltage := Rabs (voltage - bias_voltage (cal st1)) in
            let current := ac_voltage * amps_per_volt (cal st1) in
            if Rgeb current 0 && Rltb current MAX_CURRENT_AMPS
            then (total + current, (valid_samples + 1)%Z)
            else (total, valid_samples)
        | None => (total, valid_samples)
        end in
      detect_samples k total1 valid1 (vTaskDelay 100 st1)
  end.

Definition auto_detect_load_current (st : state) : state :=
  if negb (auto_detection_enabled (det st)) then st
  else
    let st := ESP_LOGI TAG "Auto-detecting load current..." st in
    let '(total, valid_samples, st) := detect_samples 20 0 0%Z st in
    if (valid_samples >? 0)%Z then
      let avg_current := total / IZR valid_samples in
      let st := put_detected_load_amps avg_current st in
      let st := ESP_LOGI TAG "Detected load: %.3f A (from %d samples)" st in
      process_current_for_auto_calibration avg_current st
    else ESP_LOGW TAG "Failed to detect valid load current" st.

(** *** Information and diagnostics *)

Definition print_sct_013_info (st : state) : state :=
  let st := ESP_LOGI TAG "=== SCT-013-000 Configuration ===" st in
  let st := ESP_LOGI TAG "Transformation ratio: %.0f:1" st in
  let st := ESP_LOGI TAG "Burden resistor: %.1f Ω" st in
  let st := ESP_LOGI TAG "Max secondary current: %.0f mA" st in
  let st := ESP_LOGI TAG "Max secondary voltage: %.3f V RMS" st in
  let st := ESP_LOGI TAG "Theoretical scale: %.1f A/V" st in
  let st := ESP_LOGI TAG "Current bias voltage: %.4f V" st in
  let st := ESP_LOGI TAG "Current scale factor: %.2f A/V" st in
  ESP_LOGI TAG "Auto-calibration: %s" st.

Definition calculate_theoretical_scale_factor : R :=
  SCT_013_TRANSFORMATION_RATIO
  / (SCT_013_MAX_SECONDARY_CURRENT * SCT_013_BURDEN_RESISTOR).

Definition get_calibration_status (st : state) : response :=
  {| resp_fmt :=
       "BIAS_V=%.4f,SCALE=%.2f,AUTO_CAL=%s,AUTO_DET=%s,LOAD=%.3f,LEARNING_PTS=%d";
     resp_args :=
       [ FFloat (get_bias_voltage st);
         FFloat (get_amps_per_volt st);
         FStr (on_off (auto_calibration_enabled (det st)));
         FStr (on_off (auto_detection_enabled (det st)));
         FFloat (get_detected_load_amps st);
         FInt (learning_point_count (learning st)) ] |}.

(** The loop of [debug_adc_readings]. *)
Fixpoint debug_adc_samples (n : nat) (st : state) : state :=
  match n with
  | O => st
  | S k =>
      let '(r, st1) := adc_oneshot_read st in
      let st2 :=
        match r with
        | Some _ => ESP_LOGI TAG "ADC: %d, V: %.4f, AC: %.4f, I: %.3f A" st1
        | None => st1
        end in
      debug_adc_samples k (vTaskDelay 500 st2)
  end.

Definition debug_adc_readings (st : state) : state :=
  debug_adc_samples 10 (ESP_LOGI TAG "=== ADC Debug Readings ===" st).

(** *** UDP command handlers *)

Definition perform_zero_calibration (st : state) : state :=
  let st := auto_calibrate_bias_voltage st in
  let st :=
    sendto {| resp_fmt := "ZERO_CAL:SUCCESS,BIAS=%.4f";
              resp_args := [FFloat (get_bias_voltage st)] |} st in
  ESP_LOGI TAG "Zero calibration performed via UDP" st.

Definition perform_scale_calibration (known_current : R) (st : state)
  : state :=
  let st := calibrate_with_known_load known_current st in
  let st :=
    sendto {| resp_fmt := "SCALE_CAL:SUCCESS,SCALE=%.2f";
              resp_args := [FFloat (get_amps_per_volt st)] |} st in
  ESP_LOGI TAG "Scale calibration performed via UDP with %.3f A" st.

Definition reset_calibration (st : state) : state :=
  let st := set_bias_voltage ADC_BIAS_VOLTAGE st in
  let st := set_amps_per_volt SCT_013_THEORETICAL_SCALE st in
  let st := reset_learning_data st in
  let st := reset_auto_cal_statistics st in
  let st :=
    sendto {| resp_fmt := "RESET_CAL:SUCCESS,BIAS=%.4f,SCALE=%.2f";
              resp_args := [FFloat (get_bias_voltage st);
                            FFloat (get_amps_per_volt st)] |} st in
  ESP_LOGI TAG "Calibration reset to defaults via UDP" st.

(** *** Start-up *)

(** The statics of the three files as the C initialisers leave them, in a
    given world. *)
Definition boot_state (w : world) : state :=
  {| cal := {| amps_per_volt := 200; bias_voltage := 1.65 |};
     det := {| auto_detection_enabled := true;
               auto_calibration_enabled := AUTO_CAL_ENABLED;
               detected_load_amps := 0 |};
     autocal := {| last_zero_calibration := 0%Z;
                   last_scale_calibration := 0%Z;
                   consecutive_zero_readings := 0%Z;
                   auto_cal_sensitivity := 0.7;
                   learning_rate := 0.1;
                   last_adjustment := 0%Z |};
     learning := {| learning_points :=
                      repeat zero_point (Z.to_nat MAX_LEARNING_POINTS);
                    learning_point_count := 0%Z;
                    learning_point_index := 0%Z |};
     stats := {| auto_cal_count := 0%Z; last_auto_cal_time := 0%Z;
                 successful_recognitions := 0%Z;
                 failed_recognitions := 0%Z |};
     history := {| current_history := repeat 0 (Z.to_nat HISTORY_SIZE);
                   history_index := 0%Z; history_full := false |};
     stability := {| stable_load_start := 0%Z; stable_load_value := 0;
                     in_stable_period := false |};
     sender := {| voltage_buffer := repeat 0 (Z.to_nat RMS_BUFFER_SIZE);
                  buffer_index := 0%Z; buffer_filled := false;
                  measurement_count := 0%Z; last_measured_vrms := 0;
                  total_measurements := 0%Z; stats_min_current := 999999;
                  stats_max_current := 0; accumulated_current := 0 |};
     env := w |}.

(** A world at power-up with the given clock and coming ADC reads; no
    input path is enabled on the relay's pad. *)
Definition fresh_world (clock : Z) (feed : list (option Z)) : world :=
  {| clock_ms := clock; adc_feed := feed; esp_log := []; udp_sent := [];
     relay_level := false; relay_pad_input := false;
     udp_sender_running := false;
     tasks_created := O; restarted := false |}.

Definition sct_calibration_init (st : state) : state :=
  let st :=
    ESP_LOGI TAG "SCT calibration initialized with auto-calibration" st in
  let st :=
    ESP_LOGI TAG "Initial values - Bias: %.4fV, Scale: %.1fA/V" st in
  let st := ESP_LOGI TAG "Auto-calibration: %s" st in
  let st := ESP_LOGI TAG "Device recognition: %s" st in
  let st := ESP_LOGI TAG "Learning system: %s" st in
  let st :=
    put_learning_point_index 0%Z
      (put_learning_point_count 0%Z
         (put_learning_points
            (repeat zero_point (Z.to_nat MAX_LEARNING_POINTS)) st)) in
  let st :=
    put_history_full false
      (put_history_index 0%Z
         (put_current_history (repeat 0 (Z.to_nat HISTORY_SIZE)) st)) in
  let st :=
    ESP_LOGI TAG "Performing automatic zero-point calibration..." st in
  let st := vTaskDelay 1000 st in
  let st := auto_calibrate_bias_voltage st in
  if auto_calibration_enabled (det st) then
    ESP_LOGI TAG "Auto-calibration task started"
      (xTaskCreate_auto_calibration st)
  else st.

(** ** udp_sender.c *)

Definition SENDER_TAG : string := "UDP_SENDER".

(** The sampling loop of [measure_rms_current], [n] rounds to go. *)
Fixpoint rms_samples (n : nat) (voltage_sum_squared : R) (valid_samples : Z)
    (st : state) : R * Z * state :=
  match n with
  | O => (voltage_sum_squared, valid_samples, st)
  | S k =>
      let '(r, st1) := adc_oneshot_read st in
      let '(sum1, valid1, st2) :=
        match r with
        | Some adc_value =>
            let voltage := adc_to_voltage adc_value in
            let ac_voltage := voltage - get_bias_voltage st1 in
            let s := sender st1 in
            let st2 :=
              put_voltage_buffer
                (list_set (voltage_buffer s) (Z.to_nat (buffer_index s))
                          ac_voltage) st1 in
            let st2 :=
              put_buffer_index (Z.rem (buffer_index s + 1) RMS_BUFFER_SIZE)
                st2 in
            let st2 :=
              if (buffer_index (sender st2) =? 0)%Z
              then put_buffer_filled true st2 else st2 in
            (voltage_sum_squared + ac_voltage * ac_voltage,
             (valid_samples + 1)%Z, st2)
        | None => (voltage_sum_squared, valid_samples, st1)
        end in
      rms_samples k sum1 valid1 (vTaskDelay 2 st2)
  end.

(** The part of [measure_rms_current] after [current_amps] is computed:
    statistics, auto-calibration, periodic detection, periodic log. *)
Definition after_measurement (current_amps : R) (st : state) : state :=
  let st :=
    put_total_measurements (u32 (total_measurements (sender st) + 1)) st in
  let st :=
    if Rltb current_amps (stats_min_current (sender st))
    then put_stats_min_current current_amps st else st in
  let st :=
    if Rgtb current_amps (stats_max_current (sender st))
    then put_stats_max_current current_amps st else st in
  let st :=
    put_accumulated_current (accumulated_current (sender st) + current_amps)
      st in
  let st :=
    put_measurement_count (u32 (measurement_count (sender st) + 1)) st in
  let st :=
    if get_auto_calibration_enabled st
    then process_current_for_auto_calibration current_amps st else st in
  let st :=
    if get_auto_detection_enabled st
       && (measurement_count (sender st) mod 50 =? 0)%Z
    then auto_detect_load_current st else st in
  if (measurement_count (sender st) mod 100 =? 0)%Z then
    let st :=
      ESP_LOGI SENDER_TAG
        "Stats - Count: %lu, Current: %.3fA, Avg: %.3fA, Min: %.3fA, Max: %.3fA"
        st in
    if get_auto_calibration_enabled st
    then ESP_LOGI SENDER_TAG "Auto-cal: %s" st else st
  else st.

Definition measure_rms_current (st : state) : R * state :=
  let '(voltage_sum_squared, valid_samples, st) :=
    rms_samples (Z.to_nat RMS_BUFFER_SIZE) 0 0%Z st in
  if (valid_samples =? 0)%Z then
    (0, ESP_LOGW SENDER_TAG "No valid ADC samples obtained" st)
  else
    let voltage_rms := sqrt (voltage_sum_squared / IZR valid_samples) in
    let st := put_last_measured_vrms voltage_rms st in
    let current_amps := voltage_rms * get_amps_per_volt st in
    (current_amps, after_measurement current_amps st).

Definition get_last_measured_vrms (st : state) : R :=
  last_measured_vrms (sender st).

Definition is_udp_sender_running (st : state) : bool :=
  udp_sender_running (env st).

Definition get_measurement_statistics (st : state) : response :=
  let s := sender st in
  let avg_current :=
    if (total_measurements s >? 0)%Z
    then accumulated_current s / IZR (total_measurements s) else 0 in
  {| resp_fmt :=
       "MEASUREMENTS=%lu,AVG_CURRENT=%.3f,MIN_CURRENT=%.3f,MAX_CURRENT=%.3f,LAST_VRMS=%.6f";
     resp_args :=
       [ FInt (total_measurements s); FFloat avg_current;
         FFloat (stats_min_current s); FFloat (stats_max_current s);
         FFloat (last_measured_vrms s) ] |}.

Definition reset_measurement_statistics (st : state) : state :=
  ESP_LOGI SENDER_TAG "Measurement statistics reset"
    (put_measurement_count 0%Z
       (put_accumulated_current 0
          (put_stats_max_current 0
             (put_stats_min_current 999999
                (put_total_measurements 0%Z st))))).

Definition analyze_voltage_buffer (st : state) : response :=
  if negb (buffer_filled (sender st)) then
    {| resp_fmt := "BUFFER_ANALYSIS=NOT_READY"; resp_args := [] |}
  else
    let buf := voltage_buffer (sender st) in
    let sum := Rsum buf in
    let sum_squared := Rsum (map (fun val => val * val) buf) in
    let min_val :=
      fold_left (fun m val => if Rltb val m then val else m) buf 999999 in
    let max_val :=
      fold_left (fun m val => if Rgtb val m then val else m) buf (-999999) in
    let mean := sum / IZR RMS_BUFFER_SIZE in
    let variance := sum_squared / IZR RMS_BUFFER_SIZE - mean * mean in
    let std_dev := sqrt variance in
    let rms := sqrt (sum_squared / IZR RMS_BUFFER_SIZE) in
    {| resp_fmt :=
         "BUFFER_ANALYSIS=READY,MEAN=%.6f,STD_DEV=%.6f,RMS=%.6f,MIN=%.6f,MAX=%.6f,VARIANCE=%.8f";
       resp_args :=
         [ FFloat mean; FFloat std_dev; FFloat rms; FFloat min_val;
           FFloat max_val; FFloat variance ] |}.

Definition trigger_auto_calibration_check (st : state) : state :=
  if get_auto_calibration_enabled st then
    let '(current, st) := measure_rms_current st in
    let st :=
      ESP_LOGI SENDER_TAG
        "Manual auto-calibration check triggered with current: %.3fA" st in
    process_current_for_auto_calibration current st
  else ESP_LOGW SENDER_TAG "Auto-calibration is disabled" st.

Definition get_instant_current_reading (st : state) : R * state :=
  let '(r, st) := adc_oneshot_read st in
  match r with
  | Some adc_value =>
      let voltage := adc_to_voltage adc_value in
      let ac_voltage := Rabs (voltage - get_bias_voltage st) in
      (ac_voltage * get_amps_per_volt st, st)
  | None => (0, st)
  end.

(** ** udp_receiver.c *)

Definition RECV_TAG : string := "UDP_RECV".

(** [strncmp(s, lit, n) == 0]: the first [n] characters agree, the end of a
    string counting as its terminating NUL. *)
Fixpoint strncmp_eq (s lit : string) (n : nat) {struct n} : bool :=
  match n with
  | O => true
  | S k =>
      match s, lit with
      | EmptyString, EmptyString => true
      | String a s', String b lit' => Ascii.eqb a b && strncmp_eq s' lit' k
      | _, _ => false
      end
  end.

(** [command + k] *)
Fixpoint string_from (k : nat) (s : string) : string :=
  match k, s with
  | O, _ => s
  | S j, EmptyString => EmptyString
  | S j, String _ s' => string_from j s'
  end.

(** [strchr(s, ',')] followed by [*comma = '\0']: the text before the first
    comma and the text after it. *)
Fixpoint split_comma (s : string) : option (string * string) :=
  match s with
  | EmptyString => None
  | String c s' =>
      if Ascii.eqb c ","%char then Some (EmptyString, s')
      else match split_comma s' with
           | Some (before, rest) => Some (String c before, rest)
           | None => None
           end
  end.

Definition text (fmt : string) : response :=
  {| resp_fmt := fmt; resp_args := [] |}.

(** The GPIO driver is ESP-IDF code, not part of the repository; the three
    calls below follow its API reference, for the pad RELAY_GPIO.

    [gpio_set_level(RELAY_GPIO, level)] drives the pad. *)
Definition gpio_set_level (level : bool) (st : state) : state :=
  put_relay_level level st.

(** [gpio_get_level(RELAY_GPIO)].  The API reference: if the pad is not
    configured for input (or input and output) the returned value is
    always 0.  With the input path enabled the pad reads the level
    driven. *)
Definition gpio_get_level (st : state) : bool :=
  relay_pad_input (env st) && relay_level (env st).

(** [gpio_config(&io_conf)] with [.mode = GPIO_MODE_OUTPUT], the only
    configuration the firmware asks for (relay.c), when it returns
    [ESP_OK]: output only, so the input path of the pad is disabled. *)
Definition gpio_config_output (st : state) : state :=
  put_relay_pad_input false st.

(** [list_known_devices] writes a header and one line per profile. *)
Definition list_known_devices : response :=
  {| resp_fmt := "Known devices:\n";
     resp_args :=
       flat_map (fun d => [ FStr (device_name d); FFloat (min_current d);
                            FFloat (max_current d);
                            FFloat (typical_current d) ]) known_devices |}.

Section Receiver.

(** The C library's [atof] on the argument text of a command, for a text
    that converts to a number.  On the text [nan] the C function yields
    NaN, which fails every comparison: a range test of the form
    [x >= lo && x <= hi] refuses it like a number out of range, but it
    passes the negated test [x <= 0 || x > max] of
    [calibrate_with_known_load] and is stored unchecked by MANUAL_CAL.  A
    [float] is a real number here, so what is stated of SCALE_CAL:,
    CALIBRATE:, CAL_KNOWN: and MANUAL_CAL: holds for arguments that
    convert to a number, and says nothing of [nan]. *)
Variable atof : string -> R.

(** The [if / else if] chain of [process_udp_command], in source order.  The
    result is the response left in [response] for the final [sendto], or
    [None] where the branch returns after sending its own. *)
Definition dispatch_command (command : string) (st : state)
  : option response * state :=
  let cmd lit n := strncmp_eq command lit n in
  if cmd "RELAY_ON" 8%nat then
    (Some (text "RELAY_ON:SUCCESS"), gpio_set_level true st)
  else if cmd "RELAY_OFF" 9%nat then
    (Some (text "RELAY_OFF:SUCCESS"), gpio_set_level false st)
  else if cmd "RELAY_TOGGLE" 12%nat then
    let current_state := gpio_get_level st in
    (Some {| resp_fmt := "RELAY_TOGGLE:SUCCESS,STATE=%s";
             resp_args := [FStr (on_off (negb current_state))] |},
     gpio_set_level (negb current_state) st)
  else if cmd "AUTO_CAL_ON" 11%nat then
    (Some (text "AUTO_CAL_ON:SUCCESS"), set_auto_calibration true st)
  else if cmd "AUTO_CAL_OFF" 12%nat then
    (Some (text "AUTO_CAL_OFF:SUCCESS"), set_auto_calibration false st)
  else if cmd "AUTO_CAL_STATUS" 15%nat then
    (Some (nest "AUTO_CAL_STATUS:" (get_auto_cal_statistics st)), st)
  else if cmd "AUTO_CAL_SENSITIVITY:" 21%nat then
    let sensitivity := atof (string_from 21 command) in
    if Rgeb sensitivity 0 && Rleb sensitivity 1 then
      (Some {| resp_fmt := "AUTO_CAL_SENSITIVITY:SUCCESS,VALUE=%.2f";
               resp_args := [FFloat sensitivity] |},
       set_auto_cal_sensitivity sensitivity st)
    else (Some (text "AUTO_CAL_SENSITIVITY:ERROR,INVALID_RANGE"), st)
  else if cmd "AUTO_CAL_LEARNING_RATE:" 23%nat then
    let rate := atof (string_from 23 command) in
    if Rgeb rate 0 && Rleb rate 1 then
      (Some {| resp_fmt := "LEARNING_RATE:SUCCESS,VALUE=%.2f";
               resp_args := [FFloat rate] |},
       set_learning_rate rate st)
    else (Some (text "LEARNING_RATE:ERROR,INVALID_RANGE"), st)
  else if cmd "LIST_DEVICES" 12%nat then
    (Some (nest "DEVICE_LIST:" list_known_devices), st)
  else if cmd "RECOGNIZE_CURRENT:" 18%nat then
    let current := atof (string_from 18 command) in
    match recognize_device current with
    | Some device =>
        (Some {| resp_fmt :=
                   "DEVICE_RECOGNIZED:NAME=%s,TYPICAL=%.2fA,RANGE=%.2f-%.2fA";
                 resp_args := [ FStr (device_name device);
                                FFloat (typical_current device);
                                FFloat (min_current device);
                                FFloat (max_current device) ] |}, st)
    | None => (Some (text "DEVICE_RECOGNIZED:NONE"), st)
    end
  else if cmd "AUTO_RECOGNIZE" 14%nat then
    let current := get_detected_load_amps st in
    (Some {| resp_fmt := "AUTO_RECOGNIZE:PROCESSED,CURRENT=%.3fA";
             resp_args := [FFloat current] |},
     auto_recognize_and_calibrate current st)
  else if cmd "LEARNING_STATS" 14%nat then
    (Some {| resp_fmt := "LEARNING_STATS:POINTS=%d,RATE=%.2f,MAX_POINTS=%d";
             resp_args := [ FInt (get_learning_point_count st);
                            FFloat (get_learning_rate st);
                            FInt MAX_LEARNING_POINTS ] |}, st)
  else if cmd "RESET_LEARNING" 14%nat then
    (Some (text "RESET_LEARNING:SUCCESS"), reset_learning_data st)
  else if cmd "APPLY_LEARNING" 14%nat then
    (Some (text "APPLY_LEARNING:SUCCESS"), apply_learned_calibration st)
  else if cmd "ZERO_CAL" 8%nat then
    (None, perform_zero_calibration st)
  else if cmd "SCALE_CAL:" 10%nat then
    let known_current := atof (string_from 10 command) in
    (None, perform_scale_calibration known_current st)
  else if cmd "MANUAL_CAL:" 11%nat then
    match split_comma (string_from 11 command) with
    | Some (before, rest) =>
        let bias_voltage := atof before in
        let scale_factor := atof rest in
        let st := set_bias_voltage bias_voltage st in
        let st := set_amps_per_volt scale_factor st in
        (Some {| resp_fmt := "MANUAL_CAL:SUCCESS,BIAS=%.4f,SCALE=%.2f";
                 resp_args := [FFloat bias_voltage; FFloat scale_factor] |},
         st)
    | None => (Some (text "MANUAL_CAL:ERROR,INVALID_FORMAT"), st)
    end
  else if cmd "RESET_CAL" 9%nat then
    (None, reset_calibration st)
  else if cmd "CAL_STATUS" 10%nat then
    (Some (nest "CAL_STATUS:" (get_calibration_status st)), st)
  else if cmd "AUTO_DETECT" 11%nat then
    let st := auto_detect_load_current st in
    (Some {| resp_fmt := "AUTO_DETECT:SUCCESS,CURRENT=%.3fA";
             resp_args := [FFloat (get_detected_load_amps st)] |}, st)
  else if cmd "AUTO_DETECT_ON" 14%nat then
    (Some (text "AUTO_DETECT_ON:SUCCESS"), set_auto_detection true st)
  else if cmd "AUTO_DETECT_OFF" 15%nat then
    (Some (text "AUTO_DETECT_OFF:SUCCESS"), set_auto_detection false st)
  else if cmd "GET_CURRENT" 11%nat then
    let '(current, st) := get_instant_current_reading st in
    (Some {| resp_fmt := "CURRENT:INSTANT=%.3fA,DETECTED=%.3fA,VRMS=%.6fV";
             resp_args := [ FFloat current;
                            FFloat (get_detected_load_amps st);
                            FFloat (get_last_measured_vrms st) ] |}, st)
  else if cmd "MEASUREMENT_STATS" 17%nat then
    (Some (nest "MEASUREMENT_STATS:" (get_measurement_statistics st)), st)
  else if cmd "RESET_STATS" 11%nat then
    (Some (text "RESET_STATS:SUCCESS"),
     reset_auto_cal_statistics (reset_measurement_statistics st))
  else if cmd "BUFFER_ANALYSIS" 15%nat then
    (Some (nest "BUFFER_ANALYSIS:" (analyze_voltage_buffer st)), st)
  else if cmd "DEBUG_ADC" 9%nat then
    (Some (text "DEBUG_ADC:COMPLETE,CHECK_SERIAL_OUTPUT"),
     debug_adc_readings st)
  else if cmd "RECALIBRATE_BIAS" 16%nat then
    (None, perform_zero_calibration st)
  else if cmd "SCT_INFO" 8%nat then
    let st := print_sct_013_info st in
    (Some {| resp_fmt :=
               "SCT_INFO:THEORETICAL=%.1fA/V,CURRENT_SCALE=%.2fA/V,BIAS=%.4fV,BURDEN=%.1fOHM";
             resp_args := [ FFloat calculate_theoretical_scale_factor;
                            FFloat (get_amps_per_volt st);
                            FFloat (get_bias_voltage st);
                            FFloat SCT_013_BURDEN_RESISTOR ] |}, st)
  else if cmd "SYSTEM_STATUS" 13%nat then
    (Some {| resp_fmt :=
               "SYSTEM_STATUS:UPTIME=%lus,AUTO_CAL=%s,AUTO_DET=%s,CAL_COUNT=%lu,UDP_RUNNING=%s";
             resp_args := [ FInt (now_ms st / 1000)%Z;
                            FStr (on_off (get_auto_calibration_enabled st));
                            FStr (on_off (get_auto_detection_enabled st));
                            FInt (get_auto_cal_count st);
                            FStr (yes_no (is_udp_sender_running st)) ] |},
     st)
  else if cmd "PING" 4%nat then
    (Some (text "PONG:ESP32_READY,AUTO_CAL_ENABLED"), st)
  else if cmd "RESTART" 7%nat then
    let st := sendto (text "RESTART:ACKNOWLEDGED") st in
    let st := vTaskDelay 1000 st in
    (None, put_restarted true st)
  else if cmd "GET_CONFIG" 10%nat then
    (Some {| resp_fmt :=
               "CONFIG:AUTO_CAL=%s,AUTO_DET=%s,LEARNING=%s,DEVICE_RECOG=%s,SENSITIVITY=%.2f";
             resp_args := [ FStr (on_off AUTO_CAL_ENABLED);
                            FStr (on_off (get_auto_detection_enabled st));
                            FStr "ON"; FStr "ON";
                            FFloat (get_auto_cal_sensitivity st) ] |}, st)
  else if cmd "SET_BIAS:" 9%nat then
    let bias := atof (string_from 9 command) in
    if Rgeb bias 0.1 && Rleb bias 3.0 then
      (Some {| resp_fmt := "SET_BIAS:SUCCESS,VALUE=%.4f";
               resp_args := [FFloat bias] |},
       set_bias_voltage bias st)
    else (Some (text "SET_BIAS:ERROR,INVALID_RANGE"), st)
  else if cmd "SET_SCALE:" 10%nat then
    let scale := atof (string_from 10 command) in
    if Rgeb scale 1.0 && Rleb scale 1000.0 then
      (Some {| resp_fmt := "SET_SCALE:SUCCESS,VALUE=%.2f";
               resp_args := [FFloat scale] |},
       set_amps_per_volt scale st)
    else (Some (text "SET_SCALE:ERROR,INVALID_RANGE"), st)
  else if cmd "CALIBRATE:" 10%nat then
    let known_current := atof (string_from 10 command) in
    let st := calibrate_with_known_load known_current st in
    (Some {| resp_fmt := "CALIBRATE:SUCCESS,SCALE=%.2f";
             resp_args := [FFloat (get_amps_per_volt st)] |}, st)
  else if cmd "CAL_KNOWN:" 10%nat then
    let known_current := atof (string_from 10 command) in
    let st := calibrate_with_known_load known_current st in
    (Some {| resp_fmt := "CAL_KNOWN:SUCCESS,SCALE=%.2f";
             resp_args := [FFloat (get_amps_per_volt st)] |}, st)
  else if cmd "HELP" 4%nat then
    (Some (text
       "HELP:Commands available - RELAY_ON/OFF/TOGGLE, AUTO_CAL_ON/OFF, AUTO_DETECT, ZERO_CAL, SCALE_CAL:X, MANUAL_CAL:bias,scale, GET_CURRENT, SCT_INFO, SYSTEM_STATUS, LIST_DEVICES, LEARNING_STATS, PING, HELP"),
     st)
  else
    (Some {| resp_fmt := "ERROR:UNKNOWN_COMMAND:%s";
             resp_args := [FStr command] |},
     ESP_LOGW RECV_TAG "Unknown command: %s" st).

Definition process_udp_command (command : string) (st : state) : state :=
  let st := ESP_LOGI RECV_TAG "Processing command: %s" st in
  match dispatch_command command st with
  | (Some r, st) => ESP_LOGI RECV_TAG "Response sent: %s" (sendto r st)
  | (None, st) => st
  end.

End Receiver.

(** A decimal reading of [atof], for running commands on concrete text:
    optional sign, digits, optional point and digits. *)
Definition digit_of (c : ascii) : option Z :=
  let n := nat_of_ascii c in
  if (48 <=? n)%nat && (n <=? 57)%nat then Some (Z.of_nat (n - 48)) else None.

(** The leading digits of [s]: their value after [acc], how many there
    were after [cnt], and the rest of the text. *)
Fixpoint parse_digits (s : string) (acc : Z) (cnt : nat)
  : Z * nat * string :=
  match s with
  | EmptyString => (acc, cnt, s)
  | String c s' =>
      match digit_of c with
      | Some d => parse_digits s' (acc * 10 + d)%Z (S cnt)
      | None => (acc, cnt, s)
      end
  end.

(** Sign, integer part, fraction digits as an integer, number of fraction
    digits. *)
Definition parse_decimal (s : string) : bool * Z * Z * nat :=
  let '(neg, s1) :=
    match s with
    | String "-"%char r => (true, r)
    | String "+"%char r => (false, r)
    | _ => (false, s)
    end in
  let '(ip, _, s2) := parse_digits s1 0%Z O in
  let '(fp, k, _) :=
    match s2 with
    | String "."%char r => parse_digits r 0%Z O
    | _ => (0%Z, O, s2)
    end in
  (neg, ip, fp, k).

Definition atof_decimal (s : string) : R :=
  let '(neg, ip, fp, k) := parse_decimal s in
  let m := IZR ip + IZR fp / IZR (10 ^ Z.of_nat k) in
  if neg then - m else m.

(** ** Specification-side notions *)

(** The ticks read successfully among the outcomes [batch]. *)
Definition valid_ticks (batch : list (option Z)) : list Z :=
  flat_map (fun r => match r with Some v => [v] | None => [] end) batch.

(** Sum of a list of reals, as mathematics writes it. *)
Definition sum_of (l : list R) : R := fold_right Rplus 0 l.

(** Mean and population variance of a list. *)
Definition mean_of (l : list R) : R := sum_of l / INR (List.length l).

Definition population_variance (l : list R) : R :=
  sum_of (map (fun x => (x - mean_of l) ^ 2) l) / INR (List.length l).

(** The state in which the next operation runs when, in between, the clock
    has moved to [clock] and the coming ADC outcomes are [feed]. *)
Definition retime (clock : Z) (feed : list (option Z)) (st : state) : state :=
  put_adc_feed feed (put_clock_ms clock st).

(** The world after [n] rounds of a sampling loop that reads the ADC once
    and delays [ms] per round. *)
Fixpoint after_reads (n : nat) (ms : Z) (st : state) : state :=
  match n with
  | O => st
  | S k => after_reads k ms (vTaskDelay ms (snd (adc_oneshot_read st)))
  end.

(** The array update of [learn_from_calibration], on the learning group. *)
Definition store_point (p : calibration_point_t) (l : learning_state)
  : learning_state :=
  if (learning_point_count l <? MAX_LEARNING_POINTS)%Z then
    {| learning_points :=
         list_set (learning_points l) (Z.to_nat (learning_point_count l)) p;
       learning_point_count := (learning_point_count l + 1)%Z;
       learning_point_index := learning_point_index l |}
  else
    {| learning_points :=
         list_set (learning_points l) (Z.to_nat (learning_point_index l)) p;
       learning_point_count := learning_point_count l;
       learning_point_index :=
         Z.rem (learning_point_index l + 1) MAX_LEARNING_POINTS |}.

(** The catalog entry "Hair Dryer Low Setting". *)
Definition hair_dryer_low : device_profile_t :=
  {| min_current := 4.0; max_current := 6.0; typical_current := 5.0;
     device_name := "Hair Dryer Low Setting"; confidence_boost := 1.5 |}.

(** [x] lies in the closed range of profile [d]. *)
Definition within (x : R) (d : device_profile_t) : Prop :=
  min_current d <= x <= max_current d.

(** The AC magnitudes that [calibrate_with_known_load] keeps from a batch of
    read outcomes: those above 0.001 V. *)
Definition known_load_voltages (bias : R) (batch : list (option Z))
  : list R :=
  filter (fun ac => Rgtb ac 0.001)
    (map (fun v => Rabs (adc_to_voltage v - bias)) (valid_ticks batch)).

(** The learning point written by [learn_from_calibration]. *)
Definition new_point (expected measured : R) (ts : Z) (manual : bool)
  : calibration_point_t :=
  {| expected_current := expected; measured_voltage := measured;
     timestamp := ts; confidence := if manual then 1 else 0.8;
     auto_generated := negb manual |}.

(** Ten full-scale reads followed by forty failed ones: exactly ten usable
    samples for [calibrate_with_known_load]. *)
Definition ten_valid_feed : list (option Z) :=
  (repeat (Some 4095%Z) 10 ++ repeat None 40)%list.

Definition ten_valid_state : state :=
  boot_state (fresh_world 0 ten_valid_feed).

(** The two branches of [auto_recognize_and_calibrate] on a recognised
    [device], named for the statements below: after the first log line,
    the confidence test either calibrates against the profile's typical
    current, counts a success and learns, or counts a failure. *)
Definition high_confidence_path (measured_current : R)
    (device : device_profile_t) (st : state) : state :=
  let st := ESP_LOGI TAG "Auto-recognized device: %s (%.2fA typical)" st in
  let st :=
    ESP_LOGI TAG "High confidence (%.2f), auto-calibrating with %.2fA" st in
  let st := calibrate_with_known_load (typical_current device) st in
  let st :=
    put_successful_recognitions
      (u32 (successful_recognitions (stats st) + 1)) st in
  learn_from_calibration (typical_current device)
    (measured_current / get_amps_per_volt st) false st.

Definition low_confidence_path (st : state) : state :=
  let st := ESP_LOGI TAG "Auto-recognized device: %s (%.2fA typical)" st in
  let st :=
    ESP_LOGI TAG "Low confidence (%.2f), skipping auto-calibration" st in
  put_failed_recognitions (u32 (failed_recognitions (stats st) + 1)) st.

(** Feeding the detector the constant reading [c] once per entry of [ws];
    each entry gives the clock and the pending ADC outcomes at that
    reading. *)
Definition feed_constant (c : R) (ws : list (Z * list (option Z)))
    (st : state) : state :=
  fold_left
    (fun st w =>
       process_current_for_auto_calibration c (retime (fst w) (snd w) st))
    ws st.

(** The detector at rest with nothing recorded yet: a 50-entry ring at
    index 0 that has not wrapped, the state machine Idle, the controller
    enabled. *)
Definition detector_at_rest (st : state) : Prop :=
  List.length (current_history (history st)) = 50%nat
  /\ history_index (history st) = 0%Z
  /\ history_full (history st) = false
  /\ in_stable_period (stability st) = false
  /\ auto_calibration_enabled (det st) = true.

(** The ring while it fills with the constant [c]: [k] readings in. *)
Definition filling (c : R) (k : nat) (st : state) : Prop :=
  List.length (current_history (history st)) = 50%nat
  /\ history_index (history st) = Z.of_nat k
  /\ history_full (history st) = false
  /\ firstn k (current_history (history st)) = repeat c k
  /\ in_stable_period (stability st) = false
  /\ auto_calibration_enabled (det st) = true.

(** The ring once it holds 50 readings of the constant [c]. *)
Definition filled (c : R) (st : state) : Prop :=
  current_history (history st) = repeat c 50
  /\ history_full (history st) = true
  /\ (0 <= history_index (history st) < 50)%Z
  /\ auto_calibration_enabled (det st) = true.

(** The state in which [stable_period_start] calls the device
    recognition. *)
Definition at_stable_start (mean : R) (st : state) : state :=
  ESP_LOGI TAG "Stable load detected: %.3fA"
    (put_in_stable_period true
       (put_stable_load_value mean
          (put_stable_load_start (now_ms st) st))).

(** A plug 340 s after power-up whose ring holds 50 readings of 3.0 A, in a
    stable period that began at 150 s, never scale-calibrated
    ([last_scale_calibration] still 0). *)
Definition held_state : state :=
  put_stable_load_start 150000%Z
    (put_in_stable_period true
       (put_stable_load_value 3
          (put_history_full true
             (put_current_history (repeat 3 50)
                (boot_state (fresh_world 340000 [])))))).

(** A plug in Idle whose ring holds 50 readings of 5 A, 2000 s after
    power-up. *)
Definition steady_load_state : state :=
  put_history_full true
    (put_current_history (repeat 5 50)
       (boot_state (fresh_world 2000000 (repeat (Some 4095%Z) 100)))).

(** The points that enter the learned estimate: measured voltage above
    0.001 V. *)
Definition usable_points (points : list calibration_point_t)
  : list calibration_point_t :=
  filter (fun p => Rgtb (measured_voltage p) 0.001) points.

(** The weighted sums of the learned estimate, as mathematics writes
    them. *)
Definition weighted_numerator (rate : R) (now : Z)
    (points : list calibration_point_t) : R :=
  sum_of (map (fun p => expected_current p * point_weight rate now p)
              (usable_points points)).

Definition weighted_denominator (rate : R) (now : Z)
    (points : list calibration_point_t) : R :=
  sum_of (map (fun p => measured_voltage p * point_weight rate now p)
              (usable_points points)).

Definition total_point_weight (rate : R) (now : Z)
    (points : list calibration_point_t) : R :=
  sum_of (map (point_weight rate now) (usable_points points)).

(** Two manual points taken at time [now]. *)
Definition two_manual_points (now : Z) : list calibration_point_t :=
  [ new_point 5 0.025 now true; new_point 10 0.05 now true ].

(** A freshly booted plug with learning rate 1 after three manual
    calibration points (11 A, 0.05 V), (22 A, 0.1 V), (5.5 A, 0.025 V). *)
Definition three_point_state : state :=
  learn_from_calibration 5.5 0.025 true
    (learn_from_calibration 22 0.1 true
       (learn_from_calibration 11 0.05 true
          (put_learning_rate 1 (boot_state (fresh_world 1000 []))))).

(** The AC components of the successfully read ticks of a batch:
    converted voltage minus bias. *)
Definition ac_voltages (bias : R) (batch : list (option Z)) : list R :=
  map (fun a => adc_to_voltage a - bias) (valid_ticks batch).

(** The warning of [measure_rms_current] when no tick was read. *)
Definition no_samples_warning : log_entry :=
  {| log_lvl := LOG_W; log_tag := SENDER_TAG;
     log_fmt := "No valid ADC samples obtained" |}.

(** The sensitivity in force. *)
Definition sensitivity (st : state) : R := auto_cal_sensitivity (autocal st).

(** An hour or more has passed since the last adjustment. *)
Definition adjustment_due (st : state) : Prop :=
  (u32 (now_ms st - last_adjustment (autocal st)) >= 60 * 60 * 1000)%Z.

(** The sensitivities reached from the default 0.7 in steps of 0.05 within
    the band: 0.3, 0.35, ..., 0.9. *)
Definition on_grid (s : R) : Prop :=
  exists k : Z, (0 <= k <= 12)%Z /\ s = 0.3 + 0.05 * IZR k.

(** One hour after power-up, sensitivity overridden to 0.88, nine
    recognitions out of ten successful. *)
Definition eager_state : state :=
  put_successful_recognitions 9%Z
    (put_failed_recognitions 1%Z
       (set_auto_cal_sensitivity 0.88
          (boot_state (fresh_world 3600000 [])))).

(** Fifty readings taken 2 s apart, with no ADC read pending. *)
Definition fifty_readings : list (Z * list (option Z)) :=
  map (fun k => ((Z.of_nat k * 2000)%Z, [])) (seq 1 50).

(** A known load sampled at full scale on all 50 ticks. *)
Definition full_scale_state : state :=
  boot_state (fresh_world 0 (repeat (Some 4095%Z) 50)).

(** No load: the bias calibrated to the voltage of raw value 2048 and a
    batch of 100 ticks all reading 2048. *)
Definition zero_load_state : state :=
  put_bias_voltage (adc_to_voltage 2048)
    (boot_state (fresh_world 0 (repeat (Some 2048%Z) 100))).

(** ** Notions for the further properties *)

(** The learning store as the code keeps it: a 50-slot array, a count of at
    most 50 and a write index inside the array. *)
Definition learning_ok (l : learning_state) : Prop :=
  List.length (learning_points l) = 50%nat
  /\ (0 <= learning_point_count l <= 50)%Z
  /\ (0 <= learning_point_index l < 50)%Z.

(** The slot [learn_from_calibration] writes: the next free one while the
    array fills, the one under the write index once it is full. *)
Definition next_slot (l : learning_state) : nat :=
  if (learning_point_count l <? MAX_LEARNING_POINTS)%Z
  then Z.to_nat (learning_point_count l)
  else Z.to_nat (learning_point_index l).

(** The history ring as the code keeps it: 50 entries and a write index
    inside the array. *)
Definition history_ok (h : history_state) : Prop :=
  List.length (current_history h) = 50%nat
  /\ (0 <= history_index h < 50)%Z.

(** Sum of a list of integers, as mathematics writes it. *)
Definition Zsum (l : list Z) : Z := fold_right Z.add 0%Z l.

(** The [uint32_t] accumulation [voltage_sum += adc_value] over the ticks
    read, from the running sum [acc]. *)
Definition raw_sum_from (acc : Z) (ticks : list Z) : Z :=
  fold_left (fun s a => u32 (s + a)) ticks acc.

(** The error line of [auto_calibrate_bias_voltage]. *)
Definition bias_failed_entry : log_entry :=
  {| log_lvl := LOG_E; log_tag := TAG;
     log_fmt := "Bias calibration failed - insufficient samples" |}.

(** What only the configuration commands, the relay commands and the
    answers to commands change: the two enable flags, the sensitivity, the
    learning rate, the datagrams sent, the relay pin, the sender flag, the
    number of controller tasks started and the restart request. *)
Definition settings (st : state)
  : bool * bool * R * R * list response * bool * bool * nat * bool :=
  (auto_detection_enabled (det st), auto_calibration_enabled (det st),
   auto_cal_sensitivity (autocal st), learning_rate (autocal st),
   udp_sent (env st), relay_level (env st), udp_sender_running (env st),
   tasks_created (env st), restarted (env st)).

(** What holds of the result [p] of dispatching any command in state
    [st]: the auto-detection flag is kept; a response left for the final
    [sendto] comes with no datagram sent yet, a branch that returns early
    has sent exactly one; sensitivity and learning rate stay in [0, 1]; the
    relay pin, the restart request, the controller tasks and the
    auto-calibration flag change only under the prefixes named. *)
Definition dispatch_facts (command : string) (st : state)
    (p : option response * state) : Prop :=
  let st' := snd p in
  auto_detection_enabled (det st') = auto_detection_enabled (det st)
  /\ match fst p with
     | Some _ => udp_sent (env st') = udp_sent (env st)
     | None => exists r, udp_sent (env st') = r :: udp_sent (env st)
     end
  /\ (0 <= auto_cal_sensitivity (autocal st) <= 1 ->
      0 <= auto_cal_sensitivity (autocal st') <= 1)
  /\ (0 <= learning_rate (autocal st) <= 1 ->
      0 <= learning_rate (autocal st') <= 1)
  /\ (strncmp_eq command "RELAY_" 6 = false ->
      relay_level (env st') = relay_level (env st))
  /\ (strncmp_eq command "RESTART" 7 = false ->
      restarted (env st') = restarted (env st))
  /\ (strncmp_eq command "AUTO_CAL_ON" 11 = false ->
      tasks_created (env st') = tasks_created (env st))
  /\ (strncmp_eq command "AUTO_CAL_O" 10 = false ->
      auto_calibration_enabled (det st')
      = auto_calibration_enabled (det st)).

(** The two parts of a round of the controller: the zero-point
    recalibration taken when it is due, and what every round ends with. *)
Definition zero_point_step (st : state) : state :=
  let st :=
    ESP_LOGI TAG "Performing automatic zero-point recalibration" st in
  let st := auto_calibrate_bias_voltage st in
  let st := put_last_zero_calibration (now_ms st) st in
  put_auto_cal_count (u32 (auto_cal_count (stats st) + 1)) st.

Definition round_tail (st : state) : state :=
  let st :=
    if (learning_point_count (learning st) >=? MIN_LEARNING_POINTS)%Z
    then apply_learned_calibration st else st in
  let st := adaptive_threshold_adjustment st in
  vTaskDelay 30000 st.

(** The name of the profile recognised for a current, if any. *)
Definition recognized_name (current_amps : R) : option string :=
  option_map device_name (recognize_device current_amps).

(** The currents [auto_detect_load_current] keeps from a batch of read
    outcomes: those in [0, MAX_CURRENT_AMPS). *)
Definition detect_currents (bias scale : R) (batch : list (option Z))
  : list R :=
  filter (fun c => Rgeb c 0 && Rltb c MAX_CURRENT_AMPS)
    (map (fun v => Rabs (adc_to_voltage v - bias) * scale)
         (valid_ticks batch)).

(** The warning of [auto_detect_load_current] when no sample is usable. *)
Definition detect_failed_entry : log_entry :=
  {| log_lvl := LOG_W; log_tag := TAG;
     log_fmt := "Failed to detect valid load current" |}.

(** The bias voltage [auto_calibrate_bias_voltage] leaves, from the bias
    before and the coming read outcomes. *)
Definition calibrated_bias (bias : R) (feed : list (option Z)) : R :=
  let ticks := valid_ticks (firstn 100 feed) in
  if (Z.of_nat (List.length ticks) >? 50)%Z then
    IZR (raw_sum_from 0 ticks) / IZR (Z.of_nat (List.length ticks))
    / ADC_RESOLUTION * ADC_VOLTAGE_RANGE
  else bias.

(** Every read of [batch] succeeds with an AC magnitude of exactly [a]
    around the bias: a load drawing a steady current. *)
Definition swings (bias a : R) (batch : list (option Z)) : Prop :=
  Forall (fun r => exists v, r = Some v
                             /\ Rabs (adc_to_voltage v - bias) = a) batch.

(** Reads that succeed and alternate between the raw values [x] and [y],
    [n] of each. *)
Definition alternates (x y : Z) (n : nat) : list (option Z) :=
  List.concat (repeat [Some x; Some y] n).

(** The sample ring of udp_sender.c as the code keeps it: 100 entries and
    a write index inside the array. *)
Definition buffer_ok (s : sender_state) : Prop :=
  List.length (voltage_buffer s) = 100%nat
  /\ (0 <= buffer_index s < 100)%Z.

(** ** relay.c

    [relay_state] and [relay_initialized] are the statics of the file;
    the pin is [relay_level] of the world.  [gpio_set_level] on the valid
    pin RELAY_GPIO returns [ESP_OK].  [relay_init] configures the pad
    [GPIO_MODE_OUTPUT], so from then on [gpio_get_level] returns 0. *)

Definition RELAY_TAG : string := "RELAY".

Record relay_statics := {
  relay_state : bool;
  relay_initialized : bool
}.

(** The statics as the C initialisers leave them. *)
Definition relay_boot : relay_statics :=
  {| relay_state := false; relay_initialized := false |}.

(** [gpio_config_ok]: whether [gpio_config] returns [ESP_OK]. *)
Definition relay_init (gpio_config_ok : bool) (r : relay_statics)
    (st : state) : relay_statics * state :=
  let st := ESP_LOGI RELAY_TAG "Initializing relay on GPIO %d..." st in
  if negb gpio_config_ok then
    (r, ESP_LOGE RELAY_TAG "Failed to configure relay GPIO: %s" st)
  else
    let st := gpio_config_output st in
    let st := gpio_set_level false st in
    let r := {| relay_state := false; relay_initialized := true |} in
    let st :=
      ESP_LOGI RELAY_TAG
        "Relay initialized successfully on GPIO %d, starting OFF" st in
    let st := ESP_LOGI RELAY_TAG "Testing relay..." st in
    let st := vTaskDelay 100 st in
    let st := gpio_set_level true st in
    let st := vTaskDelay 200 st in
    let st := gpio_set_level false st in
    (r, ESP_LOGI RELAY_TAG "Relay test complete" st).

Definition relay_toggle (r : relay_statics) (st : state)
  : relay_statics * state :=
  if negb (relay_initialized r) then
    (r, ESP_LOGE RELAY_TAG "Relay not initialized - cannot toggle" st)
  else
    let r := {| relay_state := negb (relay_state r);
                relay_initialized := relay_initialized r |} in
    let gpio_level := relay_state r in
    let st :=
      ESP_LOGI RELAY_TAG "Toggling relay to %s (GPIO level: %d)" st in
    let st := gpio_set_level gpio_level st in
    let actual_level := gpio_get_level st in
    if Bool.eqb actual_level gpio_level then
      (r, ESP_LOGI RELAY_TAG "Relay successfully toggled to %s" st)
    else
      (r, ESP_LOGE RELAY_TAG "Relay toggle failed - expected %d, got %d" st).

Definition relay_get_state (r : relay_statics) : bool := relay_state r.

Definition relay_set_state (new_state : bool) (r : relay_statics)
    (st : state) : relay_statics * state :=
  if negb (relay_initialized r) then
    (r, ESP_LOGE RELAY_TAG "Relay not initialized - cannot set state" st)
  else
    let r := {| relay_state := new_state;
                relay_initialized := relay_initialized r |} in
    let st := ESP_LOGI RELAY_TAG "Setting relay to %s" st in
    (r, gpio_set_level new_state st).

(** The software state of relay.c agrees with the pin. *)
Definition relay_in_sync (r : relay_statics) (st : state) : Prop :=
  relay_state r = relay_level (env st).

(** ** wifi_credentials_receiver.c *)

Definition MAX_RETRY_ATTEMPTS : Z := 3%Z.
Definition MAX_SSID_LEN : nat := 32.
Definition MAX_PASSWORD_LEN : nat := 64.
Definition RX_BUFFER_SIZE : nat := 256.

(** The first [n] characters of [s]: [strncpy(dst, s, n)] into a zeroed
    buffer, closed by [dst[n] = '\0']. *)
Fixpoint string_take (n : nat) (s : string) : string :=
  match n, s with
  | O, _ => EmptyString
  | S _, EmptyString => EmptyString
  | S k, String c s' => String c (string_take k s')
  end.

(** A byte buffer read as a C string: the characters before the first
    NUL. *)
Fixpoint c_string (s : string) : string :=
  match s with
  | EmptyString => EmptyString
  | String c s' =>
      if Ascii.eqb c Ascii.zero then EmptyString else String c (c_string s')
  end.

(** [rx_buffer] after [recvfrom] of a datagram with the given payload into
    [sizeof(rx_buffer) - 1] bytes and [rx_buffer[len] = '\0']. *)
Definition received_text (payload : string) : string :=
  c_string (string_take (RX_BUFFER_SIZE - 1) payload).

(** The credentials parsed from [rx_buffer]: SSID and password. *)
Definition parse_credentials (rx_buffer : string) : string * string :=
  match split_comma rx_buffer with
  | Some (before, rest) =>
      (string_take MAX_SSID_LEN before, string_take MAX_PASSWORD_LEN rest)
  | None => (string_take MAX_SSID_LEN rx_buffer, EmptyString)
  end.

(** What the task has done: the datagrams sent back, oldest first, the
    credentials handed to [connect_to_wifi], oldest first, the failures
    counted and whether a connection was made. *)
Record credentials_outcome := {
  cred_replies : list string;
  cred_attempts : list (string * string);
  cred_retry_count : Z;
  cred_connected : bool
}.

(** The receive loop of [wifi_credentials_task].  Each entry of [incoming]
    is the outcome of one [recvfrom] ([None]: time-out or error, [Some p]:
    a datagram with payload [p]) together with the answer
    [connect_to_wifi] gives if it is called in that round.  The loop ends
    on a connection or at [MAX_RETRY_ATTEMPTS] failures; [incoming] running
    out stands for the task still waiting. *)
Fixpoint credentials_loop (incoming : list (option string * bool))
    (o : credentials_outcome) : credentials_outcome :=
  match incoming with
  | [] => o
  | (r, connects) :: later =>
      if (cred_retry_count o <? MAX_RETRY_ATTEMPTS)%Z then
        match r with
        | Some payload =>
            if (0 <? String.length (string_take (RX_BUFFER_SIZE - 1)
                                      payload))%nat then
              let '(ssid, password) :=
                parse_credentials (received_text payload) in
              let replies := (cred_replies o ++ ["RECEIVED"])%list in
              if (0 <? String.length ssid)%nat then
                let attempts :=
                  (cred_attempts o ++ [(ssid, password)])%list in
                if connects then
                  {| cred_replies := (replies ++ ["SUCCESS"])%list;
                     cred_attempts := attempts;
                     cred_retry_count := cred_retry_count o;
                     cred_connected := true |}
                else
                  credentials_loop later
                    {| cred_replies := (replies ++ ["FAILED"])%list;
                       cred_attempts := attempts;
                       cred_retry_count := (cred_retry_count o + 1)%Z;
                       cred_connected := false |}
              else
                credentials_loop later
                  {| cred_replies := (replies ++ ["FAILED"])%list;
                     cred_attempts := cred_attempts o;
                     cred_retry_count := (cred_retry_count o + 1)%Z;
                     cred_connected := false |}
            else credentials_loop later o
        | None => credentials_loop later o
        end
      else o
  end.

(** The task starts with nothing sent and no failure counted. *)
Definition credentials_start : credentials_outcome :=
  {| cred_replies := []; cred_attempts := []; cred_retry_count := 0%Z;
     cred_connected := false |}.

(** No character of [s] is [c]. *)
Fixpoint string_avoids (c : ascii) (s : string) : Prop :=
  match s with
  | EmptyString => True
  | String d s' => d <> c /\ string_avoids c s'
  end.

(** Credentials that [wifi_credentials_task] may hand on: a non-empty SSID
    of at most 32 characters and a password of at most 64. *)
Definition well_sized (a : string * string) : Prop :=
  (0 < String.length (fst a) <= 32)%nat
  /\ (String.length (snd a) <= 64)%nat.

(** The datagrams a task has handled: one per failure counted, and the one
    that connected. *)
Definition handled (o : credentials_outcome) : Z :=
  (cred_retry_count o + if cred_connected o then 1 else 0)%Z.

(** A [recvfrom] outcome that carries at least one byte. *)
Definition carries_data (e : option string * bool) : bool :=
  match fst e with
  | Some payload =>
      (0 <? String.length (string_take (RX_BUFFER_SIZE - 1) payload))%nat
  | None => false
  end.

(** ** wifi.c: the event handler

    [retry_count] is the function static of [wifi_event_handler];
    [connected_bit] and [fail_bit] are WIFI_CONNECTED_BIT and WIFI_FAIL_BIT
    of the event group; [connect_calls] counts the calls of
    [esp_wifi_connect]. *)

Definition WIFI_TAG : string := "WIFI".

(** The pairs of [event_base] and [event_id] the handler tells apart;
    [OTHER_EVENT] is any other pair. *)
Inductive wifi_event :=
| WIFI_EVENT_STA_START
| IP_EVENT_STA_GOT_IP
| WIFI_EVENT_STA_DISCONNECTED
| WIFI_EVENT_AP_START
| WIFI_EVENT_AP_STOP
| WIFI_EVENT_AP_STACONNECTED
| OTHER_EVENT.

Record wifi_statics := {
  retry_count : Z;
  connected_bit : bool;
  fail_bit : bool;
  connect_calls : nat
}.

(** The handler's statics and the event group as created. *)
Definition wifi_boot : wifi_statics :=
  {| retry_count := 0%Z; connected_bit := false; fail_bit := false;
     connect_calls := O |}.

Definition esp_wifi_connect (w : wifi_statics) : wifi_statics :=
  {| retry_count := retry_count w; connected_bit := connected_bit w;
     fail_bit := fail_bit w; connect_calls := S (connect_calls w) |}.

(** [(retry_count < 5) ? (1000 * (1 << retry_count)) : 30000] *)
Definition reconnect_delay_ms (retry_count : Z) : Z :=
  if (retry_count <? 5)%Z then (1000 * Z.shiftl 1 retry_count)%Z
  else 30000%Z.

Definition wifi_event_handler (e : wifi_event) (w : wifi_statics)
    (st : state) : wifi_statics * state :=
  match e with
  | WIFI_EVENT_STA_START =>
      let st :=
        ESP_LOGI WIFI_TAG "STA started, attempting connection..." st in
      (esp_wifi_connect w, st)
  | IP_EVENT_STA_GOT_IP =>
      let st := ESP_LOGI WIFI_TAG "WiFi connected! Got IP: " st in
      let w :=
        {| retry_count := retry_count w; connected_bit := true;
           fail_bit := fail_bit w; connect_calls := connect_calls w |} in
      (w, ESP_LOGI WIFI_TAG "Disabled WiFi power saving" st)
  | WIFI_EVENT_STA_DISCONNECTED =>
      let st := ESP_LOGW WIFI_TAG "Disconnected from WiFi (reason: %d)" st in
      let w :=
        {| retry_count := retry_count w; connected_bit := false;
           fail_bit := true; connect_calls := connect_calls w |} in
      let delay_ms := reconnect_delay_ms (retry_count w) in
      let w :=
        {| retry_count := (retry_count w + 1)%Z;
           connected_bit := connected_bit w; fail_bit := fail_bit w;
           connect_calls := connect_calls w |} in
      let st := vTaskDelay delay_ms st in
      let w := esp_wifi_connect w in
      let st :=
        ESP_LOGI WIFI_TAG
          "Attempting to reconnect (retry %d, delay %dms)..." st in
      let w :=
        if (retry_count w >? 10)%Z then
          {| retry_count := 0%Z; connected_bit := connected_bit w;
             fail_bit := fail_bit w; connect_calls := connect_calls w |}
        else w in
      (w, st)
  | WIFI_EVENT_AP_START => (w, ESP_LOGI WIFI_TAG "AP started successfully" st)
  | WIFI_EVENT_AP_STOP => (w, ESP_LOGI WIFI_TAG "AP stopped" st)
  | WIFI_EVENT_AP_STACONNECTED =>
      (w, ESP_LOGI WIFI_TAG
            "Station connected to AP, MAC: %02x:%02x:%02x:%02x:%02x:%02x" st)
  | OTHER_EVENT => (w, st)
  end.

(** The handler run on a sequence of events, oldest first. *)
Definition wifi_events (es : list wifi_event) (w : wifi_statics)
    (st : state) : wifi_statics * state :=
  fold_left (fun p e => wifi_event_handler e (fst p) (snd p)) es (w, st).

(** ** main.c: start-up calibration *)

Definition MAIN_TAG : string := "MAIN".

(** The sampling loop of [perform_comprehensive_startup_calibration];
    [raw_sum] is a [uint32_t]. *)
Fixpoint startup_samples (n : nat) (raw_sum : Z) (valid_samples : Z)
    (st : state) : Z * Z * state :=
  match n with
  | O => (raw_sum, valid_samples, st)
  | S k =>
      let '(r, st1) := adc_oneshot_read st in
      let '(sum1, valid1) :=
        match r with
        | Some adc_value => (u32 (raw_sum + adc_value), (valid_samples + 1)%Z)
        | None => (raw_sum, valid_samples)
        end in
      startup_samples k sum1 valid1 (vTaskDelay 10 st1)
  end.

Definition perform_comprehensive_startup_calibration (st : state) : state :=
  let st := ESP_LOGI MAIN_TAG "=== COMPREHENSIVE STARTUP CALIBRATION ===" st in
  let st :=
    ESP_LOGI MAIN_TAG
      "CRITICAL: Ensure NO devices are connected to extension cord!" st in
  let st := ESP_LOGI MAIN_TAG "Waiting for ADC stabilization..." st in
  let st := vTaskDelay 3000 st in
  let st := ESP_LOGI MAIN_TAG "Step 1: Taking initial ADC readings..." st in
  let '(raw_sum, valid_samples, st) := startup_samples 100 0%Z 0%Z st in
  let st :=
    if (valid_samples >? 0)%Z then
      let avg_raw := IZR raw_sum / IZR valid_samples in
      let avg_voltage := avg_raw / ADC_RESOLUTION * ADC_VOLTAGE_RANGE in
      let current_with_default_bias := Rabs (avg_voltage - 1.65) * 200 in
      let st :=
        ESP_LOGI MAIN_TAG "Initial readings: ADC=%.1f, Voltage=%.6fV" st in
      let st :=
        ESP_LOGI MAIN_TAG "Current with default bias (1.65V): %.3fA" st in
      let st :=
        if Rgtb current_with_default_bias 5 then
          let st :=
            ESP_LOGW MAIN_TAG
              "HIGH CURRENT DETECTED WITH NO LOAD - bias voltage is wrong!"
              st in
          let st :=
            ESP_LOGI MAIN_TAG "Your circuit's actual DC level is: %.6fV"
              st in
          ESP_LOGI MAIN_TAG "This explains the false high current readings"
            st
        else st in
      let st :=
        ESP_LOGI MAIN_TAG "Step 2: Setting correct bias voltage..." st in
      let st := set_bias_voltage avg_voltage st in
      let st := vTaskDelay 1000 st in
      let new_current := Rabs (avg_voltage - avg_voltage) * 200 in
      let st :=
        ESP_LOGI MAIN_TAG
          "Current after bias correction: %.6fA (should be near zero)" st in
      if Rltb new_current 0.1 then
        ESP_LOGI MAIN_TAG "SUCCESS: Bias voltage corrected!" st
      else
        ESP_LOGW MAIN_TAG "Bias correction may need additional adjustment" st
    else st in
  ESP_LOGI MAIN_TAG "=== STARTUP CALIBRATION COMPLETE ===" st.

(** The calibration steps of [app_main], in order. *)
Definition startup_sequence (st : state) : state :=
  let st := ESP_LOGI MAIN_TAG "Initializing calibration system..." st in
  let st := sct_calibration_init st in
  perform_comprehensive_startup_calibration st.

(** The warning of the verification step of the start-up calibration. *)
Definition bias_adjustment_warning : log_entry :=
  {| log_lvl := LOG_W; log_tag := MAIN_TAG;
     log_fmt := "Bias correction may need additional adjustment" |}.

(** The mean of raw ADC values, converted to volts. *)
Definition mean_voltage (ticks : list Z) : R :=
  IZR (Zsum ticks) / INR (List.length ticks) / ADC_RESOLUTION
  * ADC_VOLTAGE_RANGE.


(** ** udp_sender.c: the sender task *)

(** The arguments of the [snprintf] that builds a data packet
    ["SEQ=%lu,TIME=%lu,CURRENT=%.6f,VOLTAGE_RMS=%.6f,POWER=%.2f,CAL_STATUS=%s,AUTO_CAL=%s"];
    [pkt_auto_cal] is [None] for the empty string. *)
Record data_packet := {
  pkt_seq : Z;
  pkt_time : Z;
  pkt_current : R;
  pkt_voltage_rms : R;
  pkt_power : R;
  pkt_cal_status : response;
  pkt_auto_cal : option response
}.

(** One round of the [while (udp_sender_running)] loop of
    [udp_sender_task] with [sequence_number] as it stands; [send_ok] is
    whether [sendto] returns a non-negative count.  The result is the
    packet handed to [sendto], the next sequence number and the state. *)
Definition udp_sender_round (send_ok : bool) (sequence_number : Z)
    (st : state) : data_packet * Z * state :=
  let '(current_amps, st) := measure_rms_current st in
  let timestamp := now_ms st in
  let cal_status := get_calibration_status st in
  let auto_cal_info :=
    if get_auto_calibration_enabled st
    then Some (get_auto_cal_statistics st) else None in
  let packet :=
    {| pkt_seq := sequence_number; pkt_time := timestamp;
       pkt_current := current_amps;
       pkt_voltage_rms := last_measured_vrms (sender st);
       pkt_power := current_amps * 120;
       pkt_cal_status := cal_status; pkt_auto_cal := auto_cal_info |} in
  let st :=
    if negb send_ok then
      ESP_LOGW SENDER_TAG "Failed to send UDP packet" st
    else if (sequence_number mod 50 =? 0)%Z then
      ESP_LOGI SENDER_TAG "Sent packet %lu: %.3fA, %.4fV RMS" st
    else st in
  (packet, u32 (sequence_number + 1), vTaskDelay 2000 st).

(** The command words of [process_udp_command] with the number of
    characters compared, in the order of the tests. *)
Definition command_words : list (string * nat) :=
  [ ("RELAY_ON", 8); ("RELAY_OFF", 9); ("RELAY_TOGGLE", 12);
    ("AUTO_CAL_ON", 11); ("AUTO_CAL_OFF", 12); ("AUTO_CAL_STATUS", 15);
    ("AUTO_CAL_SENSITIVITY:", 21); ("AUTO_CAL_LEARNING_RATE:", 23);
    ("LIST_DEVICES", 12); ("RECOGNIZE_CURRENT:", 18); ("AUTO_RECOGNIZE", 14);
    ("LEARNING_STATS", 14); ("RESET_LEARNING", 14); ("APPLY_LEARNING", 14);
    ("ZERO_CAL", 8); ("SCALE_CAL:", 10); ("MANUAL_CAL:", 11);
    ("RESET_CAL", 9); ("CAL_STATUS", 10); ("AUTO_DETECT", 11);
    ("AUTO_DETECT_ON", 14); ("AUTO_DETECT_OFF", 15); ("GET_CURRENT", 11);
    ("MEASUREMENT_STATS", 17); ("RESET_STATS", 11); ("BUFFER_ANALYSIS", 15);
    ("DEBUG_ADC", 9); ("RECALIBRATE_BIAS", 16); ("SCT_INFO", 8);
    ("SYSTEM_STATUS", 13); ("PING", 4); ("RESTART", 7); ("GET_CONFIG", 10);
    ("SET_BIAS:", 9); ("SET_SCALE:", 10); ("CALIBRATE:", 10);
    ("CAL_KNOWN:", 10); ("HELP", 4) ]%nat.

(** [command] starts with none of the command words. *)
Definition unknown_command (command : string) : Prop :=
  forall w n, In (w, n) command_words -> strncmp_eq command w n = false.

(** Storing the samples [xs] one after the other into the ring [buf] from
    write index [i], as the loop of [measure_rms_current] does: the ring
    and the write index afterwards. *)
Definition ring_store (buf : list R) (i : Z) (xs : list R) : list R * Z :=
  fold_left
    (fun p x =>
       (list_set (fst p) (Z.to_nat (snd p)) x,
        Z.rem (snd p + 1) RMS_BUFFER_SIZE))
    xs (buf, i).

(** * Properties *)

(** ** Comparisons *)

Lemma Rltb_true (x y : R) : Rltb x y = true <-> x < y.
Proof. unfold Rltb. destruct (Rlt_dec x y); split; intros; try easy. Qed.

Lemma Rltb_false (x y : R) : Rltb x y = false <-> y <= x.
Proof.
  unfold Rltb. destruct (Rlt_dec x y); split; intros; try easy; lra.
Qed.

Lemma Rleb_true (x y : R) : Rleb x y = true <-> x <= y.
Proof. unfold Rleb. destruct (Rle_dec x y); split; intros; try easy. Qed.

Lemma Rleb_false (x y : R) : Rleb x y = false <-> y < x.
Proof.
  unfold Rleb. destruct (Rle_dec x y); split; intros; try easy; lra.
Qed.

Lemma Rgtb_true (x y : R) : Rgtb x y = true <-> x > y.
Proof. unfold Rgtb. rewrite Rltb_true. lra. Qed.

Lemma Rgtb_false (x y : R) : Rgtb x y = false <-> x <= y.
Proof. unfold Rgtb. rewrite Rltb_false. lra. Qed.

Lemma Rgeb_true (x y : R) : Rgeb x y = true <-> x >= y.
Proof. unfold Rgeb. rewrite Rleb_true. lra. Qed.

(** Decide a comparison between concrete reals. *)
Ltac rcmp :=
  repeat
    match goal with
    | |- context [Rltb ?a ?b] =>
        first [ replace (Rltb a b) with true
                  by (symmetry; apply Rltb_true; lra)
              | replace (Rltb a b) with false
                  by (symmetry; apply Rltb_false; lra) ]
    | |- context [Rleb ?a ?b] =>
        first [ replace (Rleb a b) with true
                  by (symmetry; apply Rleb_true; lra)
              | replace (Rleb a b) with false
                  by (symmetry; apply Rleb_false; lra) ]
    end.

(** ** Sums *)

Lemma fold_left_Rplus_acc (l : list R) (a : R) :
  fold_left Rplus l a = a + sum_of l.
Proof.
  revert a. induction l as [|x l IH]; intros a; simpl.
  - lra.
  - rewrite IH. lra.
Qed.

Lemma sum_of_cons (x : R) (l : list R) : sum_of (x :: l) = x + sum_of l.
Proof. reflexivity. Qed.

Lemma Rsum_sum_of (l : list R) : Rsum l = sum_of l.
Proof. unfold Rsum. rewrite fold_left_Rplus_acc. lra. Qed.

Lemma sum_of_repeat (c : R) (n : nat) : sum_of (repeat c n) = INR n * c.
Proof.
  induction n as [|n IH].
  - simpl. lra.
  - rewrite S_INR. simpl repeat. simpl sum_of. rewrite IH. lra.
Qed.

Lemma map_repeat {A B : Type} (f : A -> B) (c : A) (n : nat) :
  map f (repeat c n) = repeat (f c) n.
Proof. induction n as [|n IH]; simpl; [reflexivity | now rewrite IH]. Qed.

Lemma list_set_length {A : Type} (l : list A) (i : nat) (x : A) :
  List.length (list_set l i x) = List.length l.
Proof.
  revert i. induction l as [|h t IH]; intros [|j]; simpl; auto.
Qed.

(** ** Device recognition *)

Lemma in_range_true (x : R) (d : device_profile_t) :
  in_range x d = true <-> within x d.
Proof.
  unfold in_range, within. rewrite andb_true_iff, Rgeb_true, Rleb_true. lra.
Qed.

Lemma in_range_false (x : R) (d : device_profile_t) :
  in_range x d = false <-> ~ within x d.
Proof.
  rewrite <- in_range_true. destruct (in_range x d); split; intros;
    try easy; exfalso; auto.
Qed.

(** [find] returns the first element satisfying the test. *)
Lemma find_first {A : Type} (f : A -> bool) (l : list A) (p : A) :
  find f l = Some p <->
  exists pre post, l = (pre ++ p :: post)%list /\ f p = true
                   /\ forall q, In q pre -> f q = false.
Proof.
  induction l as [|h t IH]; simpl.
  - split; [discriminate|]. intros (pre & post & E & _). destruct pre; discriminate.
  - destruct (f h) eqn:Fh.
    + split.
      * intros [= ->]. exists [], t. simpl. repeat split; auto.
        intros q [].
      * intros (pre & post & E & Fp & Hpre). destruct pre as [|a pre].
        -- simpl in E. now inversion E.
        -- simpl in E. inversion E; subst a.
           rewrite (Hpre h (or_introl eq_refl)) in Fh. discriminate.
    + rewrite IH. split.
      * intros (pre & post & -> & Fp & Hpre). exists (h :: pre), post.
        simpl. repeat split; auto. intros q [<-|Hq]; auto.
      * intros (pre & post & E & Fp & Hpre). destruct pre as [|a pre].
        -- simpl in E. inversion E; subst h. congruence.
        -- simpl in E. inversion E; subst a. exists pre, post.
           repeat split; auto. intros q Hq. apply Hpre. now right.
Qed.

Lemma find_none_iff {A : Type} (f : A -> bool) (l : list A) :
  find f l = None <-> forall q, In q l -> f q = false.
Proof.
  split.
  - intros H q Hq. eapply find_none; eauto.
  - induction l as [|h t IH]; simpl; intros H; [reflexivity|].
    rewrite (H h (or_introl eq_refl)). apply IH. intros q Hq. apply H.
    now right.
Qed.

Lemma recognize_5_5 : recognize_device 5.5 = Some hair_dryer_low.
Proof.
  unfold recognize_device, known_devices, find, in_range, Rgeb.
  cbn [min_current max_current]. rcmp. reflexivity.
Qed.

Lemma recognize_5 : recognize_device 5 = Some hair_dryer_low.
Proof.
  unfold recognize_device, known_devices, find, in_range, Rgeb.
  cbn [min_current max_current]. rcmp. reflexivity.
Qed.

(** C6: [recognize_device x] scans the 10-entry catalog in declaration
    order: it returns a profile exactly when that profile is the first one
    whose closed range [min_current, max_current] contains [x], and returns
    no device exactly when [x] lies outside every range.  For 5.5 it
    returns the Hair Dryer Low Setting profile (4.0, 6.0, 5.0, boost 1.5),
    whose match quality is 0.75. *)
Theorem recognize_device_first_match :
  List.length known_devices = 10%nat
  /\ (forall x p,
        recognize_device x = Some p <->
        exists pre post,
          known_devices = (pre ++ p :: post)%list /\ within x p
          /\ forall q, In q pre -> ~ within x q)
  /\ (forall x,
        recognize_device x = None <->
        forall q, In q known_devices -> ~ within x q)
  /\ recognize_device 5.5 = Some hair_dryer_low
  /\ In hair_dryer_low known_devices
  /\ (min_current hair_dryer_low = 4.0 /\ max_current hair_dryer_low = 6.0
      /\ typical_current hair_dryer_low = 5.0
      /\ confidence_boost hair_dryer_low = 1.5)
  /\ match_quality 5.5 hair_dryer_low = 0.75.
Proof.
  split; [reflexivity|]. split; [|split; [|split; [|split; [|split]]]].
  - intros x p. unfold recognize_device. rewrite find_first.
    split; intros (pre & post & E & Hp & Hpre); exists pre, post;
      (split; [exact E|]).
    + split; [now apply in_range_true|].
      intros q Hq. apply in_range_false. auto.
    + split; [now apply in_range_true|].
      intros q Hq. apply in_range_false. auto.
  - intros x. unfold recognize_device. rewrite find_none_iff.
    split; intros H q Hq; apply in_range_false; auto.
  - exact recognize_5_5.
  - unfold known_devices, hair_dryer_low. simpl. auto.
  - simpl. repeat split; lra.
  - unfold match_quality, hair_dryer_low. simpl.
    rewrite Rabs_right by lra. lra.
Qed.

(** ** Reading the state after assignments *)

(** Reduce the projections of a state built by assignments and world
    primitives, in the goal. *)
Ltac state_simpl :=
  cbn [amps_per_volt bias_voltage auto_detection_enabled
       auto_calibration_enabled detected_load_amps last_zero_calibration
       last_scale_calibration consecutive_zero_readings
       auto_cal_sensitivity learning_rate last_adjustment
       learning_points learning_point_count learning_point_index
       auto_cal_count last_auto_cal_time successful_recognitions
       failed_recognitions current_history history_index history_full
       stable_load_start stable_load_value in_stable_period
       voltage_buffer buffer_index buffer_filled measurement_count
       last_measured_vrms total_measurements stats_min_current
       stats_max_current accumulated_current clock_ms adc_feed esp_log
       udp_sent relay_level relay_pad_input udp_sender_running
       tasks_created restarted
       cal det autocal learning stats history stability sender env
       put_amps_per_volt put_bias_voltage put_auto_detection_enabled
       put_auto_calibration_enabled put_detected_load_amps
       put_last_zero_calibration put_last_scale_calibration
       put_consecutive_zero_readings put_auto_cal_sensitivity
       put_learning_rate put_last_adjustment put_learning_points
       put_learning_point_count put_learning_point_index
       put_auto_cal_count put_last_auto_cal_time
       put_successful_recognitions put_failed_recognitions
       put_current_history put_history_index put_history_full
       put_stable_load_start put_stable_load_value put_in_stable_period
       put_voltage_buffer put_buffer_index put_buffer_filled
       put_measurement_count put_last_measured_vrms
       put_total_measurements put_stats_min_current
       put_stats_max_current put_accumulated_current put_clock_ms
       put_adc_feed put_esp_log put_udp_sent put_relay_level
       put_relay_pad_input
       put_udp_sender_running put_tasks_created put_restarted
       with_cal with_det with_autocal with_learning with_stats
       with_history with_stability with_sender with_env
       ESP_LOGI ESP_LOGW ESP_LOGE esp_log_write sendto vTaskDelay
       adc_oneshot_read now_ms retime get_bias_voltage get_amps_per_volt
       get_detected_load_amps get_auto_calibration_enabled
       get_auto_detection_enabled fst snd].

Ltac state_simpl_all :=
  cbn [amps_per_volt bias_voltage auto_detection_enabled
       auto_calibration_enabled detected_load_amps last_zero_calibration
       last_scale_calibration consecutive_zero_readings
       auto_cal_sensitivity learning_rate last_adjustment
       learning_points learning_point_count learning_point_index
       auto_cal_count last_auto_cal_time successful_recognitions
       failed_recognitions current_history history_index history_full
       stable_load_start stable_load_value in_stable_period
       voltage_buffer buffer_index buffer_filled measurement_count
       last_measured_vrms total_measurements stats_min_current
       stats_max_current accumulated_current clock_ms adc_feed esp_log
       udp_sent relay_level relay_pad_input udp_sender_running
       tasks_created restarted
       cal det autocal learning stats history stability sender env
       put_amps_per_volt put_bias_voltage put_auto_detection_enabled
       put_auto_calibration_enabled put_detected_load_amps
       put_last_zero_calibration put_last_scale_calibration
       put_consecutive_zero_readings put_auto_cal_sensitivity
       put_learning_rate put_last_adjustment put_learning_points
       put_learning_point_count put_learning_point_index
       put_auto_cal_count put_last_auto_cal_time
       put_successful_recognitions put_failed_recognitions
       put_current_history put_history_index put_history_full
       put_stable_load_start put_stable_load_value put_in_stable_period
       put_voltage_buffer put_buffer_index put_buffer_filled
       put_measurement_count put_last_measured_vrms
       put_total_measurements put_stats_min_current
       put_stats_max_current put_accumulated_current put_clock_ms
       put_adc_feed put_esp_log put_udp_sent put_relay_level
       put_relay_pad_input
       put_udp_sender_running put_tasks_created put_restarted
       with_cal with_det with_autocal with_learning with_stats
       with_history with_stability with_sender with_env
       ESP_LOGI ESP_LOGW ESP_LOGE esp_log_write sendto vTaskDelay
       adc_oneshot_read now_ms retime get_bias_voltage get_amps_per_volt
       get_detected_load_amps get_auto_calibration_enabled
       get_auto_detection_enabled fst snd] in *.

(** ** Sampling loops *)

Lemma skipn_tl {A : Type} (k : nat) (l : list A) :
  skipn k (tl l) = skipn (S k) l.
Proof. destruct l; simpl; [now rewrite skipn_nil | reflexivity]. Qed.

(** Reading and delaying touch only the clock and the pending reads. *)
Lemma after_reads_frame (n : nat) (ms : Z) (st : state) :
  let st' := after_reads n ms st in
  cal st' = cal st /\ det st' = det st /\ autocal st' = autocal st
  /\ learning st' = learning st /\ stats st' = stats st
  /\ history st' = history st /\ stability st' = stability st
  /\ sender st' = sender st
  /\ esp_log (env st') = esp_log (env st)
  /\ udp_sent (env st') = udp_sent (env st)
  /\ relay_level (env st') = relay_level (env st)
  /\ udp_sender_running (env st') = udp_sender_running (env st)
  /\ tasks_created (env st') = tasks_created (env st)
  /\ restarted (env st') = restarted (env st)
  /\ adc_feed (env st') = skipn n (adc_feed (env st)).
Proof.
  revert st. induction n as [|k IH]; intros st; cbn zeta.
  - simpl. repeat split; reflexivity.
  - change (after_reads (S k) ms st)
      with (after_reads k ms (vTaskDelay ms (snd (adc_oneshot_read st)))).
    specialize (IH (vTaskDelay ms (snd (adc_oneshot_read st)))).
    cbn zeta in IH.
    destruct IH as (H1 & H2 & H3 & H4 & H5 & H6 & H7 & H8 & H9 & H10 & H11
                    & H12 & H13 & H14 & H15).
    rewrite H1, H2, H3, H4, H5, H6, H7, H8, H9, H10, H11, H12, H13, H14, H15.
    state_simpl. rewrite skipn_tl. repeat split; reflexivity.
Qed.

Lemma known_load_samples_S (k : nat) (s : R) (v : Z) (st : state) :
  known_load_samples (S k) s v st
  = let st1 := vTaskDelay 50 (snd (adc_oneshot_read st)) in
    match hd None (adc_feed (env st)) with
    | Some a =>
        let ac := Rabs (adc_to_voltage a - bias_voltage (cal st)) in
        if Rgtb ac 0.001
        then known_load_samples k (s + ac) (v + 1)%Z st1
        else known_load_samples k s v st1
    | None => known_load_samples k s v st1
    end.
Proof.
  cbn [known_load_samples]. unfold adc_oneshot_read. cbn [fst snd].
  destruct (hd None (adc_feed (env st))) as [a|]; [|reflexivity].
  cbn zeta.
  change (bias_voltage (cal (put_adc_feed (tl (adc_feed (env st))) st)))
    with (bias_voltage (cal st)).
  destruct (Rgtb _ 0.001); reflexivity.
Qed.

Lemma known_load_voltages_cons (bias : R) (r : option Z)
    (rest : list (option Z)) :
  known_load_voltages bias (r :: rest)
  = match r with
    | Some a =>
        if Rgtb (Rabs (adc_to_voltage a - bias)) 0.001
        then Rabs (adc_to_voltage a - bias) :: known_load_voltages bias rest
        else known_load_voltages bias rest
    | None => known_load_voltages bias rest
    end.
Proof.
  unfold known_load_voltages. destruct r as [a|]; [|reflexivity].
  cbn [valid_ticks flat_map app map filter]. reflexivity.
Qed.

Lemma known_load_samples_spec (n : nat) (s : R) (v : Z) (st : state) :
  let kept :=
    known_load_voltages (bias_voltage (cal st))
      (firstn n (adc_feed (env st))) in
  known_load_samples n s v st
  = (s + sum_of kept, (v + Z.of_nat (List.length kept))%Z,
     after_reads n 50 st).
Proof.
  revert s v st. induction n as [|k IH]; intros s v st kept.
  - subst kept. simpl. unfold known_load_voltages. simpl.
    now rewrite Rplus_0_r, Z.add_0_r.
  - rewrite known_load_samples_S. cbn zeta.
    change (after_reads (S k) 50 st)
      with (after_reads k 50 (vTaskDelay 50 (snd (adc_oneshot_read st)))).
    set (st1 := vTaskDelay 50 (snd (adc_oneshot_read st))).
    assert (Hb : bias_voltage (cal st1) = bias_voltage (cal st))
      by reflexivity.
    assert (Hf : adc_feed (env st1) = tl (adc_feed (env st)))
      by reflexivity.
    subst kept.
    destruct (adc_feed (env st)) as [|[a|] rest] eqn:Hfeed; cbn [hd tl] in *.
    + rewrite IH, Hb, Hf. rewrite firstn_nil. reflexivity.
    + cbn [firstn]. rewrite known_load_voltages_cons.
      destruct (Rgtb (Rabs (adc_to_voltage a - bias_voltage (cal st))) 0.001);
        rewrite IH, Hb, Hf; [|reflexivity].
      rewrite sum_of_cons. cbn [List.length]. f_equal. f_equal; [lra|lia].
    + cbn [firstn]. rewrite known_load_voltages_cons.
      rewrite IH, Hb, Hf. reflexivity.
Qed.

(** ** Learning points and calibration against a known load *)

Lemma learn_from_calibration_learning (e m : R) (manual : bool)
    (st : state) :
  learning (learn_from_calibration e m manual st)
  = store_point (new_point e m (clock_ms (env st)) manual) (learning st).
Proof.
  unfold learn_from_calibration, store_point, new_point.
  destruct (learning_point_count (learning st) <? MAX_LEARNING_POINTS)%Z;
    state_simpl; reflexivity.
Qed.

(** What [learn_from_calibration] leaves alone. *)
Lemma learn_from_calibration_frame (e m : R) (manual : bool) (st : state) :
  let st' := learn_from_calibration e m manual st in
  cal st' = cal st /\ det st' = det st /\ autocal st' = autocal st
  /\ stats st' = stats st /\ history st' = history st
  /\ stability st' = stability st /\ sender st' = sender st.
Proof.
  unfold learn_from_calibration.
  destruct (learning_point_count (learning st) <? MAX_LEARNING_POINTS)%Z;
    state_simpl; repeat split; reflexivity.
Qed.

(** [calibrate_with_known_load] with its sampling loop summarised. *)
Lemma calibrate_with_known_load_closed (known_amps : R) (st : state) :
  calibrate_with_known_load known_amps st
  = let st0 := ESP_LOGI TAG "Calibrating with known load: %.3f A" st in
    if Rleb known_amps 0 || Rgtb known_amps MAX_CURRENT_AMPS then
      ESP_LOGE TAG "Invalid known current: %.3f A" st0
    else
      let kept :=
        known_load_voltages (bias_voltage (cal st))
          (firstn 50 (adc_feed (env st))) in
      let st1 := after_reads 50 50 st0 in
      if (Z.of_nat (List.length kept) >? 10)%Z then
        let avg_voltage := sum_of kept / INR (List.length kept) in
        let st2 :=
          learn_from_calibration known_amps avg_voltage true
            (ESP_LOGI TAG "Calibration complete: %.2f A/V (from %.4f V RMS)"
               (put_amps_per_volt (known_amps / avg_voltage) st1)) in
        put_last_auto_cal_time (now_ms st2) st2
      else
        ESP_LOGE TAG "Calibration failed - insufficient valid samples (%d)"
          st1.
Proof.
  unfold calibrate_with_known_load. cbn zeta.
  destruct (Rleb known_amps 0 || Rgtb known_amps MAX_CURRENT_AMPS);
    [reflexivity|].
  rewrite known_load_samples_spec. cbn zeta.
  change (bias_voltage
            (cal (ESP_LOGI TAG "Calibrating with known load: %.3f A" st)))
    with (bias_voltage (cal st)).
  change (adc_feed
            (env (ESP_LOGI TAG "Calibrating with known load: %.3f A" st)))
    with (adc_feed (env st)).
  rewrite Z.add_0_l, Rplus_0_l, INR_IZR_INZ. reflexivity.
Qed.

(** Replace the state left by a sampling loop by a variable that carries
    the loop's frame: later simplification never runs the loop. *)
Ltac seal_reads :=
  repeat
    match goal with
    | |- context [after_reads ?n ?ms ?s] =>
        let H := fresh "Hreads" in
        let X := fresh "st_r" in
        pose proof (after_reads_frame n ms s) as H; cbn zeta in H;
        revert H; generalize (after_reads n ms s); intros X H;
        destruct H as (? & ? & ? & ? & ? & ? & ? & ? & ? & ? & ? & ? & ?
                       & ? & ?)
    end;
  state_simpl_all.

(** The same for the state left by [learn_from_calibration]. *)
Ltac seal_learn :=
  match goal with
  | |- context [learn_from_calibration ?e ?m ?b ?s] =>
      let H := fresh "Hlearn" in
      let H' := fresh "Hpoint" in
      let X := fresh "st_l" in
      pose proof (learn_from_calibration_frame e m b s) as H; cbn zeta in H;
      pose proof (learn_from_calibration_learning e m b s) as H';
      revert H H'; generalize (learn_from_calibration e m b s);
      intros X H H';
      destruct H as (? & ? & ? & ? & ? & ? & ?)
  end;
  state_simpl_all.

(** Rewrite with the frame equations in the context. *)
Ltac use_frames :=
  state_simpl;
  repeat (match goal with
          | H : ?p ?x = _ |- context [?p ?x] => rewrite H
          end; state_simpl).

(** What [calibrate_with_known_load] leaves alone. *)
Lemma calibrate_with_known_load_frame (known_amps : R) (st : state) :
  let st' := calibrate_with_known_load known_amps st in
  bias_voltage (cal st') = bias_voltage (cal st)
  /\ det st' = det st /\ autocal st' = autocal st
  /\ history st' = history st /\ stability st' = stability st
  /\ sender st' = sender st
  /\ auto_cal_count (stats st') = auto_cal_count (stats st)
  /\ successful_recognitions (stats st')
     = successful_recognitions (stats st)
  /\ failed_recognitions (stats st') = failed_recognitions (stats st).
Proof.
  cbn zeta. rewrite calibrate_with_known_load_closed. cbn zeta.
  destruct (Rleb known_amps 0 || Rgtb known_amps MAX_CURRENT_AMPS).
  - state_simpl. repeat split; reflexivity.
  - seal_reads.
    destruct (Z.of_nat _ >? 10)%Z.
    + seal_learn. use_frames. repeat split; reflexivity.
    + use_frames. repeat split; reflexivity.
Qed.

Lemma calibrate_with_known_load_rejects (K : R) (st : state) :
  let kept :=
    known_load_voltages (bias_voltage (cal st))
      (firstn 50 (adc_feed (env st))) in
  let st' := calibrate_with_known_load K st in
  K <= 0 \/ K > MAX_CURRENT_AMPS \/ (List.length kept <= 10)%nat ->
  cal st' = cal st /\ learning st' = learning st.
Proof.
  cbn zeta. rewrite calibrate_with_known_load_closed. cbn zeta.
  set (kept := known_load_voltages _ _).
  intros Hbad.
  destruct (Rleb K 0 || Rgtb K MAX_CURRENT_AMPS) eqn:HK.
  - state_simpl. split; reflexivity.
  - apply orb_false_iff in HK. destruct HK as [HK1 HK2].
    apply Rleb_false in HK1. apply Rgtb_false in HK2.
    assert (Hn : (List.length kept <= 10)%nat)
      by (destruct Hbad as [?|[?|?]]; [lra | lra | assumption]).
    replace (Z.of_nat (List.length kept) >? 10)%Z with false
      by (symmetry; rewrite Z.gtb_ltb; apply Z.ltb_ge; lia).
    seal_reads. use_frames. split; reflexivity.
Qed.

Lemma calibrate_with_known_load_accepts (K : R) (st : state) :
  let kept :=
    known_load_voltages (bias_voltage (cal st))
      (firstn 50 (adc_feed (env st))) in
  let st' := calibrate_with_known_load K st in
  0 < K <= MAX_CURRENT_AMPS /\ (List.length kept > 10)%nat ->
  let avg := sum_of kept / INR (List.length kept) in
  amps_per_volt (cal st') = K / avg
  /\ bias_voltage (cal st') = bias_voltage (cal st)
  /\ exists ts,
       learning st' = store_point (new_point K avg ts true) (learning st)
       /\ confidence (new_point K avg ts true) = 1
       /\ auto_generated (new_point K avg ts true) = false.
Proof.
  cbn zeta. rewrite calibrate_with_known_load_closed. cbn zeta.
  set (kept := known_load_voltages _ _).
  intros [[HK1 HK2] Hn].
  replace (Rleb K 0 || Rgtb K MAX_CURRENT_AMPS) with false.
  2:{ symmetry. apply orb_false_iff. split.
      - apply Rleb_false; lra.
      - apply Rgtb_false; lra. }
  replace (Z.of_nat (List.length kept) >? 10)%Z with true
    by (symmetry; rewrite Z.gtb_ltb; apply Z.ltb_lt; lia).
  seal_reads. seal_learn. use_frames.
  split; [reflexivity|]. split; [reflexivity|].
  exists (clock_ms (env st_r)). repeat split.
Qed.

(** C7, as the code has it: [calibrate_with_known_load K] leaves bias
    voltage, scale factor and the learning points unchanged whenever
    [K <= 0], [K] exceeds the 100 A maximum, or at most 10 of the 50 sampled
    ticks yield an AC voltage magnitude above 0.001 V (the code asks for
    more than 10 valid samples); otherwise it sets the scale factor to [K]
    over the average AC magnitude of the valid ticks, keeps the bias, and
    records a manual learning point ([K], that average) with confidence
    1.0. *)
Theorem calibrate_with_known_load_effect (K : R) (st : state) :
  let kept :=
    known_load_voltages (bias_voltage (cal st))
      (firstn 50 (adc_feed (env st))) in
  let st' := calibrate_with_known_load K st in
  (K <= 0 \/ K > MAX_CURRENT_AMPS \/ (List.length kept <= 10)%nat ->
   cal st' = cal st /\ learning st' = learning st)
  /\ (0 < K <= MAX_CURRENT_AMPS /\ (List.length kept > 10)%nat ->
      let avg := sum_of kept / INR (List.length kept) in
      amps_per_volt (cal st') = K / avg
      /\ bias_voltage (cal st') = bias_voltage (cal st)
      /\ exists ts,
           learning st' = store_point (new_point K avg ts true) (learning st)
           /\ confidence (new_point K avg ts true) = 1
           /\ auto_generated (new_point K avg ts true) = false).
Proof.
  cbn zeta. split.
  - apply (calibrate_with_known_load_rejects K st).
  - apply (calibrate_with_known_load_accepts K st).
Qed.

Lemma ten_valid_kept :
  known_load_voltages (bias_voltage (cal ten_valid_state))
    (firstn 50 (adc_feed (env ten_valid_state)))
  = repeat (Rabs (adc_to_voltage 4095 - 1.65)) 10.
Proof.
  assert (Hgt : Rgtb (Rabs (adc_to_voltage 4095 - 1.65)) 0.001 = true).
  { apply Rgtb_true. unfold adc_to_voltage, ADC_RESOLUTION, ADC_VOLTAGE_RANGE.
    rewrite Rabs_right; lra. }
  unfold ten_valid_state, ten_valid_feed, boot_state, fresh_world.
  cbn [cal env bias_voltage adc_feed repeat app firstn].
  repeat (rewrite known_load_voltages_cons; try rewrite Hgt).
  reflexivity.
Qed.

(** C7 as stated fails with exactly 10 valid samples: [K = 5] is in range
    and the valid samples are not fewer than 10, yet the scale factor stays
    at 200 instead of becoming [K] over their average, and no learning
    point is recorded. *)
Lemma calibrate_ten_valid_samples_rejected :
  let st := ten_valid_state in
  let kept :=
    known_load_voltages (bias_voltage (cal st))
      (firstn 50 (adc_feed (env st))) in
  let st' := calibrate_with_known_load 5 st in
  ~ (5 <= 0 \/ 5 > MAX_CURRENT_AMPS \/ (List.length kept < 10)%nat)
  /\ List.length kept = 10%nat
  /\ amps_per_volt (cal st') = 200
  /\ amps_per_volt (cal st') <> 5 / (sum_of kept / INR (List.length kept))
  /\ learning st' = learning st.
Proof.
  cbn zeta.
  assert (Hlen : List.length
            (known_load_voltages (bias_voltage (cal ten_valid_state))
               (firstn 50 (adc_feed (env ten_valid_state)))) = 10%nat)
    by (rewrite ten_valid_kept; apply repeat_length).
  pose proof (calibrate_with_known_load_rejects 5 ten_valid_state) as Hu.
  cbn zeta in Hu. destruct Hu as [Hc Hl]; [right; right; rewrite Hlen; lia|].
  rewrite Hc, Hl, Hlen. split; [|split; [reflexivity|split; [reflexivity|]]].
  - unfold MAX_CURRENT_AMPS. intros [?|[?|?]]; try lra; lia.
  - split; [|reflexivity].
    rewrite ten_valid_kept, sum_of_repeat.
    unfold ten_valid_state, boot_state.
    cbn [cal amps_per_volt].
    unfold adc_to_voltage, ADC_RESOLUTION, ADC_VOLTAGE_RANGE.
    rewrite Rabs_right by lra.
    replace (INR 10) with 10 by (simpl; lra).
    intros Heq. apply (f_equal (fun x => x * (10 * (4095 / 4095 * 3.3 - 1.65) / 10))) in Heq.
    field_simplify in Heq; lra.
Qed.

(** ** Recognition confidence *)

Lemma auto_recognize_and_calibrate_cases (v : R) (st : state) :
  auto_recognize_and_calibrate v st
  = match recognize_device v with
    | None => st
    | Some p =>
        if Rgtb (recognition_confidence v p (auto_cal_sensitivity (autocal st)))
                DEVICE_RECOGNITION_CONFIDENCE
        then high_confidence_path v p st
        else low_confidence_path st
    end.
Proof.
  unfold auto_recognize_and_calibrate, high_confidence_path,
    low_confidence_path.
  destruct (recognize_device v) as [p|]; reflexivity.
Qed.

Lemma high_confidence_path_counters (v : R) (p : device_profile_t)
    (st : state) :
  let st' := high_confidence_path v p st in
  successful_recognitions (stats st')
  = u32 (successful_recognitions (stats st) + 1)
  /\ failed_recognitions (stats st') = failed_recognitions (stats st)
  /\ det st' = det st /\ autocal st' = autocal st
  /\ history st' = history st /\ stability st' = stability st
  /\ sender st' = sender st
  /\ bias_voltage (cal st') = bias_voltage (cal st).
Proof.
  unfold high_confidence_path. cbn zeta.
  match goal with
  | |- context [calibrate_with_known_load ?k ?s] =>
      pose proof (calibrate_with_known_load_frame k s) as Hc; cbn zeta in Hc;
      revert Hc; generalize (calibrate_with_known_load k s); intros st_c Hc;
      destruct Hc as (? & ? & ? & ? & ? & ? & ? & ? & ?)
  end.
  state_simpl_all. seal_learn. use_frames. repeat split; reflexivity.
Qed.

Lemma low_confidence_path_counters (st : state) :
  let st' := low_confidence_path st in
  successful_recognitions (stats st') = successful_recognitions (stats st)
  /\ failed_recognitions (stats st')
     = u32 (failed_recognitions (stats st) + 1)
  /\ cal st' = cal st /\ det st' = det st /\ autocal st' = autocal st
  /\ learning st' = learning st
  /\ history st' = history st /\ stability st' = stability st
  /\ sender st' = sender st.
Proof.
  unfold low_confidence_path. state_simpl. repeat split; reflexivity.
Qed.

Lemma confidence_5 : recognition_confidence 5 hair_dryer_low 0.7 = 1.05.
Proof.
  unfold recognition_confidence, match_quality, hair_dryer_low. simpl.
  rewrite Rabs_right by lra. lra.
Qed.

Lemma confidence_5_5 :
  recognition_confidence 5.5 hair_dryer_low 0.7 = 0.7875.
Proof.
  unfold recognition_confidence, match_quality, hair_dryer_low. simpl.
  rewrite Rabs_right by lra. lra.
Qed.

(** C2: when [recognize_device v] returns profile [p], the confidence is
    [(1 - |v - typical| / (max - min)) * confidence_boost * sensitivity];
    exactly when it exceeds 0.9 the scale calibration against the typical
    current is run and the success counter incremented (the failure counter
    kept), and otherwise the failure counter is incremented (success counter,
    calibration parameters and learning points kept); a value matching no
    profile leaves the state as it is.  With sensitivity 0.7 and boost 1.5,
    5.0 gives confidence 1.05 and calibrates, 5.5 gives 0.7875 and does
    not. *)
Theorem auto_recognize_confidence_gate :
  (forall v p st,
      recognize_device v = Some p ->
      let sens := auto_cal_sensitivity (autocal st) in
      let c := recognition_confidence v p sens in
      let st' := auto_recognize_and_calibrate v st in
      c = (1 - Rabs (v - typical_current p)
               / (max_current p - min_current p))
          * confidence_boost p * sens
      /\ (c > DEVICE_RECOGNITION_CONFIDENCE ->
          st' = high_confidence_path v p st
          /\ successful_recognitions (stats st')
             = u32 (successful_recognitions (stats st) + 1)
          /\ failed_recognitions (stats st')
             = failed_recognitions (stats st))
      /\ (~ c > DEVICE_RECOGNITION_CONFIDENCE ->
          st' = low_confidence_path st
          /\ failed_recognitions (stats st')
             = u32 (failed_recognitions (stats st) + 1)
          /\ successful_recognitions (stats st')
             = successful_recognitions (stats st)
          /\ cal st' = cal st /\ learning st' = learning st))
  /\ (forall v st,
        recognize_device v = None -> auto_recognize_and_calibrate v st = st)
  /\ DEVICE_RECOGNITION_CONFIDENCE = 0.9
  /\ confidence_boost hair_dryer_low = 1.5
  /\ recognition_confidence 5 hair_dryer_low 0.7 = 1.05
  /\ recognition_confidence 5.5 hair_dryer_low 0.7 = 0.7875
  /\ (forall st,
        auto_cal_sensitivity (autocal st) = 0.7 ->
        auto_recognize_and_calibrate 5 st
        = high_confidence_path 5 hair_dryer_low st
        /\ auto_recognize_and_calibrate 5.5 st = low_confidence_path st).
Proof.
  split; [|split; [|split; [reflexivity|split; [reflexivity|
    split; [exact confidence_5|split; [exact confidence_5_5|]]]]]].
  - intros v p st Hp. cbn zeta. rewrite auto_recognize_and_calibrate_cases, Hp.
    split; [reflexivity|]. split.
    + intros Hc. apply Rgtb_true in Hc. rewrite Hc.
      split; [reflexivity|].
      destruct (high_confidence_path_counters v p st) as (H1 & H2 & _).
      split; assumption.
    + intros Hc.
      assert (Hf : Rgtb (recognition_confidence v p
                           (auto_cal_sensitivity (autocal st)))
                     DEVICE_RECOGNITION_CONFIDENCE = false)
        by (apply Rgtb_false; lra).
      rewrite Hf. split; [reflexivity|].
      destruct (low_confidence_path_counters st)
        as (H1 & H2 & H3 & _ & _ & H6 & _).
      repeat split; assumption.
  - intros v st Hn. rewrite auto_recognize_and_calibrate_cases, Hn.
    reflexivity.
  - intros st Hs. rewrite !auto_recognize_and_calibrate_cases.
    rewrite recognize_5, recognize_5_5, Hs, confidence_5, confidence_5_5.
    unfold DEVICE_RECOGNITION_CONFIDENCE, Rgtb. rcmp. split; reflexivity.
Qed.

(** ** Frames of the detector *)

(** Seal the state left by [calibrate_with_known_load]. *)
Ltac seal_calibrate :=
  match goal with
  | |- context [calibrate_with_known_load ?k ?s] =>
      let H := fresh "Hcal" in
      let X := fresh "st_c" in
      pose proof (calibrate_with_known_load_frame k s) as H; cbn zeta in H;
      revert H; generalize (calibrate_with_known_load k s); intros X H;
      destruct H as (? & ? & ? & ? & ? & ? & ? & ? & ?)
  end;
  state_simpl_all.

Lemma auto_recognize_and_calibrate_frame (v : R) (st : state) :
  let st' := auto_recognize_and_calibrate v st in
  det st' = det st /\ autocal st' = autocal st
  /\ history st' = history st /\ stability st' = stability st
  /\ sender st' = sender st
  /\ bias_voltage (cal st') = bias_voltage (cal st).
Proof.
  cbn zeta. rewrite auto_recognize_and_calibrate_cases.
  destruct (recognize_device v) as [p|]; [|repeat split; reflexivity].
  destruct (Rgtb _ _).
  - destruct (high_confidence_path_counters v p st)
      as (_ & _ & H1 & H2 & H3 & H4 & H5 & H6).
    repeat split; assumption.
  - destruct (low_confidence_path_counters st)
      as (_ & _ & H0 & H1 & H2 & _ & H3 & H4 & H5).
    rewrite H0. repeat split; assumption.
Qed.

Lemma stable_load_recalibrate_frame (now : Z) (st : state) :
  let st' := stable_load_recalibrate now st in
  det st' = det st /\ history st' = history st
  /\ stability st' = stability st /\ sender st' = sender st
  /\ bias_voltage (cal st') = bias_voltage (cal st)
  /\ auto_cal_sensitivity (autocal st') = auto_cal_sensitivity (autocal st).
Proof.
  unfold stable_load_recalibrate. cbn zeta.
  seal_calibrate. seal_learn. use_frames. repeat split; reflexivity.
Qed.

Lemma stable_period_start_frame (mean : R) (st : state) :
  let st' := stable_period_start mean st in
  det st' = det st /\ history st' = history st /\ sender st' = sender st
  /\ autocal st' = autocal st
  /\ in_stable_period (stability st') = true
  /\ stable_load_value (stability st') = mean
  /\ stable_load_start (stability st') = now_ms st.
Proof.
  unfold stable_period_start. cbn zeta.
  match goal with
  | |- context [auto_recognize_and_calibrate ?v ?s] =>
      pose proof (auto_recognize_and_calibrate_frame v s) as H;
      cbn zeta in H; revert H;
      generalize (auto_recognize_and_calibrate v s); intros st_a H;
      destruct H as (? & ? & ? & ? & ? & ?)
  end.
  state_simpl_all. use_frames. repeat split; reflexivity.
Qed.

Lemma stable_period_continue_frame (st : state) :
  let st' := stable_period_continue st in
  det st' = det st /\ history st' = history st /\ sender st' = sender st
  /\ auto_cal_sensitivity (autocal st') = auto_cal_sensitivity (autocal st).
Proof.
  unfold stable_period_continue. cbn zeta.
  destruct (_ >? DEVICE_STABLE_TIME_MS)%Z; [|repeat split; reflexivity].
  destruct (_ >? AUTO_CAL_ZERO_INTERVAL_MS)%Z.
  - match goal with
    | |- context [stable_load_recalibrate ?n ?s] =>
        pose proof (stable_load_recalibrate_frame n s) as H;
        cbn zeta in H; revert H;
        generalize (stable_load_recalibrate n s); intros st_s H;
        destruct H as (? & ? & ? & ? & ? & ?)
    end.
    state_simpl. repeat split; assumption.
  - state_simpl. repeat split; reflexivity.
Qed.

Lemma continuous_auto_calibration_frame (r : R) (st : state) :
  let st' := continuous_auto_calibration r st in
  det st' = det st /\ history st' = history st /\ sender st' = sender st
  /\ auto_cal_sensitivity (autocal st') = auto_cal_sensitivity (autocal st).
Proof.
  unfold continuous_auto_calibration. cbn zeta.
  destruct (Rltb r AUTO_CAL_ZERO_THRESHOLD);
    [state_simpl; repeat split; reflexivity|].
  state_simpl.
  destruct (history_full (history st)); [|state_simpl; repeat split; reflexivity].
  destruct (window_is_stable _), (in_stable_period (stability st));
    cbn [andb negb].
  - destruct (stable_period_continue_frame
                (put_consecutive_zero_readings 0 st)) as (H1 & H2 & H3 & H4).
    rewrite H1, H2, H3, H4. state_simpl. repeat split; reflexivity.
  - destruct (stable_period_start_frame
                (window_mean (current_history (history st)))
                (put_consecutive_zero_readings 0 st))
      as (H1 & H2 & H3 & H4 & _).
    rewrite H1, H2, H3, H4. state_simpl. repeat split; reflexivity.
  - state_simpl. repeat split; reflexivity.
  - state_simpl. repeat split; reflexivity.
Qed.

(** ** The stability state machine *)

Lemma window_mean_spec (h : list R) :
  List.length h = 50%nat -> window_mean h = mean_of h.
Proof.
  intros Hl. unfold window_mean, mean_of, HISTORY_SIZE.
  rewrite Rsum_sum_of, Hl, INR_IZR_INZ. reflexivity.
Qed.

Lemma window_variance_spec (h : list R) :
  List.length h = 50%nat -> window_variance h = population_variance h.
Proof.
  intros Hl. unfold window_variance, population_variance.
  rewrite <- (window_mean_spec h Hl), Rsum_sum_of, Hl, INR_IZR_INZ.
  unfold HISTORY_SIZE. f_equal. f_equal. apply map_ext. intros x. ring.
Qed.

Lemma window_is_stable_iff (h : list R) :
  window_is_stable h = true <->
  window_variance h < AUTO_CAL_VARIANCE_THRESHOLD
  /\ AUTO_CAL_MIN_CURRENT <= window_mean h <= AUTO_CAL_MAX_CURRENT.
Proof.
  unfold window_is_stable.
  rewrite !andb_true_iff, Rltb_true, Rgeb_true, Rleb_true. lra.
Qed.

Lemma window_constant (c : R) :
  window_mean (repeat c 50) = c /\ window_variance (repeat c 50) = 0.
Proof.
  assert (Hm : window_mean (repeat c 50) = c).
  { unfold window_mean, HISTORY_SIZE.
    rewrite Rsum_sum_of, sum_of_repeat, INR_IZR_INZ. simpl Z.of_nat. lra. }
  split; [exact Hm|].
  unfold window_variance. rewrite Hm, map_repeat, Rsum_sum_of, sum_of_repeat.
  unfold HISTORY_SIZE. lra.
Qed.

Lemma window_constant_3_stable : window_is_stable (repeat 3 50) = true.
Proof.
  apply window_is_stable_iff. destruct (window_constant 3) as [-> ->].
  unfold AUTO_CAL_VARIANCE_THRESHOLD, AUTO_CAL_MIN_CURRENT,
    AUTO_CAL_MAX_CURRENT. lra.
Qed.

(** [continuous_auto_calibration] on a reading that is not near zero, once
    the ring has wrapped. *)
Lemma continuous_auto_calibration_window (r : R) (st : state) :
  AUTO_CAL_ZERO_THRESHOLD <= r ->
  history_full (history st) = true ->
  continuous_auto_calibration r st
  = let st0 := put_consecutive_zero_readings 0%Z st in
    let h := current_history (history st) in
    if window_is_stable h then
      if in_stable_period (stability st)
      then stable_period_continue st0
      else stable_period_start (window_mean h) st0
    else put_in_stable_period false st0.
Proof.
  intros Hr Hf. unfold continuous_auto_calibration.
  replace (Rltb r AUTO_CAL_ZERO_THRESHOLD) with false
    by (symmetry; apply Rltb_false; exact Hr).
  cbn zeta.
  change (history (put_consecutive_zero_readings 0 st)) with (history st).
  change (stability (put_consecutive_zero_readings 0 st))
    with (stability st).
  rewrite Hf.
  destruct (window_is_stable _), (in_stable_period (stability st));
    reflexivity.
Qed.

(** The three outcomes of a stable window inside a stable period. *)
Lemma stable_period_continue_cases (st : state) :
  let now := now_ms st in
  let held := u32 (now - stable_load_start (stability st)) in
  let since := u32 (now - last_scale_calibration (autocal st)) in
  ((held <= DEVICE_STABLE_TIME_MS)%Z -> stable_period_continue st = st)
  /\ ((held > DEVICE_STABLE_TIME_MS)%Z ->
      (since <= AUTO_CAL_ZERO_INTERVAL_MS)%Z ->
      stable_period_continue st = put_in_stable_period false st)
  /\ ((held > DEVICE_STABLE_TIME_MS)%Z ->
      (since > AUTO_CAL_ZERO_INTERVAL_MS)%Z ->
      stable_period_continue st
      = put_in_stable_period false (stable_load_recalibrate now st)).
Proof.
  cbn zeta. unfold stable_period_continue. cbn zeta.
  repeat split; intros.
  - replace (_ >? DEVICE_STABLE_TIME_MS)%Z with false
      by (symmetry; rewrite Z.gtb_ltb; apply Z.ltb_ge; lia).
    reflexivity.
  - replace (_ >? DEVICE_STABLE_TIME_MS)%Z with true
      by (symmetry; rewrite Z.gtb_ltb; apply Z.ltb_lt; lia).
    replace (_ >? AUTO_CAL_ZERO_INTERVAL_MS)%Z with false
      by (symmetry; rewrite Z.gtb_ltb; apply Z.ltb_ge; lia).
    reflexivity.
  - replace (_ >? DEVICE_STABLE_TIME_MS)%Z with true
      by (symmetry; rewrite Z.gtb_ltb; apply Z.ltb_lt; lia).
    replace (_ >? AUTO_CAL_ZERO_INTERVAL_MS)%Z with true
      by (symmetry; rewrite Z.gtb_ltb; apply Z.ltb_lt; lia).
    reflexivity.
Qed.

(** C4, as the code has it: on a reading that is not near zero, once the
    ring has wrapped, a window evaluated as not stable returns the machine
    to Idle; a stable window inside a stable period leaves the machine in
    the stable period while it has been held no longer than
    DEVICE_STABLE_TIME (3 min); once held beyond it the machine returns to
    Idle in every case, and the scale recalibration with [stable_value] is
    run first exactly when, in addition, the clock is more than the
    30-minute interval past the static [last_scale_calibration].  That
    static is 0 at power-up and is stamped by this recalibration alone, so
    [since] is the time since the machine's own previous recalibration: in
    the two cases without recalibration the state is given in full, and
    nothing of the calibration has changed. *)
Theorem stability_state_machine (r : R) (st : state) :
  AUTO_CAL_ZERO_THRESHOLD <= r ->
  history_full (history st) = true ->
  let h := current_history (history st) in
  let st0 := put_consecutive_zero_readings 0%Z st in
  let now := now_ms st in
  let held := u32 (now - stable_load_start (stability st)) in
  let since := u32 (now - last_scale_calibration (autocal st)) in
  let st' := continuous_auto_calibration r st in
  (window_is_stable h = false ->
   st' = put_in_stable_period false st0
   /\ in_stable_period (stability st') = false)
  /\ (window_is_stable h = true ->
      in_stable_period (stability st) = true ->
      ((held <= DEVICE_STABLE_TIME_MS)%Z ->
       st' = st0 /\ in_stable_period (stability st') = true)
      /\ ((held > DEVICE_STABLE_TIME_MS)%Z ->
          (since <= AUTO_CAL_ZERO_INTERVAL_MS)%Z ->
          st' = put_in_stable_period false st0
          /\ in_stable_period (stability st') = false
          /\ cal st' = cal st /\ learning st' = learning st)
      /\ ((held > DEVICE_STABLE_TIME_MS)%Z ->
          (since > AUTO_CAL_ZERO_INTERVAL_MS)%Z ->
          st' = put_in_stable_period false (stable_load_recalibrate now st0)
          /\ in_stable_period (stability st') = false
          /\ stable_load_recalibrate now st0
             = (let v := stable_load_value (stability st) in
                let st1 :=
                  calibrate_with_known_load v
                    (ESP_LOGI TAG "Auto-calibrating with stable load: %.3fA"
                       st0) in
                let st2 :=
                  put_auto_cal_count (u32 (auto_cal_count (stats st1) + 1))
                    (put_last_scale_calibration now st1) in
                learn_from_calibration v (v / get_amps_per_volt st2) false
                  st2))).
Proof.
  intros Hr Hf. cbn zeta.
  rewrite (continuous_auto_calibration_window r st Hr Hf). cbn zeta.
  split.
  - intros Hs. rewrite Hs. split; reflexivity.
  - intros Hs Hin. rewrite Hs, Hin.
    destruct (stable_period_continue_cases
                (put_consecutive_zero_readings 0 st)) as (C1 & C2 & C3).
    cbn zeta in C1, C2, C3.
    repeat split; intros.
    + apply C1. assumption.
    + rewrite C1 by assumption. exact Hin.
    + apply C2; assumption.
    + rewrite C2 by assumption. reflexivity.
    + rewrite C2 by assumption. reflexivity.
    + rewrite C2 by assumption. reflexivity.
    + apply C3; assumption.
    + rewrite C3 by assumption. reflexivity.
Qed.

Lemma held_state_window :
  AUTO_CAL_ZERO_THRESHOLD <= 3
  /\ history_full (history held_state) = true
  /\ window_is_stable (current_history (history held_state)) = true
  /\ in_stable_period (stability held_state) = true.
Proof.
  split; [unfold AUTO_CAL_ZERO_THRESHOLD; lra|].
  split; [reflexivity|]. split; [|reflexivity].
  change (current_history (history held_state)) with (repeat 3 50).
  exact window_constant_3_stable.
Qed.

Lemma held_state_times :
  let now := now_ms held_state in
  (u32 (now - stable_load_start (stability held_state))
   > DEVICE_STABLE_TIME_MS)%Z
  /\ (u32 (now - last_scale_calibration (autocal held_state))
      <= AUTO_CAL_ZERO_INTERVAL_MS)%Z.
Proof.
  cbn zeta.
  change (now_ms held_state) with 340000%Z.
  change (stable_load_start (stability held_state)) with 150000%Z.
  change (last_scale_calibration (autocal held_state)) with 0%Z.
  unfold u32, DEVICE_STABLE_TIME_MS, AUTO_CAL_ZERO_INTERVAL_MS.
  split; [reflexivity|]. intros H. discriminate H.
Qed.

(** C4 as stated fails: in [held_state], 340 s after power-up, the window
    is stable and the machine is in a stable period held for 190 s; no
    scale calibration can lie more than 340 s back, so the time since the
    last one does not exceed the interval and the two conditions do not
    both hold; yet the machine does not remain in the stable period: it
    returns to Idle, without recalibrating. *)
Lemma stable_reset_without_recalibration :
  let st := held_state in
  let now := now_ms st in
  let held := u32 (now - stable_load_start (stability st)) in
  let since := u32 (now - last_scale_calibration (autocal st)) in
  let st' := continuous_auto_calibration 3 st in
  window_is_stable (current_history (history st)) = true
  /\ in_stable_period (stability st) = true
  /\ ~ ((held > DEVICE_STABLE_TIME_MS)%Z
        /\ (since > AUTO_CAL_ZERO_INTERVAL_MS)%Z)
  /\ in_stable_period (stability st') = false
  /\ cal st' = cal st.
Proof.
  cbn zeta.
  destruct held_state_window as (Hr & Hf & Hs & Hin).
  destruct held_state_times as (Hheld & Hsince).
  split; [exact Hs|]. split; [exact Hin|]. split; [lia|].
  rewrite (continuous_auto_calibration_window 3 held_state Hr Hf).
  cbn zeta. rewrite Hs, Hin.
  destruct (stable_period_continue_cases
              (put_consecutive_zero_readings 0 held_state)) as (_ & C2 & _).
  cbn zeta in C2. rewrite C2; [split; reflexivity | exact Hheld | exact Hsince].
Qed.

(** The hypotheses of [stability_state_machine] hold in [held_state], where
    it gives the return to Idle. *)
Lemma stability_state_machine_witness :
  AUTO_CAL_ZERO_THRESHOLD <= 3
  /\ history_full (history held_state) = true
  /\ in_stable_period
       (stability (continuous_auto_calibration 3 held_state)) = false.
Proof.
  destruct held_state_window as (Hr & Hf & Hs & Hin).
  destruct held_state_times as (Hheld & Hsince).
  split; [exact Hr|]. split; [exact Hf|].
  destruct (stability_state_machine 3 held_state Hr Hf) as [_ Hstable].
  destruct (Hstable Hs Hin) as (_ & Hreset & _).
  destruct (Hreset Hheld Hsince) as (_ & Hidle & _).
  exact Hidle.
Defined.

(** ** Feeding the detector a constant load *)

Lemma firstn_list_set_next {A : Type} (c : A) (k : nat) (l : list A) :
  (k < List.length l)%nat ->
  firstn k l = repeat c k ->
  firstn (S k) (list_set l k c) = repeat c (S k).
Proof.
  revert l. induction k as [|k IH]; intros [|h t] Hl Hf; simpl in Hl;
    try lia.
  - reflexivity.
  - simpl in Hf. injection Hf as Hh Ht. subst h.
    change (firstn (S (S k)) (list_set (c :: t) (S k) c))
      with (c :: firstn (S k) (list_set t k c)).
    rewrite (IH t) by (assumption || lia). reflexivity.
Qed.

Lemma list_set_repeat_same {A : Type} (c : A) (n i : nat) :
  list_set (repeat c n) i c = repeat c n.
Proof.
  revert i. induction n as [|n IH]; intros [|i]; simpl; try reflexivity.
  now rewrite IH.
Qed.

(** [process_current_for_auto_calibration] while the controller is
    enabled: the ring insert, then the detector. *)
Lemma process_current_enabled (c : R) (st : state) :
  auto_calibration_enabled (det st) = true ->
  let h := history st in
  let next := Z.rem (history_index h + 1) HISTORY_SIZE in
  process_current_for_auto_calibration c st
  = continuous_auto_calibration c
      (put_detected_load_amps c
         (with_history
            {| current_history :=
                 list_set (current_history h) (Z.to_nat (history_index h)) c;
               history_index := next;
               history_full :=
                 if (next =? 0)%Z then true else history_full h |} st)).
Proof.
  intros He. cbn zeta. unfold process_current_for_auto_calibration.
  rewrite He. cbn [negb]. cbn zeta. state_simpl.
  destruct (Z.rem _ _ =? 0)%Z; reflexivity.
Qed.

Lemma filling_step (c : R) (k : nat) (clock : Z) (feed : list (option Z))
    (st : state) :
  AUTO_CAL_ZERO_THRESHOLD <= c ->
  (k < 49)%nat ->
  filling c k st ->
  filling c (S k)
    (process_current_for_auto_calibration c (retime clock feed st)).
Proof.
  intros Hc Hk (Hl & Hi & Hf & Hp & Hs & He).
  rewrite process_current_enabled by exact He. cbn zeta.
  change (history (retime clock feed st)) with (history st).
  rewrite Hi, Hf, Nat2Z.id.
  assert (Hn : Z.rem (Z.of_nat k + 1) HISTORY_SIZE = Z.of_nat (S k))
    by (unfold HISTORY_SIZE; rewrite Z.rem_small; lia).
  rewrite Hn.
  replace (Z.of_nat (S k) =? 0)%Z with false
    by (symmetry; apply Z.eqb_neq; lia).
  unfold continuous_auto_calibration.
  replace (Rltb c AUTO_CAL_ZERO_THRESHOLD) with false
    by (symmetry; apply Rltb_false; exact Hc).
  cbn zeta. state_simpl.
  unfold filling. state_simpl.
  rewrite list_set_length.
  repeat split; try assumption; try reflexivity.
  apply firstn_list_set_next; [lia | assumption].
Qed.

Lemma filling_last (c : R) (clock : Z) (feed : list (option Z))
    (st : state) :
  AUTO_CAL_ZERO_THRESHOLD <= c ->
  window_is_stable (repeat c 50) = true ->
  filling c 49 st ->
  let st' :=
    process_current_for_auto_calibration c (retime clock feed st) in
  filled c st'
  /\ in_stable_period (stability st') = true
  /\ stable_load_value (stability st') = c
  /\ exists s,
       st' = auto_recognize_and_calibrate c (at_stable_start c s)
       /\ in_stable_period (stability s) = false.
Proof.
  intros Hc Hst (Hl & Hi & Hf & Hp & Hs & He). cbn zeta.
  rewrite process_current_enabled by exact He. cbn zeta.
  change (history (retime clock feed st)) with (history st).
  rewrite Hi, Hf, Nat2Z.id.
  change (Z.rem (Z.of_nat 49 + 1) HISTORY_SIZE) with 0%Z.
  cbn [Z.eqb].
  assert (Hh : list_set (current_history (history st)) 49 c = repeat c 50).
  { rewrite <- (firstn_list_set_next c 49 (current_history (history st)))
      by (lia || assumption).
    symmetry. apply firstn_all2. rewrite list_set_length. lia. }
  rewrite Hh.
  match goal with
  | |- context [continuous_auto_calibration c ?s] => set (s0 := s)
  end.
  assert (Hfull : history_full (history s0) = true) by reflexivity.
  rewrite (continuous_auto_calibration_window c s0 Hc Hfull). cbn zeta.
  change (current_history (history s0)) with (repeat c 50).
  change (in_stable_period (stability s0))
    with (in_stable_period (stability st)).
  rewrite Hst, Hs.
  assert (Hm : window_mean (repeat c 50) = c) by apply window_constant.
  rewrite Hm.
  destruct (stable_period_start_frame c (put_consecutive_zero_readings 0 s0))
    as (F1 & F2 & F3 & F4 & F5 & F6 & F7).
  split; [|split; [exact F5|split; [exact F6|]]].
  - unfold filled. rewrite F1, F2. subst s0. state_simpl.
    repeat split; try reflexivity; try lia. exact He.
  - exists (put_consecutive_zero_readings 0 s0). split; [reflexivity|].
    subst s0. state_simpl. exact Hs.
Qed.

Lemma filled_step (c : R) (clock : Z) (feed : list (option Z))
    (st : state) :
  filled c st ->
  filled c (process_current_for_auto_calibration c (retime clock feed st)).
Proof.
  intros (Hh & Hf & Hi & He).
  rewrite process_current_enabled by exact He. cbn zeta.
  change (history (retime clock feed st)) with (history st).
  rewrite Hh, Hf, list_set_repeat_same.
  match goal with
  | |- context [continuous_auto_calibration c ?s] =>
      destruct (continuous_auto_calibration_frame c s) as (F1 & F2 & _)
  end.
  unfold filled. rewrite F1, F2. state_simpl.
  split; [reflexivity|]. split; [destruct (_ =? 0)%Z; reflexivity|].
  split; [|exact He].
  unfold HISTORY_SIZE.
  pose proof (Z.rem_bound_pos (history_index (history st) + 1) 50).
  lia.
Qed.

Lemma feed_constant_snoc (c : R) (ws : list (Z * list (option Z)))
    (w : Z * list (option Z)) (st : state) :
  feed_constant c (ws ++ [w])%list st
  = process_current_for_auto_calibration c
      (retime (fst w) (snd w) (feed_constant c ws st)).
Proof. unfold feed_constant. rewrite fold_left_app. reflexivity. Qed.

Lemma feed_constant_filling (c : R) (ws : list (Z * list (option Z)))
    (st : state) :
  AUTO_CAL_ZERO_THRESHOLD <= c ->
  detector_at_rest st ->
  (List.length ws < 50)%nat ->
  filling c (List.length ws) (feed_constant c ws st).
Proof.
  intros Hc (Hl & Hi & Hf & Hs & He).
  induction ws as [|w ws IH] using rev_ind; intros Hn.
  - unfold filling. simpl. repeat split; assumption.
  - rewrite feed_constant_snoc. rewrite length_app in *. simpl in *.
    replace (List.length ws + 1)%nat with (S (List.length ws)) by lia.
    apply filling_step; [exact Hc | lia | apply IH; lia].
Qed.

Lemma feed_constant_fiftieth (c : R) (ws : list (Z * list (option Z)))
    (st : state) :
  AUTO_CAL_ZERO_THRESHOLD <= c ->
  window_is_stable (repeat c 50) = true ->
  detector_at_rest st ->
  List.length ws = 50%nat ->
  let st' := feed_constant c ws st in
  filled c st'
  /\ in_stable_period (stability st') = true
  /\ stable_load_value (stability st') = c
  /\ exists s,
       st' = auto_recognize_and_calibrate c (at_stable_start c s)
       /\ in_stable_period (stability s) = false.
Proof.
  intros Hc Hst Hrest Hn.
  destruct ws as [|w0 ws0] using rev_ind; [discriminate|].
  clear IHws0. rewrite length_app in Hn. simpl in Hn.
  cbn zeta. rewrite feed_constant_snoc.
  apply filling_last; [exact Hc | exact Hst |].
  replace 49%nat with (List.length ws0) by lia.
  apply feed_constant_filling; [exact Hc | exact Hrest | lia].
Qed.

Lemma feed_constant_filled (c : R) (ws : list (Z * list (option Z)))
    (st : state) :
  AUTO_CAL_ZERO_THRESHOLD <= c ->
  window_is_stable (repeat c 50) = true ->
  detector_at_rest st ->
  (List.length ws >= 50)%nat ->
  filled c (feed_constant c ws st).
Proof.
  intros Hc Hst Hrest.
  induction ws as [|w ws IH] using rev_ind; intros Hn; [simpl in Hn; lia|].
  rewrite length_app in Hn. simpl in Hn.
  destruct (Nat.eq_dec (List.length ws) 49) as [E|E].
  - apply (feed_constant_fiftieth c (ws ++ [w])%list st Hc Hst Hrest).
    rewrite length_app. simpl. lia.
  - rewrite feed_constant_snoc. apply filled_step. apply IH. lia.
Qed.

Lemma boot_state_at_rest (w : world) : detector_at_rest (boot_state w).
Proof.
  unfold detector_at_rest, boot_state. cbn -[repeat].
  rewrite repeat_length. repeat split; reflexivity.
Qed.

(** C1: on a reading at or above the near-zero threshold, once the 50-entry
    ring has wrapped, the detector's mean and variance are the mean and the
    population variance of the window, and the window is judged stable
    exactly when variance < 0.1 and 0.5 <= mean <= 15.0; on a stable window
    in Idle it enters the stable period, records [stable_value = mean] and
    runs the device recognition on that value.  Feeding the constant 3.0
    from rest: before the 50th insertion the machine is Idle and the ring
    has not wrapped; the 50th insertion sees mean 3 and variance 0, moves
    the machine from Idle to the stable period with [stable_value = 3] and
    calls the recognition with 3; after 50 or more insertions the window
    has variance 0. *)
Theorem stability_detector :
  (forall r st,
      AUTO_CAL_ZERO_THRESHOLD <= r ->
      history_full (history st) = true ->
      let h := current_history (history st) in
      let st0 := put_consecutive_zero_readings 0%Z st in
      let st' := continuous_auto_calibration r st in
      (List.length h = 50%nat ->
       window_mean h = mean_of h
       /\ window_variance h = population_variance h)
      /\ (window_is_stable h = true <->
          window_variance h < 0.1 /\ 0.5 <= window_mean h <= 15.0)
      /\ (window_is_stable h = true ->
          in_stable_period (stability st) = false ->
          st' = auto_recognize_and_calibrate (window_mean h)
                  (at_stable_start (window_mean h) st0)
          /\ in_stable_period (stability st') = true
          /\ stable_load_value (stability st') = window_mean h
          /\ stable_load_start (stability st') = now_ms st))
  /\ AUTO_CAL_ZERO_THRESHOLD = 0.05
  /\ (forall st ws,
        detector_at_rest st ->
        let st' := feed_constant 3 ws st in
        let h := current_history (history st') in
        ((List.length ws < 50)%nat ->
         in_stable_period (stability st') = false
         /\ history_full (history st') = false)
        /\ (List.length ws = 50%nat ->
            history_full (history st') = true
            /\ window_mean h = 3 /\ window_variance h = 0
            /\ in_stable_period (stability st') = true
            /\ stable_load_value (stability st') = 3
            /\ exists s,
                 st' = auto_recognize_and_calibrate 3 (at_stable_start 3 s)
                 /\ in_stable_period (stability s) = false)
        /\ ((List.length ws >= 50)%nat ->
            history_full (history st') = true
            /\ h = repeat 3 50
            /\ window_mean h = 3 /\ window_variance h = 0
            /\ window_is_stable h = true)).
Proof.
  assert (H3 : AUTO_CAL_ZERO_THRESHOLD <= 3)
    by (unfold AUTO_CAL_ZERO_THRESHOLD; lra).
  split; [|split; [reflexivity|]].
  - intros r st Hr Hf. cbn zeta. split; [|split].
    + intros Hl. split;
        [apply window_mean_spec | apply window_variance_spec]; exact Hl.
    + rewrite window_is_stable_iff.
      unfold AUTO_CAL_VARIANCE_THRESHOLD, AUTO_CAL_MIN_CURRENT,
        AUTO_CAL_MAX_CURRENT. lra.
    + intros Hs Hin.
      rewrite (continuous_auto_calibration_window r st Hr Hf). cbn zeta.
      rewrite Hs, Hin.
      destruct (stable_period_start_frame
                  (window_mean (current_history (history st)))
                  (put_consecutive_zero_readings 0 st))
        as (_ & _ & _ & _ & F5 & F6 & F7).
      split; [reflexivity|]. split; [exact F5|]. split; [exact F6|exact F7].
  - intros st ws Hrest. cbn zeta. split; [|split].
    + intros Hn.
      destruct (feed_constant_filling 3 ws st H3 Hrest Hn)
        as (_ & _ & Hf & _ & Hs & _).
      split; assumption.
    + intros Hn.
      destruct (feed_constant_fiftieth 3 ws st H3 window_constant_3_stable
                  Hrest Hn) as ((Hh & Hf & _) & Hs & Hv & Hex).
      rewrite Hh. destruct (window_constant 3) as [-> ->].
      repeat split; assumption.
    + intros Hn.
      destruct (feed_constant_filled 3 ws st H3 window_constant_3_stable
                  Hrest Hn) as (Hh & Hf & _).
      rewrite Hh. destruct (window_constant 3) as [-> ->].
      repeat split; try assumption; try reflexivity.
      exact window_constant_3_stable.
Qed.

(** ** Learned calibration *)

Lemma weighted_sums_acc (rate : R) (now : Z)
    (points : list calibration_point_t) (n d t : R) :
  fold_left (accumulate_point rate now) points (n, d, t)
  = (n + weighted_numerator rate now points,
     d + weighted_denominator rate now points,
     t + total_point_weight rate now points).
Proof.
  revert n d t. induction points as [|p points IH]; intros n d t.
  - unfold weighted_numerator, weighted_denominator, total_point_weight.
    simpl. now rewrite !Rplus_0_r.
  - cbn [fold_left]. unfold accumulate_point at 2.
    unfold weighted_numerator, weighted_denominator, total_point_weight,
      usable_points in *.
    cbn [filter].
    destruct (Rgtb (measured_voltage p) 0.001).
    + rewrite IH. cbn [map]. rewrite !sum_of_cons. f_equal; [f_equal|]; lra.
    + apply IH.
Qed.

Lemma weighted_sums_spec (rate : R) (now : Z)
    (points : list calibration_point_t) :
  weighted_sums rate now points
  = (weighted_numerator rate now points,
     weighted_denominator rate now points,
     total_point_weight rate now points).
Proof.
  unfold weighted_sums. rewrite weighted_sums_acc. now rewrite !Rplus_0_l.
Qed.

Lemma point_weight_formula (rate : R) (now : Z) (p : calibration_point_t) :
  point_weight rate now p
  = confidence p
    * Rpower 0.95 (IZR (u32 (now - timestamp p)) / 86400000)
    * rate.
Proof.
  unfold point_weight, LEARNING_CONFIDENCE_DECAY.
  replace (24 * 60 * 60 * 1000) with 86400000 by lra. reflexivity.
Qed.

Lemma point_weight_fresh (rate : R) (now : Z) (p : calibration_point_t) :
  timestamp p = now -> point_weight rate now p = confidence p * rate.
Proof.
  intros Hts. unfold point_weight. rewrite Hts, Z.sub_diag.
  change (u32 0) with 0%Z.
  replace (0 / (24 * 60 * 60 * 1000)) with 0 by lra.
  rewrite Rpower_O by (unfold LEARNING_CONFIDENCE_DECAY; lra). ring.
Qed.

(** [apply_learned_calibration] with its loop summarised. *)
Lemma apply_learned_calibration_closed (st : state) :
  let l := learning st in
  let used :=
    firstn (Z.to_nat (Z.min (learning_point_count l) MAX_LEARNING_POINTS))
      (learning_points l) in
  let rate := learning_rate (autocal st) in
  let num := weighted_numerator rate (now_ms st) used in
  let den := weighted_denominator rate (now_ms st) used in
  let tw := total_point_weight rate (now_ms st) used in
  let cur := amps_per_volt (cal st) in
  apply_learned_calibration st
  = if (learning_point_count l <? MIN_LEARNING_POINTS)%Z then st
    else if Rgtb den 0.001 && Rgtb tw 0.1 then
      if Rgtb (num / den) (cur * 0.5) && Rltb (num / den) (cur * 1.5) then
        ESP_LOGI TAG
          "Applied learned calibration: %.2f -> %.2f A/V (weight: %.2f)"
          (set_amps_per_volt (cur * 0.7 + num / den * 0.3) st)
      else
        ESP_LOGW TAG
          "Learned scale %.2f A/V rejected (too different from current %.2f A/V)"
          st
    else st.
Proof.
  cbn zeta. unfold apply_learned_calibration.
  destruct (learning_point_count (learning st) <? MIN_LEARNING_POINTS)%Z;
    [reflexivity|].
  cbn zeta.
  replace (if (learning_point_count (learning st) <? MAX_LEARNING_POINTS)%Z
           then learning_point_count (learning st)
           else MAX_LEARNING_POINTS)
    with (Z.min (learning_point_count (learning st)) MAX_LEARNING_POINTS).
  2:{ destruct (Z.ltb_spec (learning_point_count (learning st))
                  MAX_LEARNING_POINTS); lia. }
  rewrite weighted_sums_spec. unfold learned_scale_of, get_amps_per_volt.
  reflexivity.
Qed.

Lemma two_manual_points_estimate (now : Z) :
  weighted_sums 1 now (two_manual_points now) = (5 + 10, 0.025 + 0.05, 1 + 1).
Proof.
  unfold weighted_sums, two_manual_points. cbn [fold_left].
  unfold accumulate_point.
  rewrite !point_weight_fresh by reflexivity.
  cbn [new_point measured_voltage expected_current confidence].
  unfold Rgtb. rcmp. f_equal; [f_equal|]; lra.
Qed.

(** C3: [apply_learned_calibration] does nothing with fewer than 3 points;
    otherwise each of the recorded points in use whose measured voltage
    exceeds 0.001 V enters three sums with weight
    [confidence * 0.95 ^ (age in days) * learning_rate], and when the
    denominator exceeds 0.001 and the total weight 0.1, the learned scale
    [numerator / denominator] is accepted only if strictly within 50% of
    the current scale, which then becomes
    [0.7 * current + 0.3 * learned]; in every other case the calibration
    parameters stay as they are.  On the two fresh manual points
    (5 A, 0.025 V) and (10 A, 0.05 V) with learning rate 1 the estimate is
    (5 + 10) / (0.025 + 0.05) = 200. *)
Theorem apply_learned_calibration_effect :
  (forall st,
      (learning_point_count (learning st) < MIN_LEARNING_POINTS)%Z ->
      apply_learned_calibration st = st)
  /\ MIN_LEARNING_POINTS = 3%Z
  /\ (forall rate now p,
        point_weight rate now p
        = confidence p
          * Rpower 0.95 (IZR (u32 (now - timestamp p)) / 86400000)
          * rate)
  /\ (forall st,
        (learning_point_count (learning st) >= MIN_LEARNING_POINTS)%Z ->
        let l := learning st in
        let used :=
          firstn
            (Z.to_nat (Z.min (learning_point_count l) MAX_LEARNING_POINTS))
            (learning_points l) in
        let rate := learning_rate (autocal st) in
        let num := weighted_numerator rate (now_ms st) used in
        let den := weighted_denominator rate (now_ms st) used in
        let tw := total_point_weight rate (now_ms st) used in
        let learned_scale := num / den in
        let cur := amps_per_volt (cal st) in
        let st' := apply_learned_calibration st in
        weighted_sums rate (now_ms st) used = (num, den, tw)
        /\ learned_scale_of (num, den, tw) = learned_scale
        /\ (den > 0.001 /\ tw > 0.1
            /\ cur * 0.5 < learned_scale < cur * 1.5 ->
            amps_per_volt (cal st') = 0.7 * cur + 0.3 * learned_scale
            /\ bias_voltage (cal st') = bias_voltage (cal st))
        /\ (~ (den > 0.001 /\ tw > 0.1
               /\ cur * 0.5 < learned_scale < cur * 1.5) ->
            cal st' = cal st)
        /\ learning st' = learning st)
  /\ (forall now,
        learned_scale_of (weighted_sums 1 now (two_manual_points now)) = 200).
Proof.
  split; [|split; [reflexivity|split; [exact point_weight_formula|split]]].
  - intros st Hc. unfold apply_learned_calibration.
    replace (_ <? MIN_LEARNING_POINTS)%Z with true
      by (symmetry; apply Z.ltb_lt; exact Hc).
    reflexivity.
  - intros st Hc. cbn zeta.
    rewrite (apply_learned_calibration_closed st). cbn zeta.
    replace (_ <? MIN_LEARNING_POINTS)%Z with false
      by (symmetry; apply Z.ltb_ge; lia).
    split; [apply weighted_sums_spec|]. split; [reflexivity|].
    set (num := weighted_numerator _ _ _).
    set (den := weighted_denominator _ _ _).
    set (tw := total_point_weight _ _ _).
    set (cur := amps_per_volt (cal st)).
    split; [|split].
    + intros (Hd & Ht & Hl1 & Hl2).
      replace (Rgtb den 0.001) with true by (symmetry; apply Rgtb_true; lra).
      replace (Rgtb tw 0.1) with true by (symmetry; apply Rgtb_true; lra).
      replace (Rgtb (num / den) (cur * 0.5)) with true
        by (symmetry; apply Rgtb_true; lra).
      replace (Rltb (num / den) (cur * 1.5)) with true
        by (symmetry; apply Rltb_true; lra).
      cbn [andb]. unfold set_amps_per_volt. state_simpl. split; [lra|].
      reflexivity.
    + intros Hno.
      destruct (Rgtb den 0.001) eqn:Hd; [|reflexivity].
      destruct (Rgtb tw 0.1) eqn:Ht; [|reflexivity].
      cbn [andb].
      destruct (Rgtb (num / den) (cur * 0.5)) eqn:H1; [|reflexivity].
      destruct (Rltb (num / den) (cur * 1.5)) eqn:H2; [|reflexivity].
      exfalso. apply Hno.
      apply Rgtb_true in Hd, Ht, H1. apply Rltb_true in H2. lra.
    + destruct (Rgtb den 0.001 && Rgtb tw 0.1); [|reflexivity].
      destruct (Rgtb (num / den) (cur * 0.5) && Rltb (num / den) (cur * 1.5));
        reflexivity.
  - intros now. rewrite two_manual_points_estimate. unfold learned_scale_of.
    lra.
Qed.
Lemma learn_from_calibration_clock (e m : R) (manual : bool) (st : state) :
  clock_ms (env (learn_from_calibration e m manual st)) = clock_ms (env st).
Proof.
  unfold learn_from_calibration. destruct (_ <? _)%Z; reflexivity.
Qed.

Lemma three_point_state_learning :
  learning_point_count (learning three_point_state) = 3%Z
  /\ firstn 3 (learning_points (learning three_point_state))
     = [ new_point 11 0.05 1000 true; new_point 22 0.1 1000 true;
         new_point 5.5 0.025 1000 true ]
  /\ learning_rate (autocal three_point_state) = 1
  /\ amps_per_volt (cal three_point_state) = 200
  /\ now_ms three_point_state = 1000%Z.
Proof.
  unfold three_point_state, now_ms.
  set (s0 := put_learning_rate 1 (boot_state (fresh_world 1000 []))).
  rewrite !learn_from_calibration_learning, !learn_from_calibration_clock.
  rewrite !(proj1 (learn_from_calibration_frame _ _ _ _)).
  rewrite !(proj1 (proj2 (proj2 (learn_from_calibration_frame _ _ _ _)))).
  change (clock_ms (env s0)) with 1000%Z.
  change (learning s0)
    with {| learning_points := repeat zero_point 50;
            learning_point_count := 0; learning_point_index := 0 |}.
  unfold store_point. cbn -[new_point].
  repeat split; reflexivity.
Qed.

Lemma three_point_state_sums :
  let st := three_point_state in
  let used :=
    firstn
      (Z.to_nat (Z.min (learning_point_count (learning st))
                       MAX_LEARNING_POINTS))
      (learning_points (learning st)) in
  let rate := learning_rate (autocal st) in
  weighted_numerator rate (now_ms st) used = 38.5
  /\ weighted_denominator rate (now_ms st) used = 0.175
  /\ total_point_weight rate (now_ms st) used = 3.
Proof.
  cbn zeta.
  destruct three_point_state_learning as (Hc & Hp & Hr & _ & Hn).
  rewrite Hc, Hr, Hn.
  change (Z.to_nat (Z.min 3 MAX_LEARNING_POINTS)) with 3%nat.
  rewrite Hp.
  unfold weighted_numerator, weighted_denominator, total_point_weight,
    usable_points.
  cbn [filter new_point measured_voltage]. unfold Rgtb. rcmp.
  cbn [map sum_of fold_right].
  rewrite !point_weight_fresh by reflexivity.
  cbn [new_point expected_current measured_voltage confidence].
  repeat split; lra.
Qed.

(** [apply_learned_calibration_effect] at [three_point_state]: the learned
    scale is 38.5 / 0.175 = 220, within 50% of the current 200, and the
    scale becomes 0.7 * 200 + 0.3 * 220 = 206. *)
Lemma apply_learned_calibration_witness :
  (learning_point_count (learning three_point_state)
   >= MIN_LEARNING_POINTS)%Z
  /\ amps_per_volt (cal (apply_learned_calibration three_point_state)) = 206.
Proof.
  destruct three_point_state_learning as (Hc & _ & _ & Hcur & _).
  destruct three_point_state_sums as (Hnum & Hden & Htw).
  assert (Hge : (learning_point_count (learning three_point_state)
                 >= MIN_LEARNING_POINTS)%Z)
    by (rewrite Hc; unfold MIN_LEARNING_POINTS; lia).
  split; [exact Hge|].
  destruct apply_learned_calibration_effect as (_ & _ & _ & Happly & _).
  destruct (Happly three_point_state Hge) as (_ & _ & Haccept & _).
  rewrite Hnum, Hden, Htw, Hcur in Haccept.
  destruct Haccept as [Hscale _]; [lra|].
  rewrite Hscale. lra.
Defined.

(** ** The RMS measurement engine *)

Lemma ac_voltages_cons (bias : R) (r : option Z) (rest : list (option Z)) :
  ac_voltages bias (r :: rest)
  = match r with
    | Some a => (adc_to_voltage a - bias) :: ac_voltages bias rest
    | None => ac_voltages bias rest
    end.
Proof. unfold ac_voltages. destruct r; reflexivity. Qed.

Lemma rms_samples_S (k : nat) (s : R) (v : Z) (st : state) :
  rms_samples (S k) s v st
  = let st1 := snd (adc_oneshot_read st) in
    match hd None (adc_feed (env st)) with
    | Some a =>
        let ac := adc_to_voltage a - bias_voltage (cal st) in
        let sd := sender st in
        let next := Z.rem (buffer_index sd + 1) RMS_BUFFER_SIZE in
        let st2 :=
          with_sender
            {| voltage_buffer :=
                 list_set (voltage_buffer sd) (Z.to_nat (buffer_index sd)) ac;
               buffer_index := next;
               buffer_filled :=
                 if (next =? 0)%Z then true else buffer_filled sd;
               measurement_count := measurement_count sd;
               last_measured_vrms := last_measured_vrms sd;
               total_measurements := total_measurements sd;
               stats_min_current := stats_min_current sd;
               stats_max_current := stats_max_current sd;
               accumulated_current := accumulated_current sd |} st1 in
        rms_samples k (s + ac * ac) (v + 1)%Z (vTaskDelay 2 st2)
    | None => rms_samples k s v (vTaskDelay 2 st1)
    end.
Proof.
  cbn [rms_samples]. unfold adc_oneshot_read. cbn [fst snd].
  destruct (hd None (adc_feed (env st))) as [a|]; [|reflexivity].
  cbn zeta. state_simpl.
  destruct (Z.rem _ _ =? 0)%Z; reflexivity.
Qed.

(** The sampling loop of [measure_rms_current]: what it returns and what it
    leaves alone. *)
Lemma rms_samples_spec (n : nat) (s : R) (v : Z) (st : state) :
  let acs :=
    ac_voltages (bias_voltage (cal st)) (firstn n (adc_feed (env st))) in
  let r := rms_samples n s v st in
  let st' := snd r in
  fst (fst r) = s + sum_of (map (fun x => x * x) acs)
  /\ snd (fst r) = (v + Z.of_nat (List.length acs))%Z
  /\ cal st' = cal st /\ det st' = det st /\ autocal st' = autocal st
  /\ learning st' = learning st /\ stats st' = stats st
  /\ history st' = history st /\ stability st' = stability st
  /\ esp_log (env st') = esp_log (env st)
  /\ measurement_count (sender st') = measurement_count (sender st)
  /\ total_measurements (sender st') = total_measurements (sender st)
  /\ stats_min_current (sender st') = stats_min_current (sender st)
  /\ stats_max_current (sender st') = stats_max_current (sender st)
  /\ accumulated_current (sender st') = accumulated_current (sender st)
  /\ last_measured_vrms (sender st') = last_measured_vrms (sender st).
Proof.
  revert s v st. induction n as [|k IH]; intros s v st; cbn zeta.
  - cbn [rms_samples firstn fst snd]. unfold ac_voltages. simpl.
    rewrite Rplus_0_r, Z.add_0_r. repeat split; reflexivity.
  - rewrite rms_samples_S. cbn zeta.
    destruct (adc_feed (env st)) as [|[a|] rest] eqn:Hfeed; cbn [hd].
    + match goal with
      | |- context [rms_samples k s v ?s1] =>
          specialize (IH s v s1); cbn zeta in IH;
          assert (Hf1 : adc_feed (env s1) = [])
            by (state_simpl; rewrite Hfeed; reflexivity);
          assert (Hrest :
                    cal s1 = cal st /\ det s1 = det st
                    /\ autocal s1 = autocal st /\ learning s1 = learning st
                    /\ stats s1 = stats st /\ history s1 = history st
                    /\ stability s1 = stability st
                    /\ sender s1 = sender st
                    /\ esp_log (env s1) = esp_log (env st))
            by (repeat split; reflexivity);
          revert IH Hf1 Hrest; generalize (rms_samples k s v s1);
          generalize s1
      end.
      intros s1 r IH Hf1 (E1 & E2 & E3 & E4 & E5 & E6 & E7 & E8 & E9).
      rewrite Hf1, E1, E2, E3, E4, E5, E6, E7, E8, E9 in IH.
      rewrite firstn_nil in *. exact IH.
    + match goal with
      | |- context [rms_samples k ?s' ?v' ?s1] =>
          specialize (IH s' v' s1); cbn zeta in IH;
          assert (Hf1 : adc_feed (env s1) = rest)
            by (state_simpl; rewrite Hfeed; reflexivity);
          assert (Hrest :
                    cal s1 = cal st /\ det s1 = det st
                    /\ autocal s1 = autocal st /\ learning s1 = learning st
                    /\ stats s1 = stats st /\ history s1 = history st
                    /\ stability s1 = stability st
                    /\ esp_log (env s1) = esp_log (env st)
                    /\ measurement_count (sender s1)
                       = measurement_count (sender st)
                    /\ total_measurements (sender s1)
                       = total_measurements (sender st)
                    /\ stats_min_current (sender s1)
                       = stats_min_current (sender st)
                    /\ stats_max_current (sender s1)
                       = stats_max_current (sender st)
                    /\ accumulated_current (sender s1)
                       = accumulated_current (sender st)
                    /\ last_measured_vrms (sender s1)
                       = last_measured_vrms (sender st))
            by (repeat split; reflexivity);
          revert IH Hf1 Hrest; generalize (rms_samples k s' v' s1);
          generalize s1
      end.
      intros s1 r IH Hf1
        (E1 & E2 & E3 & E4 & E5 & E6 & E7 & E8 & E9 & E10 & E11 & E12
         & E13 & E14).
      rewrite Hf1, E1, E2, E3, E4, E5, E6, E7, E8, E9, E10, E11, E12, E13,
        E14 in IH.
      cbn [firstn]. rewrite ac_voltages_cons. cbn [map List.length].
      rewrite sum_of_cons.
      destruct IH as (I1 & I2 & I3).
      split; [rewrite I1; lra|]. split; [rewrite I2; lia|]. exact I3.
    + match goal with
      | |- context [rms_samples k s v ?s1] =>
          specialize (IH s v s1); cbn zeta in IH;
          assert (Hf1 : adc_feed (env s1) = rest)
            by (state_simpl; rewrite Hfeed; reflexivity);
          assert (Hrest :
                    cal s1 = cal st /\ det s1 = det st
                    /\ autocal s1 = autocal st /\ learning s1 = learning st
                    /\ stats s1 = stats st /\ history s1 = history st
                    /\ stability s1 = stability st
                    /\ sender s1 = sender st
                    /\ esp_log (env s1) = esp_log (env st))
            by (repeat split; reflexivity);
          revert IH Hf1 Hrest; generalize (rms_samples k s v s1);
          generalize s1
      end.
      intros s1 r IH Hf1 (E1 & E2 & E3 & E4 & E5 & E6 & E7 & E8 & E9).
      rewrite Hf1, E1, E2, E3, E4, E5, E6, E7, E8, E9 in IH.
      cbn [firstn]. rewrite ac_voltages_cons. exact IH.
Qed.

Lemma measure_rms_current_unfold (st : state) :
  measure_rms_current st
  = let r := rms_samples 100 0 0%Z st in
    let st1 := snd r in
    if (snd (fst r) =? 0)%Z then
      (0, ESP_LOGW SENDER_TAG "No valid ADC samples obtained" st1)
    else
      let voltage_rms := sqrt (fst (fst r) / IZR (snd (fst r))) in
      let st2 := put_last_measured_vrms voltage_rms st1 in
      (voltage_rms * get_amps_per_volt st2,
       after_measurement (voltage_rms * get_amps_per_volt st2) st2).
Proof.
  unfold measure_rms_current.
  change (Z.to_nat RMS_BUFFER_SIZE) with 100%nat.
  destruct (rms_samples 100 0 0%Z st) as [[a b] c]. reflexivity.
Qed.

Lemma ac_voltages_length (bias : R) (n : nat) (feed : list (option Z)) :
  (List.length (ac_voltages bias (firstn n feed)) <= n)%nat.
Proof.
  revert feed. induction n as [|n IH]; intros [|r rest]; simpl; try lia.
  rewrite ac_voltages_cons. specialize (IH rest).
  destruct r; simpl; lia.
Qed.

Lemma sum_of_squares_zero (l : list R) :
  (forall x, In x l -> x = 0) -> sum_of (map (fun x => x * x) l) = 0.
Proof.
  induction l as [|x l IH]; intros H; [reflexivity|].
  cbn [map]. rewrite sum_of_cons, IH by (intros; apply H; now right).
  rewrite (H x) by now left. lra.
Qed.

(** The value returned by [measure_rms_current]. *)
Lemma measure_rms_current_result (st : state) :
  let acs :=
    ac_voltages (bias_voltage (cal st)) (firstn 100 (adc_feed (env st))) in
  let n := List.length acs in
  (n = 0%nat ->
   fst (measure_rms_current st) = 0
   /\ esp_log (env (snd (measure_rms_current st)))
      = no_samples_warning :: esp_log (env st)
   /\ cal (snd (measure_rms_current st)) = cal st
   /\ total_measurements (sender (snd (measure_rms_current st)))
      = total_measurements (sender st))
  /\ ((n > 0)%nat ->
      fst (measure_rms_current st)
      = sqrt (sum_of (map (fun x => x * x) acs) / INR n)
        * amps_per_volt (cal st)).
Proof.
  cbn zeta. rewrite measure_rms_current_unfold. cbn zeta.
  pose proof (rms_samples_spec 100 0 0%Z st) as H. cbn zeta in H.
  revert H. generalize (rms_samples 100 0 0%Z st). intros r H.
  destruct H as (H1 & H2 & H3 & _ & _ & _ & _ & _ & _ & H10 & _ & H12 & _).
  rewrite H2, H1, Z.add_0_l, Rplus_0_l.
  split; intros Hn.
  - rewrite Hn. cbn [Z.of_nat Z.eqb fst snd]. state_simpl.
    rewrite H3, H10, H12. repeat split; reflexivity.
  - replace (Z.of_nat _ =? 0)%Z with false
      by (symmetry; apply Z.eqb_neq; lia).
    cbn [fst]. unfold get_amps_per_volt. state_simpl.
    rewrite H3, INR_IZR_INZ. reflexivity.
Qed.

(** C5: [measure_rms_current] reads a batch of 100 ticks, of which at most
    100 succeed, and returns
    [sqrt (mean over the successfully read ticks of (voltage - bias)^2)
     * scale_factor]; when no tick was read successfully it returns 0, with
    the warning logged and without touching the calibration parameters or
    the measurement count; and when every successfully read raw sample is
    one constant whose converted voltage equals the bias voltage, the
    returned current is 0. *)
Theorem measure_rms_current_value (st : state) :
  let batch := firstn 100 (adc_feed (env st)) in
  let acs := ac_voltages (bias_voltage (cal st)) batch in
  let n := List.length acs in
  (List.length batch <= 100)%nat /\ (n <= 100)%nat
  /\ acs = map (fun a => adc_to_voltage a - bias_voltage (cal st))
               (valid_ticks batch)
  /\ ((n > 0)%nat ->
      fst (measure_rms_current st)
      = sqrt (sum_of (map (fun x => x ^ 2) acs) / INR n)
        * amps_per_volt (cal st))
  /\ (n = 0%nat ->
      fst (measure_rms_current st) = 0
      /\ esp_log (env (snd (measure_rms_current st)))
         = no_samples_warning :: esp_log (env st)
      /\ log_lvl no_samples_warning = LOG_W
      /\ cal (snd (measure_rms_current st)) = cal st
      /\ total_measurements (sender (snd (measure_rms_current st)))
         = total_measurements (sender st))
  /\ (forall c,
        adc_to_voltage c = bias_voltage (cal st) ->
        (forall a, In a (valid_ticks batch) -> a = c) ->
        fst (measure_rms_current st) = 0).
Proof.
  cbn zeta.
  destruct (measure_rms_current_result st) as [Hzero Hpos]. cbn zeta in *.
  split; [apply firstn_le_length|]. split; [apply ac_voltages_length|].
  split; [reflexivity|]. split; [|split].
  - intros Hn. rewrite (Hpos Hn). do 4 f_equal. apply map_ext.
    intros x. ring.
  - intros Hn. destruct (Hzero Hn) as (H1 & H2 & H3 & H4).
    repeat split; assumption || reflexivity.
  - intros c Hc Hall.
    destruct (List.length
                (ac_voltages (bias_voltage (cal st))
                   (firstn 100 (adc_feed (env st))))) eqn:Hlen.
    + apply Hzero. reflexivity.
    + rewrite Hpos by lia.
      rewrite sum_of_squares_zero.
      * unfold Rdiv. rewrite Rmult_0_l, sqrt_0. ring.
      * intros x Hx. unfold ac_voltages in Hx. apply in_map_iff in Hx.
        destruct Hx as (a & <- & Ha). rewrite (Hall a Ha), Hc. ring.
Qed.

(** ** Sensitivity adaptation *)

Lemma adaptive_threshold_adjustment_sensitivity (st : state) :
  sensitivity (adaptive_threshold_adjustment st)
  = if (u32 (now_ms st - last_adjustment (autocal st)) <? 60 * 60 * 1000)%Z
    then sensitivity st
    else if Rgtb (success_rate st) 0.8 && Rltb (sensitivity st) 0.9
         then sensitivity st + 0.05
         else if Rltb (success_rate st) 0.4 && Rgtb (sensitivity st) 0.3
              then sensitivity st - 0.05
              else sensitivity st.
Proof.
  unfold adaptive_threshold_adjustment, sensitivity. cbn zeta.
  destruct (_ <? 60 * 60 * 1000)%Z; [reflexivity|].
  destruct (Rgtb (success_rate st) 0.8
            && Rltb (auto_cal_sensitivity (autocal st)) 0.9);
    [reflexivity|].
  destruct (Rltb (success_rate st) 0.4
            && Rgtb (auto_cal_sensitivity (autocal st)) 0.3); reflexivity.
Qed.

Lemma set_auto_cal_sensitivity_cases (v : R) (st : state) :
  (0 <= v <= 1 -> sensitivity (set_auto_cal_sensitivity v st) = v)
  /\ (~ 0 <= v <= 1 -> set_auto_cal_sensitivity v st = st).
Proof.
  unfold set_auto_cal_sensitivity, sensitivity. split; intros H.
  - replace (Rgeb v 0) with true by (symmetry; apply Rgeb_true; lra).
    replace (Rleb v 1) with true by (symmetry; apply Rleb_true; lra).
    reflexivity.
  - destruct (Rgeb v 0) eqn:H0; [|reflexivity].
    destruct (Rleb v 1) eqn:H1; [|reflexivity].
    apply Rgeb_true in H0. apply Rleb_true in H1. exfalso. apply H. lra.
Qed.

Lemma on_grid_step (s : R) :
  on_grid s ->
  (s < 0.9 -> on_grid (s + 0.05)) /\ (s > 0.3 -> on_grid (s - 0.05))
  /\ 0.3 <= s <= 0.9.
Proof.
  intros (k & Hk & ->).
  assert (H0 : 0 <= IZR k) by (apply IZR_le; lia).
  assert (H12 : IZR k <= 12) by (apply IZR_le; lia).
  split; [|split; [|lra]].
  - intros Hlt. exists (k + 1)%Z. rewrite plus_IZR. split; [|lra].
    assert (k < 12)%Z; [|lia].
    apply lt_IZR. lra.
  - intros Hgt. exists (k - 1)%Z. rewrite minus_IZR. split; [|lra].
    assert (0 < k)%Z; [|lia].
    apply lt_IZR. lra.
Qed.

(** The four ways an adaptation round can go. *)
Lemma adaptive_threshold_adjustment_ways (st : state) :
  let s := sensitivity st in
  let s' := sensitivity (adaptive_threshold_adjustment st) in
  let rate := success_rate st in
  (~ adjustment_due st /\ s' = s)
  \/ (adjustment_due st /\ rate > 0.8 /\ s < 0.9 /\ s' = s + 0.05)
  \/ (adjustment_due st /\ ~ (rate > 0.8 /\ s < 0.9)
      /\ rate < 0.4 /\ s > 0.3 /\ s' = s - 0.05)
  \/ (adjustment_due st /\ ~ (rate > 0.8 /\ s < 0.9)
      /\ ~ (rate < 0.4 /\ s > 0.3) /\ s' = s).
Proof.
  cbn zeta. rewrite adaptive_threshold_adjustment_sensitivity.
  unfold adjustment_due.
  set (s := sensitivity st). set (rate := success_rate st).
  destruct (Z.ltb_spec (u32 (now_ms st - last_adjustment (autocal st)))
              (60 * 60 * 1000)) as [Hd|Hd].
  { left. split; [lia|reflexivity]. }
  right.
  assert (Hdue : (u32 (now_ms st - last_adjustment (autocal st))
                  >= 60 * 60 * 1000)%Z) by lia.
  destruct (Rgtb rate 0.8) eqn:Hr1; destruct (Rltb s 0.9) eqn:Hs1;
    cbn [andb];
    try apply Rgtb_true in Hr1; try apply Rgtb_false in Hr1;
    try apply Rltb_true in Hs1; try apply Rltb_false in Hs1.
  1:{ left. repeat split; assumption || lra. }
  all: right.
  all: destruct (Rltb rate 0.4) eqn:Hr2; destruct (Rgtb s 0.3) eqn:Hs2;
    cbn [andb];
    try apply Rltb_true in Hr2; try apply Rltb_false in Hr2;
    try apply Rgtb_true in Hs2; try apply Rgtb_false in Hs2.
  all: first [ left; split; [exact Hdue|]; split; [lra|];
               split; [lra|]; split; [lra|]; reflexivity
             | right; split; [exact Hdue|]; split; [lra|];
               split; [lra|]; reflexivity ].
Qed.

(** C9, as the code has it: the hourly adaptation changes the sensitivity
    by exactly +0.05, -0.05 or not at all; it raises it only when
    [success_rate > 0.8] and [sensitivity < 0.9], and does so whenever an
    adjustment is due under these conditions; it lowers it only when
    [success_rate < 0.4] and [sensitivity > 0.3], and does so whenever an
    adjustment is due under these conditions and the first do not hold;
    [success_rate] is 0.5 when no attempt was counted.  There is no clamp:
    a raised sensitivity is below 0.95 and a lowered one above 0.25, and it
    stays within [0.3, 0.9] from every value 0.3, 0.35, ..., 0.9 (the
    default 0.7 among them).  A manual override is taken exactly when it
    lies in [0, 1]. *)
Theorem adaptive_threshold_adjustment_effect :
  (forall st,
      let s := sensitivity st in
      let s' := sensitivity (adaptive_threshold_adjustment st) in
      let rate := success_rate st in
      (s' = s \/ s' = s + 0.05 \/ s' = s - 0.05)
      /\ (s' = s + 0.05 ->
          adjustment_due st /\ rate > 0.8 /\ s < 0.9 /\ s' < 0.95)
      /\ (s' = s - 0.05 ->
          adjustment_due st /\ rate < 0.4 /\ s > 0.3 /\ s' > 0.25)
      /\ (adjustment_due st -> rate > 0.8 -> s < 0.9 -> s' = s + 0.05)
      /\ (adjustment_due st -> rate < 0.4 -> s > 0.3 -> s' = s - 0.05)
      /\ (on_grid s -> on_grid s' /\ 0.3 <= s' <= 0.9))
  /\ (forall st,
        successful_recognitions (stats st) = 0%Z ->
        failed_recognitions (stats st) = 0%Z ->
        success_rate st = 0.5)
  /\ (forall w, on_grid (sensitivity (boot_state w)))
  /\ (forall v st,
        (0 <= v <= 1 -> sensitivity (set_auto_cal_sensitivity v st) = v)
        /\ (~ 0 <= v <= 1 -> set_auto_cal_sensitivity v st = st)).
Proof.
  split; [|split; [|split]].
  - intros st. cbn zeta.
    pose proof (adaptive_threshold_adjustment_ways st) as W.
    cbn zeta in W.
    set (s := sensitivity st) in *.
    set (s' := sensitivity (adaptive_threshold_adjustment st)) in *.
    set (rate := success_rate st) in *.
    split; [|split; [|split; [|split; [|split]]]].
    + destruct W as [(_ & E)|[(_ & _ & _ & E)|[(_ & _ & _ & _ & E)
                    |(_ & _ & _ & E)]]]; lra.
    + intros Hup.
      destruct W as [(_ & E)|[(D & R1 & S1 & E)|[(_ & _ & _ & _ & E)
                    |(_ & _ & _ & E)]]]; try lra.
      repeat split; assumption || lra.
    + intros Hdown.
      destruct W as [(_ & E)|[(D & R1 & S1 & E)|[(D & _ & R2 & S2 & E)
                    |(_ & _ & _ & E)]]]; try lra.
      repeat split; assumption || lra.
    + intros D R1 S1.
      destruct W as [(N & _)|[(_ & _ & _ & E)|[(_ & N & _)|(_ & N & _)]]];
        [contradiction | exact E | exfalso; apply N; lra
        | exfalso; apply N; lra].
    + intros D R2 S2.
      destruct W as [(N & _)|[(_ & R1 & _)|[(_ & _ & _ & _ & E)
                    |(_ & _ & N & _)]]];
        [contradiction | lra | exact E | exfalso; apply N; lra].
    + intros Hg. destruct (on_grid_step s Hg) as (Gup & Gdown & Gb).
      assert (Hg' : on_grid s').
      { destruct W as [(_ & E)|[(_ & _ & S1 & E)|[(_ & _ & _ & S2 & E)
                      |(_ & _ & _ & E)]]]; rewrite E; auto. }
      split; [exact Hg'|]. apply (on_grid_step s' Hg').
  - intros st Hs Hf. unfold success_rate. rewrite Hs, Hf. reflexivity.
  - intros w. exists 8%Z. split; [lia|].
    unfold sensitivity, boot_state. cbn [autocal auto_cal_sensitivity]. lra.
  - intros v st. apply set_auto_cal_sensitivity_cases.
Qed.

Lemma eager_state_facts :
  sensitivity eager_state = 0.88
  /\ success_rate eager_state = 0.9
  /\ adjustment_due eager_state.
Proof.
  split; [|split].
  - unfold eager_state.
    change (sensitivity
              (put_successful_recognitions 9
                 (put_failed_recognitions 1
                    (set_auto_cal_sensitivity 0.88
                       (boot_state (fresh_world 3600000 []))))))
      with (sensitivity
              (set_auto_cal_sensitivity 0.88
                 (boot_state (fresh_world 3600000 [])))).
    apply set_auto_cal_sensitivity_cases. lra.
  - unfold success_rate.
    change (successful_recognitions (stats eager_state)) with 9%Z.
    change (failed_recognitions (stats eager_state)) with 1%Z.
    change (u32 (9 + 1)) with 10%Z. cbn [Z.gtb Z.compare Pos.compare
                                         Pos.compare_cont]. lra.
  - unfold adjustment_due.
    assert (Hn : now_ms eager_state = 3600000%Z).
    { unfold eager_state, set_auto_cal_sensitivity.
      destruct (Rgeb 0.88 0 && Rleb 0.88 1); reflexivity. }
    assert (Hl : last_adjustment (autocal eager_state) = 0%Z).
    { unfold eager_state, set_auto_cal_sensitivity.
      destruct (Rgeb 0.88 0 && Rleb 0.88 1); reflexivity. }
    rewrite Hn, Hl. unfold u32. intros H. discriminate H.
Qed.

(** C9 as stated fails: 0.88 is a valid manual override; with nine
    recognitions out of ten successful the next adjustment raises the
    sensitivity by 0.05 to 0.93, outside [0.3, 0.9]. *)
Lemma override_then_raise_leaves_band :
  let st := eager_state in
  let s' := sensitivity (adaptive_threshold_adjustment st) in
  0 <= 0.88 <= 1
  /\ sensitivity st = 0.88
  /\ success_rate st > 0.8 /\ sensitivity st < 0.9
  /\ s' = sensitivity st + 0.05
  /\ ~ (0.3 <= s' <= 0.9).
Proof.
  cbn zeta. destruct eager_state_facts as (Hs & Hr & Hd).
  assert (Hup : sensitivity (adaptive_threshold_adjustment eager_state)
                = sensitivity eager_state + 0.05).
  { pose proof (adaptive_threshold_adjustment_ways eager_state) as W.
    cbn zeta in W. rewrite Hs, Hr in W.
    destruct W as [(N & _)|[(_ & _ & _ & E)|[(_ & N & _)|(_ & N & _)]]].
    - contradiction.
    - rewrite Hs. exact E.
    - exfalso. apply N. lra.
    - exfalso. apply N. lra. }
  rewrite Hup, Hs, Hr. repeat split; lra.
Qed.

(** ** The command dispatcher *)

Lemma dispatch_set_bias (atof : string -> R) (arg : string) (st : state) :
  dispatch_command atof ("SET_BIAS:" ++ arg) st
  = let bias := atof arg in
    if Rgeb bias 0.1 && Rleb bias 3.0 then
      (Some {| resp_fmt := "SET_BIAS:SUCCESS,VALUE=%.4f";
               resp_args := [FFloat bias] |},
       set_bias_voltage bias st)
    else (Some (text "SET_BIAS:ERROR,INVALID_RANGE"), st).
Proof.
  unfold dispatch_command.
  cbn [append strncmp_eq Ascii.eqb Bool.eqb andb string_from].
  reflexivity.
Qed.

Lemma dispatch_set_scale (atof : string -> R) (arg : string) (st : state) :
  dispatch_command atof ("SET_SCALE:" ++ arg) st
  = let scale := atof arg in
    if Rgeb scale 1.0 && Rleb scale 1000.0 then
      (Some {| resp_fmt := "SET_SCALE:SUCCESS,VALUE=%.2f";
               resp_args := [FFloat scale] |},
       set_amps_per_volt scale st)
    else (Some (text "SET_SCALE:ERROR,INVALID_RANGE"), st).
Proof.
  unfold dispatch_command.
  cbn [append strncmp_eq Ascii.eqb Bool.eqb andb string_from].
  reflexivity.
Qed.

Lemma dispatch_manual_cal (atof : string -> R) (rest : string)
    (st : state) :
  dispatch_command atof ("MANUAL_CAL:" ++ rest) st
  = match split_comma rest with
    | Some (before, after) =>
        (Some {| resp_fmt := "MANUAL_CAL:SUCCESS,BIAS=%.4f,SCALE=%.2f";
                 resp_args := [FFloat (atof before); FFloat (atof after)] |},
         set_amps_per_volt (atof after) (set_bias_voltage (atof before) st))
    | None => (Some (text "MANUAL_CAL:ERROR,INVALID_FORMAT"), st)
    end.
Proof.
  unfold dispatch_command.
  cbn [append strncmp_eq Ascii.eqb Bool.eqb andb string_from].
  destruct (split_comma rest) as [[before after]|]; reflexivity.
Qed.

(** The calibration parameters and the last datagram after a command whose
    dispatch leaves response [r] and state [st1]. *)
Lemma process_udp_command_answer (atof : string -> R) (command : string)
    (st : state) (r : response) (st1 : state) :
  dispatch_command atof command
    (ESP_LOGI RECV_TAG "Processing command: %s" st) = (Some r, st1) ->
  cal (process_udp_command atof command st) = cal st1
  /\ udp_sent (env (process_udp_command atof command st))
     = r :: udp_sent (env st1).
Proof.
  intros H. unfold process_udp_command. cbn zeta. rewrite H.
  split; reflexivity.
Qed.

(** C10: a [SET_BIAS:<v>] command updates the bias voltage only when
    [0.1 <= v <= 3.0], a [SET_SCALE:<v>] command the scale factor only when
    [1.0 <= v <= 1000.0]; in range the one parameter takes the value and the
    other is kept, out of range the answer is the INVALID_RANGE error and
    both parameters are kept.  [MANUAL_CAL:<bias>,<scale>] has no such
    check: both parameters take whatever values the text gives. *)
Theorem set_bias_scale_range_checked :
  (forall (atof : string -> R) arg st,
      let v := atof arg in
      let st' := process_udp_command atof ("SET_BIAS:" ++ arg) st in
      (0.1 <= v <= 3.0 ->
       bias_voltage (cal st') = v
       /\ amps_per_volt (cal st') = amps_per_volt (cal st)
       /\ udp_sent (env st')
          = {| resp_fmt := "SET_BIAS:SUCCESS,VALUE=%.4f";
               resp_args := [FFloat v] |} :: udp_sent (env st))
      /\ (~ 0.1 <= v <= 3.0 ->
          cal st' = cal st
          /\ udp_sent (env st')
             = text "SET_BIAS:ERROR,INVALID_RANGE" :: udp_sent (env st)))
  /\ (forall (atof : string -> R) arg st,
        let v := atof arg in
        let st' := process_udp_command atof ("SET_SCALE:" ++ arg) st in
        (1.0 <= v <= 1000.0 ->
         amps_per_volt (cal st') = v
         /\ bias_voltage (cal st') = bias_voltage (cal st)
         /\ udp_sent (env st')
            = {| resp_fmt := "SET_SCALE:SUCCESS,VALUE=%.2f";
                 resp_args := [FFloat v] |} :: udp_sent (env st))
        /\ (~ 1.0 <= v <= 1000.0 ->
            cal st' = cal st
            /\ udp_sent (env st')
               = text "SET_SCALE:ERROR,INVALID_RANGE" :: udp_sent (env st)))
  /\ (forall (atof : string -> R) rest before after st,
        split_comma rest = Some (before, after) ->
        let st' := process_udp_command atof ("MANUAL_CAL:" ++ rest) st in
        bias_voltage (cal st') = atof before
        /\ amps_per_volt (cal st') = atof after).
Proof.
  split; [|split].
  - intros atof arg st. cbn zeta.
    pose proof (dispatch_set_bias atof arg
                  (ESP_LOGI RECV_TAG "Processing command: %s" st)) as D.
    cbn zeta in D. split; intros Hv.
    + replace (Rgeb (atof arg) 0.1) with true in D
        by (symmetry; apply Rgeb_true; lra).
      replace (Rleb (atof arg) 3.0) with true in D
        by (symmetry; apply Rleb_true; lra).
      cbn [andb] in D.
      destruct (process_udp_command_answer _ _ _ _ _ D) as [-> ->].
      repeat split; reflexivity.
    + assert (Hf : Rgeb (atof arg) 0.1 && Rleb (atof arg) 3.0 = false).
      { destruct (Rgeb (atof arg) 0.1) eqn:H1; [|reflexivity].
        destruct (Rleb (atof arg) 3.0) eqn:H2; [|reflexivity].
        apply Rgeb_true in H1. apply Rleb_true in H2.
        exfalso. apply Hv. lra. }
      rewrite Hf in D.
      destruct (process_udp_command_answer _ _ _ _ _ D) as [-> ->].
      split; reflexivity.
  - intros atof arg st. cbn zeta.
    pose proof (dispatch_set_scale atof arg
                  (ESP_LOGI RECV_TAG "Processing command: %s" st)) as D.
    cbn zeta in D. split; intros Hv.
    + replace (Rgeb (atof arg) 1.0) with true in D
        by (symmetry; apply Rgeb_true; lra).
      replace (Rleb (atof arg) 1000.0) with true in D
        by (symmetry; apply Rleb_true; lra).
      cbn [andb] in D.
      destruct (process_udp_command_answer _ _ _ _ _ D) as [-> ->].
      repeat split; reflexivity.
    + assert (Hf : Rgeb (atof arg) 1.0 && Rleb (atof arg) 1000.0 = false).
      { destruct (Rgeb (atof arg) 1.0) eqn:H1; [|reflexivity].
        destruct (Rleb (atof arg) 1000.0) eqn:H2; [|reflexivity].
        apply Rgeb_true in H1. apply Rleb_true in H2.
        exfalso. apply Hv. lra. }
      rewrite Hf in D.
      destruct (process_udp_command_answer _ _ _ _ _ D) as [-> ->].
      split; reflexivity.
  - intros atof rest before after st Hsplit. cbn zeta.
    pose proof (dispatch_manual_cal atof rest
                  (ESP_LOGI RECV_TAG "Processing command: %s" st)) as D.
    rewrite Hsplit in D.
    destruct (process_udp_command_answer _ _ _ _ _ D) as [-> _].
    split; reflexivity.
Qed.

(** ** The scale factor stays positive, except through MANUAL_CAL *)

Lemma atof_decimal_examples :
  atof_decimal "1.65" = 1.65 /\ atof_decimal "-5" = -5
  /\ atof_decimal "0" = 0.
Proof.
  unfold atof_decimal.
  change (parse_decimal "1.65") with (false, 1%Z, 65%Z, 2%nat).
  change (parse_decimal "-5") with (true, 5%Z, 0%Z, 0%nat).
  change (parse_decimal "0") with (false, 0%Z, 0%Z, 0%nat).
  cbn iota.
  change (10 ^ Z.of_nat 2)%Z with 100%Z.
  change (10 ^ Z.of_nat 0)%Z with 1%Z.
  repeat split; lra.
Qed.

Lemma sum_of_positive (l : list R) :
  l <> [] -> (forall x, In x l -> x > 0) -> sum_of l > 0.
Proof.
  induction l as [|x l IH]; intros Hne Hall; [congruence|].
  rewrite sum_of_cons.
  assert (Hx : x > 0) by (apply Hall; now left).
  destruct l as [|y l].
  - simpl. lra.
  - assert (sum_of (y :: l) > 0); [|lra].
    apply IH; [discriminate|]. intros z Hz. apply Hall. now right.
Qed.



(** C8 fails on the code: from the power-up state, whose scale factor is
    200, the command [MANUAL_CAL:1.65,-5] stores the scale factor -5, and
    [MANUAL_CAL:1.65,0] stores 0. *)
Theorem manual_cal_stores_nonpositive_scale (w : world) :
  let st := boot_state w in
  let negative :=
    process_udp_command atof_decimal "MANUAL_CAL:1.65,-5" st in
  let zero := process_udp_command atof_decimal "MANUAL_CAL:1.65,0" st in
  amps_per_volt (cal st) > 0
  /\ amps_per_volt (cal negative) = -5
  /\ bias_voltage (cal negative) = 1.65
  /\ amps_per_volt (cal zero) = 0
  /\ ~ amps_per_volt (cal negative) > 0
  /\ ~ amps_per_volt (cal zero) > 0.
Proof.
  cbn zeta. destruct atof_decimal_examples as (E1 & E2 & E3).
  assert (Hneg :
    cal (process_udp_command atof_decimal "MANUAL_CAL:1.65,-5"
           (boot_state w))
    = {| amps_per_volt := -5; bias_voltage := 1.65 |}).
  { pose proof (dispatch_manual_cal atof_decimal "1.65,-5"
                  (ESP_LOGI RECV_TAG "Processing command: %s"
                     (boot_state w))) as D.
    change (split_comma "1.65,-5") with (Some ("1.65", "-5")) in D.
    cbn iota in D. rewrite E1, E2 in D.
    destruct (process_udp_command_answer _ _ _ _ _ D) as [H _].
    exact H. }
  assert (Hzero :
    cal (process_udp_command atof_decimal "MANUAL_CAL:1.65,0"
           (boot_state w))
    = {| amps_per_volt := 0; bias_voltage := 1.65 |}).
  { pose proof (dispatch_manual_cal atof_decimal "1.65,0"
                  (ESP_LOGI RECV_TAG "Processing command: %s"
                     (boot_state w))) as D.
    change (split_comma "1.65,0") with (Some ("1.65", "0")) in D.
    cbn iota in D. rewrite E1, E3 in D.
    destruct (process_udp_command_answer _ _ _ _ _ D) as [H _].
    exact H. }
  rewrite Hneg, Hzero. cbn [amps_per_volt bias_voltage boot_state cal].
  repeat split; lra.
Qed.

(** ** The statements at concrete inputs *)

(** [stability_detector] from power-up: after [fifty_readings] of 3.0 the
    machine is in the stable period with [stable_value = 3]. *)
Lemma stability_detector_witness :
  let st := feed_constant 3 fifty_readings (boot_state (fresh_world 0 [])) in
  detector_at_rest (boot_state (fresh_world 0 []))
  /\ List.length fifty_readings = 50%nat
  /\ history_full (history st) = true
  /\ window_variance (current_history (history st)) = 0
  /\ in_stable_period (stability st) = true
  /\ stable_load_value (stability st) = 3.
Proof.
  cbn zeta.
  pose proof (boot_state_at_rest (fresh_world 0 [])) as Hrest.
  assert (Hlen : List.length fifty_readings = 50%nat) by reflexivity.
  split; [exact Hrest|]. split; [exact Hlen|].
  destruct stability_detector as (_ & _ & Hfeed).
  destruct (Hfeed (boot_state (fresh_world 0 [])) fifty_readings Hrest)
    as (_ & Hfifty & _).
  destruct (Hfifty Hlen) as (Hf & _ & Hv & Hs & Hval & _).
  repeat split; assumption.
Defined.

Lemma full_scale_kept :
  known_load_voltages (bias_voltage (cal full_scale_state))
    (firstn 50 (adc_feed (env full_scale_state)))
  = repeat (Rabs (adc_to_voltage 4095 - 1.65)) 50.
Proof.
  assert (Hgt : Rgtb (Rabs (adc_to_voltage 4095 - 1.65)) 0.001 = true).
  { apply Rgtb_true. unfold adc_to_voltage, ADC_RESOLUTION, ADC_VOLTAGE_RANGE.
    rewrite Rabs_right; lra. }
  unfold full_scale_state, boot_state, fresh_world.
  cbn [cal env bias_voltage adc_feed repeat app firstn].
  repeat (rewrite known_load_voltages_cons; try rewrite Hgt).
  reflexivity.
Qed.

Lemma full_scale_average :
  let kept :=
    known_load_voltages (bias_voltage (cal full_scale_state))
      (firstn 50 (adc_feed (env full_scale_state))) in
  (List.length kept > 10)%nat
  /\ sum_of kept / INR (List.length kept) = 1.65.
Proof.
  cbn zeta. rewrite full_scale_kept, repeat_length, sum_of_repeat.
  split; [lia|].
  unfold adc_to_voltage, ADC_RESOLUTION, ADC_VOLTAGE_RANGE.
  rewrite Rabs_right by lra.
  replace (INR 50) with 50 by (rewrite INR_IZR_INZ; reflexivity).
  lra.
Qed.

(** [calibrate_with_known_load_effect] with 50 valid samples averaging
    1.65 V and a known load of 5 A: the scale factor becomes 5 / 1.65. *)
Lemma calibrate_with_known_load_effect_witness :
  0 < 5 <= MAX_CURRENT_AMPS
  /\ amps_per_volt (cal (calibrate_with_known_load 5 full_scale_state))
     = 5 / 1.65.
Proof.
  assert (HK : 0 < 5 <= MAX_CURRENT_AMPS) by (unfold MAX_CURRENT_AMPS; lra).
  destruct full_scale_average as (Hn & Havg).
  split; [exact HK|].
  destruct (calibrate_with_known_load_effect 5 full_scale_state)
    as [_ Haccept].
  destruct (Haccept (conj HK Hn)) as (Hscale & _).
  rewrite Hscale, Havg. reflexivity.
Defined.

Lemma valid_ticks_repeat (c : Z) (n : nat) :
  valid_ticks (repeat (Some c) n) = repeat c n.
Proof.
  induction n as [|n IH]; [reflexivity|].
  cbn [repeat valid_ticks flat_map app]. f_equal. exact IH.
Qed.

Lemma zero_load_ticks (a : Z) :
  In a (valid_ticks (firstn 100 (adc_feed (env zero_load_state)))) ->
  a = 2048%Z.
Proof.
  change (adc_feed (env zero_load_state)) with (repeat (Some 2048%Z) 100).
  rewrite firstn_all2 by (rewrite repeat_length; lia).
  rewrite valid_ticks_repeat. intros H. now apply repeat_spec in H.
Qed.

(** [measure_rms_current_value] on a batch of 100 ticks that all read the
    bias: the current returned is 0. *)
Lemma measure_rms_current_value_witness :
  adc_to_voltage 2048 = bias_voltage (cal zero_load_state)
  /\ fst (measure_rms_current zero_load_state) = 0.
Proof.
  assert (Hb : adc_to_voltage 2048 = bias_voltage (cal zero_load_state))
    by reflexivity.
  split; [exact Hb|].
  destruct (measure_rms_current_value zero_load_state)
    as (_ & _ & _ & _ & _ & Hconst).
  exact (Hconst 2048%Z Hb zero_load_ticks).
Defined.

(** [set_bias_scale_range_checked] on text: [SET_BIAS:1.65] is taken,
    [SET_SCALE:0] is refused. *)
Lemma set_bias_scale_range_checked_witness :
  let st := boot_state (fresh_world 0 []) in
  0.1 <= atof_decimal "1.65" <= 3.0
  /\ bias_voltage (cal (process_udp_command atof_decimal "SET_BIAS:1.65" st))
     = 1.65
  /\ ~ 1.0 <= atof_decimal "0" <= 1000.0
  /\ cal (process_udp_command atof_decimal "SET_SCALE:0" st) = cal st.
Proof.
  cbn zeta. destruct atof_decimal_examples as (E1 & _ & E3).
  assert (H1 : 0.1 <= atof_decimal "1.65" <= 3.0) by (rewrite E1; lra).
  assert (H2 : ~ 1.0 <= atof_decimal "0" <= 1000.0) by (rewrite E3; lra).
  destruct set_bias_scale_range_checked as (Hbias & Hscale & _).
  destruct (Hbias atof_decimal "1.65" (boot_state (fresh_world 0 [])))
    as [Hin _].
  destruct (Hscale atof_decimal "0" (boot_state (fresh_world 0 [])))
    as [_ Hout].
  destruct (Hin H1) as (Hb & _). destruct (Hout H2) as (Hc & _).
  split; [exact H1|]. split; [rewrite <- E1; exact Hb|].
  split; [exact H2|exact Hc].
Defined.

(** * Further properties *)

(** ** Arrays *)

Lemma list_set_nth_same {A : Type} (l : list A) (i : nat) (x : A) :
  (i < List.length l)%nat -> nth_error (list_set l i x) i = Some x.
Proof.
  revert i. induction l as [|h t IH]; intros [|j] H; simpl in *;
    try lia; [reflexivity|]. apply IH. lia.
Qed.

Lemma list_set_nth_other {A : Type} (l : list A) (i j : nat) (x : A) :
  j <> i -> nth_error (list_set l i x) j = nth_error l j.
Proof.
  revert i j. induction l as [|h t IH]; intros [|i] [|j] H; simpl;
    try reflexivity; try congruence. apply IH. congruence.
Qed.

(** ** The learning store *)

(** X1: [learn_from_calibration] keeps the learning store well formed (50
    slots, count at most 50, write index inside the array); the new point
    reads back from the slot it was written to, every other slot is
    unchanged; the count grows by one up to 50 and then stays, and from
    then on the write index advances cyclically, so that the oldest point
    is the one overwritten. *)
Theorem learn_from_calibration_ring (e m : R) (manual : bool) (st : state) :
  learning_ok (learning st) ->
  let l := learning st in
  let l' := learning (learn_from_calibration e m manual st) in
  learning_ok l'
  /\ nth_error (learning_points l') (next_slot l)
     = Some (new_point e m (now_ms st) manual)
  /\ (forall i, i <> next_slot l ->
                nth_error (learning_points l') i
                = nth_error (learning_points l) i)
  /\ learning_point_count l' = Z.min (learning_point_count l + 1) 50
  /\ ((learning_point_count l < 50)%Z ->
      learning_point_index l' = learning_point_index l)
  /\ (learning_point_count l = 50%Z ->
      learning_point_index l' = ((learning_point_index l + 1) mod 50)%Z).
Proof.
  intros (Hlen & Hc & Hi). cbn zeta.
  rewrite learn_from_calibration_learning.
  unfold store_point, next_slot, now_ms, MAX_LEARNING_POINTS.
  destruct (Z.ltb_spec (learning_point_count (learning st)) 50) as [Hlt|Hge];
    cbn [learning_points learning_point_count learning_point_index].
  - split.
    { unfold learning_ok.
      cbn [learning_points learning_point_count learning_point_index].
      rewrite list_set_length. repeat split; lia. }
    split; [apply list_set_nth_same; lia|].
    split; [intros i Hne; now apply list_set_nth_other|].
    split; [lia|]. split; [reflexivity|lia].
  - assert (Hrem : Z.rem (learning_point_index (learning st) + 1) 50
                   = ((learning_point_index (learning st) + 1) mod 50)%Z)
      by (apply Z.rem_mod_nonneg; lia).
    split.
    { unfold learning_ok.
      cbn [learning_points learning_point_count learning_point_index].
      rewrite list_set_length, Hrem.
      pose proof (Z.mod_pos_bound
                    (learning_point_index (learning st) + 1) 50).
      repeat split; lia. }
    split; [apply list_set_nth_same; lia|].
    split; [intros i Hne; now apply list_set_nth_other|].
    split; [lia|]. split; [lia|]. intros _. exact Hrem.
Qed.

(** [learn_from_calibration_ring] on a learning store that is full with
    its write index on the last slot: the index wraps to 0. *)
Lemma learn_from_calibration_ring_witness :
  let st :=
    put_learning_point_index 49%Z
      (put_learning_point_count 50%Z (boot_state (fresh_world 7 []))) in
  learning_ok (learning st)
  /\ learning_point_index
       (learning (learn_from_calibration 5 0.025 true st)) = 0%Z
  /\ learning_point_count
       (learning (learn_from_calibration 5 0.025 true st)) = 50%Z.
Proof.
  cbn zeta.
  set (st := put_learning_point_index 49%Z
               (put_learning_point_count 50%Z
                  (boot_state (fresh_world 7 [])))).
  assert (Hok : learning_ok (learning st)).
  { unfold learning_ok. subst st. simpl. repeat split; lia. }
  split; [exact Hok|].
  destruct (learn_from_calibration_ring 5 0.025 true st Hok)
    as (_ & _ & _ & Hc & _ & Hi).
  split; [rewrite (Hi eq_refl); reflexivity | rewrite Hc; reflexivity].
Defined.

(** ** Zero-point calibration *)

Lemma valid_ticks_cons (r : option Z) (rest : list (option Z)) :
  valid_ticks (r :: rest)
  = match r with
    | Some a => a :: valid_ticks rest
    | None => valid_ticks rest
    end.
Proof. destruct r; reflexivity. Qed.

Lemma bias_samples_spec (n : nat) (s v : Z) (st : state) :
  let ticks := valid_ticks (firstn n (adc_feed (env st))) in
  bias_samples n s v st
  = (raw_sum_from s ticks, (v + Z.of_nat (List.length ticks))%Z,
     after_reads n 10 st).
Proof.
  revert s v st. induction n as [|k IH]; intros s v st ticks.
  - subst ticks. simpl. now rewrite Z.add_0_r.
  - cbn [bias_samples]. unfold adc_oneshot_read.
    change (after_reads (S k) 10 st)
      with (after_reads k 10 (vTaskDelay 10 (snd (adc_oneshot_read st)))).
    unfold adc_oneshot_read. cbn [fst snd].
    set (st1 := vTaskDelay 10 (put_adc_feed (tl (adc_feed (env st))) st)).
    assert (Hf : adc_feed (env st1) = tl (adc_feed (env st)))
      by reflexivity.
    subst ticks.
    destruct (adc_feed (env st)) as [|[a|] rest] eqn:Hfeed; cbn [hd tl] in *.
    + rewrite IH, Hf. rewrite firstn_nil. reflexivity.
    + cbn [firstn]. rewrite valid_ticks_cons, IH, Hf.
      cbn [List.length raw_sum_from fold_left].
      f_equal. f_equal. lia.
    + cbn [firstn]. rewrite valid_ticks_cons, IH, Hf. reflexivity.
Qed.

Lemma raw_sum_from_exact (ticks : list Z) (acc : Z) :
  (forall a, In a ticks -> 0 <= a <= 4095)%Z ->
  (0 <= acc)%Z ->
  (acc + 4095 * Z.of_nat (List.length ticks) < 4294967296)%Z ->
  raw_sum_from acc ticks = (acc + Zsum ticks)%Z
  /\ (0 <= Zsum ticks <= 4095 * Z.of_nat (List.length ticks))%Z.
Proof.
  revert acc. induction ticks as [|a t IH]; intros acc Hall Hacc Hbound.
  - simpl. split; lia.
  - assert (Ha : (0 <= a <= 4095)%Z) by (apply Hall; now left).
    cbn [List.length] in Hbound. rewrite Nat2Z.inj_succ in Hbound.
    cbn [raw_sum_from fold_left].
    assert (Hu : u32 (acc + a) = (acc + a)%Z)
      by (unfold u32; apply Z.mod_small; lia).
    rewrite Hu.
    destruct (IH (acc + a)%Z) as (E & B);
      [intros x Hx; apply Hall; now right | lia | lia |].
    unfold raw_sum_from in E. rewrite E.
    cbn [Zsum fold_right List.length]. fold (Zsum t).
    rewrite Nat2Z.inj_succ. split; lia.
Qed.

(** [auto_calibrate_bias_voltage] with its sampling loop summarised. *)
Lemma auto_calibrate_bias_voltage_closed (st : state) :
  auto_calibrate_bias_voltage st
  = let ticks := valid_ticks (firstn 100 (adc_feed (env st))) in
    let st1 :=
      after_reads 100 10 (ESP_LOGI TAG "Auto-calibrating bias voltage..." st)
    in
    if (Z.of_nat (List.length ticks) >? 50)%Z then
      put_consecutive_zero_readings 0%Z
        (ESP_LOGI TAG "Bias voltage calibrated to: %.4f V"
           (put_bias_voltage
              (IZR (raw_sum_from 0 ticks) / IZR (Z.of_nat (List.length ticks))
               / ADC_RESOLUTION * ADC_VOLTAGE_RANGE) st1))
    else
      ESP_LOGE TAG "Bias calibration failed - insufficient samples" st1.
Proof.
  unfold auto_calibrate_bias_voltage. cbn zeta.
  rewrite bias_samples_spec. cbn zeta.
  change (adc_feed (env (ESP_LOGI TAG "Auto-calibrating bias voltage..." st)))
    with (adc_feed (env st)).
  rewrite Z.add_0_l. reflexivity.
Qed.

(** What [auto_calibrate_bias_voltage] leaves alone. *)
Lemma auto_calibrate_bias_voltage_frame (st : state) :
  let st' := auto_calibrate_bias_voltage st in
  amps_per_volt (cal st') = amps_per_volt (cal st)
  /\ det st' = det st /\ learning st' = learning st
  /\ stats st' = stats st /\ history st' = history st
  /\ stability st' = stability st /\ sender st' = sender st
  /\ last_zero_calibration (autocal st') = last_zero_calibration (autocal st)
  /\ last_scale_calibration (autocal st')
     = last_scale_calibration (autocal st)
  /\ auto_cal_sensitivity (autocal st') = auto_cal_sensitivity (autocal st)
  /\ learning_rate (autocal st') = learning_rate (autocal st)
  /\ last_adjustment (autocal st') = last_adjustment (autocal st)
  /\ udp_sent (env st') = udp_sent (env st)
  /\ relay_level (env st') = relay_level (env st)
  /\ udp_sender_running (env st') = udp_sender_running (env st)
  /\ tasks_created (env st') = tasks_created (env st)
  /\ restarted (env st') = restarted (env st)
  /\ adc_feed (env st') = skipn 100 (adc_feed (env st)).
Proof.
  cbn zeta. rewrite auto_calibrate_bias_voltage_closed. cbn zeta.
  seal_reads.
  destruct (Z.of_nat _ >? 50)%Z; use_frames; repeat split; reflexivity.
Qed.

(** X2: [auto_calibrate_bias_voltage] reads 100 ticks 10 ms apart.  With
    raw values in the 12-bit range, when more than 50 reads succeed the
    bias voltage becomes the mean raw value converted to volts, which lies
    in [0, 3.3], and the zero streak is cleared; with 50 or fewer the
    calibration parameters and the controller state are kept and the
    error is logged.  The scale factor is never touched. *)
Theorem auto_calibrate_bias_voltage_effect (st : state) :
  let ticks := valid_ticks (firstn 100 (adc_feed (env st))) in
  let n := List.length ticks in
  let st' := auto_calibrate_bias_voltage st in
  (forall a, In a ticks -> 0 <= a <= 4095)%Z ->
  amps_per_volt (cal st') = amps_per_volt (cal st)
  /\ adc_feed (env st') = skipn 100 (adc_feed (env st))
  /\ ((n > 50)%nat ->
      bias_voltage (cal st')
      = IZR (Zsum ticks) / INR n / ADC_RESOLUTION * ADC_VOLTAGE_RANGE
      /\ 0 <= bias_voltage (cal st') <= ADC_VOLTAGE_RANGE
      /\ consecutive_zero_readings (autocal st') = 0%Z)
  /\ ((n <= 50)%nat ->
      cal st' = cal st /\ autocal st' = autocal st
      /\ esp_log (env st')
         = bias_failed_entry
             :: {| log_lvl := LOG_I; log_tag := TAG;
                   log_fmt := "Auto-calibrating bias voltage..." |}
             :: esp_log (env st)).
Proof.
  cbn zeta. intros Hrange.
  destruct (auto_calibrate_bias_voltage_frame st)
    as (Hs & _ & _ & _ & _ & _ & _ & _ & _ & _ & _ & _ & _ & _ & _ & _ & _
        & Hf).
  split; [exact Hs|]. split; [exact Hf|].
  rewrite auto_calibrate_bias_voltage_closed. cbn zeta.
  set (ticks := valid_ticks (firstn 100 (adc_feed (env st)))) in *.
  assert (Hlen : (List.length ticks <= 100)%nat).
  { subst ticks. generalize (adc_feed (env st)). intros feed.
    assert (G : forall k (l : list (option Z)),
               (List.length (valid_ticks (firstn k l)) <= k)%nat).
    { induction k as [|k IH]; intros [|r l]; simpl; try lia.
      change (flat_map _ (firstn k l)) with (valid_ticks (firstn k l)).
      specialize (IH l). destruct r; simpl; lia. }
    apply G. }
  destruct (raw_sum_from_exact ticks 0 Hrange) as (Esum & Bsum); [lia|lia|].
  rewrite Z.add_0_l in Esum.
  seal_reads.
  split; intros Hn.
  - replace (Z.of_nat (List.length ticks) >? 50)%Z with true
      by (symmetry; rewrite Z.gtb_ltb; apply Z.ltb_lt; lia).
    state_simpl. rewrite Esum, <- INR_IZR_INZ.
    split; [reflexivity|]. split; [|reflexivity].
    assert (Hpos : 0 < INR (List.length ticks)) by (apply lt_0_INR; lia).
    assert (Hs0 : 0 <= IZR (Zsum ticks)) by (apply IZR_le; lia).
    assert (Hs1 : IZR (Zsum ticks) <= 4095 * INR (List.length ticks)).
    { rewrite INR_IZR_INZ, <- mult_IZR. apply IZR_le. lia. }
    unfold ADC_RESOLUTION, ADC_VOLTAGE_RANGE.
    assert (Hq0 : 0 <= IZR (Zsum ticks) / INR (List.length ticks)).
    { apply Rmult_le_pos; [exact Hs0|].
      apply Rlt_le, Rinv_0_lt_compat, Hpos. }
    assert (Hq1 : IZR (Zsum ticks) / INR (List.length ticks) <= 4095).
    { apply Rmult_le_reg_r with (r := INR (List.length ticks));
        [exact Hpos|].
      unfold Rdiv. rewrite Rmult_assoc, Rinv_l by lra. lra. }
    lra.
  - replace (Z.of_nat (List.length ticks) >? 50)%Z with false
      by (symmetry; rewrite Z.gtb_ltb; apply Z.ltb_ge; lia).
    use_frames. repeat split; reflexivity.
Qed.

(** [auto_calibrate_bias_voltage_effect] on 100 reads of raw value 2048:
    the bias becomes the voltage of 2048. *)
Lemma auto_calibrate_bias_voltage_effect_witness :
  let st := boot_state (fresh_world 0 (repeat (Some 2048%Z) 100)) in
  (forall a, In a (valid_ticks (firstn 100 (adc_feed (env st)))) ->
             0 <= a <= 4095)%Z
  /\ bias_voltage (cal (auto_calibrate_bias_voltage st))
     = adc_to_voltage 2048.
Proof.
  cbn zeta.
  set (st := boot_state (fresh_world 0 (repeat (Some 2048%Z) 100))).
  assert (Ht : valid_ticks (firstn 100 (adc_feed (env st)))
               = repeat 2048%Z 100) by reflexivity.
  assert (Hr : (forall a,
                   In a (valid_ticks (firstn 100 (adc_feed (env st)))) ->
                   0 <= a <= 4095)%Z).
  { rewrite Ht. intros a Ha. apply repeat_spec in Ha. lia. }
  split; [exact Hr|].
  destruct (auto_calibrate_bias_voltage_effect st Hr) as (_ & _ & Hok & _).
  destruct Hok as (Hb & _); [rewrite Ht, repeat_length; lia|].
  rewrite Hb, Ht, repeat_length.
  replace (Zsum (repeat 2048%Z 100)) with 204800%Z by reflexivity.
  rewrite INR_IZR_INZ. unfold adc_to_voltage. simpl Z.of_nat. lra.
Defined.

(** ** Settings and outputs under measuring and calibrating *)

(** Seal the state [t] behind a variable that carries [lem], a statement
    about [t]. *)
Ltac seal_as t lem :=
  let H := fresh "Hseal" in
  pose proof lem as H; cbn zeta in H; revert H; generalize t; intros ? H.

(** Close a goal on [settings] from the sealed frames in the context. *)
Ltac settings_done :=
  unfold settings in *; state_simpl_all;
  repeat match goal with
         | H : (_, _) = (_, _) |- _ => injection H as ? ? ? ? ? ? ? ? ?
         end;
  subst; try congruence; repeat (f_equal; try congruence).

Lemma settings_after_reads (n : nat) (ms : Z) (st : state) :
  settings (after_reads n ms st) = settings st.
Proof.
  destruct (after_reads_frame n ms st)
    as (_ & H2 & H3 & _ & _ & _ & _ & _ & _ & H10 & H11 & H12 & H13 & H14
        & _).
  unfold settings. now rewrite H2, H3, H10, H11, H12, H13, H14.
Qed.

Lemma settings_learn (e m : R) (manual : bool) (st : state) :
  settings (learn_from_calibration e m manual st) = settings st.
Proof.
  unfold learn_from_calibration.
  destruct (learning_point_count (learning st) <? MAX_LEARNING_POINTS)%Z;
    reflexivity.
Qed.

Lemma settings_calibrate (K : R) (st : state) :
  settings (calibrate_with_known_load K st) = settings st.
Proof.
  rewrite calibrate_with_known_load_closed. cbn zeta.
  destruct (Rleb K 0 || Rgtb K MAX_CURRENT_AMPS); [reflexivity|].
  match goal with
  | |- context [after_reads ?n ?ms ?s] =>
      seal_as (after_reads n ms s) (settings_after_reads n ms s)
  end.
  destruct (Z.of_nat _ >? 10)%Z.
  - match goal with
    | |- context [learn_from_calibration ?e ?m ?b ?s] =>
        seal_as (learn_from_calibration e m b s) (settings_learn e m b s)
    end.
    settings_done.
  - settings_done.
Qed.

Ltac seal_calibrate_s :=
  match goal with
  | |- context [calibrate_with_known_load ?k ?s] =>
      seal_as (calibrate_with_known_load k s) (settings_calibrate k s)
  end.

Ltac seal_learn_s :=
  match goal with
  | |- context [learn_from_calibration ?e ?m ?b ?s] =>
      seal_as (learn_from_calibration e m b s) (settings_learn e m b s)
  end.

Lemma settings_auto_recognize (v : R) (st : state) :
  settings (auto_recognize_and_calibrate v st) = settings st.
Proof.
  unfold auto_recognize_and_calibrate.
  destruct (recognize_device v) as [p|]; [|reflexivity]. cbn zeta.
  destruct (Rgtb _ DEVICE_RECOGNITION_CONFIDENCE); [|reflexivity].
  seal_calibrate_s. seal_learn_s. settings_done.
Qed.

Lemma settings_stable_load_recalibrate (now : Z) (st : state) :
  settings (stable_load_recalibrate now st) = settings st.
Proof.
  unfold stable_load_recalibrate. cbn zeta.
  seal_calibrate_s. seal_learn_s. settings_done.
Qed.

Lemma settings_stable_period_start (mean : R) (st : state) :
  settings (stable_period_start mean st) = settings st.
Proof.
  unfold stable_period_start. cbn zeta.
  match goal with
  | |- context [auto_recognize_and_calibrate ?v ?s] =>
      seal_as (auto_recognize_and_calibrate v s)
              (settings_auto_recognize v s)
  end.
  settings_done.
Qed.

Lemma settings_stable_period_continue (st : state) :
  settings (stable_period_continue st) = settings st.
Proof.
  unfold stable_period_continue. cbn zeta.
  destruct (_ >? DEVICE_STABLE_TIME_MS)%Z; [|reflexivity].
  destruct (_ >? AUTO_CAL_ZERO_INTERVAL_MS)%Z; [|reflexivity].
  match goal with
  | |- context [stable_load_recalibrate ?n ?s] =>
      seal_as (stable_load_recalibrate n s)
              (settings_stable_load_recalibrate n s)
  end.
  settings_done.
Qed.

Lemma settings_continuous (r : R) (st : state) :
  settings (continuous_auto_calibration r st) = settings st.
Proof.
  unfold continuous_auto_calibration. cbn zeta.
  destruct (Rltb r AUTO_CAL_ZERO_THRESHOLD); [reflexivity|].
  state_simpl.
  destruct (history_full (history st)); [|reflexivity].
  destruct (window_is_stable _), (in_stable_period (stability st));
    cbn [andb negb]; try reflexivity.
  - now rewrite settings_stable_period_continue.
  - now rewrite settings_stable_period_start.
Qed.

Lemma settings_process_current (c : R) (st : state) :
  settings (process_current_for_auto_calibration c st) = settings st.
Proof.
  unfold process_current_for_auto_calibration.
  destruct (negb (auto_calibration_enabled (det st))); [reflexivity|].
  cbn zeta. rewrite settings_continuous. state_simpl.
  destruct (Z.rem _ _ =? 0)%Z; reflexivity.
Qed.

Lemma detect_samples_state (n : nat) (t : R) (v : Z) (st : state) :
  snd (detect_samples n t v st) = after_reads n 100 st.
Proof.
  revert t v st. induction n as [|k IH]; intros t v st; [reflexivity|].
  cbn [detect_samples]. unfold adc_oneshot_read.
  change (after_reads (S k) 100 st)
    with (after_reads k 100 (vTaskDelay 100 (snd (adc_oneshot_read st)))).
  unfold adc_oneshot_read. cbn [fst snd].
  destruct (hd None (adc_feed (env st))) as [a|].
  - destruct (Rgeb _ 0 && Rltb _ MAX_CURRENT_AMPS); apply IH.
  - apply IH.
Qed.

Lemma settings_auto_detect (st : state) :
  settings (auto_detect_load_current st) = settings st.
Proof.
  unfold auto_detect_load_current.
  destruct (negb (auto_detection_enabled (det st))); [reflexivity|].
  cbn zeta.
  match goal with
  | |- context [detect_samples ?n ?t ?v ?s] =>
      pose proof (detect_samples_state n t v s) as Hd;
      pose proof (settings_after_reads n 100 s) as Hs;
      rewrite <- Hd in Hs; clear Hd; revert Hs;
      generalize (detect_samples n t v s)
  end.
  intros [[total valid] st1] Hs. cbn [snd] in Hs.
  destruct (valid >? 0)%Z.
  - rewrite settings_process_current. settings_done.
  - settings_done.
Qed.

Lemma settings_debug_adc_samples (n : nat) (st : state) :
  settings (debug_adc_samples n st) = settings st.
Proof.
  revert st. induction n as [|k IH]; intros st; [reflexivity|].
  cbn [debug_adc_samples]. unfold adc_oneshot_read.
  destruct (hd None (adc_feed (env st))); rewrite IH; reflexivity.
Qed.

Lemma settings_debug_adc_readings (st : state) :
  settings (debug_adc_readings st) = settings st.
Proof.
  unfold debug_adc_readings. now rewrite settings_debug_adc_samples.
Qed.

Lemma settings_apply_learned (st : state) :
  settings (apply_learned_calibration st) = settings st.
Proof.
  unfold apply_learned_calibration. cbn zeta.
  destruct (_ <? MIN_LEARNING_POINTS)%Z; [reflexivity|].
  destruct (weighted_sums _ _ _) as [[nu de] tw].
  destruct (Rgtb de 0.001 && Rgtb tw 0.1); [|reflexivity].
  destruct (Rgtb _ _ && Rltb _ _); reflexivity.
Qed.

Lemma settings_auto_calibrate_bias (st : state) :
  settings (auto_calibrate_bias_voltage st) = settings st.
Proof.
  rewrite auto_calibrate_bias_voltage_closed. cbn zeta.
  match goal with
  | |- context [after_reads ?n ?ms ?s] =>
      seal_as (after_reads n ms s) (settings_after_reads n ms s)
  end.
  destruct (Z.of_nat _ >? 50)%Z; settings_done.
Qed.

Lemma settings_rms_samples (n : nat) (s : R) (v : Z) (st : state) :
  settings (snd (rms_samples n s v st)) = settings st.
Proof.
  revert s v st. induction n as [|k IH]; intros s v st; [reflexivity|].
  rewrite rms_samples_S. cbn zeta.
  destruct (hd None (adc_feed (env st))); rewrite IH; reflexivity.
Qed.

Lemma settings_after_measurement (c : R) (st : state) :
  settings (after_measurement c st) = settings st.
Proof.
  unfold after_measurement. cbn zeta.
  set (st1 := put_measurement_count _ _).
  assert (H1 : settings st1 = settings st).
  { subst st1. state_simpl.
    destruct (Rltb c _); state_simpl; destruct (Rgtb c _); reflexivity. }
  revert H1. generalize st1. clear st1. intros st1 H1.
  set (st2 := if get_auto_calibration_enabled st1 then _ else _).
  assert (H2 : settings st2 = settings st).
  { subst st2. destruct (get_auto_calibration_enabled st1);
      [rewrite settings_process_current|]; exact H1. }
  revert H2. generalize st2. clear st2 H1 st1. intros st2 H2.
  set (st3 := if get_auto_detection_enabled st2 && _ then _ else _).
  assert (H3 : settings st3 = settings st).
  { subst st3. destruct (get_auto_detection_enabled st2 && _);
      [rewrite settings_auto_detect|]; exact H2. }
  revert H3. generalize st3. clear st3 H2 st2. intros st3 H3.
  destruct (_ =? 0)%Z; [|exact H3].
  destruct (get_auto_calibration_enabled _); settings_done.
Qed.

Lemma settings_measure_rms_current (st : state) :
  settings (snd (measure_rms_current st)) = settings st.
Proof.
  rewrite measure_rms_current_unfold. cbn zeta.
  pose proof (settings_rms_samples 100 0 0%Z st) as H. revert H.
  generalize (rms_samples 100 0 0%Z st). intros [[s v] st1] H.
  cbn [fst snd] in *.
  destruct (v =? 0)%Z; cbn [snd].
  - settings_done.
  - rewrite settings_after_measurement. settings_done.
Qed.

Lemma settings_instant_reading (st : state) :
  settings (snd (get_instant_current_reading st)) = settings st.
Proof.
  unfold get_instant_current_reading, adc_oneshot_read.
  destruct (hd None (adc_feed (env st))); reflexivity.
Qed.

(** ** The dispatcher on every command *)

(** Comparing fewer characters of a match still matches. *)
Lemma strncmp_eq_shorter (s lit : string) (n m : nat) :
  (m <= n)%nat -> strncmp_eq s lit n = true -> strncmp_eq s lit m = true.
Proof.
  revert s lit n. induction m as [|m IH]; intros s lit n Hle H;
    [reflexivity|].
  destruct n as [|n]; [lia|].
  cbn [strncmp_eq] in *.
  destruct s as [|a s], lit as [|b lit]; try discriminate; [reflexivity|].
  apply andb_true_iff in H. destruct H as [Hab H].
  rewrite Hab. cbn [andb]. apply (IH s lit n); [lia|exact H].
Qed.

(** Only the characters compared matter. *)
Lemma strncmp_eq_literal (s p a b : string) :
  strncmp_eq s (p ++ a) (String.length p)
  = strncmp_eq s (p ++ b) (String.length p).
Proof.
  revert s. induction p as [|c p IH]; intros s; [reflexivity|].
  cbn [append String.length strncmp_eq].
  destruct s as [|d s]; [reflexivity|]. now rewrite IH.
Qed.

(** A command that does not start with [lit]'s first [m] characters does
    not start with its first [n >= m]. *)
Lemma strncmp_eq_longer_false (s lit : string) (n m : nat) :
  (m <= n)%nat -> strncmp_eq s lit m = false -> strncmp_eq s lit n = false.
Proof.
  intros Hle H. destruct (strncmp_eq s lit n) eqn:E; [|reflexivity].
  rewrite (strncmp_eq_shorter s lit n m Hle E) in H. discriminate.
Qed.

(** The test for AUTO_DETECT comes first and matches every command that
    either longer test would match. *)
Lemma auto_detect_shadows (s : string) :
  strncmp_eq s "AUTO_DETECT" 11 = false ->
  strncmp_eq s "AUTO_DETECT_ON" 14 = false
  /\ strncmp_eq s "AUTO_DETECT_OFF" 15 = false.
Proof.
  intros H. split.
  - apply (strncmp_eq_longer_false s _ 14 11); [lia|].
    etransitivity; [|exact H].
    exact (strncmp_eq_literal s "AUTO_DETECT" "_ON" "").
  - apply (strncmp_eq_longer_false s _ 15 11); [lia|].
    etransitivity; [|exact H].
    exact (strncmp_eq_literal s "AUTO_DETECT" "_OFF" "").
Qed.

Lemma dispatch_facts_of_settings (command : string) (st st' : state)
    (r : response) :
  settings st' = settings st -> dispatch_facts command st (Some r, st').
Proof.
  unfold settings, dispatch_facts. cbn [fst snd]. intros H.
  injection H as H1 H2 H3 H4 H5 H6 H7 H8 H9.
  rewrite H1, H2, H3, H4, H5, H6, H8, H9. repeat split; auto; lra.
Qed.

(** A command that starts with [p ++ a] starts with [p]. *)
Lemma strncmp_eq_prefix (s p a : string) (n : nat) :
  (String.length p <= n)%nat ->
  strncmp_eq s (p ++ a) n = true ->
  strncmp_eq s p (String.length p) = true.
Proof.
  intros Hle H.
  apply (strncmp_eq_shorter _ _ _ (String.length p) Hle) in H.
  rewrite <- H.
  assert (E : p = p ++ "") by (clear; induction p; simpl; congruence).
  rewrite E at 1. apply strncmp_eq_literal.
Qed.

(** Prove that a handler keeps the settings. *)
Ltac settings_auto :=
  repeat first
    [ reflexivity
    | rewrite settings_auto_recognize
    | rewrite settings_apply_learned
    | rewrite settings_auto_detect
    | rewrite settings_debug_adc_readings
    | rewrite settings_calibrate
    | rewrite settings_instant_reading ].

(** Open [dispatch_facts] on a handler whose inner calls are sealed. *)
Ltac facts_open :=
  unfold dispatch_facts, settings in *; cbn [fst snd]; state_simpl_all;
  repeat match goal with
         | H : (_, _) = (_, _) |- _ => injection H as ? ? ? ? ? ? ? ? ?
         end.

Ltac facts_close :=
  repeat split; intros; eauto; try congruence; try lra;
  try solve [eexists; f_equal; solve [reflexivity | congruence]].

(** The facts of [dispatch_facts] hold of every command. *)
Lemma dispatch_command_facts (atof : string -> R) (command : string)
    (st : state) :
  dispatch_facts command st (dispatch_command atof command st).
Proof.
  unfold dispatch_command. cbn zeta.
  repeat match goal with
         | |- dispatch_facts _ _ (if strncmp_eq command ?l ?n then _ else _) =>
             destruct (strncmp_eq command l n) eqn:?
         end;
  try (repeat match goal with
       | |- dispatch_facts _ _ (if ?c then _ else _) => destruct c eqn:?
       | |- dispatch_facts _ _ (match ?c with _ => _ end) => destruct c eqn:?
       end;
       apply dispatch_facts_of_settings; settings_auto; fail).
  all: try match goal with
       | H : strncmp_eq ?c "AUTO_DETECT" 11 = false,
         H' : strncmp_eq ?c _ _ = true |- _ =>
           destruct (auto_detect_shadows c H); congruence
       end.
  all: try match goal with
       | H : strncmp_eq ?c ?l ?n = true
         |- dispatch_facts _ _ (_, gpio_set_level _ _) =>
           pose proof (strncmp_eq_prefix c "RELAY_"
                         (string_from 6 l) n ltac:(simpl; lia) H) as Hp;
           simpl String.length in Hp;
           unfold gpio_set_level; solve [facts_open; facts_close]
       | H : strncmp_eq ?c ?l ?n = true
         |- dispatch_facts _ _ (_, set_auto_calibration _ _) =>
           pose proof (strncmp_eq_prefix c "AUTO_CAL_O"
                         (string_from 10 l) n ltac:(simpl; lia) H) as Hp;
           simpl String.length in Hp;
           unfold set_auto_calibration, xTaskCreate_auto_calibration;
           solve [facts_open; facts_close]
       end.
  - (* AUTO_CAL_SENSITIVITY: *)
    unfold set_auto_cal_sensitivity.
    destruct (Rgeb _ 0 && Rleb _ 1) eqn:Hc.
    + apply andb_true_iff in Hc. destruct Hc as [Hc1 Hc2].
      apply Rgeb_true in Hc1. apply Rleb_true in Hc2.
      facts_open; facts_close.
    + facts_open; facts_close.
  - (* AUTO_CAL_LEARNING_RATE: *)
    unfold set_learning_rate.
    destruct (Rgeb _ 0 && Rleb _ 1) eqn:Hc.
    + apply andb_true_iff in Hc. destruct Hc as [Hc1 Hc2].
      apply Rgeb_true in Hc1. apply Rleb_true in Hc2.
      facts_open; facts_close.
    + facts_open; facts_close.
  - (* ZERO_CAL *)
    unfold perform_zero_calibration. cbn zeta.
    seal_as (auto_calibrate_bias_voltage st)
            (settings_auto_calibrate_bias st).
    facts_open; facts_close.
  - (* SCALE_CAL: *)
    unfold perform_scale_calibration. cbn zeta.
    seal_calibrate_s. facts_open; facts_close.
  - (* RESET_CAL *)
    unfold reset_calibration, reset_auto_cal_statistics,
      reset_learning_data, set_amps_per_volt, set_bias_voltage.
    facts_open; facts_close.
  - (* GET_CURRENT *)
    pose proof (settings_instant_reading st) as Hs. revert Hs.
    destruct (get_instant_current_reading st) as [c st1]. cbn [snd].
    intros Hs. now apply dispatch_facts_of_settings.
  - (* RECALIBRATE_BIAS *)
    unfold perform_zero_calibration. cbn zeta.
    seal_as (auto_calibrate_bias_voltage st)
            (settings_auto_calibrate_bias st).
    facts_open; facts_close.
  - (* RESTART *)
    facts_open; facts_close.
Qed.

(** The same facts after the whole of [process_udp_command]: exactly one
    datagram has been sent. *)
Lemma process_udp_command_facts (atof : string -> R) (command : string)
    (st : state) :
  let st' := process_udp_command atof command st in
  auto_detection_enabled (det st') = auto_detection_enabled (det st)
  /\ (exists r, udp_sent (env st') = r :: udp_sent (env st))
  /\ (0 <= auto_cal_sensitivity (autocal st) <= 1 ->
      0 <= auto_cal_sensitivity (autocal st') <= 1)
  /\ (0 <= learning_rate (autocal st) <= 1 ->
      0 <= learning_rate (autocal st') <= 1)
  /\ (strncmp_eq command "RELAY_" 6 = false ->
      relay_level (env st') = relay_level (env st))
  /\ (strncmp_eq command "RESTART" 7 = false ->
      restarted (env st') = restarted (env st))
  /\ (strncmp_eq command "AUTO_CAL_ON" 11 = false ->
      tasks_created (env st') = tasks_created (env st))
  /\ (strncmp_eq command "AUTO_CAL_O" 10 = false ->
      auto_calibration_enabled (det st')
      = auto_calibration_enabled (det st)).
Proof.
  cbn zeta. unfold process_udp_command. cbn zeta.
  pose proof (dispatch_command_facts atof command
                (ESP_LOGI RECV_TAG "Processing command: %s" st)) as F.
  revert F.
  generalize (dispatch_command atof command
                (ESP_LOGI RECV_TAG "Processing command: %s" st)).
  intros [[r|] st1]; unfold dispatch_facts; cbn [fst snd]; state_simpl;
    intros (F1 & F2 & F3 & F4 & F5 & F6 & F7 & F8).
  - rewrite F2. split; [exact F1|]. split; [now exists r|].
    repeat (split; [assumption|]). assumption.
  - split; [exact F1|]. split; [exact F2|].
    repeat (split; [assumption|]). assumption.
Qed.

(** X3: every command, known or not, is answered by exactly one datagram:
    after [process_udp_command] the datagrams sent are those sent before
    with one more in front. *)
Theorem process_udp_command_one_answer (atof : string -> R)
    (command : string) (st : state) :
  exists r,
    udp_sent (env (process_udp_command atof command st))
    = r :: udp_sent (env st).
Proof.
  destruct (process_udp_command_facts atof command st) as (_ & H & _).
  exact H.
Qed.

Lemma dispatch_auto_detect (atof : string -> R) (rest : string)
    (st : state) :
  dispatch_command atof ("AUTO_DETECT" ++ rest) st
  = (Some {| resp_fmt := "AUTO_DETECT:SUCCESS,CURRENT=%.3fA";
             resp_args :=
               [FFloat (get_detected_load_amps
                          (auto_detect_load_current st))] |},
     auto_detect_load_current st).
Proof.
  unfold dispatch_command.
  cbn [append strncmp_eq Ascii.eqb Bool.eqb andb string_from].
  reflexivity.
Qed.

(** X4: no command changes the auto-detection flag.  The tests for
    AUTO_DETECT_ON and AUTO_DETECT_OFF come after the test for AUTO_DETECT,
    which matches both: either command runs a load detection and is
    answered AUTO_DETECT:SUCCESS, and [set_auto_detection] is never
    reached from the dispatcher. *)
Theorem auto_detection_flag_is_fixed (atof : string -> R) :
  (forall command st,
      auto_detection_enabled (det (process_udp_command atof command st))
      = auto_detection_enabled (det st))
  /\ (forall rest st,
        dispatch_command atof ("AUTO_DETECT" ++ rest) st
        = (Some {| resp_fmt := "AUTO_DETECT:SUCCESS,CURRENT=%.3fA";
                   resp_args :=
                     [FFloat (get_detected_load_amps
                                (auto_detect_load_current st))] |},
           auto_detect_load_current st))
  /\ (forall st,
        snd (dispatch_command atof "AUTO_DETECT_ON" st)
        = auto_detect_load_current st
        /\ snd (dispatch_command atof "AUTO_DETECT_OFF" st)
           = auto_detect_load_current st).
Proof.
  split; [|split].
  - intros command st.
    destruct (process_udp_command_facts atof command st) as (H & _).
    exact H.
  - intros rest st. apply dispatch_auto_detect.
  - intros st. split.
    + change "AUTO_DETECT_ON" with ("AUTO_DETECT" ++ "_ON").
      now rewrite dispatch_auto_detect.
    + change "AUTO_DETECT_OFF" with ("AUTO_DETECT" ++ "_OFF").
      now rewrite dispatch_auto_detect.
Qed.

(** X5: what each setting answers to.  Sensitivity and learning rate, once
    in [0, 1], stay there under every command; the relay pin changes only
    under a command starting with RELAY_, the restart request only under
    RESTART, the number of controller tasks only under AUTO_CAL_ON, the
    auto-calibration flag only under AUTO_CAL_ON or AUTO_CAL_OFF.  In
    particular no measurement or calibration a command triggers switches
    the relay or restarts the device. *)
Theorem settings_change_only_by_their_commands (atof : string -> R)
    (command : string) (st : state) :
  let st' := process_udp_command atof command st in
  (0 <= auto_cal_sensitivity (autocal st) <= 1 ->
   0 <= auto_cal_sensitivity (autocal st') <= 1)
  /\ (0 <= learning_rate (autocal st) <= 1 ->
      0 <= learning_rate (autocal st') <= 1)
  /\ (strncmp_eq command "RELAY_" 6 = false ->
      relay_level (env st') = relay_level (env st))
  /\ (strncmp_eq command "RESTART" 7 = false ->
      restarted (env st') = restarted (env st))
  /\ (strncmp_eq command "AUTO_CAL_ON" 11 = false ->
      tasks_created (env st') = tasks_created (env st))
  /\ (strncmp_eq command "AUTO_CAL_O" 10 = false ->
      auto_calibration_enabled (det st')
      = auto_calibration_enabled (det st)).
Proof.
  destruct (process_udp_command_facts atof command st) as (_ & _ & H).
  exact H.
Qed.

Lemma dispatch_auto_cal_on (atof : string -> R) (rest : string)
    (st : state) :
  dispatch_command atof ("AUTO_CAL_ON" ++ rest) st
  = (Some (text "AUTO_CAL_ON:SUCCESS"), set_auto_calibration true st).
Proof.
  unfold dispatch_command.
  cbn [append strncmp_eq Ascii.eqb Bool.eqb andb string_from].
  reflexivity.
Qed.

Lemma dispatch_auto_cal_off (atof : string -> R) (rest : string)
    (st : state) :
  dispatch_command atof ("AUTO_CAL_OFF" ++ rest) st
  = (Some (text "AUTO_CAL_OFF:SUCCESS"), set_auto_calibration false st).
Proof.
  unfold dispatch_command.
  cbn [append strncmp_eq Ascii.eqb Bool.eqb andb string_from].
  reflexivity.
Qed.

(** X6: every AUTO_CAL_ON command starts one more controller task, whether
    or not auto-calibration was already enabled, so [n] such commands in a
    row start [n] tasks; AUTO_CAL_OFF clears the flag and starts none. *)
Theorem auto_cal_on_starts_a_task_each_time (atof : string -> R) :
  (forall rest st,
      let st' := process_udp_command atof ("AUTO_CAL_ON" ++ rest) st in
      tasks_created (env st') = S (tasks_created (env st))
      /\ auto_calibration_enabled (det st') = true)
  /\ (forall n st,
        tasks_created
          (env (Nat.iter n (process_udp_command atof "AUTO_CAL_ON") st))
        = (n + tasks_created (env st))%nat)
  /\ (forall rest st,
        let st' := process_udp_command atof ("AUTO_CAL_OFF" ++ rest) st in
        tasks_created (env st') = tasks_created (env st)
        /\ auto_calibration_enabled (det st') = false).
Proof.
  assert (Hon : forall rest st,
             tasks_created
               (env (process_udp_command atof ("AUTO_CAL_ON" ++ rest) st))
             = S (tasks_created (env st))
             /\ auto_calibration_enabled
                  (det (process_udp_command atof ("AUTO_CAL_ON" ++ rest) st))
                = true).
  { intros rest st. unfold process_udp_command. cbn zeta.
    rewrite dispatch_auto_cal_on. split; reflexivity. }
  split; [exact Hon|]. split.
  - induction n as [|n IH]; intros st; [reflexivity|].
    rewrite Nat.iter_succ.
    pose proof (proj1 (Hon "" (Nat.iter n
                                 (process_udp_command atof "AUTO_CAL_ON")
                                 st))) as H.
    cbn [append] in H. rewrite H, IH. reflexivity.
  - intros rest st. unfold process_udp_command. cbn zeta.
    rewrite dispatch_auto_cal_off. split; reflexivity.
Qed.

(** ** The history ring and the zero streak *)

Lemma stable_load_recalibrate_streak (now : Z) (st : state) :
  consecutive_zero_readings (autocal (stable_load_recalibrate now st))
  = consecutive_zero_readings (autocal st).
Proof.
  unfold stable_load_recalibrate. cbn zeta.
  seal_calibrate. seal_learn. use_frames. reflexivity.
Qed.

Lemma stable_period_continue_streak (st : state) :
  consecutive_zero_readings (autocal (stable_period_continue st))
  = consecutive_zero_readings (autocal st).
Proof.
  unfold stable_period_continue. cbn zeta.
  destruct (_ >? DEVICE_STABLE_TIME_MS)%Z; [|reflexivity].
  destruct (_ >? AUTO_CAL_ZERO_INTERVAL_MS)%Z; [|reflexivity].
  match goal with
  | |- context [stable_load_recalibrate ?n ?s] =>
      seal_as (stable_load_recalibrate n s)
              (stable_load_recalibrate_streak n s)
  end.
  state_simpl. assumption.
Qed.

(** The zero streak after [continuous_auto_calibration]. *)
Lemma continuous_auto_calibration_streak (r : R) (st : state) :
  consecutive_zero_readings (autocal (continuous_auto_calibration r st))
  = if Rltb r AUTO_CAL_ZERO_THRESHOLD
    then u32 (consecutive_zero_readings (autocal st) + 1)
    else 0%Z.
Proof.
  unfold continuous_auto_calibration. cbn zeta.
  destruct (Rltb r AUTO_CAL_ZERO_THRESHOLD); [reflexivity|].
  state_simpl.
  destruct (history_full (history st)); [|reflexivity].
  destruct (window_is_stable _), (in_stable_period (stability st));
    cbn [andb negb]; try reflexivity.
  - now rewrite stable_period_continue_streak.
  - destruct (stable_period_start_frame
                (window_mean (current_history (history st)))
                (put_consecutive_zero_readings 0 st))
      as (_ & _ & _ & H & _).
    now rewrite H.
Qed.

(** X7: [process_current_for_auto_calibration] does nothing at all while
    auto-calibration is disabled.  Enabled, it keeps the history ring well
    formed: the reading is stored under the write index, which advances
    cyclically over the 50 slots; the ring is marked full when the index
    wraps and is never marked not full again; and the reading becomes the
    detected load. *)
Theorem process_current_history_ring (c : R) (st : state) :
  history_ok (history st) ->
  let st' := process_current_for_auto_calibration c st in
  (auto_calibration_enabled (det st) = false -> st' = st)
  /\ (auto_calibration_enabled (det st) = true ->
      history_ok (history st')
      /\ nth_error (current_history (history st'))
                   (Z.to_nat (history_index (history st))) = Some c
      /\ (forall i, i <> Z.to_nat (history_index (history st)) ->
                    nth_error (current_history (history st')) i
                    = nth_error (current_history (history st)) i)
      /\ history_index (history st')
         = ((history_index (history st) + 1) mod 50)%Z
      /\ history_full (history st')
         = (history_full (history st)
            || (history_index (history st) =? 49)%Z)
      /\ detected_load_amps (det st') = c).
Proof.
  intros (Hlen & Hi). cbn zeta. split; intros He.
  - unfold process_current_for_auto_calibration. now rewrite He.
  - rewrite (process_current_enabled c st He). cbn zeta.
    match goal with
    | |- context [continuous_auto_calibration ?r ?s] =>
        destruct (continuous_auto_calibration_frame r s)
          as (Hd & Hh & _ & _)
    end.
    rewrite Hd, Hh. state_simpl. unfold HISTORY_SIZE.
    assert (Hrem : Z.rem (history_index (history st) + 1) 50
                   = ((history_index (history st) + 1) mod 50)%Z)
      by (apply Z.rem_mod_nonneg; lia).
    rewrite Hrem.
    pose proof (Z.mod_pos_bound (history_index (history st) + 1) 50).
    split.
    { unfold history_ok. state_simpl. rewrite list_set_length.
      split; [exact Hlen | lia]. }
    split; [apply list_set_nth_same; lia|].
    split; [intros i Hne; now apply list_set_nth_other|].
    split; [reflexivity|]. split; [|reflexivity].
    destruct (Z.eqb_spec (history_index (history st)) 49) as [E|E].
    + rewrite E. cbn. now rewrite orb_true_r.
    + replace ((history_index (history st) + 1) mod 50 =? 0)%Z with false.
      * now rewrite orb_false_r.
      * symmetry. apply Z.eqb_neq.
        rewrite Z.mod_small by lia. lia.
Qed.

(** [process_current_history_ring] on the 50th reading after power-up: the
    ring wraps and is marked full. *)
Lemma process_current_history_ring_witness :
  let st := put_history_index 49%Z (boot_state (fresh_world 0 [])) in
  history_ok (history st)
  /\ history_index
       (history (process_current_for_auto_calibration 3 st)) = 0%Z
  /\ history_full
       (history (process_current_for_auto_calibration 3 st)) = true.
Proof.
  cbn zeta.
  set (st := put_history_index 49%Z (boot_state (fresh_world 0 []))).
  assert (Hok : history_ok (history st)).
  { unfold history_ok. subst st. simpl. repeat split; lia. }
  split; [exact Hok|].
  destruct (process_current_history_ring 3 st Hok) as (_ & H).
  destruct (H eq_refl) as (_ & _ & _ & Hi & Hf & _).
  split; [rewrite Hi; reflexivity | rewrite Hf; reflexivity].
Defined.

Lemma continuous_auto_calibration_zero (r : R) (st : state) :
  r < AUTO_CAL_ZERO_THRESHOLD ->
  continuous_auto_calibration r st
  = put_consecutive_zero_readings
      (u32 (consecutive_zero_readings (autocal st) + 1)) st.
Proof.
  intros H. unfold continuous_auto_calibration.
  apply Rltb_true in H. now rewrite H.
Qed.

(** X8: the zero streak under [process_current_for_auto_calibration],
    auto-calibration enabled.  A reading below the zero threshold (0.05 A)
    adds one to the streak and touches nothing else of the detector: the
    stability state machine, the calibration parameters and the learning
    store are kept, so a stable period is not ended by the load going
    away.  A reading at or above the threshold clears the streak whatever
    the detector then does, so a zero calibration is not due after it. *)
Theorem zero_streak (c : R) (st : state) :
  auto_calibration_enabled (det st) = true ->
  let st' := process_current_for_auto_calibration c st in
  (c < AUTO_CAL_ZERO_THRESHOLD ->
   consecutive_zero_readings (autocal st')
   = u32 (consecutive_zero_readings (autocal st) + 1)
   /\ stability st' = stability st /\ cal st' = cal st
   /\ learning st' = learning st /\ stats st' = stats st)
  /\ (AUTO_CAL_ZERO_THRESHOLD <= c ->
      consecutive_zero_readings (autocal st') = 0%Z
      /\ should_auto_calibrate_zero st' = false).
Proof.
  intros He. cbn zeta. rewrite (process_current_enabled c st He). cbn zeta.
  split; intros Hc.
  - rewrite continuous_auto_calibration_zero by exact Hc.
    state_simpl. repeat split; reflexivity.
  - assert (Hs : forall s,
               consecutive_zero_readings
                 (autocal (continuous_auto_calibration c s)) = 0%Z).
    { intros s. rewrite continuous_auto_calibration_streak.
      apply Rltb_false in Hc. now rewrite Hc. }
    split; [apply Hs|].
    unfold should_auto_calibrate_zero.
    destruct (negb _); [reflexivity|]. cbn zeta.
    rewrite Hs. unfold AUTO_CAL_CONSECUTIVE_ZERO_COUNT.
    now rewrite andb_false_r.
Qed.

(** [zero_streak] on a plug in a stable period: a reading of 0 leaves it
    there. *)
Lemma zero_streak_witness :
  auto_calibration_enabled (det held_state) = true
  /\ in_stable_period
       (stability (process_current_for_auto_calibration 0 held_state))
     = true
  /\ consecutive_zero_readings
       (autocal (process_current_for_auto_calibration 0 held_state)) = 1%Z.
Proof.
  assert (He : auto_calibration_enabled (det held_state) = true)
    by reflexivity.
  split; [exact He|].
  destruct (zero_streak 0 held_state He) as (Hz & _).
  destruct Hz as (H1 & H2 & _);
    [unfold AUTO_CAL_ZERO_THRESHOLD; lra|].
  rewrite H1, H2. split; reflexivity.
Defined.

(** ** Learned calibration, hourly adjustment, controller round *)

(** X9: one application of the learned calibration is damped.  The bias
    voltage is never touched; a scale factor that is positive changes by
    less than 15 % of itself and stays positive; a scale factor that is
    zero or negative is never changed, so learning cannot repair it. *)
Theorem apply_learned_calibration_damped (st : state) :
  let c := amps_per_volt (cal st) in
  let c' := amps_per_volt (cal (apply_learned_calibration st)) in
  bias_voltage (cal (apply_learned_calibration st)) = bias_voltage (cal st)
  /\ (0 < c -> 0.85 * c < c' < 1.15 * c)
  /\ (c <= 0 -> c' = c).
Proof.
  cbn zeta. rewrite apply_learned_calibration_closed. cbn zeta.
  destruct (_ <? MIN_LEARNING_POINTS)%Z;
    [repeat split; intros; try reflexivity; lra|].
  destruct (Rgtb _ 0.001 && Rgtb _ 0.1);
    [|repeat split; intros; try reflexivity; lra].
  match goal with
  | |- context [Rgtb ?l ?lo && Rltb ?l ?hi] =>
      destruct (Rgtb l lo) eqn:H1;
      [destruct (Rltb l hi) eqn:H2|]; cbn [andb]
  end.
  - apply Rgtb_true in H1. apply Rltb_true in H2.
    unfold set_amps_per_volt. state_simpl.
    split; [reflexivity|]. split; intros Hc; lra.
  - state_simpl. repeat split; intros; try reflexivity; lra.
  - state_simpl. repeat split; intros; try reflexivity; lra.
Qed.

(** X10: adjustments of the sensitivity are at least an hour apart.  A
    call of [adaptive_threshold_adjustment] made less than an hour after
    the last adjustment changes nothing at all; a call that is due records
    the time, so that any further call within the next hour changes
    nothing. *)
Theorem adaptive_threshold_adjustment_hourly (st : state) :
  (~ adjustment_due st -> adaptive_threshold_adjustment st = st)
  /\ (adjustment_due st ->
      last_adjustment (autocal (adaptive_threshold_adjustment st))
      = now_ms st
      /\ forall clock feed,
           (u32 (clock - now_ms st) < 60 * 60 * 1000)%Z ->
           adaptive_threshold_adjustment
             (retime clock feed (adaptive_threshold_adjustment st))
           = retime clock feed (adaptive_threshold_adjustment st)).
Proof.
  unfold adjustment_due. split; intros Hd.
  - unfold adaptive_threshold_adjustment. cbn zeta.
    replace (_ <? 60 * 60 * 1000)%Z with true; [reflexivity|].
    symmetry. apply Z.ltb_lt. lia.
  - assert (Hl : last_adjustment (autocal (adaptive_threshold_adjustment st))
                 = now_ms st).
    { unfold adaptive_threshold_adjustment. cbn zeta.
      replace (_ <? 60 * 60 * 1000)%Z with false
        by (symmetry; apply Z.ltb_ge; lia).
      reflexivity. }
    split; [exact Hl|]. intros clock feed Hc.
    revert Hl. generalize (adaptive_threshold_adjustment st). intros s Hl.
    unfold adaptive_threshold_adjustment at 1. cbn zeta.
    replace (_ <? 60 * 60 * 1000)%Z with true; [reflexivity|].
    symmetry. apply Z.ltb_lt. unfold retime. state_simpl. rewrite Hl.
    exact Hc.
Qed.

(** The clock after a sampling loop of at least one round is a
    [uint32_t]. *)
Lemma after_reads_clock_range (n : nat) (ms : Z) (st : state) :
  (0 < n)%nat ->
  (0 <= clock_ms (env (after_reads n ms st)) < 4294967296)%Z.
Proof.
  revert st. induction n as [|k IH]; intros st Hn; [lia|].
  change (after_reads (S k) ms st)
    with (after_reads k ms (vTaskDelay ms (snd (adc_oneshot_read st)))).
  destruct k as [|k].
  - cbn [after_reads]. state_simpl. unfold u32.
    apply Z.mod_pos_bound. lia.
  - apply IH. lia.
Qed.

(** [auto_calibration_round] in its two parts. *)
Lemma auto_calibration_round_parts (st : state) :
  auto_calibration_round st
  = round_tail (if should_auto_calibrate_zero st
                then zero_point_step st else st).
Proof. reflexivity. Qed.

Lemma apply_learned_calibration_frame (st : state) :
  let st' := apply_learned_calibration st in
  stats st' = stats st /\ bias_voltage (cal st') = bias_voltage (cal st)
  /\ det st' = det st /\ autocal st' = autocal st
  /\ adc_feed (env st') = adc_feed (env st)
  /\ clock_ms (env st') = clock_ms (env st).
Proof.
  cbn zeta. unfold apply_learned_calibration. cbn zeta.
  destruct (_ <? MIN_LEARNING_POINTS)%Z; [repeat split; reflexivity|].
  destruct (weighted_sums _ _ _) as [[nu de] tw].
  destruct (Rgtb de 0.001 && Rgtb tw 0.1); [|repeat split; reflexivity].
  destruct (Rgtb _ _ && Rltb _ _); repeat split; reflexivity.
Qed.

Lemma adaptive_threshold_adjustment_frame (st : state) :
  let st' := adaptive_threshold_adjustment st in
  stats st' = stats st /\ cal st' = cal st /\ det st' = det st
  /\ last_zero_calibration (autocal st') = last_zero_calibration (autocal st)
  /\ consecutive_zero_readings (autocal st')
     = consecutive_zero_readings (autocal st)
  /\ adc_feed (env st') = adc_feed (env st)
  /\ clock_ms (env st') = clock_ms (env st).
Proof.
  cbn zeta. unfold adaptive_threshold_adjustment. cbn zeta.
  destruct (_ <? 60 * 60 * 1000)%Z; [repeat split; reflexivity|].
  destruct (Rgtb _ 0.8 && Rltb _ 0.9); [repeat split; reflexivity|].
  destruct (Rltb _ 0.4 && Rgtb _ 0.3); repeat split; reflexivity.
Qed.

(** What the end of a round leaves alone, and its 30 s delay. *)
Lemma round_tail_frame (st : state) :
  let st' := round_tail st in
  stats st' = stats st /\ bias_voltage (cal st') = bias_voltage (cal st)
  /\ det st' = det st
  /\ last_zero_calibration (autocal st') = last_zero_calibration (autocal st)
  /\ consecutive_zero_readings (autocal st')
     = consecutive_zero_readings (autocal st)
  /\ adc_feed (env st') = adc_feed (env st)
  /\ clock_ms (env st') = u32 (clock_ms (env st) + 30000).
Proof.
  cbn zeta. unfold round_tail. cbn zeta.
  set (s1 := if (_ >=? _)%Z then _ else _).
  assert (H1 : stats s1 = stats st
               /\ bias_voltage (cal s1) = bias_voltage (cal st)
               /\ det s1 = det st /\ autocal s1 = autocal st
               /\ adc_feed (env s1) = adc_feed (env st)
               /\ clock_ms (env s1) = clock_ms (env st)).
  { subst s1. destruct (_ >=? _)%Z;
      [apply apply_learned_calibration_frame|repeat split; reflexivity]. }
  revert H1. generalize s1. clear s1.
  intros s1 (A1 & A2 & A3 & A4 & A5 & A6).
  destruct (adaptive_threshold_adjustment_frame s1)
    as (B1 & B2 & B3 & B4 & B5 & B6 & B7).
  revert B1 B2 B3 B4 B5 B6 B7.
  generalize (adaptive_threshold_adjustment s1).
  intros s2 B1 B2 B3 B4 B5 B6 B7. state_simpl.
  rewrite B1, B2, B3, B4, B5, B6, B7, A1, A2, A3, A4, A5, A6.
  repeat split; reflexivity.
Qed.

Lemma auto_calibrate_bias_voltage_after_log (tag fmt : string)
    (st : state) :
  bias_voltage (cal (auto_calibrate_bias_voltage (ESP_LOGI tag fmt st)))
  = bias_voltage (cal (auto_calibrate_bias_voltage st)).
Proof.
  rewrite !auto_calibrate_bias_voltage_closed. cbn zeta. state_simpl.
  match goal with
  | |- context [after_reads ?n ?ms ?s] =>
      destruct (after_reads_frame n ms s) as (R1 & _);
      revert R1; generalize (after_reads n ms s); intros s1 R1
  end.
  match goal with
  | |- context [after_reads ?n ?ms ?s] =>
      destruct (after_reads_frame n ms s) as (R2 & _);
      revert R2; generalize (after_reads n ms s); intros s2 R2
  end.
  state_simpl_all.
  destruct (Z.of_nat _ >? 50)%Z; state_simpl; [reflexivity|].
  congruence.
Qed.

Lemma auto_calibrate_bias_voltage_clock (st : state) :
  (0 <= clock_ms (env (auto_calibrate_bias_voltage st)) < 4294967296)%Z.
Proof.
  rewrite auto_calibrate_bias_voltage_closed. cbn zeta.
  match goal with
  | |- context [after_reads ?n ?ms ?s] =>
      pose proof (after_reads_clock_range n ms s ltac:(lia)) as Hr;
      revert Hr; generalize (after_reads n ms s); intros s1 Hr
  end.
  destruct (Z.of_nat _ >? 50)%Z; state_simpl; exact Hr.
Qed.

(** The zero-point recalibration of a round. *)
Lemma zero_point_step_facts (st : state) :
  let st' := zero_point_step st in
  auto_cal_count (stats st') = u32 (auto_cal_count (stats st) + 1)
  /\ bias_voltage (cal st')
     = bias_voltage (cal (auto_calibrate_bias_voltage st))
  /\ det st' = det st
  /\ last_zero_calibration (autocal st') = clock_ms (env st')
  /\ (0 <= clock_ms (env st') < 4294967296)%Z
  /\ adc_feed (env st') = skipn 100 (adc_feed (env st)).
Proof.
  cbn zeta. unfold zero_point_step. cbn zeta.
  match goal with
  | |- context [auto_calibrate_bias_voltage ?s] =>
      destruct (auto_calibrate_bias_voltage_frame s)
        as (_ & F2 & _ & F4 & _ & _ & _ & _ & _ & _ & _ & _ & _ & _ & _ & _
            & _ & F18);
      pose proof (auto_calibrate_bias_voltage_clock s) as Hclock;
      pose proof (auto_calibrate_bias_voltage_after_log TAG
                    "Performing automatic zero-point recalibration" st)
        as Hbias;
      revert F2 F4 F18 Hclock Hbias;
      generalize (auto_calibrate_bias_voltage s)
  end.
  intros s F2 F4 F18 Hclock Hbias. state_simpl_all.
  rewrite F2, F4, F18, Hbias. repeat split; try reflexivity; lia.
Qed.

(** X11: a round of the controller in which a zero calibration is due
    samples the bias, time-stamps the zero calibration with the clock after
    the sampling and counts one calibration, also when too few reads
    succeeded and the bias was left as it was; after the round, 30 s
    later, a zero calibration is not due.  A round in which none is due
    leaves bias, time stamp and count alone and reads nothing. *)
Theorem auto_calibration_round_zero_point (st : state) :
  let st' := auto_calibration_round st in
  (should_auto_calibrate_zero st = true ->
   auto_cal_count (stats st') = u32 (auto_cal_count (stats st) + 1)
   /\ bias_voltage (cal st')
      = bias_voltage (cal (auto_calibrate_bias_voltage st))
   /\ clock_ms (env st')
      = u32 (last_zero_calibration (autocal st') + 30000)
   /\ adc_feed (env st') = skipn 100 (adc_feed (env st))
   /\ should_auto_calibrate_zero st' = false)
  /\ (should_auto_calibrate_zero st = false ->
      auto_cal_count (stats st') = auto_cal_count (stats st)
      /\ bias_voltage (cal st') = bias_voltage (cal st)
      /\ last_zero_calibration (autocal st')
         = last_zero_calibration (autocal st)
      /\ adc_feed (env st') = adc_feed (env st)).
Proof.
  cbn zeta. rewrite auto_calibration_round_parts.
  split; intros Hz; rewrite Hz.
  - destruct (zero_point_step_facts st) as (Z1 & Z2 & Z3 & Z4 & Z5 & Z6).
    revert Z1 Z2 Z3 Z4 Z5 Z6. generalize (zero_point_step st).
    intros s Z1 Z2 Z3 Z4 Z5 Z6.
    destruct (round_tail_frame s) as (T1 & T2 & T3 & T4 & T5 & T6 & T7).
    assert (Hdue : should_auto_calibrate_zero (round_tail s) = false).
    { unfold should_auto_calibrate_zero, now_ms.
      rewrite T3, T4, T5, T7, Z4.
      destruct (negb _); [reflexivity|]. cbn zeta.
      replace (u32 (u32 (clock_ms (env s) + 30000) - clock_ms (env s)))
        with 30000%Z; [reflexivity|].
      unfold u32. rewrite Zminus_mod_idemp_l.
      replace (clock_ms (env s) + 30000 - clock_ms (env s))%Z
        with 30000%Z by lia.
      reflexivity. }
    rewrite T1, T2, T4, T6, T7, Z1, Z2, Z4, Z6.
    repeat split; try reflexivity. exact Hdue.
  - destruct (round_tail_frame st) as (T1 & T2 & _ & T4 & _ & T6 & _).
    rewrite T1, T2, T4, T6. repeat split; reflexivity.
Qed.

(** ** The catalog *)

Ltac catalog_scan :=
  unfold recognized_name, recognize_device, known_devices, find, in_range,
    Rgeb;
  cbn [min_current max_current]; rcmp; reflexivity.

(** X12: the catalog read as a map from currents to device names.  Ranges
    overlap, and the first entry in declaration order wins: Space Heater
    (8-12 A) is returned only below 10 A, where Hair Dryer High Setting
    (10-15 A) takes over; Microwave Oven (12-16 A) only above 15 A; Coffee
    Maker (6-10 A) only strictly between 6 A and 8 A; Laptop/Monitor
    (2-4 A) only below 4 A; Phone Charger/Standby (0.02-0.1 A) only below
    0.1 A.  Currents below 0.02 A, in the gaps (0.3, 0.4), (0.7, 0.8) and
    (1.2, 2), and above 16 A are not recognised. *)
Theorem recognize_device_by_interval (x : R) :
  (x < 0.02 \/ 0.3 < x < 0.4 \/ 0.7 < x < 0.8 \/ 1.2 < x < 2 \/ 16 < x ->
   recognized_name x = None)
  /\ (0.02 <= x < 0.1 -> recognized_name x = Some "Phone Charger/Standby")
  /\ (0.1 <= x <= 0.3 ->
      recognized_name x = Some "LED Strip/Small Electronics")
  /\ (0.4 <= x <= 0.7 -> recognized_name x = Some "60W Incandescent Bulb")
  /\ (0.8 <= x <= 1.2 -> recognized_name x = Some "100W Incandescent Bulb")
  /\ (2 <= x < 4 -> recognized_name x = Some "Laptop/Monitor")
  /\ (4 <= x <= 6 -> recognized_name x = Some "Hair Dryer Low Setting")
  /\ (6 < x < 8 -> recognized_name x = Some "Coffee Maker")
  /\ (8 <= x < 10 -> recognized_name x = Some "Space Heater")
  /\ (10 <= x <= 15 -> recognized_name x = Some "Hair Dryer High Setting")
  /\ (15 < x <= 16 -> recognized_name x = Some "Microwave Oven").
Proof.
  repeat split.
  - intros [H|[H|[H|[H|H]]]]; catalog_scan.
  - intros H. catalog_scan.
  - intros H. catalog_scan.
  - intros H. catalog_scan.
  - intros H. catalog_scan.
  - intros H. catalog_scan.
  - intros H. catalog_scan.
  - intros H. catalog_scan.
  - intros H. catalog_scan.
  - intros H. catalog_scan.
  - intros H. catalog_scan.
Qed.

Lemma known_devices_shape (d : device_profile_t) :
  In d known_devices ->
  min_current d < max_current d /\ 0 < confidence_boost d.
Proof.
  unfold known_devices. simpl In.
  intros H; repeat (destruct H as [<-|H]; [simpl; lra|]); destruct H.
Qed.

Lemma match_quality_at_most_1 (x : R) (d : device_profile_t) :
  min_current d < max_current d -> match_quality x d <= 1.
Proof.
  intros H. unfold match_quality.
  assert (0 <= Rabs (x - typical_current d)
               / (max_current d - min_current d)); [|lra].
  apply Rmult_le_pos; [apply Rabs_pos|].
  apply Rlt_le, Rinv_0_lt_compat. lra.
Qed.

(** X13: a recognised device whose confidence boost times the sensitivity
    in force does not exceed 0.9 can never trigger an auto-calibration,
    however close the current is to the typical one: the low-confidence
    branch is taken, the calibration is kept and a failed recognition is
    counted.  At the default sensitivity 0.7 this covers every profile
    with boost up to 1.2 (both bulbs, Coffee Maker, Laptop/Monitor, LED
    Strip, Phone Charger). *)
Theorem low_boost_never_calibrates (x : R) (d : device_profile_t)
    (st : state) :
  recognize_device x = Some d ->
  0 <= auto_cal_sensitivity (autocal st) ->
  confidence_boost d * auto_cal_sensitivity (autocal st)
  <= DEVICE_RECOGNITION_CONFIDENCE ->
  auto_recognize_and_calibrate x st = low_confidence_path st
  /\ cal (auto_recognize_and_calibrate x st) = cal st
  /\ learning (auto_recognize_and_calibrate x st) = learning st
  /\ failed_recognitions (stats (auto_recognize_and_calibrate x st))
     = u32 (failed_recognitions (stats st) + 1).
Proof.
  intros Hd Hs Hb.
  assert (E : auto_recognize_and_calibrate x st = low_confidence_path st).
  { rewrite auto_recognize_and_calibrate_cases, Hd.
    replace (Rgtb _ DEVICE_RECOGNITION_CONFIDENCE) with false;
      [reflexivity|].
    symmetry. apply Rgtb_false. unfold recognition_confidence.
    assert (Hin : In d known_devices).
    { unfold recognize_device in Hd. apply find_some in Hd. tauto. }
    destruct (known_devices_shape d Hin) as [Hr Hboost].
    pose proof (match_quality_at_most_1 x d Hr) as Hq.
    apply Rle_trans
      with (r2 := confidence_boost d * auto_cal_sensitivity (autocal st));
      [|exact Hb].
    rewrite Rmult_assoc.
    rewrite <- (Rmult_1_l (confidence_boost d
                           * auto_cal_sensitivity (autocal st))) at 2.
    apply Rmult_le_compat_r; [|exact Hq].
    apply Rmult_le_pos; lra. }
  rewrite E.
  destruct (low_confidence_path_counters st)
    as (_ & H2 & H3 & _ & _ & H6 & _).
  repeat split; assumption.
Qed.

Lemma recognize_half_amp :
  recognize_device 0.5
  = Some {| min_current := 0.4; max_current := 0.7; typical_current := 0.5;
            device_name := "60W Incandescent Bulb";
            confidence_boost := 1.2 |}.
Proof.
  unfold recognize_device, known_devices, find, in_range, Rgeb.
  cbn [min_current max_current]. rcmp. reflexivity.
Qed.

(** [low_boost_never_calibrates] at power-up on the typical current of the
    60 W bulb: a perfect match, and no calibration. *)
Lemma low_boost_never_calibrates_witness :
  let st := boot_state (fresh_world 0 []) in
  match_quality 0.5
    {| min_current := 0.4; max_current := 0.7; typical_current := 0.5;
       device_name := "60W Incandescent Bulb"; confidence_boost := 1.2 |}
  = 1
  /\ cal (auto_recognize_and_calibrate 0.5 st) = cal st
  /\ failed_recognitions (stats (auto_recognize_and_calibrate 0.5 st))
     = 1%Z.
Proof.
  cbn zeta. split.
  - unfold match_quality. cbn [min_current max_current typical_current].
    replace (0.5 - 0.5) with 0 by lra. rewrite Rabs_R0. lra.
  - destruct (low_boost_never_calibrates 0.5 _
                (boot_state (fresh_world 0 [])) recognize_half_amp)
      as (_ & Hc & _ & Hf).
    + simpl. lra.
    + simpl. unfold DEVICE_RECOGNITION_CONFIDENCE. lra.
    + split; [exact Hc | rewrite Hf; reflexivity].
Defined.

(** ** Load detection *)

Lemma detect_currents_cons (bias scale : R) (r : option Z)
    (rest : list (option Z)) :
  detect_currents bias scale (r :: rest)
  = match r with
    | Some a =>
        let c := Rabs (adc_to_voltage a - bias) * scale in
        if Rgeb c 0 && Rltb c MAX_CURRENT_AMPS
        then c :: detect_currents bias scale rest
        else detect_currents bias scale rest
    | None => detect_currents bias scale rest
    end.
Proof.
  unfold detect_currents. destruct r as [a|]; [|reflexivity].
  cbn [valid_ticks flat_map app map filter]. reflexivity.
Qed.

Lemma detect_samples_spec (n : nat) (t : R) (v : Z) (st : state) :
  let kept :=
    detect_currents (bias_voltage (cal st)) (amps_per_volt (cal st))
      (firstn n (adc_feed (env st))) in
  detect_samples n t v st
  = (t + sum_of kept, (v + Z.of_nat (List.length kept))%Z,
     after_reads n 100 st).
Proof.
  revert t v st. induction n as [|k IH]; intros t v st kept.
  - subst kept. simpl. unfold detect_currents. simpl.
    now rewrite Rplus_0_r, Z.add_0_r.
  - cbn [detect_samples]. unfold adc_oneshot_read.
    change (after_reads (S k) 100 st)
      with (after_reads k 100 (vTaskDelay 100 (snd (adc_oneshot_read st)))).
    unfold adc_oneshot_read. cbn [fst snd].
    set (st1 := vTaskDelay 100 (put_adc_feed (tl (adc_feed (env st))) st)).
    assert (Hc : cal st1 = cal st) by reflexivity.
    assert (Hf : adc_feed (env st1) = tl (adc_feed (env st)))
      by reflexivity.
    change (cal (put_adc_feed (tl (adc_feed (env st))) st)) with (cal st).
    subst kept.
    destruct (adc_feed (env st)) as [|[a|] rest] eqn:Hfeed; cbn [hd tl] in *.
    + rewrite IH, Hc, Hf. rewrite firstn_nil. reflexivity.
    + cbn [firstn]. rewrite detect_currents_cons. cbn zeta.
      destruct (Rgeb _ 0 && Rltb _ MAX_CURRENT_AMPS);
        rewrite IH, Hc, Hf; [|reflexivity].
      rewrite sum_of_cons. cbn [List.length]. f_equal. f_equal; [lra|lia].
    + cbn [firstn]. rewrite detect_currents_cons.
      rewrite IH, Hc, Hf. reflexivity.
Qed.

Lemma sum_of_bounds (l : list R) (hi : R) :
  (forall x, In x l -> 0 <= x < hi) ->
  0 <= sum_of l /\ (l <> [] -> sum_of l < INR (List.length l) * hi).
Proof.
  induction l as [|x l IH]; intros H.
  - simpl. split; [lra|congruence].
  - assert (Hx : 0 <= x < hi) by (apply H; now left).
    destruct IH as [I1 I2]; [intros y Hy; apply H; now right|].
    rewrite sum_of_cons. split; [lra|]. intros _.
    change (List.length (x :: l)) with (S (List.length l)).
    rewrite S_INR.
    destruct l as [|y l]; [simpl; lra|].
    assert (sum_of (y :: l) < INR (List.length (y :: l)) * hi)
      by (apply I2; discriminate).
    lra.
Qed.

Lemma detect_currents_range (bias scale : R) (batch : list (option Z))
    (x : R) :
  In x (detect_currents bias scale batch) -> 0 <= x < MAX_CURRENT_AMPS.
Proof.
  unfold detect_currents. intros H. apply filter_In in H.
  destruct H as [_ H]. apply andb_true_iff in H. destruct H as [H1 H2].
  apply Rgeb_true in H1. apply Rltb_true in H2. lra.
Qed.

(** [auto_detect_load_current] with its sampling loop summarised. *)
Lemma auto_detect_load_current_closed (st : state) :
  auto_detect_load_current st
  = if negb (auto_detection_enabled (det st)) then st
    else
      let kept :=
        detect_currents (bias_voltage (cal st)) (amps_per_volt (cal st))
          (firstn 20 (adc_feed (env st))) in
      let st1 :=
        after_reads 20 100 (ESP_LOGI TAG "Auto-detecting load current..." st)
      in
      if (Z.of_nat (List.length kept) >? 0)%Z then
        let avg_current := sum_of kept / INR (List.length kept) in
        process_current_for_auto_calibration avg_current
          (ESP_LOGI TAG "Detected load: %.3f A (from %d samples)"
             (put_detected_load_amps avg_current st1))
      else ESP_LOGW TAG "Failed to detect valid load current" st1.
Proof.
  unfold auto_detect_load_current.
  destruct (negb (auto_detection_enabled (det st))); [reflexivity|].
  cbn zeta. rewrite detect_samples_spec. cbn zeta.
  change (cal (ESP_LOGI TAG "Auto-detecting load current..." st))
    with (cal st).
  change (adc_feed (env (ESP_LOGI TAG "Auto-detecting load current..." st)))
    with (adc_feed (env st)).
  rewrite Z.add_0_l, Rplus_0_l, INR_IZR_INZ. reflexivity.
Qed.

Lemma process_current_detected (c : R) (st : state) :
  detected_load_amps (det st) = c ->
  detected_load_amps (det (process_current_for_auto_calibration c st)) = c.
Proof.
  intros H. unfold process_current_for_auto_calibration.
  destruct (negb (auto_calibration_enabled (det st))); [exact H|].
  cbn zeta.
  match goal with
  | |- context [continuous_auto_calibration ?r ?s] =>
      destruct (continuous_auto_calibration_frame r s) as (Hd & _)
  end.
  rewrite Hd. state_simpl. reflexivity.
Qed.

(** X14: [auto_detect_load_current] does nothing while auto-detection is
    disabled.  Enabled, it reads 20 ticks 100 ms apart and keeps the
    currents in [0, 100 A): when at least one is kept the detected load
    becomes their mean, which again lies in [0, 100 A); when none is, the
    warning is logged and the detected load, the history ring and the
    calibration stay as they were. *)
Theorem auto_detect_load_current_effect (st : state) :
  let kept :=
    detect_currents (bias_voltage (cal st)) (amps_per_volt (cal st))
      (firstn 20 (adc_feed (env st))) in
  let st' := auto_detect_load_current st in
  (auto_detection_enabled (det st) = false -> st' = st)
  /\ (auto_detection_enabled (det st) = true ->
      (kept <> [] ->
       detected_load_amps (det st') = sum_of kept / INR (List.length kept)
       /\ 0 <= detected_load_amps (det st') < MAX_CURRENT_AMPS)
      /\ (kept = [] ->
          det st' = det st /\ history st' = history st /\ cal st' = cal st
          /\ adc_feed (env st') = skipn 20 (adc_feed (env st))
          /\ esp_log (env st')
             = detect_failed_entry
                 :: {| log_lvl := LOG_I; log_tag := TAG;
                       log_fmt := "Auto-detecting load current..." |}
                 :: esp_log (env st))).
Proof.
  cbn zeta. rewrite auto_detect_load_current_closed. cbn zeta.
  set (kept := detect_currents _ _ _).
  split; intros He; rewrite He; cbn [negb]; [reflexivity|].
  seal_reads. split; intros Hk.
  - assert (Hn : (0 < List.length kept)%nat)
      by (destruct kept; [congruence|simpl; lia]).
    replace (Z.of_nat (List.length kept) >? 0)%Z with true
      by (symmetry; rewrite Z.gtb_ltb; apply Z.ltb_lt; lia).
    rewrite process_current_detected by reflexivity.
    split; [reflexivity|].
    destruct (sum_of_bounds kept MAX_CURRENT_AMPS) as [S1 S2].
    { intros x Hx. subst kept. eapply detect_currents_range; eauto. }
    specialize (S2 Hk).
    assert (Hpos : 0 < INR (List.length kept)) by (apply lt_0_INR; lia).
    split.
    + apply Rmult_le_pos; [exact S1|].
      apply Rlt_le, Rinv_0_lt_compat, Hpos.
    + apply Rmult_lt_reg_r with (r := INR (List.length kept));
        [exact Hpos|].
      unfold Rdiv. rewrite Rmult_assoc, Rinv_l by lra. lra.
  - rewrite Hk. cbn [List.length Z.of_nat Z.gtb Z.compare].
    use_frames. repeat split; reflexivity.
Qed.

(** ** Start-up *)

(** What [sct_calibration_init] does to every part of the state. *)
Lemma sct_calibration_init_facts (st : state) :
  let st' := sct_calibration_init st in
  learning st'
  = {| learning_points := repeat zero_point 50;
       learning_point_count := 0%Z; learning_point_index := 0%Z |}
  /\ history st'
     = {| current_history := repeat 0 50; history_index := 0%Z;
          history_full := false |}
  /\ amps_per_volt (cal st') = amps_per_volt (cal st)
  /\ bias_voltage (cal st')
     = calibrated_bias (bias_voltage (cal st)) (adc_feed (env st))
  /\ stats st' = stats st /\ stability st' = stability st
  /\ det st' = det st
  /\ tasks_created (env st')
     = (if auto_calibration_enabled (det st)
        then S (tasks_created (env st)) else tasks_created (env st))
  /\ adc_feed (env st') = skipn 100 (adc_feed (env st)).
Proof.
  cbn zeta.
  unfold sct_calibration_init, calibrated_bias. cbn zeta.
  rewrite auto_calibrate_bias_voltage_closed. cbn zeta.
  state_simpl.
  match goal with
  | |- context [after_reads ?n ?ms ?s] =>
      pose proof (after_reads_frame n ms s) as Hr; cbn zeta in Hr;
      revert Hr; generalize (after_reads n ms s); intros st_r Hr
  end.
  state_simpl_all.
  destruct Hr as (R1 & R2 & R3 & R4 & R5 & R6 & R7 & R8 & R9 & R10 & R11
                  & R12 & R13 & R14 & R15).
  destruct (Z.of_nat _ >? 50)%Z; state_simpl; rewrite R2; state_simpl;
    destruct (auto_calibration_enabled (det st));
    unfold xTaskCreate_auto_calibration; state_simpl;
    rewrite ?R1, ?R2, ?R4, ?R5, ?R6, ?R7, ?R13, ?R15;
    repeat split; reflexivity.
Qed.

(** X15: [sct_calibration_init] from any state empties the learning store
    and the history ring, waits a second and calibrates the bias from the
    next 100 reads (the mean raw value when more than 50 succeed, the old
    bias otherwise); it keeps the scale factor, the statistics and the
    stability state machine, and starts one controller task exactly when
    auto-calibration is enabled.  From the power-up statics the detector is
    at rest afterwards. *)
Theorem sct_calibration_init_effect (st : state) :
  let st' := sct_calibration_init st in
  learning st'
  = {| learning_points := repeat zero_point 50;
       learning_point_count := 0%Z; learning_point_index := 0%Z |}
  /\ history st'
     = {| current_history := repeat 0 50; history_index := 0%Z;
          history_full := false |}
  /\ amps_per_volt (cal st') = amps_per_volt (cal st)
  /\ bias_voltage (cal st')
     = calibrated_bias (bias_voltage (cal st)) (adc_feed (env st))
  /\ stats st' = stats st /\ stability st' = stability st
  /\ det st' = det st
  /\ tasks_created (env st')
     = (if auto_calibration_enabled (det st)
        then S (tasks_created (env st)) else tasks_created (env st))
  /\ adc_feed (env st') = skipn 100 (adc_feed (env st))
  /\ (forall w, detector_at_rest (sct_calibration_init (boot_state w))).
Proof.
  destruct (sct_calibration_init_facts st)
    as (H1 & H2 & H3 & H4 & H5 & H6 & H7 & H8 & H9).
  repeat (split; [assumption|]).
  intros w.
  destruct (sct_calibration_init_facts (boot_state w))
    as (_ & G2 & _ & _ & _ & G6 & G7 & _).
  unfold detector_at_rest. rewrite G2, G6, G7. cbn.
  repeat split; reflexivity.
Qed.

(** ** Calibration followed by measurement *)

Lemma swings_known_load_voltages (bias a : R) (batch : list (option Z)) :
  0.001 < a -> swings bias a batch ->
  known_load_voltages bias batch = repeat a (List.length batch).
Proof.
  intros Ha H. induction H as [|r rest (v & -> & Hv) _ IH]; [reflexivity|].
  rewrite known_load_voltages_cons, Hv.
  replace (Rgtb a 0.001) with true by (symmetry; apply Rgtb_true; lra).
  rewrite IH. reflexivity.
Qed.

Lemma swings_squares (bias a : R) (batch : list (option Z)) :
  swings bias a batch ->
  map (fun x => x * x) (ac_voltages bias batch)
  = repeat (a * a) (List.length batch).
Proof.
  intros H. induction H as [|r rest (v & -> & Hv) _ IH]; [reflexivity|].
  rewrite ac_voltages_cons. cbn [map List.length repeat]. rewrite IH.
  f_equal. rewrite <- Hv.
  unfold Rabs. destruct (Rcase_abs _); lra.
Qed.

Lemma learn_from_calibration_feed (e m : R) (manual : bool) (st : state) :
  adc_feed (env (learn_from_calibration e m manual st)) = adc_feed (env st).
Proof.
  unfold learn_from_calibration.
  destruct (learning_point_count (learning st) <? MAX_LEARNING_POINTS)%Z;
    reflexivity.
Qed.

Lemma calibrate_with_known_load_feed (K : R) (st : state) :
  0 < K <= MAX_CURRENT_AMPS ->
  adc_feed (env (calibrate_with_known_load K st))
  = skipn 50 (adc_feed (env st)).
Proof.
  intros [HK1 HK2]. rewrite calibrate_with_known_load_closed. cbn zeta.
  replace (Rleb K 0 || Rgtb K MAX_CURRENT_AMPS) with false.
  2:{ symmetry. apply orb_false_iff. split.
      - apply Rleb_false; lra.
      - apply Rgtb_false; lra. }
  seal_reads. destruct (Z.of_nat _ >? 10)%Z.
  - match goal with
    | |- context [learn_from_calibration ?e ?m ?b ?s] =>
        seal_as (learn_from_calibration e m b s)
                (learn_from_calibration_feed e m b s)
    end.
    state_simpl_all. congruence.
  - use_frames. reflexivity.
Qed.

Lemma alternates_length (x y : Z) (n : nat) :
  List.length (alternates x y n) = (2 * n)%nat.
Proof.
  unfold alternates. induction n as [|n IH]; [reflexivity|].
  cbn [repeat List.concat app List.length]. rewrite IH. lia.
Qed.

Lemma alternates_add (x y : Z) (n m : nat) :
  alternates x y (n + m)
  = (alternates x y n ++ alternates x y m)%list.
Proof.
  unfold alternates. rewrite repeat_app, concat_app. reflexivity.
Qed.

Lemma alternates_split (x y : Z) (feed : list (option Z)) :
  firstn 150 feed = alternates x y 75 ->
  firstn 50 feed = alternates x y 25
  /\ firstn 100 (skipn 50 feed) = alternates x y 50.
Proof.
  intros H. split.
  - replace (firstn 50 feed) with (firstn 50 (firstn 150 feed))
      by (rewrite firstn_firstn; reflexivity).
    rewrite H. reflexivity.
  - rewrite firstn_skipn_comm. change (50 + 100)%nat with 150%nat.
    rewrite H. reflexivity.
Qed.

Lemma known_load_voltages_alternates (bias : R) (x y : Z) (n : nat) :
  let a := Rabs (adc_to_voltage x - bias) in
  let b := Rabs (adc_to_voltage y - bias) in
  0.001 < a -> 0.001 < b ->
  List.length (known_load_voltages bias (alternates x y n)) = (2 * n)%nat
  /\ sum_of (known_load_voltages bias (alternates x y n)) = INR n * (a + b).
Proof.
  cbn zeta. intros Ha Hb. induction n as [|n [IH1 IH2]].
  - split; [reflexivity|]. cbn. lra.
  - change (alternates x y (S n)) with (Some x :: Some y :: alternates x y n).
    rewrite !known_load_voltages_cons.
    replace (Rgtb (Rabs (adc_to_voltage x - bias)) 0.001) with true
      by (symmetry; apply Rgtb_true; lra).
    replace (Rgtb (Rabs (adc_to_voltage y - bias)) 0.001) with true
      by (symmetry; apply Rgtb_true; lra).
    cbn [List.length]. rewrite !sum_of_cons, IH1, IH2, S_INR.
    split; [lia | lra].
Qed.

Lemma ac_voltages_alternates (bias : R) (x y : Z) (n : nat) :
  let a := Rabs (adc_to_voltage x - bias) in
  let b := Rabs (adc_to_voltage y - bias) in
  List.length (ac_voltages bias (alternates x y n)) = (2 * n)%nat
  /\ sum_of (map (fun v => v * v) (ac_voltages bias (alternates x y n)))
     = INR n * (a * a + b * b).
Proof.
  cbn zeta. induction n as [|n [IH1 IH2]].
  - split; [reflexivity|]. cbn. lra.
  - change (alternates x y (S n)) with (Some x :: Some y :: alternates x y n).
    rewrite !ac_voltages_cons. cbn [List.length map].
    rewrite !sum_of_cons, IH1, IH2, S_INR.
    split; [lia|].
    unfold Rabs. do 2 destruct (Rcase_abs _); lra.
Qed.

Lemma mean_of_known_load_voltages (bias : R) (batch : list (option Z)) :
  (List.length (known_load_voltages bias batch) > 10)%nat ->
  0 < mean_of (known_load_voltages bias batch).
Proof.
  intros Hn. unfold mean_of. apply Rdiv_lt_0_compat.
  - apply Rgt_lt, sum_of_positive.
    + intros E. rewrite E in Hn. simpl in Hn. lia.
    + intros v Hv. unfold known_load_voltages in Hv.
      apply filter_In in Hv. destruct Hv as [_ Hv].
      apply Rgtb_true in Hv. lra.
  - apply lt_0_INR. lia.
Qed.

(** The square root of the mean square of two magnitudes against their
    mean: equal when the magnitudes are, larger otherwise. *)
Lemma two_level_form_factor (a b : R) :
  0 < a -> 0 < b -> a <> b ->
  (a + b) / 2 < sqrt ((a * a + b * b) / 2).
Proof.
  intros Ha Hb Hab.
  rewrite <- (sqrt_square ((a + b) / 2)) by lra.
  apply sqrt_lt_1_alt. split; [nra|].
  assert (0 < (a - b) * (a - b)) by (apply Rsqr_pos_lt; lra).
  lra.
Qed.

(** X16: calibrating against a known load and then measuring.  The
    calibration takes the next 50 reads and, when more than 10 of them
    swing by more than 1 mV, sets the scale to [K] over the mean magnitude
    of those kept; the measurement takes the 100 reads after them and
    returns the RMS of its valid samples times that scale, so [K] times the
    ratio of that RMS to the mean magnitude.  It returns [K] exactly when
    the two are equal, as when every sample has the same magnitude.  For a
    load whose samples alternate between two magnitudes [a] and [b] the
    ratio is [sqrt ((a^2 + b^2) / 2) / ((a + b) / 2)], above 1 unless
    [a = b]: the plug then reads more than the current it was calibrated
    against. *)
Theorem calibrate_then_measure (K : R) (st : state) :
  let bias := bias_voltage (cal st) in
  let calibration := firstn 50 (adc_feed (env st)) in
  let measurement := firstn 100 (skipn 50 (adc_feed (env st))) in
  let kept := known_load_voltages bias calibration in
  let acs := ac_voltages bias measurement in
  let rms := sqrt (mean_of (map (fun v => v * v) acs)) in
  let st1 := calibrate_with_known_load K st in
  0 < K <= MAX_CURRENT_AMPS ->
  (List.length kept > 10)%nat ->
  acs <> [] ->
  amps_per_volt (cal st1) = K / mean_of kept
  /\ fst (measure_rms_current st1) = K * (rms / mean_of kept)
  /\ (fst (measure_rms_current st1) = K <-> rms = mean_of kept)
  /\ (forall a,
        0.001 < a -> swings bias a calibration ->
        swings bias a measurement ->
        fst (measure_rms_current st1) = K)
  /\ (forall x y,
        let a := Rabs (adc_to_voltage x - bias) in
        let b := Rabs (adc_to_voltage y - bias) in
        0.001 < a -> 0.001 < b ->
        firstn 150 (adc_feed (env st)) = alternates x y 75 ->
        fst (measure_rms_current st1)
        = K * (sqrt ((a * a + b * b) / 2) / ((a + b) / 2))
        /\ (a <> b -> K < fst (measure_rms_current st1))).
Proof.
  cbn zeta. intros HK Hn Hne.
  destruct (calibrate_with_known_load_accepts K st (conj HK Hn))
    as (Hs & Hb & _).
  pose proof (calibrate_with_known_load_feed K st HK) as Hf.
  destruct (measure_rms_current_result (calibrate_with_known_load K st))
    as (_ & Hres).
  pose proof (mean_of_known_load_voltages _ _ Hn) as Hmean.
  revert Hs Hb Hf Hres. generalize (calibrate_with_known_load K st).
  intros st2 Hs Hb Hf Hres. rewrite Hb, Hf in Hres.
  fold (mean_of (known_load_voltages (bias_voltage (cal st))
                   (firstn 50 (adc_feed (env st))))) in Hs.
  revert Hn Hne Hs Hres Hmean.
  set (kept := known_load_voltages _ _). set (acs := ac_voltages _ _).
  intros Hn Hne Hs Hres Hmean.
  assert (Hlen : (List.length acs > 0)%nat)
    by (destruct acs; [congruence | simpl; lia]).
  specialize (Hres Hlen).
  assert (Hmeas : fst (measure_rms_current st2)
                  = K * (sqrt (mean_of (map (fun v => v * v) acs))
                         / mean_of kept)).
  { rewrite Hres, Hs.
    replace (mean_of (map (fun v => v * v) acs))
      with (sum_of (map (fun x => x * x) acs) / INR (List.length acs))
      by (unfold mean_of; rewrite length_map; reflexivity).
    field. lra. }
  split; [exact Hs|]. split; [exact Hmeas|].
  split; [|split].
  - rewrite Hmeas. split.
    + intros H.
      assert (K * (sqrt (mean_of (map (fun v => v * v) acs))
                   / mean_of kept - 1) = 0) by lra.
      assert (sqrt (mean_of (map (fun v => v * v) acs)) / mean_of kept
              = 1) by nra.
      apply (Rmult_eq_compat_r (mean_of kept)) in H1.
      unfold Rdiv in H1.
      rewrite Rmult_assoc, Rinv_l, Rmult_1_r, Rmult_1_l in H1 by lra.
      exact H1.
    + intros ->. field. lra.
  - intros a Ha Hc Hm. rewrite Hmeas.
    subst kept acs.
    rewrite (swings_known_load_voltages _ _ _ Ha Hc).
    unfold mean_of. rewrite length_map, (swings_squares _ _ _ Hm).
    rewrite (swings_known_load_voltages _ _ _ Ha Hc) in Hn.
    rewrite repeat_length in Hn.
    assert (Hl : List.length
                   (ac_voltages (bias_voltage (cal st))
                      (firstn 100 (skipn 50 (adc_feed (env st)))))
                 = List.length (firstn 100 (skipn 50 (adc_feed (env st))))).
    { rewrite <- (length_map (fun x => x * x)), (swings_squares _ _ _ Hm).
      apply repeat_length. }
    rewrite Hl in *. rewrite !sum_of_repeat, !repeat_length.
    set (m := List.length (firstn 100 _)) in *.
    set (c := List.length (firstn 50 _)) in *.
    assert (0 < INR m) by (apply lt_0_INR; lia).
    assert (0 < INR c) by (apply lt_0_INR; lia).
    replace (INR m * (a * a) / INR m) with (a * a) by (field; lra).
    replace (INR c * a / INR c) with a by (field; lra).
    rewrite sqrt_square by lra. field. lra.
  - intros x y Hxa Hyb Hfeed.
    destruct (alternates_split x y _ Hfeed) as (Hc & Hm).
    destruct (known_load_voltages_alternates (bias_voltage (cal st)) x y 25
                Hxa Hyb) as (K1 & K2).
    destruct (ac_voltages_alternates (bias_voltage (cal st)) x y 50)
      as (A1 & A2).
    cbn zeta in K2, A2. revert Hxa Hyb K2 A2.
    set (a := Rabs (adc_to_voltage x - bias_voltage (cal st))).
    set (b := Rabs (adc_to_voltage y - bias_voltage (cal st))).
    intros Hxa Hyb K2 A2.
    assert (E : fst (measure_rms_current st2)
                = K * (sqrt ((a * a + b * b) / 2) / ((a + b) / 2))).
    { rewrite Hmeas. subst kept acs. rewrite Hc, Hm.
      unfold mean_of. rewrite length_map, K1, K2, A1, A2.
      change (2 * 25)%nat with 50%nat. change (2 * 50)%nat with 100%nat.
      replace (INR 50) with 50 by (simpl; lra).
      replace (INR 25) with 25 by (simpl; lra).
      replace (INR 100) with 100 by (simpl; lra).
      f_equal. f_equal; [f_equal|]; lra. }
    split; [exact E|].
    intros Hab. rewrite E.
    assert (Ha0 : 0 < a) by lra. assert (Hb0 : 0 < b) by lra.
    pose proof (two_level_form_factor a b Ha0 Hb0 Hab) as Hff.
    revert Hff. generalize (sqrt ((a * a + b * b) / 2)). intros q Hff.
    assert (Hmn : 0 < (a + b) / 2) by lra.
    assert (Hq : 1 < q / ((a + b) / 2)).
    { apply (Rmult_lt_reg_r ((a + b) / 2)); [lra|].
      replace (q / ((a + b) / 2) * ((a + b) / 2)) with q by (field; lra).
      lra. }
    nra.
Qed.

(** The alternating reads of the example below swing by 50.5 and 353.5
    raw units around the default bias. *)
Lemma alternating_reads_magnitudes :
  Rabs (adc_to_voltage 2098 - 1.65) = 50.5 * (3.3 / 4095)
  /\ Rabs (adc_to_voltage 1694 - 1.65) = 353.5 * (3.3 / 4095).
Proof.
  unfold adc_to_voltage, ADC_RESOLUTION, ADC_VOLTAGE_RANGE. split.
  - rewrite Rabs_right; lra.
  - rewrite Rabs_left; lra.
Qed.

(** [calibrate_then_measure] on 150 reads alternating between the raw
    values 2098 and 1694 around the default bias: the mean magnitude is 202
    raw units and the RMS 252.5, so the plug calibrated against 4 A
    measures 5 A. *)
Lemma calibrate_then_measure_witness :
  let st := boot_state (fresh_world 0 (alternates 2098 1694 75)) in
  amps_per_volt (cal (calibrate_with_known_load 4 st))
  = 4 / (202 * (3.3 / 4095))
  /\ fst (measure_rms_current (calibrate_with_known_load 4 st)) = 5.
Proof.
  cbn zeta.
  destruct alternating_reads_magnitudes as (Ma & Mb).
  assert (Ha : 0.001 < Rabs (adc_to_voltage 2098 - 1.65))
    by (rewrite Ma; lra).
  assert (Hb : 0.001 < Rabs (adc_to_voltage 1694 - 1.65))
    by (rewrite Mb; lra).
  destruct (known_load_voltages_alternates 1.65 2098 1694 25 Ha Hb)
    as (K1 & K2).
  destruct (ac_voltages_alternates 1.65 2098 1694 50) as (A1 & _).
  destruct (calibrate_then_measure 4
              (boot_state (fresh_world 0 (alternates 2098 1694 75))))
    as (Hscale & _ & _ & _ & Halt).
  - unfold MAX_CURRENT_AMPS. lra.
  - change (List.length
              (known_load_voltages 1.65 (alternates 2098 1694 25)) > 10)%nat.
    rewrite K1. lia.
  - change (ac_voltages 1.65 (alternates 2098 1694 50) <> []).
    intros E. rewrite E in A1. discriminate A1.
  - split.
    + rewrite Hscale.
      f_equal. unfold mean_of.
      change (sum_of (known_load_voltages 1.65 (alternates 2098 1694 25))
              / INR (List.length
                       (known_load_voltages 1.65 (alternates 2098 1694 25)))
              = 202 * (3.3 / 4095)).
      rewrite K1, K2. cbn zeta. rewrite Ma, Mb.
      replace (INR 25) with 25 by (simpl; lra).
      replace (INR (2 * 25)) with 50 by (simpl; lra). lra.
    + destruct (Halt 2098%Z 1694%Z Ha Hb eq_refl) as (E & _).
      rewrite E.
      change (bias_voltage
                (cal (boot_state
                        (fresh_world 0 (alternates 2098 1694 75)))))
        with 1.65.
      rewrite Ma, Mb.
      replace ((50.5 * (3.3 / 4095) * (50.5 * (3.3 / 4095))
                + 353.5 * (3.3 / 4095) * (353.5 * (3.3 / 4095))) / 2)
        with (252.5 * (3.3 / 4095) * (252.5 * (3.3 / 4095))) by lra.
      rewrite sqrt_square by lra. lra.
Defined.

(** ** The recalibration interval of the stability state machine *)

(** The static [last_scale_calibration] is written by the recalibration of
    the stability state machine and by nothing else: the scale
    calibrations run by device recognition and by command leave it as it
    was, and so does the start of a stable period with the recognition it
    runs. *)
Lemma last_scale_calibration_other_writers (K v mean : R) (st : state) :
  last_scale_calibration (autocal (calibrate_with_known_load K st))
  = last_scale_calibration (autocal st)
  /\ last_scale_calibration (autocal (perform_scale_calibration K st))
     = last_scale_calibration (autocal st)
  /\ last_scale_calibration (autocal (auto_recognize_and_calibrate v st))
     = last_scale_calibration (autocal st)
  /\ last_scale_calibration (autocal (stable_period_start mean st))
     = last_scale_calibration (autocal st).
Proof.
  destruct (calibrate_with_known_load_frame K st) as (_ & _ & H1 & _).
  destruct (auto_recognize_and_calibrate_frame v st) as (_ & H2 & _).
  destruct (stable_period_start_frame mean st) as (_ & _ & _ & H3 & _).
  cbn zeta in H1, H2, H3.
  split; [rewrite H1; reflexivity|].
  split; [|split; [rewrite H2; reflexivity | rewrite H3; reflexivity]].
  unfold perform_scale_calibration. cbn zeta. revert H1.
  generalize (calibrate_with_known_load K st). intros s H1.
  state_simpl. rewrite H1. reflexivity.
Qed.

(** A stable period that starts with a recognition calibration still ends
    in a recalibration.  In Idle, a stable window whose mean is recognised
    with high confidence starts the period and calibrates the scale against
    the typical current of the profile; [last_scale_calibration] keeps its
    value.  When the window is still stable at a time [later], more than
    3 minutes on, and [last_scale_calibration] lies more than 30 minutes
    before [later], the machine calibrates the scale again, although the
    last scale calibration is the one of the recognition. *)
Lemma recalibration_soon_after_recognition (r : R) (p : device_profile_t)
    (later : Z) (st : state) :
  let h := current_history (history st) in
  let st0 := put_consecutive_zero_readings 0%Z st in
  let st1 := continuous_auto_calibration r st in
  let st2 := put_clock_ms later st1 in
  AUTO_CAL_ZERO_THRESHOLD <= r ->
  history_full (history st) = true ->
  window_is_stable h = true ->
  in_stable_period (stability st) = false ->
  recognize_device (window_mean h) = Some p ->
  recognition_confidence (window_mean h) p
    (auto_cal_sensitivity (autocal st)) > DEVICE_RECOGNITION_CONFIDENCE ->
  (u32 (later - now_ms st) > DEVICE_STABLE_TIME_MS)%Z ->
  (u32 (later - last_scale_calibration (autocal st))
   > AUTO_CAL_ZERO_INTERVAL_MS)%Z ->
  st1 = high_confidence_path (window_mean h) p
          (ESP_LOGI TAG "Stable load detected: %.3fA"
             (put_in_stable_period true
                (put_stable_load_value (window_mean h)
                   (put_stable_load_start (now_ms st) st0))))
  /\ last_scale_calibration (autocal st1)
     = last_scale_calibration (autocal st)
  /\ continuous_auto_calibration r st2
     = put_in_stable_period false
         (stable_load_recalibrate later
            (put_consecutive_zero_readings 0%Z st2)).
Proof.
  cbn zeta. intros Hr Hf Hs Hin Hp Hc Hheld Hsince.
  rewrite (continuous_auto_calibration_window r st Hr Hf). cbn zeta.
  rewrite Hs, Hin.
  split.
  { unfold stable_period_start. cbn zeta. state_simpl.
    rewrite auto_recognize_and_calibrate_cases, Hp. state_simpl.
    replace (Rgtb _ DEVICE_RECOGNITION_CONFIDENCE) with true
      by (symmetry; apply Rgtb_true; exact Hc).
    reflexivity. }
  destruct (stable_period_start_frame
              (window_mean (current_history (history st)))
              (put_consecutive_zero_readings 0 st))
    as (_ & F2 & _ & F4 & F5 & _ & F7).
  cbn zeta in F2, F4, F5, F7. revert F2 F4 F5 F7.
  generalize (stable_period_start
                (window_mean (current_history (history st)))
                (put_consecutive_zero_readings 0 st)).
  intros s1 F2 F4 F5 F7.
  split; [rewrite F4; reflexivity|].
  assert (Hf2 : history_full (history (put_clock_ms later s1)) = true)
    by (state_simpl; rewrite F2; exact Hf).
  rewrite (continuous_auto_calibration_window r _ Hr Hf2). cbn zeta.
  state_simpl. rewrite F2. state_simpl. rewrite Hs, F5.
  destruct (stable_period_continue_cases
              (put_consecutive_zero_readings 0 (put_clock_ms later s1)))
    as (_ & _ & C3).
  cbn zeta in C3. apply C3.
  - state_simpl. rewrite F7. state_simpl. exact Hheld.
  - state_simpl. rewrite F4. state_simpl. exact Hsince.
Qed.

(** The recognition calibration of the example: the high-confidence path
    from the start of the stable period sets the scale to the typical 5 A
    over the 1.65 V the reads swing by. *)
Lemma steady_load_recognition_scale :
  amps_per_volt
    (cal (high_confidence_path 5 hair_dryer_low
            (ESP_LOGI TAG "Stable load detected: %.3fA"
               (put_in_stable_period true
                  (put_stable_load_value 5
                     (put_stable_load_start 2000000%Z
                        (put_consecutive_zero_readings 0%Z
                           steady_load_state)))))))
  = 5 / 1.65.
Proof.
  assert (Hkept : known_load_voltages 1.65 (repeat (Some 4095%Z) 50)
                  = repeat 1.65 50).
  { rewrite (swings_known_load_voltages 1.65 1.65); [|lra|].
    - rewrite repeat_length. reflexivity.
    - apply Forall_forall. intros x Hx. apply repeat_spec in Hx.
      exists 4095%Z. split; [exact Hx|].
      unfold adc_to_voltage, ADC_RESOLUTION, ADC_VOLTAGE_RANGE.
      rewrite Rabs_right; lra. }
  unfold high_confidence_path. cbn zeta.
  match goal with
  | |- context [learn_from_calibration ?e ?m ?b ?s] =>
      destruct (learn_from_calibration_frame e m b s) as (-> & _)
  end.
  state_simpl.
  match goal with
  | |- context [calibrate_with_known_load ?K ?s] =>
      pose proof (calibrate_with_known_load_accepts K s) as H
  end.
  cbn zeta in H. state_simpl_all.
  change (bias_voltage (cal steady_load_state)) with 1.65 in H.
  change (firstn 50 (adc_feed (env steady_load_state)))
    with (repeat (Some 4095%Z) 50) in H.
  rewrite Hkept, repeat_length, sum_of_repeat in H.
  destruct H as (H & _).
  - split; [cbn; unfold MAX_CURRENT_AMPS; lra | lia].
  - rewrite H. cbn [typical_current hair_dryer_low].
    replace (INR 50) with 50 by (simpl; lra). lra.
Qed.

(** [recalibration_soon_after_recognition] in [steady_load_state]: the
    reading starts the stable period and the hair dryer is recognised with
    confidence 1.05, so the scale is calibrated against 5 A, from 200 to
    5 / 1.65; 190 s later the machine calibrates it again. *)
Lemma recalibration_190_s_after_recognition :
  let st1 := continuous_auto_calibration 5 steady_load_state in
  let st2 := put_clock_ms 2190001%Z st1 in
  st1 = high_confidence_path 5 hair_dryer_low
          (ESP_LOGI TAG "Stable load detected: %.3fA"
             (put_in_stable_period true
                (put_stable_load_value 5
                   (put_stable_load_start 2000000%Z
                      (put_consecutive_zero_readings 0%Z
                         steady_load_state)))))
  /\ amps_per_volt (cal st1) = 5 / 1.65
  /\ last_scale_calibration (autocal st1) = 0%Z
  /\ continuous_auto_calibration 5 st2
     = put_in_stable_period false
         (stable_load_recalibrate 2190001%Z
            (put_consecutive_zero_readings 0%Z st2)).
Proof.
  cbn zeta.
  destruct (window_constant 5) as (Hm & Hv).
  assert (Hs : window_is_stable (repeat 5 50) = true).
  { apply window_is_stable_iff. rewrite Hm, Hv.
    unfold AUTO_CAL_VARIANCE_THRESHOLD, AUTO_CAL_MIN_CURRENT,
      AUTO_CAL_MAX_CURRENT. lra. }
  destruct (recalibration_soon_after_recognition 5 hair_dryer_low
              2190001%Z steady_load_state) as (H1 & H2 & H3).
  - unfold AUTO_CAL_ZERO_THRESHOLD. lra.
  - reflexivity.
  - exact Hs.
  - reflexivity.
  - change (current_history (history steady_load_state))
      with (repeat 5 50).
    rewrite Hm. exact recognize_5.
  - change (current_history (history steady_load_state))
      with (repeat 5 50).
    change (auto_cal_sensitivity (autocal steady_load_state)) with 0.7.
    rewrite Hm, confidence_5. unfold DEVICE_RECOGNITION_CONFIDENCE. lra.
  - reflexivity.
  - reflexivity.
  - change (current_history (history steady_load_state))
      with (repeat 5 50) in H1.
    rewrite Hm in H1.
    split; [exact H1|].
    split; [rewrite H1; exact steady_load_recognition_scale|].
    split; [exact H2|exact H3].
Qed.

(** ** Measurement statistics *)

Lemma process_current_sender (c : R) (st : state) :
  sender (process_current_for_auto_calibration c st) = sender st.
Proof.
  unfold process_current_for_auto_calibration.
  destruct (negb (auto_calibration_enabled (det st))); [reflexivity|].
  cbn zeta.
  match goal with
  | |- context [continuous_auto_calibration ?r ?s] =>
      destruct (continuous_auto_calibration_frame r s) as (_ & _ & Hs & _)
  end.
  rewrite Hs. state_simpl. destruct (Z.rem _ _ =? 0)%Z; reflexivity.
Qed.

Lemma auto_detect_sender (st : state) :
  sender (auto_detect_load_current st) = sender st.
Proof.
  rewrite auto_detect_load_current_closed. cbn zeta.
  destruct (negb _); [reflexivity|].
  seal_reads.
  destruct (Z.of_nat _ >? 0)%Z.
  - rewrite process_current_sender. use_frames. reflexivity.
  - use_frames. reflexivity.
Qed.

(** The statics of udp_sender.c after the bookkeeping of one
    measurement. *)
Lemma after_measurement_sender (c : R) (st : state) :
  let s := sender st in
  sender (after_measurement c st)
  = {| voltage_buffer := voltage_buffer s;
       buffer_index := buffer_index s;
       buffer_filled := buffer_filled s;
       measurement_count := u32 (measurement_count s + 1);
       last_measured_vrms := last_measured_vrms s;
       total_measurements := u32 (total_measurements s + 1);
       stats_min_current :=
         if Rltb c (stats_min_current s) then c else stats_min_current s;
       stats_max_current :=
         if Rgtb c (stats_max_current s) then c else stats_max_current s;
       accumulated_current := accumulated_current s + c |}.
Proof.
  cbn zeta. unfold after_measurement. cbn zeta.
  set (st1 := put_measurement_count _ _).
  assert (H1 : sender st1
               = {| voltage_buffer := voltage_buffer (sender st);
                    buffer_index := buffer_index (sender st);
                    buffer_filled := buffer_filled (sender st);
                    measurement_count :=
                      u32 (measurement_count (sender st) + 1);
                    last_measured_vrms := last_measured_vrms (sender st);
                    total_measurements :=
                      u32 (total_measurements (sender st) + 1);
                    stats_min_current :=
                      if Rltb c (stats_min_current (sender st))
                      then c else stats_min_current (sender st);
                    stats_max_current :=
                      if Rgtb c (stats_max_current (sender st))
                      then c else stats_max_current (sender st);
                    accumulated_current :=
                      accumulated_current (sender st) + c |}).
  { subst st1. state_simpl.
    destruct (Rltb c _); state_simpl; destruct (Rgtb c _); reflexivity. }
  revert H1. generalize st1. clear st1. intros st1 H1.
  set (st2 := if get_auto_calibration_enabled st1 then _ else _).
  assert (H2 : sender st2 = sender st1).
  { subst st2. destruct (get_auto_calibration_enabled st1);
      [apply process_current_sender|reflexivity]. }
  revert H2. generalize st2. clear st2. intros st2 H2.
  set (st3 := if get_auto_detection_enabled st2 && _ then _ else _).
  assert (H3 : sender st3 = sender st2).
  { subst st3. destruct (get_auto_detection_enabled st2 && _);
      [apply auto_detect_sender|reflexivity]. }
  revert H3. generalize st3. clear st3. intros st3 H3.
  rewrite <- H1, <- H2, <- H3.
  destruct (_ =? 0)%Z; [|reflexivity].
  destruct (get_auto_calibration_enabled _); reflexivity.
Qed.

(** X17: the bookkeeping of a measurement.  When at least one tick of the
    batch is read, [measure_rms_current] counts one measurement, adds the
    returned current to the accumulated total and folds it into the
    recorded minimum and maximum, so that afterwards minimum <= returned
    current <= maximum, whatever auto-calibration and load detection did
    in between; the recorded RMS voltage times the scale factor in force
    is the returned current, which is not negative unless the scale factor
    is. *)
Theorem measure_rms_current_statistics (st : state) :
  let acs :=
    ac_voltages (bias_voltage (cal st)) (firstn 100 (adc_feed (env st))) in
  let c := fst (measure_rms_current st) in
  let s := sender st in
  let s' := sender (snd (measure_rms_current st)) in
  (List.length acs > 0)%nat ->
  total_measurements s' = u32 (total_measurements s + 1)
  /\ measurement_count s' = u32 (measurement_count s + 1)
  /\ accumulated_current s' = accumulated_current s + c
  /\ stats_min_current s' = Rmin (stats_min_current s) c
  /\ stats_max_current s' = Rmax (stats_max_current s) c
  /\ stats_min_current s' <= c <= stats_max_current s'
  /\ last_measured_vrms s' * amps_per_volt (cal st) = c
  /\ (0 <= amps_per_volt (cal st) -> 0 <= c).
Proof.
  cbn zeta. intros Hn.
  rewrite measure_rms_current_unfold. cbn zeta.
  pose proof (rms_samples_spec 100 0 0%Z st) as H. cbn zeta in H.
  revert H. generalize (rms_samples 100 0 0%Z st). intros r H.
  destruct H as (H1 & H2 & H3 & _ & _ & _ & _ & _ & _ & _ & H11 & H12 & H13
                 & H14 & H15 & _).
  rewrite H2, Z.add_0_l.
  replace (Z.of_nat _ =? 0)%Z with false
    by (symmetry; apply Z.eqb_neq; lia).
  cbn [fst snd]. rewrite after_measurement_sender. cbn zeta.
  unfold get_amps_per_volt. state_simpl.
  rewrite H3, H11, H12, H13, H14, H15.
  set (c := sqrt _ * _).
  split; [reflexivity|]. split; [reflexivity|]. split; [reflexivity|].
  assert (Hmin : (if Rltb c (stats_min_current (sender st))
                  then c else stats_min_current (sender st))
                 = Rmin (stats_min_current (sender st)) c).
  { unfold Rmin. destruct (Rle_dec _ c);
      [replace (Rltb c _) with false
         by (symmetry; apply Rltb_false; lra) |
       replace (Rltb c _) with true
         by (symmetry; apply Rltb_true; lra) ]; reflexivity. }
  assert (Hmax : (if Rgtb c (stats_max_current (sender st))
                  then c else stats_max_current (sender st))
                 = Rmax (stats_max_current (sender st)) c).
  { unfold Rmax. destruct (Rle_dec _ c) as [Hle|Hle].
    - destruct (Rgtb c _) eqn:E; [reflexivity|].
      apply Rgtb_false in E. lra.
    - replace (Rgtb c _) with false
        by (symmetry; apply Rgtb_false; lra).
      reflexivity. }
  rewrite Hmin, Hmax.
  split; [reflexivity|]. split; [reflexivity|].
  split; [split; [apply Rmin_r | apply Rmax_r]|].
  split; [reflexivity|].
  intros Hs. subst c. apply Rmult_le_pos; [apply sqrt_pos|exact Hs].
Qed.

(** [measure_rms_current_statistics] on the first measurement after
    power-up, 100 ticks read: one measurement is counted. *)
Lemma measure_rms_current_statistics_witness :
  (List.length
     (ac_voltages (bias_voltage (cal zero_load_state))
        (firstn 100 (adc_feed (env zero_load_state)))) > 0)%nat
  /\ total_measurements (sender (snd (measure_rms_current zero_load_state)))
     = 1%Z
  /\ stats_max_current (sender (snd (measure_rms_current zero_load_state)))
     = Rmax 0 (fst (measure_rms_current zero_load_state)).
Proof.
  assert (Hn : (List.length
                  (ac_voltages (bias_voltage (cal zero_load_state))
                     (firstn 100 (adc_feed (env zero_load_state)))) > 0)%nat).
  { unfold ac_voltages. rewrite length_map.
    replace (valid_ticks (firstn 100 (adc_feed (env zero_load_state))))
      with (repeat 2048%Z 100) by reflexivity.
    rewrite repeat_length. lia. }
  split; [exact Hn|].
  destruct (measure_rms_current_statistics zero_load_state Hn)
    as (H1 & _ & _ & _ & H5 & _).
  split; [rewrite H1; reflexivity | rewrite H5; reflexivity].
Defined.

(** ** The sample ring *)

(** The ring after a sampling loop that read [j] ticks. *)
Lemma rms_samples_ring (n : nat) (s : R) (v : Z) (st : state) :
  buffer_ok (sender st) ->
  let j :=
    Z.of_nat (List.length (valid_ticks (firstn n (adc_feed (env st))))) in
  let sd := sender st in
  let sd' := sender (snd (rms_samples n s v st)) in
  buffer_ok sd'
  /\ buffer_index sd' = ((buffer_index sd + j) mod 100)%Z
  /\ buffer_filled sd'
     = (buffer_filled sd || (100 <=? buffer_index sd + j)%Z).
Proof.
  revert s v st. induction n as [|k IH]; intros s v st (Hlen & Hi);
    cbn zeta.
  - cbn [rms_samples firstn valid_ticks flat_map List.length Z.of_nat snd].
    rewrite Z.add_0_r, Z.mod_small by lia.
    replace (100 <=? buffer_index (sender st))%Z with false
      by (symmetry; apply Z.leb_gt; lia).
    rewrite orb_false_r. repeat split; assumption || lia.
  - rewrite rms_samples_S. cbn zeta.
    destruct (adc_feed (env st)) as [|[a|] rest] eqn:Hfeed; cbn [hd].
    + match goal with
      | |- context [rms_samples k s v ?s1] =>
          specialize (IH s v s1); cbn zeta in IH;
          assert (Hs1 : sender s1 = sender st) by reflexivity;
          assert (Hf1 : adc_feed (env s1) = [])
            by (state_simpl; rewrite Hfeed; reflexivity);
          revert IH Hs1 Hf1; generalize (rms_samples k s v s1);
          generalize s1
      end.
      intros s1 r IH Hs1 Hf1. rewrite Hs1, Hf1 in IH.
      rewrite firstn_nil in *. apply IH. split; assumption.
    + assert (Hrem : Z.rem (buffer_index (sender st) + 1) RMS_BUFFER_SIZE
                     = ((buffer_index (sender st) + 1) mod 100)%Z)
        by (apply Z.rem_mod_nonneg; unfold RMS_BUFFER_SIZE; lia).
      pose proof (Z.mod_pos_bound (buffer_index (sender st) + 1) 100
                    ltac:(lia)) as Hb.
      match goal with
      | |- context [rms_samples k ?s' ?v' ?s1] =>
          specialize (IH s' v' s1); cbn zeta in IH;
          assert (Hf1 : adc_feed (env s1) = rest)
            by (state_simpl; rewrite Hfeed; reflexivity);
          assert (Hl1 : List.length (voltage_buffer (sender s1)) = 100%nat)
            by (state_simpl; rewrite list_set_length; exact Hlen);
          assert (Hi1 : buffer_index (sender s1)
                        = ((buffer_index (sender st) + 1) mod 100)%Z)
            by (state_simpl; exact Hrem);
          assert (Hfl1 : buffer_filled (sender s1)
                         = (buffer_filled (sender st)
                            || (100 <=? buffer_index (sender st) + 1)%Z))
            by (state_simpl; rewrite Hrem;
                destruct (Z.eq_dec (buffer_index (sender st)) 99) as [E|E];
                [rewrite E; cbn; now rewrite orb_true_r
                |rewrite Z.mod_small by lia;
                 replace (buffer_index (sender st) + 1 =? 0)%Z with false
                   by (symmetry; apply Z.eqb_neq; lia);
                 replace (100 <=? buffer_index (sender st) + 1)%Z
                   with false by (symmetry; apply Z.leb_gt; lia);
                 now rewrite orb_false_r]);
          revert IH Hf1 Hl1 Hi1 Hfl1; generalize (rms_samples k s' v' s1);
          generalize s1
      end.
      intros s1 r IH Hf1 Hl1 Hi1 Hfl1.
      destruct IH as (I1 & I2 & I3); [split; [exact Hl1 | lia]|].
      rewrite Hf1 in I2, I3. rewrite Hi1 in I2. rewrite Hi1, Hfl1 in I3.
      cbn [firstn]. rewrite valid_ticks_cons. cbn [List.length].
      rewrite Nat2Z.inj_succ.
      set (j := Z.of_nat (List.length (valid_ticks (firstn k rest)))) in *.
      assert (Hj : (0 <= j)%Z) by (subst j; lia).
      split; [exact I1|]. split.
      * rewrite I2, Zplus_mod_idemp_l. f_equal. lia.
      * rewrite I3.
        destruct (Z.eq_dec (buffer_index (sender st)) 99) as [E|E].
        -- rewrite E. change (100 <=? 99 + 1)%Z with true.
           rewrite orb_true_r. cbn [orb].
           replace (100 <=? 99 + Z.succ j)%Z with true
             by (symmetry; apply Z.leb_le; lia).
           now rewrite orb_true_r.
        -- rewrite Z.mod_small by lia.
           replace (100 <=? buffer_index (sender st) + 1)%Z with false
             by (symmetry; apply Z.leb_gt; lia).
           rewrite orb_false_r. f_equal. f_equal. lia.
    + match goal with
      | |- context [rms_samples k s v ?s1] =>
          specialize (IH s v s1); cbn zeta in IH;
          assert (Hs1 : sender s1 = sender st) by reflexivity;
          assert (Hf1 : adc_feed (env s1) = rest)
            by (state_simpl; rewrite Hfeed; reflexivity);
          revert IH Hs1 Hf1; generalize (rms_samples k s v s1);
          generalize s1
      end.
      intros s1 r IH Hs1 Hf1. rewrite Hs1, Hf1 in IH.
      cbn [firstn]. rewrite valid_ticks_cons. apply IH. split; assumption.
Qed.

(** X18: the sample ring under [measure_rms_current].  The ring stays
    well formed; its write index advances cyclically by the number of
    ticks read in the batch; it is marked filled once the index has
    wrapped and never unmarked.  So BUFFER_ANALYSIS answers NOT_READY
    exactly until 100 ticks have been read since the ring was empty. *)
Theorem voltage_buffer_ring (st : state) :
  buffer_ok (sender st) ->
  let j :=
    Z.of_nat (List.length (valid_ticks (firstn 100 (adc_feed (env st))))) in
  let st' := snd (measure_rms_current st) in
  buffer_ok (sender st')
  /\ buffer_index (sender st')
     = ((buffer_index (sender st) + j) mod 100)%Z
  /\ buffer_filled (sender st')
     = (buffer_filled (sender st)
        || (100 <=? buffer_index (sender st) + j)%Z)
  /\ (analyze_voltage_buffer st' = text "BUFFER_ANALYSIS=NOT_READY"
      <-> buffer_filled (sender st) = false
          /\ (buffer_index (sender st) + j < 100)%Z).
Proof.
  intros Hok. cbn zeta.
  pose proof (rms_samples_ring 100 0 0%Z st Hok) as H. cbn zeta in H.
  set (j := Z.of_nat _) in *.
  assert (Hs : voltage_buffer (sender (snd (measure_rms_current st)))
               = voltage_buffer (sender (snd (rms_samples 100 0 0%Z st)))
               /\ buffer_index (sender (snd (measure_rms_current st)))
                  = buffer_index (sender (snd (rms_samples 100 0 0%Z st)))
               /\ buffer_filled (sender (snd (measure_rms_current st)))
                  = buffer_filled (sender (snd (rms_samples 100 0 0%Z st)))).
  { rewrite measure_rms_current_unfold. cbn zeta.
    generalize (rms_samples 100 0 0%Z st). intros r.
    destruct (snd (fst r) =? 0)%Z; cbn [snd].
    - repeat split; reflexivity.
    - rewrite after_measurement_sender. cbn zeta. state_simpl.
      repeat split; reflexivity. }
  destruct Hs as (S1 & S2 & S3).
  destruct H as ((B1 & B2) & H2 & H3).
  assert (Hf : buffer_filled (sender (snd (measure_rms_current st)))
               = (buffer_filled (sender st)
                  || (100 <=? buffer_index (sender st) + j)%Z))
    by (rewrite S3; exact H3).
  split; [unfold buffer_ok; rewrite S1, S2; split; assumption|].
  split; [rewrite S2; exact H2|]. split; [exact Hf|].
  unfold analyze_voltage_buffer. rewrite Hf.
  destruct (buffer_filled (sender st)); cbn [orb negb].
  - split; [discriminate|]. intros [E _]. discriminate.
  - destruct (Z.leb_spec 100 (buffer_index (sender st) + j)); cbn [negb].
    + split; [discriminate|]. intros [_ E]. lia.
    + split; [intros _; split; [reflexivity|assumption]|reflexivity].
Qed.

(** [voltage_buffer_ring] after power-up: a batch of 100 ticks read fills
    the ring. *)
Lemma voltage_buffer_ring_witness :
  buffer_ok (sender zero_load_state)
  /\ buffer_index (sender (snd (measure_rms_current zero_load_state))) = 0%Z
  /\ buffer_filled (sender (snd (measure_rms_current zero_load_state)))
     = true.
Proof.
  assert (Hok : buffer_ok (sender zero_load_state)).
  { unfold buffer_ok. simpl. repeat split; lia. }
  split; [exact Hok|].
  destruct (voltage_buffer_ring zero_load_state Hok) as (_ & H2 & H3 & _).
  split; [rewrite H2; reflexivity | rewrite H3; reflexivity].
Defined.

(** ** The relay *)

(** X19: relay.c.  Before [relay_init] has succeeded, [relay_toggle] and
    [relay_set_state] change neither the software state nor the pin.  A
    successful [relay_init] ends its test pulse with the pin low and the
    state off, 300 ms later; a failed one leaves everything as it was.
    Once initialised, [relay_set_state b] puts state and pin to [b],
    [relay_toggle] inverts the state and writes it to the pin, so state
    and pin agree after either, and toggling twice restores the state. *)
Theorem relay_driver (r : relay_statics) (st : state) :
  (relay_initialized r = false ->
   forall b,
     fst (relay_toggle r st) = r /\ fst (relay_set_state b r st) = r
     /\ relay_level (env (snd (relay_toggle r st))) = relay_level (env st)
     /\ relay_level (env (snd (relay_set_state b r st)))
        = relay_level (env st))
  /\ (let '(r', st') := relay_init true r st in
      relay_initialized r' = true /\ relay_state r' = false
      /\ relay_level (env st') = false
      /\ clock_ms (env st') = u32 (u32 (clock_ms (env st) + 100) + 200))
  /\ (let '(r', st') := relay_init false r st in
      r' = r /\ relay_level (env st') = relay_level (env st))
  /\ (relay_initialized r = true ->
      (forall b,
          let '(r', st') := relay_set_state b r st in
          relay_get_state r' = b /\ relay_level (env st') = b
          /\ relay_initialized r' = true)
      /\ (let '(r', st') := relay_toggle r st in
          relay_get_state r' = negb (relay_get_state r)
          /\ relay_in_sync r' st' /\ relay_initialized r' = true)
      /\ (let '(r1, st1) := relay_toggle r st in
          let '(r2, st2) := relay_toggle r1 st1 in
          relay_get_state r2 = relay_get_state r
          /\ (relay_in_sync r st ->
              relay_level (env st2) = relay_level (env st)))).
Proof.
  split; [|split; [|split]].
  - intros Hi b. unfold relay_toggle, relay_set_state. rewrite Hi.
    cbn [negb fst snd]. repeat split; reflexivity.
  - cbn. repeat split; reflexivity.
  - cbn. repeat split; reflexivity.
  - intros Hi. split; [|split].
    + intros b. unfold relay_set_state. rewrite Hi. cbn.
      repeat split; reflexivity.
    + unfold relay_toggle. rewrite Hi. cbn [negb]. cbn zeta.
      cbn [relay_state relay_initialized].
      match goal with |- context [if ?c then _ else _] => destruct c end;
        unfold relay_in_sync, relay_get_state, gpio_set_level; state_simpl;
        cbn [relay_state relay_initialized]; repeat split; reflexivity.
    + unfold relay_toggle at 1. rewrite Hi. cbn [negb]. cbn zeta.
      cbn [relay_state relay_initialized].
      match goal with |- context [if ?c then _ else _] => destruct c end;
        unfold relay_toggle; cbn [relay_state relay_initialized negb];
        cbn zeta; cbn [relay_state relay_initialized];
        (match goal with |- context [if ?c then _ else _] => destruct c end);
        unfold relay_in_sync, relay_get_state, gpio_set_level; state_simpl;
        cbn [relay_state relay_initialized]; rewrite negb_involutive;
        (split; [reflexivity|]); intros H; exact H.
Qed.

Lemma process_relay_commands (atof : string -> R) (rest : string)
    (st : state) :
  let st0 := ESP_LOGI RECV_TAG "Processing command: %s" st in
  process_udp_command atof ("RELAY_ON" ++ rest) st
  = ESP_LOGI RECV_TAG "Response sent: %s"
      (sendto (text "RELAY_ON:SUCCESS") (gpio_set_level true st0))
  /\ process_udp_command atof ("RELAY_OFF" ++ rest) st
     = ESP_LOGI RECV_TAG "Response sent: %s"
         (sendto (text "RELAY_OFF:SUCCESS") (gpio_set_level false st0))
  /\ process_udp_command atof ("RELAY_TOGGLE" ++ rest) st
     = ESP_LOGI RECV_TAG "Response sent: %s"
         (sendto {| resp_fmt := "RELAY_TOGGLE:SUCCESS,STATE=%s";
                    resp_args :=
                      [FStr (on_off (negb (gpio_get_level st)))] |}
            (gpio_set_level (negb (gpio_get_level st)) st0)).
Proof.
  cbn zeta. unfold process_udp_command, dispatch_command.
  cbn [append strncmp_eq Ascii.eqb Bool.eqb andb string_from].
  repeat split; reflexivity.
Qed.

(** RELAY_TOGGLE leaves the configuration of the pad as it was. *)
Lemma relay_toggle_command_pad (atof : string -> R) (rest : string)
    (st : state) :
  relay_pad_input
    (env (process_udp_command atof ("RELAY_TOGGLE" ++ rest) st))
  = relay_pad_input (env st).
Proof.
  destruct (process_relay_commands atof rest st) as (_ & _ & ->).
  reflexivity.
Qed.

Lemma relay_toggle_command_repeated (atof : string -> R) (rest : string)
    (st : state) (n : nat) :
  relay_pad_input
    (env (Nat.iter n (process_udp_command atof ("RELAY_TOGGLE" ++ rest))
            st))
  = relay_pad_input (env st).
Proof.
  induction n as [|n IH]; [reflexivity|].
  rewrite Nat.iter_succ, relay_toggle_command_pad. exact IH.
Qed.

(** X20: the relay commands.  RELAY_ON drives the pin high and RELAY_OFF
    low whatever it was; any text may follow the command word.
    RELAY_TOGGLE drives the inverse of what [gpio_get_level] returns and
    reports the level it has driven.  [relay_init] configures the pad for
    output only, and on a pad whose input path is disabled
    [gpio_get_level] returns 0: there RELAY_TOGGLE drives the pin high and
    answers STATE=ON however often it is sent, and never switches the relay
    off.  Only on a pad whose input path is enabled does the command
    invert the pin, two toggles restoring it.  The commands write the pin
    directly and never the state of relay.c: after RELAY_ON on a relay that
    relay.c holds off, [relay_get_state] still answers off, and
    [relay_toggle] then drives the pin high again instead of switching it
    off. *)
Theorem relay_commands (atof : string -> R) (rest : string) (st : state) :
  let toggle := process_udp_command atof ("RELAY_TOGGLE" ++ rest) in
  let answer (level : bool) :=
    {| resp_fmt := "RELAY_TOGGLE:SUCCESS,STATE=%s";
       resp_args := [FStr (on_off level)] |} in
  relay_level (env (process_udp_command atof ("RELAY_ON" ++ rest) st))
  = true
  /\ relay_level (env (process_udp_command atof ("RELAY_OFF" ++ rest) st))
     = false
  /\ relay_level (env (toggle st)) = negb (gpio_get_level st)
  /\ hd_error (udp_sent (env (toggle st)))
     = Some (answer (relay_level (env (toggle st))))
  /\ (forall r,
        relay_pad_input (env (snd (relay_init true r st))) = false)
  /\ (relay_pad_input (env st) = false ->
      forall n,
        let st' := Nat.iter (S n) toggle st in
        relay_level (env st') = true
        /\ hd_error (udp_sent (env st')) = Some (answer true))
  /\ (relay_pad_input (env st) = true ->
      relay_level (env (toggle st)) = negb (relay_level (env st))
      /\ relay_level (env (toggle (toggle st))) = relay_level (env st))
  /\ (forall r,
        relay_initialized r = true -> relay_state r = false ->
        let st1 := process_udp_command atof ("RELAY_ON" ++ rest) st in
        let '(r2, st2) := relay_toggle r st1 in
        relay_get_state r = false
        /\ relay_level (env st1) = true
        /\ relay_level (env st2) = true).
Proof.
  cbn zeta.
  destruct (process_relay_commands atof rest st) as (Hon & Hoff & Htog).
  cbn zeta in Hon, Hoff, Htog.
  split; [rewrite Hon; reflexivity|].
  split; [rewrite Hoff; reflexivity|].
  split; [rewrite Htog; reflexivity|].
  split; [rewrite Htog; reflexivity|].
  split; [intros r; reflexivity|].
  split; [|split].
  - intros Hp n. rewrite Nat.iter_succ.
    pose proof (relay_toggle_command_repeated atof rest st n) as Hn.
    rewrite Hp in Hn. revert Hn.
    generalize (Nat.iter n
                  (process_udp_command atof ("RELAY_TOGGLE" ++ rest)) st).
    intros s Hs.
    destruct (process_relay_commands atof rest s) as (_ & _ & ->).
    unfold gpio_get_level. rewrite Hs. split; reflexivity.
  - intros Hp.
    assert (H1 : relay_level
                   (env (process_udp_command atof ("RELAY_TOGGLE" ++ rest)
                           st))
                 = negb (relay_level (env st))).
    { rewrite Htog. unfold gpio_get_level. rewrite Hp. reflexivity. }
    split; [exact H1|].
    pose proof (relay_toggle_command_pad atof rest st) as H2.
    rewrite Hp in H2. revert H1 H2.
    generalize (process_udp_command atof ("RELAY_TOGGLE" ++ rest) st).
    intros s H1 H2.
    destruct (process_relay_commands atof rest s) as (_ & _ & ->).
    unfold gpio_get_level. rewrite H2, H1. cbn [andb].
    unfold gpio_set_level. state_simpl. apply negb_involutive.
  - intros r Hi Hs. rewrite Hon. unfold relay_toggle. rewrite Hi, Hs.
    cbn [negb]. cbn zeta. cbn [relay_state relay_initialized].
    match goal with |- context [if ?c then _ else _] => destruct c end;
      unfold relay_get_state, gpio_set_level; state_simpl;
      repeat split; assumption || reflexivity.
Qed.

(** [relay_commands] after a successful [relay_init] at power-up: two
    RELAY_TOGGLE commands in a row leave the relay on, and the second
    answers STATE=ON like the first. *)
Lemma relay_commands_witness :
  let st :=
    snd (relay_init true relay_boot (boot_state (fresh_world 0 []))) in
  let toggle := process_udp_command atof_decimal "RELAY_TOGGLE" in
  relay_pad_input (env st) = false
  /\ relay_level (env (toggle st)) = true
  /\ relay_level (env (toggle (toggle st))) = true
  /\ hd_error (udp_sent (env (toggle (toggle st))))
     = Some {| resp_fmt := "RELAY_TOGGLE:SUCCESS,STATE=%s";
               resp_args := [FStr "ON"] |}.
Proof.
  cbn zeta.
  destruct (relay_commands atof_decimal ""
              (snd (relay_init true relay_boot
                      (boot_state (fresh_world 0 [])))))
    as (_ & _ & _ & _ & _ & Hout & _).
  split; [reflexivity|].
  destruct (Hout eq_refl 0%nat) as (H1 & _).
  destruct (Hout eq_refl 1%nat) as (H2 & H3).
  split; [exact H1|]. split; [exact H2 | exact H3].
Defined.

(** ** Wi-Fi credentials *)

Lemma string_take_length (n : nat) (s : string) :
  (String.length (string_take n s) <= n)%nat.
Proof.
  revert s. induction n as [|n IH]; intros [|c s]; simpl; try lia.
  specialize (IH s). lia.
Qed.

Lemma string_take_all (n : nat) (s : string) :
  (String.length s <= n)%nat -> string_take n s = s.
Proof.
  revert s. induction n as [|n IH]; intros [|c s] H; simpl in *;
    try reflexivity; try lia.
  rewrite IH by lia. reflexivity.
Qed.

Lemma c_string_all (s : string) :
  string_avoids Ascii.zero s -> c_string s = s.
Proof.
  induction s as [|c s IH]; intros H; [reflexivity|].
  destruct H as [Hc Hs]. cbn [c_string].
  destruct (Ascii.eqb_spec c Ascii.zero); [contradiction|].
  now rewrite IH.
Qed.

Lemma split_comma_append (a b : string) :
  string_avoids ","%char a -> split_comma (a ++ "," ++ b) = Some (a, b).
Proof.
  induction a as [|c a IH]; intros H.
  - reflexivity.
  - destruct H as [Hc Ha]. cbn [append split_comma].
    destruct (Ascii.eqb_spec c ","%char); [contradiction|].
    change (a ++ String "," b) with (a ++ "," ++ b).
    now rewrite IH.
Qed.

Lemma string_avoids_append (c : ascii) (a b : string) :
  string_avoids c a -> string_avoids c b -> string_avoids c (a ++ b).
Proof.
  induction a as [|d a IH]; intros Ha Hb; [exact Hb|].
  destruct Ha as [Hd Ha]. split; [exact Hd|]. now apply IH.
Qed.

Lemma append_length (a b : string) :
  String.length (a ++ b) = (String.length a + String.length b)%nat.
Proof. induction a as [|c a IH]; simpl; [reflexivity|now rewrite IH]. Qed.

Lemma parse_credentials_bounds :
  (forall payload,
      let '(ssid, password) := parse_credentials (received_text payload) in
      (String.length ssid <= 32)%nat /\ (String.length password <= 64)%nat)
  /\ (forall rx, split_comma rx = None ->
                 parse_credentials rx = (string_take 32 rx, "")).
Proof.
  split.
  - intros payload. unfold parse_credentials.
    destruct (split_comma (received_text payload)) as [[before rest]|];
      split; try apply string_take_length. simpl. lia.
  - intros rx H. unfold parse_credentials. now rewrite H.
Qed.

(** X21: parsing Wi-Fi credentials.  Whatever arrives, the SSID has at
    most 32 characters and the password at most 64.  Text without a comma
    is taken as an SSID with an empty password.  An SSID of at most 32
    characters without comma and a password of at most 64 characters,
    neither containing NUL, sent as [ssid,password], are recovered exactly;
    the password may itself contain commas. *)
Theorem parse_credentials_round_trip :
  (forall payload,
      let '(ssid, password) := parse_credentials (received_text payload) in
      (String.length ssid <= 32)%nat /\ (String.length password <= 64)%nat)
  /\ (forall rx, split_comma rx = None ->
                 parse_credentials rx = (string_take 32 rx, ""))
  /\ (forall ssid password,
        (String.length ssid <= 32)%nat ->
        (String.length password <= 64)%nat ->
        string_avoids ","%char ssid ->
        string_avoids Ascii.zero ssid ->
        string_avoids Ascii.zero password ->
        parse_credentials (received_text (ssid ++ "," ++ password))
        = (ssid, password)).
Proof.
  split; [apply parse_credentials_bounds|].
  split; [apply parse_credentials_bounds|].
  intros ssid password Hs Hp Hc Hz Hzp.
  {
    unfold received_text, RX_BUFFER_SIZE.
    rewrite string_take_all.
    2:{ rewrite append_length. cbn [append String.length]. lia. }
    rewrite c_string_all.
    2:{ apply string_avoids_append; [exact Hz|].
        split; [discriminate|exact Hzp]. }
    unfold parse_credentials. rewrite split_comma_append by exact Hc.
    unfold MAX_SSID_LEN, MAX_PASSWORD_LEN.
    now rewrite !string_take_all by assumption. }
Qed.

Lemma credentials_loop_invariant (incoming : list (option string * bool))
    (o : credentials_outcome) :
  cred_connected o = false ->
  (0 <= cred_retry_count o <= 3)%Z ->
  Forall well_sized (cred_attempts o) ->
  let o' := credentials_loop incoming o in
  (cred_retry_count o <= cred_retry_count o' <= 3)%Z
  /\ (cred_connected o' = true -> (cred_retry_count o' < 3)%Z)
  /\ Z.of_nat (List.length (cred_replies o'))
     = (Z.of_nat (List.length (cred_replies o))
        + 2 * (handled o' - handled o))%Z
  /\ (Z.of_nat (List.length (cred_attempts o'))
      <= Z.of_nat (List.length (cred_attempts o))
         + (handled o' - handled o))%Z
  /\ Forall well_sized (cred_attempts o').
Proof.
  revert o. induction incoming as [|[r connects] later IH];
    intros o Hc Hr Ha; cbn zeta.
  - cbn [credentials_loop]. repeat split; try lia; try assumption.
    rewrite Hc. discriminate.
  - cbn [credentials_loop]. unfold MAX_RETRY_ATTEMPTS.
    destruct (Z.ltb_spec (cred_retry_count o) 3) as [Hlt|Hge].
    2:{ repeat split; try lia; try assumption. rewrite Hc. discriminate. }
    destruct r as [payload|]; [|apply IH; assumption].
    destruct (0 <? String.length _)%nat; [|apply IH; assumption].
    pose proof (proj1 parse_credentials_bounds payload) as Hb.
    destruct (parse_credentials (received_text payload))
      as [ssid password].
    destruct Hb as [Hb1 Hb2].
    destruct (Nat.ltb_spec 0 (String.length ssid)) as [Hs|Hs].
    + assert (Ha' : Forall well_sized
                      (cred_attempts o ++ [(ssid, password)])%list).
      { apply Forall_app. split; [exact Ha|].
        constructor; [|constructor]. unfold well_sized. simpl. lia. }
      destruct connects.
      * unfold handled.
        cbn [cred_retry_count cred_connected cred_replies cred_attempts].
        rewrite Hc, !length_app. cbn [List.length].
        repeat split; try lia. exact Ha'.
      * match goal with
        | |- context [credentials_loop later ?o1] =>
            specialize (IH o1 eq_refl); cbn zeta in IH;
            destruct IH as (I1 & I2 & I3 & I4 & I5);
            [cbn; lia | exact Ha' |]
        end.
        unfold handled in *.
        cbn [cred_retry_count cred_connected cred_replies cred_attempts]
          in *.
        rewrite Hc. rewrite !length_app in I3. rewrite !length_app in I4.
        cbn [List.length] in I3, I4.
        match goal with
        | |- context [credentials_loop later ?o1] =>
            set (o2 := credentials_loop later o1) in *; clearbody o2
        end.
        destruct (cred_connected o2).
        -- split; [lia|]. split; [exact I2|]. split; [lia|].
           split; [lia|exact I5].
        -- split; [lia|]. split; [exact I2|]. split; [lia|].
           split; [lia|exact I5].
    + match goal with
      | |- context [credentials_loop later ?o1] =>
          specialize (IH o1 eq_refl); cbn zeta in IH;
          destruct IH as (I1 & I2 & I3 & I4 & I5);
          [cbn; lia | exact Ha |]
      end.
      unfold handled in *.
      cbn [cred_retry_count cred_connected cred_replies cred_attempts] in *.
      rewrite Hc. rewrite !length_app in I3. cbn [List.length] in I3.
      match goal with
      | |- context [credentials_loop later ?o1] =>
          set (o2 := credentials_loop later o1) in *; clearbody o2
      end.
      destruct (cred_connected o2).
      * split; [lia|]. split; [exact I2|]. split; [lia|].
        split; [lia|exact I5].
      * split; [lia|]. split; [exact I2|]. split; [lia|].
        split; [lia|exact I5].
Qed.

Lemma credentials_loop_ended (a b : list (option string * bool))
    (o : credentials_outcome) :
  cred_connected o = false ->
  cred_retry_count (credentials_loop a o) = 3%Z
  \/ cred_connected (credentials_loop a o) = true ->
  credentials_loop (a ++ b) o = credentials_loop a o.
Proof.
  revert o. induction a as [|[r connects] later IH]; intros o Hc He.
  - cbn [credentials_loop app] in *.
    destruct He as [He|He]; [|congruence].
    destruct b as [|[r c] b]; [reflexivity|].
    cbn [credentials_loop]. rewrite He. reflexivity.
  - cbn [credentials_loop app] in *.
    destruct (cred_retry_count o <? MAX_RETRY_ATTEMPTS)%Z; [|reflexivity].
    destruct r as [payload|]; [|now apply IH].
    destruct (0 <? String.length _)%nat; [|now apply IH].
    destruct (parse_credentials (received_text payload))
      as [ssid password].
    destruct (0 <? String.length ssid)%nat.
    + destruct connects; [reflexivity|]. now apply IH.
    + now apply IH.
Qed.

Lemma credentials_loop_skips_silence (incoming : list (option string * bool))
    (o : credentials_outcome) :
  credentials_loop (filter carries_data incoming) o
  = credentials_loop incoming o.
Proof.
  revert o. induction incoming as [|[r connects] later IH]; intros o;
    [reflexivity|].
  cbn [filter]. unfold carries_data at 1. cbn [fst].
  destruct r as [payload|].
  - destruct (0 <? String.length _)%nat eqn:E.
    + cbn [credentials_loop]. rewrite E.
      destruct (cred_retry_count o <? MAX_RETRY_ATTEMPTS)%Z;
        [|reflexivity].
      destruct (parse_credentials (received_text payload))
        as [ssid password].
      destruct (0 <? String.length ssid)%nat.
      * destruct connects; [reflexivity|]. apply IH.
      * apply IH.
    + cbn [credentials_loop]. rewrite E, IH.
      destruct (cred_retry_count o <? MAX_RETRY_ATTEMPTS)%Z eqn:Er;
        [reflexivity|].
      destruct later as [|[r c] later']; [reflexivity|].
      cbn [credentials_loop]. now rewrite Er.
  - cbn [credentials_loop]. rewrite IH.
    destruct (cred_retry_count o <? MAX_RETRY_ATTEMPTS)%Z eqn:Er;
      [reflexivity|].
    destruct later as [|[r c] later']; [reflexivity|].
    cbn [credentials_loop]. now rewrite Er.
Qed.

(** X22: the credentials task gives up after three failures.  Whatever
    arrives, it hands at most three sets of credentials to
    [connect_to_wifi], each with a non-empty SSID of at most 32 characters
    and a password of at most 64; every datagram it handles is answered by
    exactly two replies (RECEIVED, then SUCCESS or FAILED); a datagram
    whose SSID is empty counts as a failure without a connection attempt.
    A time-out or an empty datagram never counts.  Once it has connected
    or counted three failures, nothing that arrives later is handled. *)
Theorem credentials_task_attempts (incoming : list (option string * bool)) :
  let o := credentials_loop incoming credentials_start in
  (0 <= cred_retry_count o <= 3)%Z
  /\ (cred_connected o = true -> (cred_retry_count o < 3)%Z)
  /\ Z.of_nat (List.length (cred_replies o)) = (2 * handled o)%Z
  /\ (Z.of_nat (List.length (cred_attempts o)) <= handled o <= 3)%Z
  /\ Forall well_sized (cred_attempts o)
  /\ credentials_loop (filter carries_data incoming) credentials_start = o
  /\ (cred_retry_count o = 3%Z \/ cred_connected o = true ->
      forall later,
        credentials_loop (incoming ++ later) credentials_start = o)
  /\ (forall password connects,
        credentials_loop [(Some ("," ++ password), connects)]
          credentials_start
        = {| cred_replies := ["RECEIVED"; "FAILED"]; cred_attempts := [];
             cred_retry_count := 1%Z; cred_connected := false |}).
Proof.
  cbn zeta.
  destruct (credentials_loop_invariant incoming credentials_start)
    as (I1 & I2 & I3 & I4 & I5);
    [reflexivity | cbn; lia | constructor |].
  unfold handled in *. cbn [credentials_start cred_retry_count
                            cred_connected cred_replies cred_attempts
                            List.length Z.of_nat] in *.
  split; [lia|]. split; [exact I2|].
  split; [destruct (cred_connected _); lia|].
  split; [destruct (cred_connected _); [specialize (I2 eq_refl)|]; lia|].
  split; [exact I5|].
  split; [apply credentials_loop_skips_silence|].
  split.
  - intros He later. apply credentials_loop_ended; [reflexivity|exact He].
  - intros password connects. reflexivity.
Qed.

(** ** Wi-Fi reconnection *)

Lemma reconnect_delay_ms_values (rc : Z) :
  (0 <= rc <= 10)%Z ->
  reconnect_delay_ms rc
  = nth (Z.to_nat rc)
        [1000; 2000; 4000; 8000; 16000; 30000; 30000; 30000; 30000; 30000;
         30000]%Z 0%Z.
Proof.
  intros H.
  assert (rc = 0 \/ rc = 1 \/ rc = 2 \/ rc = 3 \/ rc = 4 \/ rc = 5 \/ rc = 6
          \/ rc = 7 \/ rc = 8 \/ rc = 9 \/ rc = 10)%Z as D by lia.
  repeat (destruct D as [->|D]; [reflexivity|]). subst rc. reflexivity.
Qed.

Lemma wifi_event_handler_step (e : wifi_event) (w : wifi_statics)
    (st : state) :
  (0 <= retry_count w <= 10)%Z ->
  let w' := fst (wifi_event_handler e w st) in
  let st' := snd (wifi_event_handler e w st) in
  (0 <= retry_count w' <= 10)%Z
  /\ (e = WIFI_EVENT_STA_DISCONNECTED ->
      retry_count w' = ((retry_count w + 1) mod 11)%Z
      /\ connect_calls w' = S (connect_calls w)
      /\ connected_bit w' = false /\ fail_bit w' = true
      /\ clock_ms (env st')
         = u32 (clock_ms (env st) + reconnect_delay_ms (retry_count w)))
  /\ (e <> WIFI_EVENT_STA_DISCONNECTED ->
      retry_count w' = retry_count w
      /\ clock_ms (env st') = clock_ms (env st)).
Proof.
  intros H. cbn zeta. destruct e; cbn [wifi_event_handler fst snd];
    cbn [retry_count connected_bit fail_bit connect_calls esp_wifi_connect].
  3:{ destruct (Z.gtb_spec (retry_count w + 1) 10) as [Hg|Hg];
        cbn [retry_count connected_bit fail_bit connect_calls
             esp_wifi_connect].
      - assert (retry_count w = 10%Z) as -> by lia.
        split; [lia|]. split; [|congruence].
        intros _. repeat split; reflexivity.
      - split; [lia|]. split; [|congruence].
        intros _. rewrite Z.mod_small by lia. repeat split; reflexivity. }
  all: split; [exact H|]; split; [discriminate|];
    intros _; split; reflexivity.
Qed.

(** X23: reconnection back-off.  The retry counter of the Wi-Fi event
    handler stays within 0..10 under every event.  A disconnection clears
    the connected bit, sets the fail bit, waits, then calls
    [esp_wifi_connect] once; the wait is 1, 2, 4, 8, 16 s for the first
    five disconnections in a row and 30 s for the next six, after which
    the counter wraps and the schedule starts again at 1 s.  No other
    event touches the counter: obtaining an IP address does not reset it,
    so the wait after a successful reconnection continues the schedule. *)
Theorem reconnect_backoff (e : wifi_event) (w : wifi_statics) (st : state) :
  (0 <= retry_count w <= 10)%Z ->
  let w' := fst (wifi_event_handler e w st) in
  let st' := snd (wifi_event_handler e w st) in
  (0 <= retry_count w' <= 10)%Z
  /\ (e = WIFI_EVENT_STA_DISCONNECTED ->
      retry_count w' = ((retry_count w + 1) mod 11)%Z
      /\ connect_calls w' = S (connect_calls w)
      /\ connected_bit w' = false /\ fail_bit w' = true
      /\ clock_ms (env st')
         = u32 (clock_ms (env st) + reconnect_delay_ms (retry_count w))
      /\ reconnect_delay_ms (retry_count w)
         = nth (Z.to_nat (retry_count w))
               [1000; 2000; 4000; 8000; 16000; 30000; 30000; 30000; 30000;
                30000; 30000]%Z 0%Z)
  /\ (e <> WIFI_EVENT_STA_DISCONNECTED ->
      retry_count w' = retry_count w
      /\ clock_ms (env st') = clock_ms (env st))
  /\ (e = IP_EVENT_STA_GOT_IP ->
      connected_bit w' = true /\ retry_count w' = retry_count w).
Proof.
  intros H. cbn zeta.
  destruct (wifi_event_handler_step e w st H) as (S1 & S2 & S3).
  split; [exact S1|]. split.
  - intros He. destruct (S2 He) as (A1 & A2 & A3 & A4 & A5).
    repeat (split; [assumption|]).
    now apply reconnect_delay_ms_values.
  - split; [exact S3|]. intros ->. split; reflexivity.
Qed.

(** [reconnect_backoff] on the sixth disconnection in a row after
    start-up: the wait is 30 s. *)
Lemma reconnect_backoff_witness :
  let w :=
    fst (wifi_events (repeat WIFI_EVENT_STA_DISCONNECTED 5) wifi_boot
           (boot_state (fresh_world 0 []))) in
  let st :=
    snd (wifi_events (repeat WIFI_EVENT_STA_DISCONNECTED 5) wifi_boot
           (boot_state (fresh_world 0 []))) in
  (0 <= retry_count w <= 10)%Z
  /\ clock_ms (env st) = 31000%Z
  /\ clock_ms (env (snd (wifi_event_handler WIFI_EVENT_STA_DISCONNECTED
                           w st))) = 61000%Z.
Proof.
  cbn zeta.
  set (w := fst (wifi_events (repeat WIFI_EVENT_STA_DISCONNECTED 5)
                   wifi_boot (boot_state (fresh_world 0 [])))).
  set (st := snd (wifi_events (repeat WIFI_EVENT_STA_DISCONNECTED 5)
                    wifi_boot (boot_state (fresh_world 0 [])))).
  assert (Hw : retry_count w = 5%Z) by reflexivity.
  assert (Hc : clock_ms (env st) = 31000%Z) by reflexivity.
  assert (Hr : (0 <= retry_count w <= 10)%Z) by (rewrite Hw; lia).
  split; [exact Hr|]. split; [exact Hc|].
  destruct (reconnect_backoff WIFI_EVENT_STA_DISCONNECTED w st Hr)
    as (_ & H & _).
  destruct (H eq_refl) as (_ & _ & _ & _ & H5 & _).
  rewrite H5, Hc, Hw. reflexivity.
Defined.

(** ** Start-up calibration *)

Lemma startup_samples_bias_samples (n : nat) (s v : Z) (st : state) :
  startup_samples n s v st = bias_samples n s v st.
Proof.
  revert s v st. induction n as [|k IH]; intros s v st; [reflexivity|].
  cbn [startup_samples bias_samples].
  destruct (adc_oneshot_read st) as [[a|] st1]; apply IH.
Qed.

(** The calibration parameters, the pending reads and the log after the
    start-up calibration. *)
Lemma startup_calibration_closed (st : state) :
  let ticks := valid_ticks (firstn 100 (adc_feed (env st))) in
  let st' := perform_comprehensive_startup_calibration st in
  let v :=
    IZR (raw_sum_from 0 ticks) / IZR (Z.of_nat (List.length ticks))
    / ADC_RESOLUTION * ADC_VOLTAGE_RANGE in
  amps_per_volt (cal st') = amps_per_volt (cal st)
  /\ adc_feed (env st') = skipn 100 (adc_feed (env st))
  /\ bias_voltage (cal st')
     = (if (Z.of_nat (List.length ticks) >? 0)%Z then v
        else bias_voltage (cal st))
  /\ (~ In bias_adjustment_warning (esp_log (env st)) ->
      ~ In bias_adjustment_warning (esp_log (env st')))
  /\ ((Z.of_nat (List.length ticks) >? 0)%Z = true ->
      exists older,
        esp_log (env st')
        = {| log_lvl := LOG_I; log_tag := MAIN_TAG;
             log_fmt := "=== STARTUP CALIBRATION COMPLETE ===" |}
            :: {| log_lvl := LOG_I; log_tag := MAIN_TAG;
                  log_fmt := "SUCCESS: Bias voltage corrected!" |}
            :: older).
Proof.
  cbn zeta. unfold perform_comprehensive_startup_calibration. cbn zeta.
  rewrite startup_samples_bias_samples, bias_samples_spec. cbn zeta.
  state_simpl. rewrite Z.add_0_l.
  set (ticks := valid_ticks (firstn 100 (adc_feed (env st)))).
  seal_reads.
  match goal with
  | |- context [Rltb (Rabs (?x - ?x) * 200) 0.1] =>
      replace (Rltb (Rabs (x - x) * 200) 0.1) with true
  end.
  2:{ symmetry. apply Rltb_true.
      match goal with
      | |- Rabs (?x - ?x) * 200 < 0.1 =>
          replace (x - x) with 0 by lra
      end.
      rewrite Rabs_R0. lra. }
  destruct (Z.of_nat (List.length ticks) >? 0)%Z.
  - destruct (Rgtb _ 5); unfold set_bias_voltage; use_frames;
      (split; [reflexivity|]); (split; [reflexivity|]);
      (split; [reflexivity|]);
      (split; [|intros _; eexists; reflexivity]);
      intros Hno Hin; cbn [In] in Hin;
      repeat (destruct Hin as [Hin|Hin]; [discriminate Hin|]);
      exact (Hno Hin).
  - use_frames. split; [reflexivity|]. split; [reflexivity|].
    split; [reflexivity|]. split; [|discriminate].
    intros Hno Hin. cbn [In] in Hin.
    repeat (destruct Hin as [Hin|Hin]; [discriminate Hin|]).
    exact (Hno Hin).
Qed.

Lemma mean_voltage_range (ticks : list Z) :
  (forall a, In a ticks -> 0 <= a <= 4095)%Z ->
  (List.length ticks <= 100)%nat ->
  ticks <> [] ->
  IZR (raw_sum_from 0 ticks) / IZR (Z.of_nat (List.length ticks))
  / ADC_RESOLUTION * ADC_VOLTAGE_RANGE = mean_voltage ticks
  /\ 0 <= mean_voltage ticks <= ADC_VOLTAGE_RANGE.
Proof.
  intros Hrange Hlen Hne.
  destruct (raw_sum_from_exact ticks 0 Hrange) as (Esum & Bsum);
    [lia|lia|].
  rewrite Z.add_0_l in Esum. rewrite Esum, <- INR_IZR_INZ.
  unfold mean_voltage. split; [reflexivity|].
  assert (Hn : (0 < List.length ticks)%nat)
    by (destruct ticks; [congruence|simpl; lia]).
  assert (Hpos : 0 < INR (List.length ticks)) by (apply lt_0_INR; lia).
  assert (Hs0 : 0 <= IZR (Zsum ticks)) by (apply IZR_le; lia).
  assert (Hs1 : IZR (Zsum ticks) <= 4095 * INR (List.length ticks)).
  { rewrite INR_IZR_INZ, <- mult_IZR. apply IZR_le. lia. }
  unfold ADC_RESOLUTION, ADC_VOLTAGE_RANGE.
  assert (Hq0 : 0 <= IZR (Zsum ticks) / INR (List.length ticks)).
  { apply Rmult_le_pos; [exact Hs0|].
    apply Rlt_le, Rinv_0_lt_compat, Hpos. }
  assert (Hq1 : IZR (Zsum ticks) / INR (List.length ticks) <= 4095).
  { apply Rmult_le_reg_r with (r := INR (List.length ticks)); [exact Hpos|].
    unfold Rdiv. rewrite Rmult_assoc, Rinv_l by lra. lra. }
  lra.
Qed.

Lemma valid_ticks_firstn_length (k : nat) (l : list (option Z)) :
  (List.length (valid_ticks (firstn k l)) <= k)%nat.
Proof.
  revert l. induction k as [|k IH]; intros [|r l]; simpl; try lia.
  change (flat_map _ (firstn k l)) with (valid_ticks (firstn k l)).
  specialize (IH l). destruct r; simpl; lia.
Qed.

(** X24: the start-up calibration of main.c.  It waits 3 s, reads 100
    ticks 10 ms apart and, when at least one read succeeds, sets the bias
    voltage to the mean raw value converted to volts, with no further
    check: one successful read is enough, where
    [auto_calibrate_bias_voltage] asks for more than 50.  With raw values
    in the 12-bit range that bias lies in [0, 3.3].  Its verification step
    compares a voltage with itself, so it always logs SUCCESS and never the
    adjustment warning.  With no read succeeding the bias is kept.  The
    scale factor is never touched. *)
Theorem startup_calibration_effect (st : state) :
  let ticks := valid_ticks (firstn 100 (adc_feed (env st))) in
  let st' := perform_comprehensive_startup_calibration st in
  (forall a, In a ticks -> 0 <= a <= 4095)%Z ->
  amps_per_volt (cal st') = amps_per_volt (cal st)
  /\ adc_feed (env st') = skipn 100 (adc_feed (env st))
  /\ (ticks <> [] ->
      bias_voltage (cal st') = mean_voltage ticks
      /\ 0 <= bias_voltage (cal st') <= ADC_VOLTAGE_RANGE
      /\ exists older,
           esp_log (env st')
           = {| log_lvl := LOG_I; log_tag := MAIN_TAG;
                log_fmt := "=== STARTUP CALIBRATION COMPLETE ===" |}
               :: {| log_lvl := LOG_I; log_tag := MAIN_TAG;
                     log_fmt := "SUCCESS: Bias voltage corrected!" |}
               :: older)
  /\ (ticks = [] -> bias_voltage (cal st') = bias_voltage (cal st))
  /\ (~ In bias_adjustment_warning (esp_log (env st)) ->
      ~ In bias_adjustment_warning (esp_log (env st'))).
Proof.
  cbn zeta. intros Hrange.
  destruct (startup_calibration_closed st) as (H1 & H2 & H3 & H4 & H5).
  split; [exact H1|]. split; [exact H2|].
  split; [|split; [|exact H4]].
  - intros Hne.
    destruct (mean_voltage_range _ Hrange
                (valid_ticks_firstn_length 100 _) Hne) as (E & B).
    assert (Hpos : (Z.of_nat
                      (List.length
                         (valid_ticks (firstn 100 (adc_feed (env st)))))
                    >? 0)%Z = true).
    { rewrite Z.gtb_ltb. apply Z.ltb_lt.
      destruct (valid_ticks _); [congruence|simpl; lia]. }
    rewrite Hpos in H3. rewrite H3, E.
    split; [reflexivity|]. split; [exact B|]. exact (H5 Hpos).
  - intros He. rewrite He in H3. exact H3.
Qed.

(** [startup_calibration_effect] with a single successful read among the
    100: the bias becomes the voltage of that one raw value. *)
Lemma startup_calibration_effect_witness :
  let st :=
    boot_state (fresh_world 0 (Some 1000%Z :: repeat None 99)) in
  (forall a, In a (valid_ticks (firstn 100 (adc_feed (env st)))) ->
             0 <= a <= 4095)%Z
  /\ bias_voltage (cal (perform_comprehensive_startup_calibration st))
     = adc_to_voltage 1000
  /\ bias_voltage (cal (auto_calibrate_bias_voltage st)) = 1.65.
Proof.
  cbn zeta.
  set (st := boot_state (fresh_world 0 (Some 1000%Z :: repeat None 99))).
  assert (Ht : valid_ticks (firstn 100 (adc_feed (env st))) = [1000%Z])
    by reflexivity.
  assert (Hr : (forall a,
                   In a (valid_ticks (firstn 100 (adc_feed (env st)))) ->
                   0 <= a <= 4095)%Z).
  { rewrite Ht. intros a [<-|[]]. lia. }
  split; [exact Hr|].
  destruct (startup_calibration_effect st Hr) as (_ & _ & Hok & _).
  destruct Hok as (Hb & _); [rewrite Ht; discriminate|].
  split.
  - rewrite Hb, Ht. unfold mean_voltage, adc_to_voltage. simpl. lra.
  - rewrite auto_calibrate_bias_voltage_closed. cbn zeta. rewrite Ht.
    cbn [List.length Z.of_nat Pos.of_succ_nat Z.gtb Z.compare Pos.compare
         Pos.compare_cont].
    seal_reads. use_frames. reflexivity.
Defined.

(** X25: the calibration steps of [app_main] in their order.
    [sct_calibration_init] calibrates the bias from the first 100 reads,
    asking for more than 50 successes; the start-up calibration that
    follows reads the next 100 and overrides that result as soon as a
    single one of them succeeds.  Only when all of the second 100 fail is
    the bias the one [sct_calibration_init] left.  The scale factor is the
    one before. *)
Theorem startup_sequence_bias (st : state) :
  let feed := adc_feed (env st) in
  let second := valid_ticks (firstn 100 (skipn 100 feed)) in
  let st' := startup_sequence st in
  (forall a, In a second -> 0 <= a <= 4095)%Z ->
  amps_per_volt (cal st') = amps_per_volt (cal st)
  /\ adc_feed (env st') = skipn 100 (skipn 100 feed)
  /\ (second <> [] -> bias_voltage (cal st') = mean_voltage second)
  /\ (second = [] ->
      bias_voltage (cal st')
      = calibrated_bias (bias_voltage (cal st)) feed).
Proof.
  cbn zeta. intros Hrange. unfold startup_sequence. cbn zeta.
  destruct (sct_calibration_init_facts
              (ESP_LOGI MAIN_TAG "Initializing calibration system..." st))
    as (_ & _ & I3 & I4 & _ & _ & _ & _ & I9).
  state_simpl_all. revert I3 I4 I9.
  generalize (sct_calibration_init
                (ESP_LOGI MAIN_TAG "Initializing calibration system..." st)).
  intros s1 I3 I4 I9.
  destruct (startup_calibration_closed s1) as (H1 & H2 & H3 & _ & _).
  rewrite I9 in H2, H3. rewrite H1, H2, I3.
  split; [reflexivity|]. split; [reflexivity|]. split.
  - intros Hne.
    destruct (mean_voltage_range _ Hrange
                (valid_ticks_firstn_length 100 _) Hne) as (E & _).
    replace (Z.of_nat _ >? 0)%Z with true in H3.
    + rewrite H3. exact E.
    + symmetry. rewrite Z.gtb_ltb. apply Z.ltb_lt.
      destruct (valid_ticks _); [congruence|simpl; lia].
  - intros He. rewrite He in H3. cbn in H3. rewrite H3. exact I4.
Qed.

(** [startup_sequence_bias] after power-up with 100 good reads of raw
    value 2048 followed by a single read of 1000 and 99 failures: the bias
    is the voltage of 1000. *)
Lemma startup_sequence_bias_witness :
  let st :=
    boot_state
      (fresh_world 0
         (repeat (Some 2048%Z) 100 ++ Some 1000%Z :: repeat None 99)) in
  (forall a,
      In a (valid_ticks (firstn 100 (skipn 100 (adc_feed (env st))))) ->
      0 <= a <= 4095)%Z
  /\ bias_voltage (cal (startup_sequence st)) = adc_to_voltage 1000.
Proof.
  cbn zeta.
  set (st := boot_state
               (fresh_world 0
                  (repeat (Some 2048%Z) 100
                   ++ Some 1000%Z :: repeat None 99))).
  assert (Ht : valid_ticks (firstn 100 (skipn 100 (adc_feed (env st))))
               = [1000%Z]) by reflexivity.
  assert (Hr : (forall a,
                   In a (valid_ticks
                           (firstn 100 (skipn 100 (adc_feed (env st))))) ->
                   0 <= a <= 4095)%Z).
  { rewrite Ht. intros a [<-|[]]. lia. }
  split; [exact Hr|].
  destruct (startup_sequence_bias st Hr) as (_ & _ & Hok & _).
  rewrite Hok by (rewrite Ht; discriminate).
  rewrite Ht. unfold mean_voltage, adc_to_voltage. simpl. lra.
Defined.

(** ** The scale factor stays positive *)
























(** ** Data packets *)

(** The RMS voltage on record after [measure_rms_current]. *)
Lemma measure_rms_current_vrms (st : state) :
  let acs :=
    ac_voltages (bias_voltage (cal st)) (firstn 100 (adc_feed (env st))) in
  let st' := snd (measure_rms_current st) in
  (acs = [] ->
   last_measured_vrms (sender st') = last_measured_vrms (sender st))
  /\ (acs <> [] ->
      last_measured_vrms (sender st')
      = sqrt (sum_of (map (fun x => x * x) acs) / INR (List.length acs))).
Proof.
  cbn zeta. rewrite measure_rms_current_unfold. cbn zeta.
  pose proof (rms_samples_spec 100 0 0%Z st) as H. cbn zeta in H.
  revert H. generalize (rms_samples 100 0 0%Z st). intros r H.
  destruct H as (H1 & H2 & _ & _ & _ & _ & _ & _ & _ & _ & _ & _ & _
                 & _ & _ & H16).
  rewrite H2, H1, Z.add_0_l, Rplus_0_l.
  split; intros Hn.
  - rewrite Hn. cbn [List.length Z.of_nat Z.eqb snd]. state_simpl.
    exact H16.
  - replace (Z.of_nat _ =? 0)%Z with false.
    2:{ symmetry. apply Z.eqb_neq.
        destruct (ac_voltages _ _); [congruence|simpl; lia]. }
    cbn [snd]. rewrite after_measurement_sender. cbn zeta. state_simpl.
    rewrite INR_IZR_INZ. reflexivity.
Qed.

(** X27: the data packet of one round of the sender task.  It carries the
    sequence number it was given and hands on the next one; POWER is 120
    times CURRENT; CURRENT is what [measure_rms_current] returned.  When
    at least one tick of the batch was read, CURRENT is VOLTAGE_RMS times
    the scale factor in force before the round.  When none was read,
    CURRENT is 0 while VOLTAGE_RMS still shows the RMS voltage of the last
    batch that had a sample. *)
Theorem data_packet_fields (send_ok : bool) (seq : Z) (st : state) :
  let acs :=
    ac_voltages (bias_voltage (cal st)) (firstn 100 (adc_feed (env st))) in
  let '(packet, next, st') := udp_sender_round send_ok seq st in
  pkt_seq packet = seq /\ next = u32 (seq + 1)
  /\ pkt_current packet = fst (measure_rms_current st)
  /\ pkt_power packet = pkt_current packet * 120
  /\ (acs <> [] ->
      pkt_current packet = pkt_voltage_rms packet * amps_per_volt (cal st))
  /\ (acs = [] ->
      pkt_current packet = 0
      /\ pkt_voltage_rms packet = last_measured_vrms (sender st)).
Proof.
  cbn zeta. unfold udp_sender_round.
  destruct (measure_rms_current_result st) as (R0 & R1).
  destruct (measure_rms_current_vrms st) as (V0 & V1).
  revert R0 R1 V0 V1. cbn zeta.
  generalize (measure_rms_current st). intros [c st1]. cbn [fst snd].
  intros R0 R1 V0 V1.
  cbn [pkt_seq pkt_current pkt_power pkt_voltage_rms].
  split; [reflexivity|]. split; [reflexivity|]. split; [reflexivity|].
  split; [reflexivity|]. split.
  - intros Hne. rewrite (V1 Hne). apply R1.
    destruct (ac_voltages _ _); [congruence|simpl; lia].
  - intros He. rewrite He in R0. destruct (R0 eq_refl) as (Hc & _).
    split; [exact Hc|]. apply V0. exact He.
Qed.

(** ** Unknown commands *)

(** X28: a command that starts with none of the 38 command words is
    answered ERROR:UNKNOWN_COMMAND: followed by the command text, and
    changes nothing but the log and the datagrams sent.  Matching is by
    leading characters and by case: the empty command and [ping] are
    unknown. *)
Theorem unknown_command_rejected (atof : string -> R) (command : string)
    (st : state) :
  unknown_command command ->
  let st' := process_udp_command atof command st in
  hd_error (udp_sent (env st'))
  = Some {| resp_fmt := "ERROR:UNKNOWN_COMMAND:%s";
            resp_args := [FStr command] |}
  /\ cal st' = cal st /\ det st' = det st /\ autocal st' = autocal st
  /\ learning st' = learning st /\ stats st' = stats st
  /\ history st' = history st /\ stability st' = stability st
  /\ sender st' = sender st
  /\ relay_level (env st') = relay_level (env st)
  /\ adc_feed (env st') = adc_feed (env st)
  /\ clock_ms (env st') = clock_ms (env st)
  /\ restarted (env st') = restarted (env st).
Proof.
  intros H. cbn zeta.
  assert (E : dispatch_command atof command
                (ESP_LOGI RECV_TAG "Processing command: %s" st)
              = (Some {| resp_fmt := "ERROR:UNKNOWN_COMMAND:%s";
                         resp_args := [FStr command] |},
                 ESP_LOGW RECV_TAG "Unknown command: %s"
                   (ESP_LOGI RECV_TAG "Processing command: %s" st))).
  { unfold dispatch_command. cbn zeta.
    repeat match goal with
           | |- context [strncmp_eq command ?l ?n] =>
               rewrite (H l n)
                 by (unfold command_words;
                     repeat first [left; reflexivity | right])
           end.
    reflexivity. }
  unfold process_udp_command. cbn zeta. rewrite E.
  repeat split; reflexivity.
Qed.

(** [unknown_command_rejected] on [ping], which is not PING. *)
Lemma unknown_command_rejected_witness :
  unknown_command "ping"
  /\ hd_error
       (udp_sent
          (env (process_udp_command atof_decimal "ping"
                  (boot_state (fresh_world 0 [])))))
     = Some {| resp_fmt := "ERROR:UNKNOWN_COMMAND:%s";
               resp_args := [FStr "ping"] |}.
Proof.
  assert (H : unknown_command "ping").
  { unfold unknown_command, command_words. intros w n Hin. simpl in Hin.
    repeat (destruct Hin as [Hin|Hin];
            [injection Hin as <- <-; reflexivity|]).
    destruct Hin. }
  split; [exact H|].
  destruct (unknown_command_rejected atof_decimal "ping"
              (boot_state (fresh_world 0 [])) H) as (Hr & _).
  exact Hr.
Defined.

(** ** The sample ring and its analysis *)

Lemma list_set_split {A : Type} (l : list A) (i : nat) (x : A) :
  (i < List.length l)%nat ->
  list_set l i x = (firstn i l ++ x :: skipn (S i) l)%list.
Proof.
  revert i. induction l as [|h t IH]; intros [|i] H; simpl in *; try lia.
  - reflexivity.
  - rewrite IH by lia. reflexivity.
Qed.

Lemma list_set_firstn_succ {A : Type} (l : list A) (i : nat) (x : A) :
  (i < List.length l)%nat ->
  firstn (S i) (list_set l i x) = (firstn i l ++ [x])%list.
Proof.
  revert i. induction l as [|h t IH]; intros [|i] H; simpl in *; try lia.
  - reflexivity.
  - f_equal. apply IH. lia.
Qed.

Lemma list_set_skipn_after {A : Type} (l : list A) (i j : nat) (x : A) :
  (i < j)%nat -> skipn j (list_set l i x) = skipn j l.
Proof.
  revert i j. induction l as [|h t IH]; intros [|i] [|j] H; simpl;
    try reflexivity; try lia.
  apply IH. lia.
Qed.

(** Storing a run of samples that does not pass the end of the ring. *)
Lemma ring_store_segment (xs buf : list R) (i : nat) :
  List.length buf = 100%nat ->
  (i < 100)%nat ->
  (i + List.length xs <= 100)%nat ->
  fst (ring_store buf (Z.of_nat i) xs)
  = (firstn i buf ++ xs ++ skipn (i + List.length xs) buf)%list
  /\ snd (ring_store buf (Z.of_nat i) xs)
     = (Z.of_nat (i + List.length xs) mod 100)%Z.
Proof.
  revert buf i. induction xs as [|x xs IH]; intros buf i Hlen Hlt Hi.
  - cbn [ring_store fold_left fst snd List.length app].
    rewrite Nat.add_0_r, firstn_skipn.
    split; [reflexivity|]. rewrite Z.mod_small by lia. reflexivity.
  - unfold ring_store. cbn [fold_left fst snd].
    rewrite Nat2Z.id.
    assert (Hrem : Z.rem (Z.of_nat i + 1) RMS_BUFFER_SIZE
                   = (Z.of_nat (S i) mod 100)%Z).
    { unfold RMS_BUFFER_SIZE. rewrite Z.rem_mod_nonneg by lia.
      f_equal. lia. }
    rewrite Hrem. cbn [List.length] in *.
    destruct xs as [|y ys].
    + cbn [fold_left fst snd List.length app].
      split.
      * rewrite list_set_split by lia.
        replace (i + 1)%nat with (S i) by lia. reflexivity.
      * replace (i + 1)%nat with (S i) by lia. reflexivity.
    + cbn [List.length] in Hi.
      rewrite Z.mod_small by lia.
      destruct (IH (list_set buf i x) (S i)) as (I1 & I2);
        [now rewrite list_set_length | lia | cbn [List.length]; lia |].
      unfold ring_store in I1, I2. rewrite I1, I2.
      split.
      * rewrite list_set_firstn_succ by lia.
        rewrite list_set_skipn_after by (cbn [List.length]; lia).
        rewrite <- app_assoc. cbn [app List.length].
        replace (S i + S (List.length ys))%nat
          with (i + S (S (List.length ys)))%nat by lia.
        reflexivity.
      * cbn [List.length].
        replace (S i + S (List.length ys))%nat
          with (i + S (S (List.length ys)))%nat by lia.
        reflexivity.
Qed.

(** Storing a full batch of 100 samples turns the ring into the batch,
    rotated by the write index. *)
Lemma ring_store_wrap (a b buf : list R) (i : nat) :
  List.length buf = 100%nat -> (i < 100)%nat ->
  List.length a = (100 - i)%nat -> List.length b = i ->
  fst (ring_store buf (Z.of_nat i) (a ++ b)) = (b ++ a)%list
  /\ snd (ring_store buf (Z.of_nat i) (a ++ b)) = Z.of_nat i.
Proof.
  intros Hlen Hlt L1 L2.
  unfold ring_store. rewrite fold_left_app.
  fold (ring_store buf (Z.of_nat i) a).
  destruct (ring_store_segment a buf i Hlen Hlt) as (S1 & S2); [lia|].
  rewrite L1 in S1, S2.
  replace (i + (100 - i))%nat with 100%nat in S1, S2 by lia.
  rewrite skipn_all2 in S1 by lia. rewrite app_nil_r in S1.
  change (Z.of_nat 100 mod 100)%Z with (Z.of_nat 0) in S2.
  destruct (ring_store buf (Z.of_nat i) a) as [b1 j1].
  cbn [fst snd] in *. subst b1 j1.
  fold (ring_store (firstn i buf ++ a) (Z.of_nat 0) b).
  destruct (ring_store_segment b (firstn i buf ++ a) 0) as (T1 & T2).
  { rewrite length_app, L1, length_firstn. lia. }
  { lia. }
  { lia. }
  rewrite T1, T2, L2. cbn [firstn app Nat.add].
  split.
  - f_equal. rewrite skipn_app, length_firstn.
    replace (Nat.min i (List.length buf)) with i by lia.
    rewrite Nat.sub_diag. cbn [skipn].
    rewrite skipn_all2 by (rewrite length_firstn; lia). reflexivity.
  - rewrite Z.mod_small by lia. reflexivity.
Qed.

Lemma sum_of_app (a b : list R) : sum_of (a ++ b) = sum_of a + sum_of b.
Proof.
  induction a as [|x a IH]; [simpl; lra|].
  cbn [app]. rewrite !sum_of_cons, IH. lra.
Qed.

(** After a full batch the ring holds the batch: sums over the ring are
    sums over the batch. *)
Lemma ring_store_full_sum (f : R -> R) (xs buf : list R) (i : Z) :
  List.length buf = 100%nat -> (0 <= i < 100)%Z ->
  List.length xs = 100%nat ->
  sum_of (map f (fst (ring_store buf i xs))) = sum_of (map f xs)
  /\ List.length (fst (ring_store buf i xs)) = 100%nat.
Proof.
  intros Hlen Hi Hx.
  assert (E : xs = (firstn (100 - Z.to_nat i) xs
                    ++ skipn (100 - Z.to_nat i) xs)%list)
    by (symmetry; apply firstn_skipn).
  destruct (ring_store_wrap (firstn (100 - Z.to_nat i) xs)
              (skipn (100 - Z.to_nat i) xs) buf (Z.to_nat i))
    as (W1 & _);
    [exact Hlen | lia | rewrite length_firstn; lia
    | rewrite length_skipn; lia |].
  rewrite Z2Nat.id in W1 by lia. rewrite <- E in W1. rewrite W1.
  split.
  - rewrite map_app, sum_of_app. rewrite E at 3.
    rewrite map_app, sum_of_app. lra.
  - rewrite length_app, length_firstn, length_skipn. lia.
Qed.

(** The ring after the sampling loop is the ring before with the AC
    voltages of the ticks read stored into it. *)
Lemma rms_samples_buffer (n : nat) (s : R) (v : Z) (st : state) :
  let acs :=
    ac_voltages (bias_voltage (cal st)) (firstn n (adc_feed (env st))) in
  let sd' := sender (snd (rms_samples n s v st)) in
  (voltage_buffer sd', buffer_index sd')
  = ring_store (voltage_buffer (sender st)) (buffer_index (sender st)) acs.
Proof.
  revert s v st. induction n as [|k IH]; intros s v st; cbn zeta.
  - reflexivity.
  - rewrite rms_samples_S. cbn zeta.
    destruct (adc_feed (env st)) as [|[a|] rest] eqn:Hfeed; cbn [hd].
    + match goal with
      | |- context [rms_samples k s v ?s1] =>
          specialize (IH s v s1); cbn zeta in IH;
          assert (Hs1 : sender s1 = sender st) by reflexivity;
          assert (Hc1 : cal s1 = cal st) by reflexivity;
          assert (Hf1 : adc_feed (env s1) = [])
            by (state_simpl; rewrite Hfeed; reflexivity);
          revert IH Hs1 Hc1 Hf1; generalize (rms_samples k s v s1);
          generalize s1
      end.
      intros s1 r IH Hs1 Hc1 Hf1. rewrite Hs1, Hc1, Hf1 in IH.
      rewrite firstn_nil in *. exact IH.
    + match goal with
      | |- context [rms_samples k ?s' ?v' ?s1] =>
          specialize (IH s' v' s1); cbn zeta in IH;
          assert (Hc1 : cal s1 = cal st) by reflexivity;
          assert (Hf1 : adc_feed (env s1) = rest)
            by (state_simpl; rewrite Hfeed; reflexivity);
          assert (Hb1 : voltage_buffer (sender s1)
                        = list_set (voltage_buffer (sender st))
                            (Z.to_nat (buffer_index (sender st)))
                            (adc_to_voltage a - bias_voltage (cal st)))
            by reflexivity;
          assert (Hi1 : buffer_index (sender s1)
                        = Z.rem (buffer_index (sender st) + 1)
                                RMS_BUFFER_SIZE)
            by reflexivity;
          revert IH Hc1 Hf1 Hb1 Hi1; generalize (rms_samples k s' v' s1);
          generalize s1
      end.
      intros s1 r IH Hc1 Hf1 Hb1 Hi1.
      rewrite Hc1, Hf1, Hb1, Hi1 in IH.
      cbn [firstn]. rewrite ac_voltages_cons. exact IH.
    + match goal with
      | |- context [rms_samples k s v ?s1] =>
          specialize (IH s v s1); cbn zeta in IH;
          assert (Hs1 : sender s1 = sender st) by reflexivity;
          assert (Hc1 : cal s1 = cal st) by reflexivity;
          assert (Hf1 : adc_feed (env s1) = rest)
            by (state_simpl; rewrite Hfeed; reflexivity);
          revert IH Hs1 Hc1 Hf1; generalize (rms_samples k s v s1);
          generalize s1
      end.
      intros s1 r IH Hs1 Hc1 Hf1. rewrite Hs1, Hc1, Hf1 in IH.
      cbn [firstn]. rewrite ac_voltages_cons. exact IH.
Qed.

(** The ring and the RMS voltage on record after [measure_rms_current]
    are those the sampling loop and the RMS computation leave. *)
Lemma measure_rms_current_ring (st : state) :
  let acs :=
    ac_voltages (bias_voltage (cal st)) (firstn 100 (adc_feed (env st))) in
  let sd' := sender (snd (measure_rms_current st)) in
  (voltage_buffer sd', buffer_index sd')
  = ring_store (voltage_buffer (sender st)) (buffer_index (sender st)) acs.
Proof.
  cbn zeta. rewrite <- (rms_samples_buffer 100 0 0%Z st).
  rewrite measure_rms_current_unfold. cbn zeta.
  generalize (rms_samples 100 0 0%Z st). intros r.
  destruct (snd (fst r) =? 0)%Z; cbn [snd].
  - reflexivity.
  - rewrite after_measurement_sender. cbn zeta. state_simpl. reflexivity.
Qed.

Lemma measure_rms_current_filled (st : state) :
  buffer_ok (sender st) ->
  buffer_filled (sender (snd (measure_rms_current st)))
  = (buffer_filled (sender st)
     || (100 <=? buffer_index (sender st)
                 + Z.of_nat
                     (List.length
                        (valid_ticks (firstn 100 (adc_feed (env st))))))%Z).
Proof.
  intros Hok.
  destruct (rms_samples_ring 100 0 0%Z st Hok) as (_ & _ & H3).
  rewrite <- H3. rewrite measure_rms_current_unfold. cbn zeta.
  generalize (rms_samples 100 0 0%Z st). intros r.
  destruct (snd (fst r) =? 0)%Z; cbn [snd].
  - reflexivity.
  - rewrite after_measurement_sender. cbn zeta. state_simpl. reflexivity.
Qed.

(** X29: the two diagnostics agree.  After a measurement in which all 100
    ticks were read, the ring holds exactly the AC voltages of the batch
    (rotated by the write index), so BUFFER_ANALYSIS is ready and reports
    as RMS the RMS voltage on record from the measurement, and as mean the
    mean AC voltage of the batch. *)
Theorem buffer_analysis_after_full_batch (st : state) :
  let acs :=
    ac_voltages (bias_voltage (cal st)) (firstn 100 (adc_feed (env st))) in
  let st' := snd (measure_rms_current st) in
  buffer_ok (sender st) ->
  List.length acs = 100%nat ->
  exists std_dev min_val max_val variance,
    analyze_voltage_buffer st'
    = {| resp_fmt :=
           "BUFFER_ANALYSIS=READY,MEAN=%.6f,STD_DEV=%.6f,RMS=%.6f,MIN=%.6f,MAX=%.6f,VARIANCE=%.8f";
         resp_args :=
           [ FFloat (sum_of acs / 100); FFloat std_dev;
             FFloat (last_measured_vrms (sender st')); FFloat min_val;
             FFloat max_val; FFloat variance ] |}
    /\ last_measured_vrms (sender st')
       = sqrt (sum_of (map (fun x => x * x) acs) / 100).
Proof.
  cbn zeta. intros Hok Hn.
  pose proof (measure_rms_current_ring st) as Hring. cbn zeta in Hring.
  destruct (measure_rms_current_vrms st) as (_ & Hv). cbn zeta in Hv.
  pose proof (measure_rms_current_filled st Hok) as Hfill.
  assert (Hne : ac_voltages (bias_voltage (cal st))
                  (firstn 100 (adc_feed (env st))) <> [])
    by (intros E; rewrite E in Hn; discriminate).
  specialize (Hv Hne). rewrite Hn in Hv.
  replace (INR 100) with 100 in Hv by (simpl; lra).
  assert (Hj : List.length (valid_ticks (firstn 100 (adc_feed (env st))))
               = 100%nat).
  { unfold ac_voltages in Hn. now rewrite length_map in Hn. }
  destruct Hok as (Hlen & Hi).
  rewrite Hj in Hfill.
  replace (100 <=? buffer_index (sender st) + Z.of_nat 100)%Z with true
    in Hfill by (symmetry; apply Z.leb_le; lia).
  rewrite orb_true_r in Hfill.
  destruct (ring_store_full_sum (fun x => x) _ _ _ Hlen Hi Hn)
    as (Sum1 & _).
  destruct (ring_store_full_sum (fun x => x * x) _ _ _ Hlen Hi Hn)
    as (Sum2 & _).
  rewrite <- Hring in Sum1, Sum2. cbn [fst] in Sum1, Sum2.
  rewrite map_id in Sum1. rewrite map_id in Sum1.
  revert Hv Hfill Sum1 Sum2.
  generalize (snd (measure_rms_current st)). intros st1 Hv Hfill Sum1 Sum2.
  unfold analyze_voltage_buffer. rewrite Hfill. cbn [negb]. cbn zeta.
  rewrite !Rsum_sum_of, Sum1, Sum2.
  change (IZR RMS_BUFFER_SIZE) with 100. rewrite <- Hv.
  do 4 eexists. split; reflexivity.
Qed.

(** [buffer_analysis_after_full_batch] on the first measurement after
    power-up with no load: mean 0 and RMS 0. *)
Lemma buffer_analysis_after_full_batch_witness :
  buffer_ok (sender zero_load_state)
  /\ List.length
       (ac_voltages (bias_voltage (cal zero_load_state))
          (firstn 100 (adc_feed (env zero_load_state)))) = 100%nat
  /\ exists std_dev min_val max_val variance,
       analyze_voltage_buffer (snd (measure_rms_current zero_load_state))
       = {| resp_fmt :=
              "BUFFER_ANALYSIS=READY,MEAN=%.6f,STD_DEV=%.6f,RMS=%.6f,MIN=%.6f,MAX=%.6f,VARIANCE=%.8f";
            resp_args :=
              [ FFloat (sum_of
                          (ac_voltages (bias_voltage (cal zero_load_state))
                             (firstn 100 (adc_feed (env zero_load_state))))
                        / 100);
                FFloat std_dev;
                FFloat (last_measured_vrms
                          (sender (snd (measure_rms_current
                                          zero_load_state))));
                FFloat min_val; FFloat max_val; FFloat variance ] |}.
Proof.
  assert (Hok : buffer_ok (sender zero_load_state)).
  { unfold buffer_ok. simpl. repeat split; lia. }
  assert (Hn : List.length
                 (ac_voltages (bias_voltage (cal zero_load_state))
                    (firstn 100 (adc_feed (env zero_load_state))))
               = 100%nat).
  { unfold ac_voltages. rewrite length_map.
    replace (valid_ticks (firstn 100 (adc_feed (env zero_load_state))))
      with (repeat 2048%Z 100) by reflexivity.
    apply repeat_length. }
  split; [exact Hok|]. split; [exact Hn|].
  destruct (buffer_analysis_after_full_batch zero_load_state Hok Hn)
    as (sd & mn & mx & var & H & _).
  exists sd, mn, mx, var. exact H.
Defined.

(** ** Reset *)

Lemma process_reset_cal (atof : string -> R) (rest : string) (st : state) :
  process_udp_command atof ("RESET_CAL" ++ rest) st
  = reset_calibration (ESP_LOGI RECV_TAG "Processing command: %s" st).
Proof.
  unfold process_udp_command, dispatch_command.
  cbn [append strncmp_eq Ascii.eqb Bool.eqb andb string_from].
  reflexivity.
Qed.

(** X30: RESET_CAL from any state - also one in which MANUAL_CAL stored a
    zero or negative scale factor - puts the bias voltage back to 1.65 V
    and the scale factor to 200 A/V, empties the learning store, zeroes
    the auto-calibration statistics and answers with these defaults.  It
    does not touch the sensitivity, the learning rate, the enable flags,
    the history ring, the stability state machine or the measurement
    statistics; a second RESET_CAL changes none of the parts it resets. *)
Theorem reset_cal_restores_defaults (atof : string -> R) (rest : string)
    (st : state) :
  let st' := process_udp_command atof ("RESET_CAL" ++ rest) st in
  let st'' := process_udp_command atof ("RESET_CAL" ++ rest) st' in
  cal st' = {| amps_per_volt := 200; bias_voltage := 1.65 |}
  /\ learning st'
     = {| learning_points := repeat zero_point 50;
          learning_point_count := 0%Z; learning_point_index := 0%Z |}
  /\ stats st'
     = {| auto_cal_count := 0%Z; last_auto_cal_time := 0%Z;
          successful_recognitions := 0%Z; failed_recognitions := 0%Z |}
  /\ hd_error (udp_sent (env st'))
     = Some {| resp_fmt := "RESET_CAL:SUCCESS,BIAS=%.4f,SCALE=%.2f";
               resp_args := [FFloat 1.65; FFloat 200] |}
  /\ det st' = det st /\ autocal st' = autocal st
  /\ history st' = history st /\ stability st' = stability st
  /\ sender st' = sender st
  /\ cal st'' = cal st' /\ learning st'' = learning st'
  /\ stats st'' = stats st'.
Proof.
  cbn zeta. rewrite !process_reset_cal.
  unfold reset_calibration, reset_auto_cal_statistics, reset_learning_data,
    set_amps_per_volt, set_bias_voltage, ADC_BIAS_VOLTAGE,
    SCT_013_THEORETICAL_SCALE.
  state_simpl. repeat split; reflexivity.
Qed.
